(* ===== verification/_CoqProject ===== *)
-Q . S2P
Prelude.v
JsNum.v
Dates.v
Format.v
Stock.v
Aggregator.v
ScheduleH.v
RxModal.v
RxModalView.v
Csv.v
ListViews.v
AccountingView.v
AddStock.v
InventoryView.v
AddStockView.v
InventoryAsync.v
MultiForm.v
MultiFormView.v
ExpiryPage.v
ExpiryScreen.v
ExpiryView.v
SearchBox.v
Site.v
SiteView.v
