(* ===== verification/Prelude.v ===== *)
(** * MedStore Pro: a verification development

    This library models, in Rocq, the computational core of the MedStore Pro
    pharmacy web application (a Next.js/TypeScript program; its sources are
    under [src/src/]).  The program has no persistent back end: pages fetch
    plain records from route handlers backed by in-memory arrays, derive
    flags and totals from them, and let the user filter, export and submit
    transactions.  What it computes, and what this library models, is:

    - the expiry clock ([src/src/lib/utils.ts], [calculateDaysUntilExpiry],
      and the ad-hoc day count of [src/src/app/expiry/page.tsx]): file
      [Dates.v];
    - the locale formatting the pages display: [formatCurrency] and
      [formatDate] of [utils.ts] and the copies of the accounting page
      and [ExpiryList.tsx], as the [en-IN] output of [Intl.NumberFormat]
      (sign, rupee sign, Indian digit grouping, two decimals rounded half
      away from zero, [NaN]) and of [toLocaleDateString] (the local
      calendar date, by Hinnant's [civil_from_days], the inverse of the
      day number of [Dates.v]): file [Format.v];
    - the stock and expiry classification and the badges, filters and counts
      that the inventory and expiry views derive from it
      ([utils.ts] [isLowStock]/[getStockStatus],
      [src/src/components/ExpiryList.tsx], [InventoryTable.tsx],
      [src/src/app/inventory/page.tsx]): file [Stock.v];
    - the money computations: the line and grand totals of the
      multi-medicine transaction form
      ([src/src/components/MultiMedicineTransactionForm.tsx],
      [calculateTotals] and its zod schemas) and the accounting route
      ([src/src/app/api/accounting/transactions/route.ts], [GET]: financial
      year and date filters and the tax summary; [POST]: validation and the
      append to the in-memory store, the stored record being the body
      spread over the generated id): file [Aggregator.v];
    - JavaScript's [parseInt] and [parseFloat], which every number input
      of the forms goes through: file [JsNum.v];
    - the Schedule-H prescription gate ([src/src/components/TransactionForm.tsx]:
      its inputs, [onMedicineSelect], [onSubmit], [processTransaction],
      [handleScheduleHComplete], with the handlers of
      [src/src/components/ScheduleHModal.tsx] inlined): file
      [ScheduleH.v], module [Gate]; the multi-medicine form's gate
      ([onSubmit]'s lookup and [scheduleHCount]): module [Multi];
    - the prescription dialog [ScheduleHModal.tsx] as a component of its
      own ([handleFileChange], [handleUpload], [handleSkip],
      [resetModal], [onOpenChange]), whose steps return the toasts and
      prop calls they make, and [TransactionForm.tsx] as its host: file
      [RxModal.v]; what it shows (the selected file's size as
      [toFixed(2)] megabytes, the disabled controls): [RxModalView.v];
    - the multi-medicine transaction form as a whole
      ([MultiMedicineTransactionForm.tsx]: every field's [onChange], the
      row buttons, [handleSubmit(onSubmit)], [processTransaction], its
      answer, and the dialog it hosts): file [MultiForm.v]; its
      Transaction Summary card: [MultiFormView.v];
    - the CSV exports: [exportToCSV] of [utils.ts] (text of the file; the
      download is I/O), the expiry report of [ExpiryList.tsx]
      ([handleExportCSV]) and the accounting page's own writer
      ([src/src/app/accounting/page.tsx], [exportToCSV]): file [Csv.v],
      with a quote-aware CSV reader ([parseCSV], from the spec) against
      which the files are read back;
    - the search, tabs and column sort of the list views ([ExpiryList.tsx]
      [getFilteredMedicines] and [handleSort], [InventoryTable.tsx]
      [sortedMedicines], the inventory page's [filterMedicines]) and the
      accounting page's client state ([app/accounting/page.tsx]: its
      events and effects, the query it sends, its [filterTransactions]):
      file [ListViews.v];
    - what the accounting page renders from that state (the loading
      skeleton, the four summary cards, the active tab and its
      [AccountingTable] rows, with the text of the cards and cells), over
      the stores the route can hold (its
      fixture, then [POST]s): file [AccountingView.v];
    - the add-stock dialog ([src/src/components/AddStockModal.tsx]: the
      number inputs' [parseInt]/[parseFloat], the zod schema, [onSubmit]
      and its answers) and the inventory page that hosts it
      ([app/inventory/page.tsx]), over the medicine store of the spec
      ([listMedicines], [saveMedicine]; the API route is not under
      [src/]): file [AddStock.v]; the skeleton of its [fetchMedicines]
      unmounts the dialog, so a request in flight can outlive the form
      that sent it (an orphan, whose answer still refetches and closes);
    - what the inventory page renders: the cards, the tab badges and the
      active tab's [InventoryTable] ([components/InventoryTable.tsx]: its
      sort state, header clicks, alerts, rows and footer), with the table
      remounted by the skeleton and by a change of tab: file
      [InventoryView.v];
    - what the add-stock dialog renders (its inputs, each field's
      [<FormMessage>], the submit button): file [AddStockView.v];
    - the inventory page with its GETs in flight: the same handlers
      ([InventoryPage.pageStepWith]) with a [fetchMedicines] that only
      sends its request, a server that handles each GET when it chooses,
      and answers arriving in any order: file [InventoryAsync.v];
    - the expiry page's state, window selector, fetch, statistics and
      recommendations ([app/expiry/page.tsx]): file [ExpiryPage.v];
    - the same page with its fetches in flight, its loading skeleton and
      the [ExpiryList] it renders ([components/ExpiryList.tsx]: its state,
      events, rows, header arrows and summary line): file
      [ExpiryScreen.v]; the text of both (the statistics cards, the
      value cells and the summary line): [ExpiryView.v];
    - the debounced medicine search ([components/MedicineSearch.tsx]) as a
      timed state machine, with the dropdown of suggestions it renders:
      file [SearchBox.v];
    - the navigation, the dashboard's constants and quick links, and the
      component tree the layout and each page render
      ([components/Navigation.tsx], [app/page.tsx], [app/layout.tsx]):
      file [Site.v]; the render of the navigation bar and of the
      dashboard: [SiteView.v].

    How the parts interact.  The medicine API (not part of [src/]) attaches
    to each stock record the derived fields [daysUntilExpiry], [isExpired],
    [isExpiringSoon], [isLowStock]; the views of [Stock.v] read only those
    fields.  [Stock.v] therefore states its view-level results against an
    interface, the class [Classified] (what a record's flags promise about
    its day count), and [Dates.v]/[Stock.v] provide the spec's classifier
    as an instance of it.  The forms of [ScheduleH.v] and [MultiForm.v]
    post transactions whose amounts are the ones computed in
    [Aggregator.v].  The prescription dialog talks to the form that
    renders it only through its props [onComplete] and [onClose]: in
    [RxModal.v] these are a record [Host] of operations on the host's
    state, a dialog step returns the list of calls it makes, and
    [runCallbacks] performs them; the dialog's guarantees
    ([modal_reports_checked_upload]) hold for every host, and both forms
    are hosts ([GateHost.gateHost], [MultiForm.multiHost]).

    Modelling conventions.
    - JavaScript numbers used as money (prices, discounts, totals) are
      exact rationals [Q] (Stdlib [QArith]); equality of amounts is the
      setoid equality [==], and the sums are [Proper] for it.  Floating
      point rounding is not modelled: every theorem on amounts is a
      statement about the exact values the code's arithmetic expressions
      denote.
    - Counts, stock levels and day counts are integers [Z]; time values
      are JavaScript time values (milliseconds since the epoch, [Z]).  The
      local time zone is a fixed offset [tz] in milliseconds (no daylight
      saving).  Day quotients are exact integer divisions: the time values
      involved stay below 2^53 and a quotient's fractional part, when not
      zero, is at least 1/86400000, far above the rounding error of one
      double division, so JavaScript's [Math.ceil(a / b)] is exactly
      [ceil_div a b] below.
    - An [Array.prototype.reduce] with an additive accumulator is
      [reduce_sum] ([fold_left]); the reference sum is [qsum]
      ([fold_right]); [reduce_sum_qsum] relates them once for all files.
    - Array [filter(...).length] is [count_if].

    Plan of the development (in order of importance), and the theorems
    each part carries:
    - [Dates.v]: functional characterisation of [calculateDaysUntilExpiry]
      (calendar-day difference for time zones east of UTC, an off-by-one
      for zones west of UTC), monotonicity, and the comparison with the
      expiry page's own count.
    - [Format.v]: the currency text reads back, by a parser of the
      format that checks the Indian grouping, as the amount rounded to
      the paisa and within half a paisa of it ([NaN]'s text is no
      amount); [civil_from_days] inverts [days_from_civil] on every valid
      date (one era of 146097 days checked by evaluation, the rest by the
      400-year period); the date [formatDate] shows for a stored date is
      that date at or east of UTC and the day before west of it.
    - [Stock.v]: tier functions of the badges and of the CSV status column
      are one function; the status filters are disjoint; the filter count
      and the summary count of critical items differ exactly by the items
      expiring today; low-stock badge and stock status agree.
    - [Aggregator.v]: [calculateTotals] equals the reference sum of
      discounted lines; bounds under the zod schema (0 <= grand total <=
      subtotal <= gross amount); invariance under
      reordering of line items; tax summary partition; the [POST]
      validation rejects zero amounts; a recorded transaction is returned
      by the next [GET] of its financial year and moves the summary by
      exactly its own amounts.
    - [ScheduleH.v]: the gate as a step relation; invariant (a selected
      prescription file always passed the type and size checks); every
      non-skipped Schedule-H sale carries a validated file; submitting
      cannot pass the gate; every step refines the spec's phase machine;
      the stale-file and multi-form findings.  A running upload keeps the
      [selectedMedicine] of the render that started it ([handleUpload]'s
      closure), which its completion posts as the [scheduleH] flag.
    - [RxModal.v]: the dialog's invariant; for any host, a decision is
      reported once, followed by [onClose], and an upload only with a
      checked file; the inlined [Gate] is the dialog composed with the
      form's callbacks (an equivalence on every dialog event).
    - [MultiForm.v]: the form's invariant (never without a row, the
      dialog's invariant, prescriptions of gated sales); the upload's
      completion posts whatever the form holds then, unvalidated.
    - [Csv.v]: round trip of [exportToCSV] (parse after export gives the
      header line and the text of every cell, quotes and commas included);
      the expiry and accounting reports read back field by field, which
      exposes the [|| ''] loss of zero counts and amounts; the accounting
      writer agrees with [exportToCSV] exactly when no cell holds a quote,
      and a quoted customer name makes its file unreadable.
    - [ListViews.v]: a stable insertion sort [sortBy] and the uniqueness
      of stable sorted permutations, so that the column sort is the one
      any conforming [Array.prototype.sort] returns; numeric columns come
      out ordered, the descending sort is the reversed ascending sort of
      the reversed list; [ExpiryList]'s in-place sort reorders its prop
      array when no filter is active, which makes the order of ties
      depend on earlier sorts; the search is a plain filter and ignores
      case; the accounting page's month selector changes nothing.
    - [AccountingView.v]: in every state the accounting page reaches,
      with no search typed, the Net column of the Sales (Purchases) tab
      adds up to the Total Sales (Total Purchases) card; stored types are
      always the parsed ones ([POST] goes through [txTypeOfString]); a
      transaction posted without [discountAmount] shows [NaN] after the
      rupee sign in its Discount cell; through the page's own controls
      the selected year, month and tab stay among those offered, so a
      tab's table is always shown.
    - [AddStock.v]: every record the store holds satisfies the spec's
      data model in every field but the opaque id, the expiry date a
      calendar date because the date input sanitises its value (a type
      invariant over all reachable states of the page and dialog,
      orphaned requests included); a mounted dialog has
      at most one request of its own in flight, but Cancel and Refresh
      orphan it and let a second medicine be posted meanwhile, and the
      orphan's success closes the reopened dialog; an invalid submit
      posts nothing and shows the schema's issues; adding a medicine
      refines [saveMedicine] then [listMedicines].
    - [InventoryView.v]: with no search, the table of every tab lists as
      many medicines as the tab's badge says, in every reachable state;
      the table's sort follows an event-level description: a header
      click sorts, every refresh, successful add and change of tab
      resets it.
    - [InventoryAsync.v]: with answers in the order the GETs were sent,
      each of which may fail, the page at rest after an answer that
      succeeded lists exactly the store (a freshness invariant over the
      requests in flight, indexed by the outcome of the last answer);
      after a failed answer it keeps its list and shows the error toast;
      when two answers cross, which an orphaned add makes possible, it
      can come to rest on a list that misses the medicine just stored
      (an example run).
    - [AddStockView.v]: the per-field revalidation keeps the dialog's
      messages current: none before the first submit, the schema's
      message for each field's value after it.
    - [RxModalView.v]: the size the dialog shows is at most 5.00 MB in
      every reachable state; a file of exactly 5 MiB is kept although
      the message says the size must be less than 5MB.
    - [MultiFormView.v]: for values passing the schema, the summary's
      grand total reads at most its subtotal, both nonnegative.
    - [ExpiryPage.v]: under the spec's API the Expired card is always 0.
    - [ExpiryView.v]: with no search and the All filter, the list's
      Total Value reads exactly as the Total Value at Risk card, in every
      reachable state ([toLocaleString] is [Proper] for [==]).
    - [SiteView.v]: the bar highlights exactly the link of the current
      route (none outside the bar); the dashboard's quick actions lead to
      routes of the bar.
    - [ExpiryScreen.v]: the skeleton serialises the fetches (at most one
      in flight, so answers cannot come back out of order); the
      synchronous page of [ExpiryPage.v] is what the screen shows after
      each answer (a refinement); a new window or a refresh discards the
      list's search, filter and sort.
    - [SearchBox.v]: liveness (time alone brings the suggestions up to
      date with the text, as an inductive [eventually] over clock ticks),
      the debounce (no user event changes the list at once), and the
      untrimmed filter's empty result for a leading space.
    - [Site.v]: one table per page and component of the custom
      components its JSX renders; the Transactions link leads to no page
      and no served page renders the transaction forms; the fuel of the
      render-tree closure is enough (more rounds add nothing).
    - Later: the accounting page's fetches in flight (its skeleton hides
      the selectors, as the expiry page's does).

    Not modelled: rendering (JSX, CSS classes, toasts) beyond the
    expiry page's skeleton, list and text ([ExpiryScreen.v],
    [ExpiryView.v]), the accounting page's cards, filter bar and table
    ([AccountingView.v]), the inventory page's cards, tabs and table
    ([InventoryView.v]), the add-stock dialog ([AddStockView.v]), the
    prescription dialog ([RxModalView.v]), the multi-medicine form's
    summary ([MultiFormView.v]), the navigation bar and the dashboard
    ([SiteView.v]) and which custom
    components are rendered ([Site.v]), the mobile breakpoint hook, [cn]
    (CSS class merging), the number-to-text conversion of the CSV
    reports ([Csv.v] takes it and the date text as section parameters,
    and its theorems hold for every choice of them; [Format.v] gives the
    formatters of the pages), the price and date cells of
    [InventoryTable] (kept as the numbers and dates they format),
    daylight saving time and the runtime's Invalid Date for strings
    that do not parse,
    the Unicode case mapping and white space of [toLowerCase] and
    [trim] ([SearchBox.v] maps and trims ASCII, which the source's
    medicine names are),
    [localeCompare] and the route's [new Date] parsing of query strings
    (parameters of [ListViews.v]; a string-column theorem assumes only
    that [localeCompare] is a total preorder),
    the browser download of a CSV file, the network ([fetch] is an event
    whose answer is an input of the model; outside [ExpiryScreen.v] and
    [InventoryAsync.v] a GET answers before the next event, which
    [screen_refines_page] justifies for the expiry page and
    [idle_page_fresh] bounds for the inventory page; the simulated
    2-second upload ends with an event of its own; in
    [InventoryAsync.v] the medicine API stores a POST's medicine in the
    same step that delivers its answer, so a GET the server handles
    between the two sees the store without it), and the medicine API
    route, which is not under [src/] and is modelled from the spec
    ([AddStock.MedicineApi]); the spec does not describe the [stats]
    object of its answer, whose keys are those the inventory page reads
    and whose values are taken to be the counts they name
    ([MedicineApi.statsOf]).

    Bounds and fuel.  The CSV reader is a structural recursion on the
    text, the transition functions are one step each, and [run],
    [runPage] follow finite lists of events.  The only fuel is that of
    [Site.renderedFrom], the closure over the component tree: 4 rounds,
    and [render_tree_fuel_enough] shows more add nothing.  The calendar
    round trip is checked by [vm_compute] over the 400 years of one
    Gregorian era (about 15 seconds), which covers all dates since the
    calendar repeats every 146097 days.  Amounts are formatted from
    the rational the model gives the number; where a decimal amount is
    not exactly a double (1.005), the runtime rounds the double and can
    show one paisa less at such a tie.  Time in
    [SearchBox.v] is a [Z] of milliseconds carried by the events.

    This file, [Prelude.v], holds what the components share: the
    [medstore_scope] notations, [qsum]/[reduce_sum]/[count_if]/[ceil_div]
    with their lemmas, the [Proper] instances for setoid rewriting of sums,
    the hint database [medstore] and the development's tactics. *)

From Stdlib Require Import ZArith QArith Lqa Lia List Permutation.
From Stdlib Require Import Setoid Morphisms Bool.
Import ListNotations.

Declare Scope medstore_scope.
Delimit Scope medstore_scope with ms.

Create HintDb medstore.

(** ** Sums of amounts *)

(** [xs.reduce((sum, x) => sum + f(x), 0)] *)
Definition reduce_sum {A} (f : A -> Q) (l : list A) : Q :=
  fold_left (fun acc x => (acc + f x)%Q) l 0%Q.

(** The reference sum, by structural recursion. *)
Fixpoint qsum {A} (f : A -> Q) (l : list A) : Q :=
  match l with
  | [] => 0%Q
  | x :: r => (f x + qsum f r)%Q
  end.

Notation "'Σ[' x '←' l ']' e" := (qsum (fun x => e) l)
  (at level 41, x name, l at level 200, e at level 41) : medstore_scope.

(** The list without its [i]-th element (the list itself when there is
    none): [xs.splice(i, 1)] on a copy. *)
Fixpoint removeNth {A} (i : nat) (l : list A) : list A :=
  match l, i with
  | [], _ => []
  | _ :: r, O => r
  | x :: r, S j => x :: removeNth j r
  end.

(** [xs.filter(p).length] *)
Definition count_if {A} (p : A -> bool) (l : list A) : nat :=
  length (filter p l).

(** [Math.ceil(a / b)] on integers, for [b > 0]. *)
Definition ceil_div (a b : Z) : Z := (- ((- a) / b))%Z.

(** A decimal amount such as [14.4] is written [144 # 10]. *)

Section Sums.
Context {A : Type}.
Open Scope Q_scope.

Lemma fold_left_add_shift (f : A -> Q) (l : list A) (c : Q) :
  fold_left (fun acc x => acc + f x) l c == c + qsum f l.
Proof.
  revert c; induction l as [|x l IH]; intros c; simpl.
  - ring.
  - rewrite IH. ring.
Qed.

Lemma reduce_sum_qsum (f : A -> Q) (l : list A) : reduce_sum f l == qsum f l.
Proof. unfold reduce_sum. rewrite fold_left_add_shift. ring. Qed.

Lemma qsum_app (f : A -> Q) (l1 l2 : list A) :
  qsum f (l1 ++ l2) == qsum f l1 + qsum f l2.
Proof. induction l1 as [|x l IH]; simpl; [ring | rewrite IH; ring]. Qed.

Lemma qsum_ext (f g : A -> Q) (l : list A) :
  (forall x, In x l -> f x == g x) -> qsum f l == qsum g l.
Proof.
  induction l as [|x l IH]; intros H; simpl; [reflexivity|].
  rewrite (H x (or_introl eq_refl)), IH; [reflexivity|].
  intros y Hy; apply H; right; exact Hy.
Qed.

Lemma qsum_nonneg (f : A -> Q) (l : list A) :
  (forall x, In x l -> 0 <= f x) -> 0 <= qsum f l.
Proof.
  induction l as [|x l IH]; intros H; simpl; [apply Qle_refl|].
  assert (0 <= f x) by (apply H; left; reflexivity).
  assert (0 <= qsum f l) by (apply IH; intros y Hy; apply H; right; exact Hy).
  lra.
Qed.

Lemma qsum_le (f g : A -> Q) (l : list A) :
  (forall x, In x l -> f x <= g x) -> qsum f l <= qsum g l.
Proof.
  induction l as [|x l IH]; intros H; simpl; [apply Qle_refl|].
  apply Qplus_le_compat; [apply H; left; reflexivity|].
  apply IH; intros y Hy; apply H; right; exact Hy.
Qed.

Lemma qsum_scale (c : Q) (f : A -> Q) (l : list A) :
  qsum (fun x => c * f x) l == c * qsum f l.
Proof. induction l as [|x l IH]; simpl; [ring | rewrite IH; ring]. Qed.

Lemma qsum_plus (f g : A -> Q) (l : list A) :
  qsum (fun x => f x + g x) l == qsum f l + qsum g l.
Proof. induction l as [|x l IH]; simpl; [ring | rewrite IH; ring]. Qed.

Lemma qsum_minus (f g : A -> Q) (l : list A) :
  qsum (fun x => f x - g x) l == qsum f l - qsum g l.
Proof. induction l as [|x l IH]; simpl; [ring | rewrite IH; ring]. Qed.

(** Splitting a sum along a boolean test, as [filter] and its negation. *)
Lemma qsum_filter_split (p : A -> bool) (f : A -> Q) (l : list A) :
  qsum f l == qsum f (filter p l) + qsum f (filter (fun x => negb (p x)) l).
Proof.
  induction l as [|x l IH]; simpl; [ring|].
  destruct (p x); simpl; rewrite IH; ring.
Qed.

Lemma qsum_filter_ext (p q : A -> bool) (f : A -> Q) (l : list A) :
  (forall x, p x = q x) -> qsum f (filter p l) = qsum f (filter q l).
Proof.
  intros H. induction l as [|x l IH]; simpl; [reflexivity|].
  rewrite H. destruct (q x); simpl; rewrite IH; reflexivity.
Qed.

#[export] Instance qsum_perm_proper (f : A -> Q) :
  Proper (@Permutation A ==> Qeq) (qsum f).
Proof.
  intros l1 l2 Hp. induction Hp; simpl.
  - reflexivity.
  - rewrite IHHp. reflexivity.
  - ring.
  - rewrite IHHp1. exact IHHp2.
Qed.

#[export] Instance reduce_sum_perm_proper (f : A -> Q) :
  Proper (@Permutation A ==> Qeq) (reduce_sum f).
Proof.
  intros l1 l2 Hp. rewrite !reduce_sum_qsum. apply qsum_perm_proper; exact Hp.
Qed.

End Sums.

(** ** Counting *)

Section Counting.
Context {A : Type}.

Lemma count_if_split (p q : A -> bool) (l : list A) :
  count_if p l =
  (count_if (fun x => p x && q x) l + count_if (fun x => p x && negb (q x)) l)%nat.
Proof.
  unfold count_if. induction l as [|x l IH]; simpl; [reflexivity|].
  destruct (p x), (q x); simpl; rewrite IH; lia.
Qed.

Lemma count_if_ext (p q : A -> bool) (l : list A) :
  (forall x, In x l -> p x = q x) -> count_if p l = count_if q l.
Proof.
  unfold count_if. induction l as [|x l IH]; intros H; simpl; [reflexivity|].
  rewrite (H x (or_introl eq_refl)).
  destruct (q x); simpl; rewrite IH; auto; intros y Hy; apply H; right; exact Hy.
Qed.

Lemma count_if_app (p : A -> bool) (l1 l2 : list A) :
  count_if p (l1 ++ l2) = (count_if p l1 + count_if p l2)%nat.
Proof. unfold count_if. rewrite filter_app, length_app. reflexivity. Qed.

End Counting.

(** ** Integer division lemmas *)

Open Scope Z_scope.

Lemma ceil_div_mul (k b : Z) : b <> 0 -> ceil_div (k * b) b = k.
Proof.
  intros Hb. unfold ceil_div.
  replace (- (k * b)) with ((- k) * b) by ring.
  rewrite Z.div_mul by exact Hb. ring.
Qed.

(** [ceil_div] is the ceiling: the least multiple of [b] at or above [a]. *)
Lemma ceil_div_spec (a b : Z) :
  0 < b -> (ceil_div a b - 1) * b < a <= ceil_div a b * b.
Proof.
  intros Hb. unfold ceil_div.
  pose proof (Z.div_mod (- a) b ltac:(lia)).
  pose proof (Z.mod_pos_bound (- a) b Hb).
  nia.
Qed.

(** Floor of a sum with a multiple of the divisor. *)
Lemma div_add_mul_l (k a b : Z) : b <> 0 -> (k * b + a) / b = k + a / b.
Proof. intros Hb. rewrite Z.div_add_l by exact Hb. reflexivity. Qed.

(** For an offset strictly between [-b] and [b], the floor moves by at most one. *)
Lemma div_offset_cases (t off b : Z) :
  0 < b -> 0 <= off < b ->
  (t + off) / b = t / b \/ (t + off) / b = t / b + 1.
Proof.
  intros Hb Hoff.
  pose proof (Z.div_mod t b ltac:(lia)).
  pose proof (Z.mod_pos_bound t b Hb).
  assert (Hlo : t / b <= (t + off) / b).
  { apply Z.div_le_mono; lia. }
  assert (Hhi : (t + off) / b < t / b + 2).
  { apply Z.div_lt_upper_bound; lia. }
  lia.
Qed.

Close Scope Z_scope.

(** ** Tactics *)

(** Division of an amount by a positive integer literal computes to a
    product with a rational constant, which [lra] reads as linear. *)
Lemma Qdiv_pos_literal (q : Q) (p : positive) : q / (Zpos p # 1) = q * (1 # p).
Proof. reflexivity. Qed.

Ltac qlin := repeat rewrite Qdiv_pos_literal in *; lra.

(** A percentage discount in [0, 100] keeps a non-negative amount between
    zero and itself; shared by the line and the overall discount. *)
Lemma discounted_bounds (x d : Q) :
  0 <= x -> 0 <= d <= 100 -> 0 <= x - x * (d / 100) <= x.
Proof.
  intros Hx Hd. rewrite Qdiv_pos_literal.
  assert (0 <= x * (d * (1 # 100)) <= x * 1).
  { split; [apply Qmult_le_0_compat; lra|].
    rewrite !(Qmult_comm x). apply Qmult_le_compat_r; lra. }
  lra.
Qed.

(** Turn the boolean comparisons of the code into propositions. *)
Ltac bool_prop :=
  repeat match goal with
  | H : (_ <? _)%Z = true |- _ => apply Z.ltb_lt in H
  | H : (_ <? _)%Z = false |- _ => apply Z.ltb_ge in H
  | H : (_ <=? _)%Z = true |- _ => apply Z.leb_le in H
  | H : (_ <=? _)%Z = false |- _ => apply Z.leb_gt in H
  | H : (_ =? _)%Z = true |- _ => apply Z.eqb_eq in H
  | H : (_ =? _)%Z = false |- _ => apply Z.eqb_neq in H
  | H : (_ <? _)%nat = true |- _ => apply Nat.ltb_lt in H
  | H : (_ <? _)%nat = false |- _ => apply Nat.ltb_ge in H
  | H : (_ =? _)%nat = true |- _ => apply Nat.eqb_eq in H
  | H : (_ =? _)%nat = false |- _ => apply Nat.eqb_neq in H
  | H : (_ && _)%bool = true |- _ => apply andb_true_iff in H; destruct H
  | H : (_ || _)%bool = false |- _ => apply orb_false_iff in H; destruct H
  | H : negb _ = true |- _ => apply negb_true_iff in H
  | H : negb _ = false |- _ => apply negb_false_iff in H
  end.

#[export] Hint Resolve Qle_refl qsum_nonneg qsum_le : medstore.

(** Case analysis on the conditions of a handler in hypothesis [H]: its
    [if]s and its [match]es on options and naturals, as the code's guards
    and early returns branch on them. *)
Ltac destruct_ifs H :=
  repeat match type of H with
  | context [if ?c then _ else _] => let E := fresh "E" in destruct c eqn:E
  | context [match ?x with Some _ => _ | None => _ end] =>
      let E := fresh "E" in destruct x eqn:E
  | context [match ?x with O => _ | S _ => _ end] =>
      let E := fresh "E" in destruct x eqn:E
  end.

(** Case analysis on every integer comparison of the goal, as the code's
    [if]s branch on them. *)
Ltac zcase :=
  repeat match goal with
  | |- context [(?a <? ?b)%Z] => destruct (Z.ltb_spec a b)
  | |- context [(?a <=? ?b)%Z] => destruct (Z.leb_spec a b)
  | |- context [(?a =? ?b)%Z] => destruct (Z.eqb_spec a b)
  end.

Lemma filter_filter_and {A} (p q : A -> bool) (l : list A) :
  filter p (filter q l) = filter (fun x => q x && p x) l.
Proof.
  induction l as [|x l IH]; simpl; [reflexivity|].
  destruct (q x); simpl; [destruct (p x); simpl; rewrite IH|]; reflexivity || exact IH.
Qed.
