(* ===== verification/JsNum.v ===== *)
(** * JsNum: JavaScript's number parsing

    [parseInt] and [parseFloat] on the text of an [<input type="number">],
    as the number inputs of [AddStockModal.tsx], [TransactionForm.tsx] and
    [MultiMedicineTransactionForm.tsx] call them ([parseInt(v) || 0],
    [parseFloat(v) || 0]), and the expiry page on its [days] value:
    leading white space, a sign, the longest run of decimal digits (for
    [parseFloat] also a fraction and an exponent).  [None] is [NaN];
    [Infinity] is not modelled.  Values are exact ([Z] and [Q]): the
    inputs the forms accept are far inside the range where doubles are
    exact. *)

From Stdlib Require Import ZArith QArith List Bool String Ascii.
Import ListNotations.

Module JsNum.
Local Open Scope string_scope.

Definition isSpace (c : ascii) : bool :=
  let n := nat_of_ascii c in (n =? 32)%nat || ((9 <=? n)%nat && (n <=? 13)%nat).

Fixpoint trimStart (s : string) : string :=
  match s with
  | EmptyString => EmptyString
  | String c s' => if isSpace c then trimStart s' else s
  end.

Definition digitOf (c : ascii) : option Z :=
  let n := nat_of_ascii c in
  if (48 <=? n)%nat && (n <=? 57)%nat then Some (Z.of_nat n - 48)%Z else None.

(** The leading decimal digits of a text and the rest. *)
Fixpoint spanDigits (s : string) : list Z * string :=
  match s with
  | EmptyString => ([], EmptyString)
  | String c s' =>
      match digitOf c with
      | Some d => let '(ds, r) := spanDigits s' in (d :: ds, r)
      | None => ([], s)
      end
  end.

Definition digitsValue (ds : list Z) : Z := fold_left (fun a d => a * 10 + d)%Z ds 0%Z.

Definition signOf (s : string) : Z * string :=
  match s with
  | String c s' =>
      if Ascii.eqb c "-"%char then ((-1)%Z, s')
      else if Ascii.eqb c "+"%char then (1%Z, s') else (1%Z, s)
  | EmptyString => (1%Z, EmptyString)
  end.

(** [parseInt(s)]: [None] is [NaN]. *)
Definition parseInt (s : string) : option Z :=
  let '(sg, r) := signOf (trimStart s) in
  match fst (spanDigits r) with
  | [] => None
  | ds => Some (sg * digitsValue ds)%Z
  end.

(** The exponent part [e12], [E-3] of a decimal literal; none is 0. *)
Definition exponentOf (s : string) : Z :=
  match s with
  | String c s' =>
      if Ascii.eqb c "e"%char || Ascii.eqb c "E"%char then
        let '(sg, r) := signOf s' in
        match fst (spanDigits r) with [] => 0%Z | ds => (sg * digitsValue ds)%Z end
      else 0%Z
  | EmptyString => 0%Z
  end.

(** [parseFloat(s)] on decimal literals ([Infinity] is not modelled):
    the exact value of the longest decimal prefix. *)
Definition parseFloat (s : string) : option Q :=
  let '(sg, r) := signOf (trimStart s) in
  let '(ip, r1) := spanDigits r in
  let '(fp, r2) :=
    match r1 with
    | String c r' => if Ascii.eqb c "."%char then spanDigits r' else ([], r1)
    | EmptyString => ([], r1)
    end in
  match (ip ++ fp)%list with
  | [] => None
  | ds =>
      Some (inject_Z (sg * digitsValue ds) *
            Qpower (inject_Z 10) (exponentOf r2 - Z.of_nat (List.length fp)))%Q
  end.

End JsNum.
