(* ===== verification/Dates.v ===== *)
(** * Dates: the expiry clock

    [calculateDaysUntilExpiry] of [src/src/lib/utils.ts] and the day count
    that [src/src/app/expiry/page.tsx] recomputes for its statistics cards.

    JavaScript semantics used (ECMAScript, not code of the repository):
    a date-only string ["YYYY-MM-DD"] parses to the UTC midnight of that
    calendar day ([date_value], via the proleptic Gregorian day number
    [days_from_civil]); [setHours(0, 0, 0, 0)] moves a time value to the
    start of its day in local time, [LocalTime(t) = t + tz] with a fixed
    offset [tz] ([startOfLocalDay]).  The empty string is [EmptyDate];
    strings that do not parse (JavaScript's Invalid Date) are not
    modelled.

    The theorems say which calendar difference the function computes: the
    difference between the expiry date and today's local date when the
    zone is at or east of UTC, one day less when it is west of UTC. *)

From Stdlib Require Import ZArith Lia.
From S2P Require Import Prelude.

Open Scope Z_scope.

Module Dates.

(** [1000 * 60 * 60 * 24] *)
Definition msPerDay : Z := 1000 * 60 * 60 * 24.

(** The argument [expiryDate: string] of [calculateDaysUntilExpiry]. *)
Inductive DateStr :=
| EmptyDate
| IsoDate (year month day : Z).

(** Day number of a proleptic Gregorian date, day 0 = 1970-01-01 (the
    runtime's [MakeDay]). *)
Definition days_from_civil (y m d : Z) : Z :=
  let y' := if m <=? 2 then y - 1 else y in
  let era := y' / 400 in
  let yoe := y' - era * 400 in
  let mp := (m + 9) mod 12 in
  let doy := (153 * mp + 2) / 5 + d - 1 in
  let doe := yoe * 365 + yoe / 4 - yoe / 100 + doy in
  era * 146097 + doe - 719468.

(** [new Date("YYYY-MM-DD").getTime()]: UTC midnight of the day. *)
Definition date_value (y m d : Z) : Z := days_from_civil y m d * msPerDay.

(** Local calendar day of a time value. *)
Definition local_day (tz t : Z) : Z := (t + tz) / msPerDay.

(** [d.setHours(0, 0, 0, 0); d.getTime()] *)
Definition startOfLocalDay (tz t : Z) : Z := local_day tz t * msPerDay - tz.

(** [calculateDaysUntilExpiry(expiryDate)] at wall-clock time [now]. *)
Definition calculateDaysUntilExpiry (tz now : Z) (expiryDate : DateStr) : Z :=
  match expiryDate with
  | EmptyDate => 0
  | IsoDate y m d =>
      let expiry := startOfLocalDay tz (date_value y m d) in
      let today := startOfLocalDay tz now in
      let diffTime := expiry - today in
      ceil_div diffTime msPerDay
  end.

(** The expiry page's statistics recompute the count without truncating
    to midnight: [Math.ceil((expiryDate.getTime() - currentDate.getTime())
    / (1000 * 60 * 60 * 24))]. *)
Definition expiryPageDays (now : Z) (y m d : Z) : Z :=
  ceil_div (date_value y m d - now) msPerDay.

(** ** Lemmas *)

Lemma msPerDay_pos : 0 < msPerDay.
Proof. unfold msPerDay; lia. Qed.

#[export] Hint Resolve msPerDay_pos : medstore.

(** Truncating both ends makes the difference a whole number of days, so
    the ceiling is exact. *)
Lemma calculateDaysUntilExpiry_local_days tz now y m d :
  calculateDaysUntilExpiry tz now (IsoDate y m d) =
  local_day tz (date_value y m d) - local_day tz now.
Proof.
  unfold calculateDaysUntilExpiry, startOfLocalDay.
  replace (local_day tz (date_value y m d) * msPerDay - tz -
           (local_day tz now * msPerDay - tz))
    with ((local_day tz (date_value y m d) - local_day tz now) * msPerDay) by ring.
  apply ceil_div_mul. pose proof msPerDay_pos; lia.
Qed.

(** The local day of a UTC midnight, for an offset within one day. *)
Lemma local_day_midnight_east tz k :
  0 <= tz < msPerDay -> local_day tz (k * msPerDay) = k.
Proof.
  intros Htz. unfold local_day.
  rewrite div_add_mul_l by (pose proof msPerDay_pos; lia).
  rewrite Z.div_small by exact Htz. ring.
Qed.

Lemma local_day_midnight_west tz k :
  - msPerDay <= tz < 0 -> local_day tz (k * msPerDay) = k - 1.
Proof.
  intros Htz. unfold local_day.
  replace (k * msPerDay + tz) with ((k - 1) * msPerDay + (msPerDay + tz)) by ring.
  rewrite div_add_mul_l by (pose proof msPerDay_pos; lia).
  rewrite Z.div_small by lia. ring.
Qed.

(** Without truncation, the page's count is taken against the UTC day. *)
Lemma expiryPageDays_utc_day now y m d :
  expiryPageDays now y m d = days_from_civil y m d - local_day 0 now.
Proof.
  unfold expiryPageDays, date_value, ceil_div, local_day.
  pose proof msPerDay_pos.
  replace (- (days_from_civil y m d * msPerDay - now))
    with (now + (- days_from_civil y m d) * msPerDay) by ring.
  rewrite Z.div_add by lia. rewrite !Z.add_0_r. ring.
Qed.

(** ** Theorems *)

(** C4. For a local time zone at or east of UTC (offset in [0, 1 day)),
    [calculateDaysUntilExpiry] returns the number of calendar days from
    today's local date to the expiry date: negative exactly when the expiry
    date is before today. *)
Theorem days_until_expiry_east tz now y m d :
  0 <= tz < msPerDay ->
  calculateDaysUntilExpiry tz now (IsoDate y m d) =
  days_from_civil y m d - local_day tz now.
Proof.
  intros Htz. rewrite calculateDaysUntilExpiry_local_days.
  unfold date_value. rewrite local_day_midnight_east by exact Htz. reflexivity.
Qed.

(** Witness: in India (UTC+5:30), at 2024-04-15 10:00 local time, a medicine
    expiring 2024-05-15 has 30 days left. *)
Lemma days_until_expiry_east_witness :
  0 <= 19800000 < msPerDay /\
  calculateDaysUntilExpiry 19800000 (date_value 2024 4 15 + 16200000) (IsoDate 2024 5 15)
  = 30.
Proof.
  split.
  - unfold msPerDay; lia.
  - rewrite (days_until_expiry_east 19800000 _ 2024 5 15) by (unfold msPerDay; lia).
    vm_compute. reflexivity.
Defined.

(** C5. For a time zone west of UTC, the date-only string parses to UTC
    midnight, which is the previous local day, and the function is one day
    short of the calendar difference: a medicine expiring today reports -1
    and counts as expired. *)
Theorem days_until_expiry_west tz now y m d :
  - msPerDay <= tz < 0 ->
  calculateDaysUntilExpiry tz now (IsoDate y m d) =
  days_from_civil y m d - local_day tz now - 1.
Proof.
  intros Htz. rewrite calculateDaysUntilExpiry_local_days.
  unfold date_value. rewrite local_day_midnight_west by exact Htz. ring.
Qed.

(** Witness: in New York winter time (UTC-5), at noon local time on
    2024-04-15, a medicine expiring that same day reports -1. *)
Lemma days_until_expiry_west_witness :
  - msPerDay <= -18000000 < 0 /\
  local_day (-18000000) (date_value 2024 4 15 + 61200000) = days_from_civil 2024 4 15 /\
  calculateDaysUntilExpiry (-18000000) (date_value 2024 4 15 + 61200000)
    (IsoDate 2024 4 15) = -1.
Proof.
  split; [unfold msPerDay; lia|]. split; [vm_compute; reflexivity|].
  rewrite (days_until_expiry_west (-18000000) _ 2024 4 15) by (unfold msPerDay; lia).
  vm_compute. reflexivity.
Defined.

(** The count is monotone: for a fixed clock and zone, a later expiry
    date never has fewer days left. *)
Theorem days_until_expiry_monotone tz now y1 m1 d1 y2 m2 d2 :
  days_from_civil y1 m1 d1 <= days_from_civil y2 m2 d2 ->
  calculateDaysUntilExpiry tz now (IsoDate y1 m1 d1) <=
  calculateDaysUntilExpiry tz now (IsoDate y2 m2 d2).
Proof.
  intros Hle. rewrite !calculateDaysUntilExpiry_local_days.
  unfold local_day, date_value.
  pose proof msPerDay_pos.
  assert (days_from_civil y1 m1 d1 * msPerDay + tz <=
          days_from_civil y2 m2 d2 * msPerDay + tz) by nia.
  pose proof (Z.div_le_mono _ _ msPerDay ltac:(lia) H0). lia.
Qed.

Lemma days_until_expiry_monotone_witness :
  days_from_civil 2024 5 15 <= days_from_civil 2025 1 1 /\
  calculateDaysUntilExpiry 0 0 (IsoDate 2024 5 15) <=
  calculateDaysUntilExpiry 0 0 (IsoDate 2025 1 1).
Proof.
  split; [vm_compute; discriminate|].
  apply days_until_expiry_monotone. vm_compute. discriminate.
Defined.

(** The expiry page's statistics use a different count.  In a zone at
    or east of UTC, it equals [calculateDaysUntilExpiry] except between
    local midnight and UTC midnight, where it is one day more. *)
Theorem expiry_page_days_vs_utils tz now y m d :
  0 <= tz < msPerDay ->
  expiryPageDays now y m d =
  calculateDaysUntilExpiry tz now (IsoDate y m d) +
  (local_day tz now - local_day 0 now).
Proof.
  intros Htz. rewrite expiryPageDays_utc_day, calculateDaysUntilExpiry_local_days.
  unfold date_value. rewrite local_day_midnight_east by exact Htz. ring.
Qed.

Lemma expiry_page_days_offset tz now :
  0 <= tz < msPerDay ->
  local_day tz now - local_day 0 now = 0 \/ local_day tz now - local_day 0 now = 1.
Proof.
  intros Htz. unfold local_day. rewrite Z.add_0_r.
  destruct (div_offset_cases now tz msPerDay msPerDay_pos Htz); lia.
Qed.

(** Witness: at 02:00 IST on 2024-05-15 (still 2024-05-14 in UTC), the
    utility says a medicine expiring 2024-05-15 expires today (0 days) while
    the page counts 1 day, so the page's "expiring in 15 days" card counts it
    and the list's critical filter does not. *)
Lemma expiry_page_days_vs_utils_witness :
  0 <= 19800000 < msPerDay /\
  calculateDaysUntilExpiry 19800000 (date_value 2024 5 15 - 12600000) (IsoDate 2024 5 15) = 0 /\
  expiryPageDays (date_value 2024 5 15 - 12600000) 2024 5 15 = 1.
Proof.
  split; [unfold msPerDay; lia|].
  assert (H0 : calculateDaysUntilExpiry 19800000 (date_value 2024 5 15 - 12600000)
                 (IsoDate 2024 5 15) = 0) by (vm_compute; reflexivity).
  split; [exact H0|].
  rewrite (expiry_page_days_vs_utils 19800000 _ 2024 5 15) by (unfold msPerDay; lia).
  rewrite H0. vm_compute. reflexivity.
Defined.

End Dates.
