(* ===== verification/Format.v ===== *)
(** * Format: the locale formatting the pages display

    [formatCurrency] and [formatDate] of [src/src/lib/utils.ts], and the
    copies the pages keep of them ([src/src/app/accounting/page.tsx],
    [src/src/components/ExpiryList.tsx]).  Both call the runtime's
    [Intl] formatting with the [en-IN] locale; what that call returns is
    modelled after ECMA-402 and the CLDR data of the locale:

    - [Intl.NumberFormat('en-IN', {style: 'currency', currency: 'INR',
      minimumFractionDigits: 2})] writes the sign of a negative number
      (negative zero included), the rupee sign, the integer part in the
      Indian grouping (the last three digits, then groups of two:
      [12,34,567]) and exactly two decimals, rounded half away from zero
      ([halfExpand]); [NaN] (an [undefined] amount) is written as the rupee sign and ["NaN"].
      The amount is the rational the model gives the number ([Q]); a
      decimal amount that is not exactly a double (1.005) can show one
      paisa less at runtime.
    - [toLocaleDateString('en-IN', {day: '2-digit', month: 'short',
      year: 'numeric'})] writes the local calendar date of the time value
      as ["15 May 2024"]; [toLocaleDateString('en-IN')] as ["15/5/2024"].
      The local date is the inverse of [Dates.days_from_civil]
      ([civil_from_days], Hinnant's algorithm) at the local day
      [Dates.local_day]; a date-only string is the UTC midnight of its day.

    The theorems: the currency text reads back, by a parser of the format
    ([readCurrency]), as the amount rounded to the paisa, within half a
    paisa of it; [civil_from_days] inverts [days_from_civil] on valid
    dates; and the date shown for a stored date is that date at or east
    of UTC and the day before west of it. *)

From Stdlib Require Import ZArith QArith Qround Qabs Lqa Lia List Bool String Ascii DecimalString DecimalPos DecimalN.
From S2P Require Import Prelude Dates.
Import ListNotations Dates.

Module Format.
Local Open Scope string_scope.

(** ** Numbers *)

(** The rupee sign U+20B9, as its UTF-8 bytes. *)
Definition rupeeL : list ascii := [ascii_of_nat 226; ascii_of_nat 130; ascii_of_nat 185].
Definition rupee : string := string_of_list_ascii rupeeL.

(** The decimal digits of a natural number. *)
Definition digitText (n : N) : list ascii :=
  list_ascii_of_string (NilEmpty.string_of_uint (N.to_uint n)).

Definition comma : ascii := ",".

(** The Indian grouping, on the digits in reverse: [k] digits remain in
    the current group; a comma opens a group of two before each further
    digit. *)
Fixpoint grp (k : nat) (l : list ascii) : list ascii :=
  match l with
  | [] => []
  | c :: t => match k with
             | O => comma :: c :: grp 1 t
             | S k' => c :: grp k' t
             end
  end.

Definition groupIndian (ds : list ascii) : list ascii := rev (grp 3 (rev ds)).

(** A digit [0 <= d < 10] as its character. *)
Definition digitChar (d : N) : ascii := ascii_of_N (48 + d).

(** Rounding half away from zero to hundredths: the number of paise of
    [|x|]. *)
Definition paiseOf (x : Q) : N := Z.to_N (Qfloor (Qabs x * 100 + (1 # 2))).

Definition isNegative (x : Q) : bool := negb (Qle_bool 0 x).

(** The integer part in groups and two decimals. *)
Definition fixed2Grouped (p : N) : list ascii :=
  groupIndian (digitText (p / 100)) ++ ["."%char; digitChar (p mod 100 / 10); digitChar (p mod 10)].

(** [formatCurrency(amount)]; [None] is a number that is [NaN]. *)
Definition formatCurrency (amount : option Q) : string :=
  match amount with
  | None => rupee ++ "NaN"
  | Some x =>
      (if isNegative x then "-" else "") ++
      string_of_list_ascii (rupeeL ++ fixed2Grouped (paiseOf x))
  end.

(** ** Reading the currency text back *)

Definition isComma (c : ascii) : bool := Ascii.eqb c comma.

Definition digitVal (c : ascii) : option N :=
  let k := N_of_ascii c in
  if (48 <=? k)%N && (k <=? 57)%N then Some (k - 48)%N else None.

Definition isDigit (c : ascii) : bool := match digitVal c with Some _ => true | None => false end.

(** The groups after the first, read from the end: a comma and two
    digits, the last group possibly one digit. *)
Fixpoint pairsOk (l : list ascii) : bool :=
  match l with
  | [] => true
  | [c; d] => isComma c && isDigit d
  | c :: d :: e :: rest => isComma c && isDigit d && isDigit e && pairsOk rest
  | _ => false
  end.

(** The integer part, read from the end, is in the Indian grouping: one
    to three digits, then groups of two. *)
Definition groupsOk (rip : list ascii) : bool :=
  match rip with
  | [] => false
  | [a] => isDigit a
  | [a; b] => isDigit a && isDigit b
  | a :: b :: c :: rest => isDigit a && isDigit b && isDigit c && pairsOk rest
  end.

(** The number of hundredths a decimal text denotes: an integer part
    that [intOk] accepts (read from its end), a point and two digits. *)
Definition readDecimal (intOk : list ascii -> bool) (body : list ascii) : option N :=
  match rev body with
  | d2 :: d1 :: dot :: rip =>
      let ds := filter (fun c => negb (isComma c)) rip in
      match digitVal d1, digitVal d2, NilEmpty.uint_of_string (string_of_list_ascii (rev ds)) with
      | Some v1, Some v2, Some u =>
          if Ascii.eqb dot "." && intOk rip
          then Some (N.of_uint u * 100 + v1 * 10 + v2)%N else None
      | _, _, _ => None
      end
  | _ => None
  end.

(** The text after the rupee sign: digits in the Indian grouping. *)
Definition readUnsigned (body : list ascii) : option N := readDecimal groupsOk body.

(** A leading minus sign. *)
Definition splitSign (s : string) : bool * list ascii :=
  match list_ascii_of_string s with
  | c :: r => if Ascii.eqb c "-" then (true, r) else (false, c :: r)
  | [] => (false, [])
  end.

Definition signed (neg : bool) (p : N) : Z := if neg then (- Z.of_N p)%Z else Z.of_N p.

(** The signed number of paise a text in the format denotes. *)
Definition readCurrency (s : string) : option Z :=
  let '(neg, l) := splitSign s in
  match l with
  | a :: b :: c :: body =>
      if list_eq_dec ascii_dec [a; b; c] rupeeL
      then option_map (signed neg) (readUnsigned body)
      else None
  | _ => None
  end.

(** [x.toFixed(2)] (for [|x| < 10^21]): the sign of a negative number,
    the integer part without grouping and two decimals, rounded as
    above (the nearer multiple of [0.01], the larger one at a tie of the
    magnitude). *)
Definition fixed2Plain (p : N) : list ascii :=
  digitText (p / 100) ++ ["."%char; digitChar (p mod 100 / 10); digitChar (p mod 10)].

Definition toFixed2 (x : Q) : string :=
  (if isNegative x then "-" else "") ++ string_of_list_ascii (fixed2Plain (paiseOf x)).

(** [x.toLocaleString('en-IN')]: the sign, the integer part in the
    Indian grouping and at most three decimals, rounded half away from
    zero, without trailing zeros. *)
Definition thousandthsOf (x : Q) : N := Z.to_N (Qfloor (Qabs x * 1000 + (1 # 2))).

(** Drop the trailing zeros of a list of digits. *)
Definition stripZeros (ds : list ascii) : list ascii :=
  rev ((fix drop (l : list ascii) : list ascii :=
          match l with c :: t => if Ascii.eqb c "0" then drop t else l | [] => [] end) (rev ds)).

Definition fractionText (f : N) : list ascii :=
  match stripZeros [digitChar (f / 100); digitChar (f / 10 mod 10); digitChar (f mod 10)] with
  | [] => []
  | ds => "."%char :: ds
  end.

Definition localeNumber (x : Q) : string :=
  let k := thousandthsOf x in
  (if isNegative x then "-" else "") ++
  string_of_list_ascii (groupIndian (digitText (k / 1000)) ++ fractionText (k mod 1000)).

(** A count, as React writes a number. *)
Definition natText (n : nat) : string := string_of_list_ascii (digitText (N.of_nat n)).

(** Digits only, at least one. *)
Definition plainOk (rip : list ascii) : bool :=
  match rip with [] => false | _ => forallb isDigit rip end.

(** The signed number of hundredths a [toFixed(2)] text denotes. *)
Definition readFixed2 (s : string) : option Z :=
  let '(neg, l) := splitSign s in option_map (signed neg) (readDecimal plainOk l).

(** The amount the text shows, in paise. *)
Definition shownPaise (x : Q) : Z := signed (isNegative x) (paiseOf x).

(** ** Dates *)

(** Hinnant's [civil_from_days] within an era of 400 years: the year of
    the era, month and day of the day [doe] of the era (the era starts on
    1 March). *)
Definition civil_of_doe (doe : Z) : Z * Z * Z :=
  let yoe := (doe - doe / 1460 + doe / 36524 - doe / 146096) / 365 in
  let doy := doe - (365 * yoe + yoe / 4 - yoe / 100) in
  let mp := (5 * doy + 2) / 153 in
  let d := doy - (153 * mp + 2) / 5 + 1 in
  let m := if (mp <? 10)%Z then mp + 3 else mp - 9 in
  (yoe, m, d).

(** The calendar date of a day number (day 0 = 1970-01-01): the
    runtime's [YearFromTime], [MonthFromTime] and [DateFromTime]. *)
Definition civil_from_days (z : Z) : Z * Z * Z :=
  let z := z + 719468 in
  let era := z / 146097 in
  let doe := z - era * 146097 in
  let '(yoe, m, d) := civil_of_doe doe in
  ((yoe + era * 400) + (if (m <=? 2)%Z then 1 else 0), m, d).

(** The local calendar date of a time value. *)
Definition localDate (tz t : Z) : Z * Z * Z := civil_from_days (local_day tz t).

Definition isLeap (y : Z) : bool :=
  ((y mod 4 =? 0)%Z && negb (y mod 100 =? 0)%Z) || (y mod 400 =? 0)%Z.

Definition daysInMonth (y m : Z) : Z :=
  if (m =? 2)%Z then (if isLeap y then 29 else 28)
  else if ((m =? 4) || (m =? 6) || (m =? 9) || (m =? 11))%Z then 30 else 31.

(** A date the string ["YYYY-MM-DD"] can denote. *)
Definition validDate (y m d : Z) : bool :=
  ((1 <=? m) && (m <=? 12) && (1 <=? d) && (d <=? daysInMonth y m))%Z.

(** A number as [String(n)] writes an integer. *)
Definition intText (z : Z) : string :=
  (if (z <? 0)%Z then "-" else "") ++ string_of_list_ascii (digitText (Z.to_N (Z.abs z))).

(** [day: '2-digit'] *)
Definition pad2 (n : Z) : string := (if (n <? 10)%Z then "0" else "") ++ intText n.

(** [month: 'short'] in the CLDR data of [en-IN]. *)
Definition monthShort (m : Z) : string :=
  nth (Z.to_nat (m - 1))
    ["Jan"; "Feb"; "Mar"; "Apr"; "May"; "Jun"; "Jul"; "Aug"; "Sept"; "Oct"; "Nov"; "Dec"] "".

(** [toLocaleDateString('en-IN', {day: '2-digit', month: 'short',
    year: 'numeric'})] of a date. *)
Definition dateShort (ymd : Z * Z * Z) : string :=
  let '(y, m, d) := ymd in pad2 d ++ " " ++ monthShort m ++ " " ++ intText y.

(** [toLocaleDateString('en-IN')]: day, month and year, numeric. *)
Definition dateNumeric (ymd : Z * Z * Z) : string :=
  let '(y, m, d) := ymd in intText d ++ "/" ++ intText m ++ "/" ++ intText y.

(** The argument [date: string | Date] of [formatDate]. *)
Inductive DateArg :=
| DateString (s : DateStr)
| DateObject (t : Z).

(** [formatDate(date)] of [utils.ts] in the local zone [tz]. *)
Definition formatDate (tz : Z) (date : DateArg) : string :=
  match date with
  | DateString EmptyDate => "N/A"
  | DateString (IsoDate y m d) => dateShort (localDate tz (date_value y m d))
  | DateObject t => dateShort (localDate tz t)
  end.

(** The expiry list's copy, on the medicine's [expiryDate] string. *)
Definition formatExpiryDate (tz : Z) (s : DateStr) : string := formatDate tz (DateString s).

(** The accounting page's [formatDate]: [new Date('')] is an Invalid
    Date, written ["Invalid Date"]. *)
Definition formatTxDate (tz : Z) (s : DateStr) : string :=
  match s with
  | EmptyDate => "Invalid Date"
  | IsoDate y m d => dateNumeric (localDate tz (date_value y m d))
  end.

End Format.

Section FormatLemmas.
Import Format.
Local Open Scope string_scope.

Definition noComma (l : list ascii) : Prop := forall c, In c l -> isComma c = false.

Definition allDigits (l : list ascii) : Prop := forall c, In c l -> isDigit c = true.

Lemma allDigits_noComma l : allDigits l -> noComma l.
Proof.
  intros H c Hc. specialize (H c Hc). destruct (isComma c) eqn:E; [|reflexivity].
  apply Ascii.eqb_eq in E. subst c. discriminate.
Qed.

Lemma allDigits_rev l : allDigits l -> allDigits (rev l).
Proof. intros H c Hc. apply H, in_rev, Hc. Qed.

Lemma allDigits_cons c l : allDigits (c :: l) -> isDigit c = true /\ allDigits l.
Proof. intros H. split; [apply H; left; reflexivity | intros x Hx; apply H; right; exact Hx]. Qed.

(** The groups [grp] writes after the first are the ones [pairsOk]
    accepts. *)
Lemma pairsOk_grp l :
  allDigits l ->
  pairsOk (grp 0 l) = true /\
  (forall d, isDigit d = true -> pairsOk (comma :: d :: grp 1 l) = true).
Proof.
  induction l as [|e t IH]; intros Hl.
  - split; [reflexivity | intros d Hd; simpl; rewrite Hd; reflexivity].
  - apply allDigits_cons in Hl as [He Ht]. destruct (IH Ht) as [H0 H1]. split.
    + exact (H1 e He).
    + intros d Hd. simpl grp. simpl pairsOk. rewrite Hd, He, H0. reflexivity.
Qed.

Lemma groupsOk_grp l : allDigits l -> l <> [] -> groupsOk (grp 3 l) = true.
Proof.
  intros Hl Hne. destruct l as [|a [|b [|c t]]]; [contradiction Hne; reflexivity|..];
    repeat match goal with H : allDigits (_ :: _) |- _ => apply allDigits_cons in H as [? H] end;
    simpl; repeat match goal with H : isDigit _ = true |- _ => rewrite H end; try reflexivity.
  apply pairsOk_grp. exact Hl.
Qed.

(** Removing the commas undoes the grouping. *)
Lemma filter_grp k l :
  noComma l -> filter (fun c => negb (isComma c)) (grp k l) = l.
Proof.
  revert k. induction l as [|c l IH]; intros k Hl; [reflexivity|].
  assert (Hc : isComma c = false) by (apply Hl; left; reflexivity).
  assert (Hl' : noComma l) by (intros x Hx; apply Hl; right; exact Hx).
  destruct k; simpl; rewrite ?Hc; simpl; rewrite IH by exact Hl'; reflexivity.
Qed.

Lemma digitText_allDigits n : allDigits (digitText n).
Proof.
  unfold digitText. induction (N.to_uint n); intros x Hx; simpl in Hx; [contradiction|..];
    (destruct Hx as [<- | Hx]; [reflexivity | exact (IHu x Hx)]).
Qed.

Lemma digitText_nonempty n : digitText n <> [].
Proof.
  unfold digitText. destruct n as [|p]; [discriminate|]. simpl.
  pose proof (DecimalPos.Unsigned.to_uint_nonnil p). destruct (Pos.to_uint p); [contradiction|..]; discriminate.
Qed.

Lemma list_ascii_of_string_app s1 s2 :
  list_ascii_of_string (s1 ++ s2) = (list_ascii_of_string s1 ++ list_ascii_of_string s2)%list.
Proof. induction s1 as [|a s1 IH]; simpl; [reflexivity | rewrite IH; reflexivity]. Qed.

Lemma digitVal_digitChar d : (d < 10)%N -> digitVal (digitChar d) = Some d.
Proof.
  intros Hd. unfold digitVal, digitChar.
  rewrite N_ascii_embedding by lia.
  replace ((48 <=? 48 + d)%N && (48 + d <=? 57)%N) with true
    by (symmetry; apply andb_true_intro; split; apply N.leb_le; lia).
  f_equal. lia.
Qed.

Lemma uint_of_digitText n :
  NilEmpty.uint_of_string (string_of_list_ascii (digitText n)) = Some (N.to_uint n).
Proof. unfold digitText. rewrite string_of_list_ascii_of_string. apply NilEmpty.usu. Qed.

Lemma digits_value p : (N.of_uint (N.to_uint (p / 100)) * 100 + p mod 100 / 10 * 10 + p mod 10)%N = p.
Proof.
  rewrite DecimalN.Unsigned.of_to.
  pose proof (N.div_mod p 100 ltac:(lia)). pose proof (N.div_mod (p mod 100) 10 ltac:(lia)).
  pose proof (N.div_mod p 10 ltac:(lia)). pose proof (N.mod_lt p 10 ltac:(lia)).
  pose proof (N.mod_lt (p mod 100) 10 ltac:(lia)).
  revert H H0 H1 H2 H3.
  generalize (p / 100)%N (p mod 100)%N (p mod 100 / 10)%N ((p mod 100) mod 10)%N (p / 10)%N (p mod 10)%N.
  intros. subst. lia.
Qed.

(** An integer part whose digits, commas removed, are those of
    [p / 100], then the two decimals of [p], read back as [p]. *)
Lemma readDecimal_digits ok ip p :
  filter (fun c => negb (isComma c)) (rev ip) = rev (digitText (p / 100)) -> ok (rev ip) = true ->
  readDecimal ok (ip ++ ["."%char; digitChar (p mod 100 / 10); digitChar (p mod 10)]) = Some p.
Proof.
  intros Hf Hok. unfold readDecimal. rewrite rev_app_distr. cbn [rev app]. cbv zeta.
  rewrite Hf, Hok.
  pose proof (N.mod_lt p 100 ltac:(lia)).
  rewrite rev_involutive, uint_of_digitText, !digitVal_digitChar
    by first [apply N.mod_lt; lia | apply N.Div0.div_lt_upper_bound; lia].
  rewrite digits_value. reflexivity.
Qed.

Lemma rev_nonempty {A} (l : list A) : l <> [] -> rev l <> [].
Proof. intros H E. apply H. rewrite <- (rev_involutive l), E. reflexivity. Qed.

Lemma readUnsigned_fixed2Grouped p : readUnsigned (fixed2Grouped p) = Some p.
Proof.
  apply readDecimal_digits; unfold groupIndian; rewrite rev_involutive.
  - apply filter_grp, allDigits_noComma, allDigits_rev, digitText_allDigits.
  - apply groupsOk_grp; [apply allDigits_rev, digitText_allDigits|].
    apply rev_nonempty, digitText_nonempty.
Qed.

Lemma filter_noComma l : noComma l -> filter (fun c => negb (isComma c)) l = l.
Proof.
  induction l as [|c l IH]; intros H; [reflexivity|]. simpl.
  rewrite (H c (or_introl eq_refl)). simpl. rewrite IH; [reflexivity|].
  intros x Hx. apply H. right. exact Hx.
Qed.

Lemma readDecimal_fixed2Plain p : readDecimal plainOk (fixed2Plain p) = Some p.
Proof.
  apply readDecimal_digits.
  - apply filter_noComma, allDigits_noComma, allDigits_rev, digitText_allDigits.
  - pose proof (rev_nonempty _ (digitText_nonempty (p / 100))) as Hne.
    pose proof (allDigits_rev _ (digitText_allDigits (p / 100))) as Hd.
    destruct (rev (digitText (p / 100))) as [|c l]; [contradiction Hne; reflexivity|].
    unfold plainOk. apply forallb_forall. exact Hd.
Qed.

Lemma splitSign_signed (neg : bool) (l : list ascii) :
  (match l with c :: _ => Ascii.eqb c "-" = false | [] => False end) ->
  splitSign ((if neg then "-" else "") ++ string_of_list_ascii l) = (neg, l).
Proof.
  intros Hl. unfold splitSign. rewrite list_ascii_of_string_app, list_ascii_of_string_of_list_ascii.
  destruct neg; [reflexivity|]. destruct l as [|c l]; [contradiction|]. simpl. rewrite Hl. reflexivity.
Qed.

Lemma readCurrency_formatted (neg : bool) p :
  readCurrency ((if neg then "-" else "") ++ string_of_list_ascii (rupeeL ++ fixed2Grouped p)) =
  Some (signed neg p).
Proof.
  unfold readCurrency. rewrite splitSign_signed by reflexivity.
  cbn - [readUnsigned fixed2Grouped]. rewrite readUnsigned_fixed2Grouped. reflexivity.
Qed.

Lemma digitText_head n : match digitText n with c :: _ => Ascii.eqb c "-" = false | [] => False end.
Proof.
  pose proof (digitText_nonempty n) as Hne. pose proof (digitText_allDigits n) as Hd.
  destruct (digitText n) as [|c l]; [contradiction Hne; reflexivity|].
  destruct (Ascii.eqb c "-") eqn:E; [|reflexivity].
  apply Ascii.eqb_eq in E. subst c. specialize (Hd "-"%char (or_introl eq_refl)). discriminate.
Qed.

Lemma readFixed2_toFixed2 x : readFixed2 (toFixed2 x) = Some (shownPaise x).
Proof.
  unfold readFixed2, toFixed2, shownPaise. rewrite splitSign_signed.
  - rewrite readDecimal_fixed2Plain. reflexivity.
  - unfold fixed2Plain. pose proof (digitText_head (paiseOf x / 100)).
    destruct (digitText (paiseOf x / 100)); [contradiction | exact H].
Qed.

Lemma Qmake_100 z : ((z # 100) == inject_Z z * (1 # 100))%Q.
Proof. unfold Qeq; simpl. ring. Qed.

(** Half-away-from-zero rounding is within half a paisa of [|x|]. *)
Lemma paiseOf_spec x :
  (inject_Z (Z.of_N (paiseOf x)) <= Qabs x * 100 + (1 # 2) /\
   Qabs x * 100 + (1 # 2) < inject_Z (Z.of_N (paiseOf x)) + 1)%Q.
Proof.
  unfold paiseOf.
  assert (H0 : (0 <= Qfloor (Qabs x * 100 + (1 # 2)))%Z).
  { rewrite <- (Qfloor_Z 0). apply Qfloor_resp_le.
    pose proof (Qabs_nonneg x). unfold inject_Z. lra. }
  rewrite Z2N.id by exact H0.
  pose proof (Qfloor_le (Qabs x * 100 + (1 # 2))) as Hl.
  pose proof (Qlt_floor (Qabs x * 100 + (1 # 2))) as Hu.
  rewrite inject_Z_plus in Hu. split; [exact Hl | exact Hu].
Qed.

Lemma shownPaise_close x : (Qabs (x - (shownPaise x # 100)) <= 1 # 200)%Q.
Proof.
  destruct (paiseOf_spec x) as [Hl Hu]. unfold shownPaise, signed, isNegative.
  apply Qabs_Qle_condition. rewrite Qmake_100.
  destruct (Qle_bool 0 x) eqn:E; simpl negb; cbv iota.
  - apply Qle_bool_iff in E. rewrite Qabs_pos in Hl, Hu by exact E. split; lra.
  - assert (E' : (x < 0)%Q) by (apply Qnot_le_lt; intros H; apply Qle_bool_iff in H; congruence).
    rewrite Qabs_neg in Hl, Hu by lra. rewrite inject_Z_opp. split; lra.
Qed.

Lemma readCurrency_formatCurrency x :
  readCurrency (formatCurrency (Some x)) = Some (shownPaise x).
Proof.
  unfold formatCurrency, shownPaise. apply readCurrency_formatted.
Qed.

Lemma readCurrency_NaN : readCurrency (formatCurrency None) = None.
Proof. reflexivity. Qed.

(** Rounding to the paisa keeps the order of nonnegative amounts. *)
Lemma shownPaise_mono x y : (0 <= x)%Q -> (x <= y)%Q -> (0 <= shownPaise x <= shownPaise y)%Z.
Proof.
  intros Hx Hxy.
  assert (Hneg : forall z, (0 <= z)%Q -> isNegative z = false)
    by (intros z Hz; unfold isNegative; apply Qle_bool_iff in Hz; rewrite Hz; reflexivity).
  unfold shownPaise, signed. rewrite !Hneg by lra. unfold paiseOf.
  rewrite !Qabs_pos by lra.
  pose proof (Qfloor_resp_le (x * 100 + (1 # 2)) (y * 100 + (1 # 2)) ltac:(lra)).
  assert (H0 : (0 <= Qfloor (x * 100 + (1 # 2)))%Z)
    by (rewrite <- (Qfloor_Z 0); apply Qfloor_resp_le; unfold inject_Z; lra).
  rewrite !Z2N.id by lia. lia.
Qed.

End FormatLemmas.

(** *** The calendar round trip *)

Section CivilRoundTrip.
Import Format.
Local Open Scope Z_scope.

(** The day of the era [days_from_civil] computes, from the year of the
    era. *)
Definition doe_of (yoe m d : Z) : Z :=
  yoe * 365 + yoe / 4 - yoe / 100 + (153 * ((m + 9) mod 12) + 2) / 5 + d - 1.

Definition marchYear (y m : Z) : Z := if m <=? 2 then y - 1 else y.

Lemma days_from_civil_era y m d :
  days_from_civil y m d + 719468 =
  marchYear y m / 400 * 146097 + doe_of (marchYear y m mod 400) m d.
Proof.
  unfold days_from_civil, doe_of. cbv zeta.
  change (if m <=? 2 then y - 1 else y) with (marchYear y m).
  generalize (marchYear y m). intros y'.
  replace (y' mod 400) with (y' - y' / 400 * 400) by (rewrite Z.mod_eq by lia; ring).
  ring.
Qed.

Lemma civil_from_days_era era doe :
  0 <= doe < 146097 ->
  civil_from_days (era * 146097 + doe - 719468) =
  let '(yoe, m, d) := civil_of_doe doe in (yoe + era * 400 + (if m <=? 2 then 1 else 0), m, d).
Proof.
  intros Hd. unfold civil_from_days.
  replace (era * 146097 + doe - 719468 + 719468) with (era * 146097 + doe) by ring.
  rewrite div_add_mul_l, (Z.div_small doe) by lia.
  rewrite Z.add_0_r. replace (era * 146097 + doe - era * 146097) with doe by ring. reflexivity.
Qed.

Lemma isLeap_era k r : isLeap (k * 400 + r) = isLeap r.
Proof.
  unfold isLeap.
  replace (k * 400 + r) with (r + (k * 100) * 4) by ring. rewrite Z_mod_plus_full.
  replace (r + k * 100 * 4) with (r + (k * 4) * 100) by ring. rewrite Z_mod_plus_full.
  replace (r + k * 4 * 100) with (r + k * 400) by ring. rewrite Z_mod_plus_full. reflexivity.
Qed.

Lemma validDate_era k r m d : validDate (k * 400 + r) m d = validDate r m d.
Proof. unfold validDate, daysInMonth. rewrite isLeap_era. reflexivity. Qed.

(** The integers [lo], ..., [lo + n - 1]. *)
Definition zrange (lo : Z) (n : nat) : list Z := map (fun i => lo + Z.of_nat i) (seq 0 n).

Lemma forallb_zrange f lo n k :
  forallb f (zrange lo n) = true -> lo <= k < lo + Z.of_nat n -> f k = true.
Proof.
  intros H Hk. rewrite forallb_forall in H. apply H. unfold zrange.
  apply in_map_iff. exists (Z.to_nat (k - lo)). split; [lia|]. apply in_seq. lia.
Qed.

(** One era checked day by day: every valid date of a year of the era
    has its day in the era, and [civil_of_doe] gives the date back. *)
Definition era_ok (yoe m d : Z) : bool :=
  negb (validDate (yoe + (if m <=? 2 then 1 else 0)) m d) ||
  (let doe := doe_of yoe m d in
   (0 <=? doe) && (doe <? 146097) &&
   (let '(y', m', d') := civil_of_doe doe in (y' =? yoe) && (m' =? m) && (d' =? d))).

Lemma era_checked :
  forallb (fun yoe => forallb (fun m => forallb (era_ok yoe m) (zrange 1 31)) (zrange 1 12))
    (zrange 0 400) = true.
Proof. vm_compute. reflexivity. Qed.

Lemma validDate_ranges y m d : validDate y m d = true -> 1 <= m < 13 /\ 1 <= d < 32.
Proof.
  unfold validDate, daysInMonth. intros H. repeat rewrite andb_true_iff in H. rewrite !Z.leb_le in H.
  repeat match goal with H : context [if ?b then _ else _] |- _ => destruct b end; lia.
Qed.

(** [civil_from_days] inverts [days_from_civil] on valid dates. *)
Lemma civil_from_days_of_civil y m d :
  validDate y m d = true -> civil_from_days (days_from_civil y m d) = (y, m, d).
Proof.
  intros Hv. destruct (validDate_ranges y m d Hv) as [Hm Hd].
  set (r := marchYear y m mod 400). set (k := marchYear y m / 400).
  assert (Hr : 0 <= r < 400) by (apply Z.mod_pos_bound; lia).
  assert (Hy : marchYear y m = k * 400 + r) by (unfold r, k; rewrite Z.mod_eq by lia; ring).
  assert (Hok : era_ok r m d = true).
  { apply (forallb_zrange _ 1 31 d); [|simpl; lia].
    apply (forallb_zrange (fun m => forallb (era_ok r m) (zrange 1 31)) 1 12 m); [|simpl; lia].
    apply (forallb_zrange _ 0 400 r era_checked). simpl; lia. }
  unfold era_ok in Hok.
  replace (validDate (r + (if m <=? 2 then 1 else 0)) m d) with true in Hok.
  2: { rewrite <- Hv, <- (validDate_era k (r + _)).
       f_equal. unfold marchYear in Hy. destruct (m <=? 2); lia. }
  simpl negb in Hok. rewrite orb_false_l in Hok.
  destruct (civil_of_doe (doe_of r m d)) as [[y' m'] d'] eqn:Ec.
  repeat rewrite andb_true_iff in Hok. rewrite !Z.leb_le, !Z.ltb_lt, !Z.eqb_eq in Hok.
  destruct Hok as [[Hlo Hhi] [[-> ->] ->]].
  replace (days_from_civil y m d) with (k * 146097 + doe_of r m d - 719468)
    by (pose proof (days_from_civil_era y m d); fold r k in H; lia).
  rewrite civil_from_days_era by lia. rewrite Ec.
  f_equal. f_equal. unfold marchYear in Hy. destruct (m <=? 2); lia.
Qed.

End CivilRoundTrip.

Section FormatTheorems.
Import Format.
Local Open Scope string_scope.

(** C7. The currency text is well formed and exact to the paisa: the
    text [formatCurrency] writes for a number reads back, by the parser
    of the format (sign, rupee sign, digits in the Indian grouping, a
    point and two digits), as the signed number of paise shown, which is
    within half a paisa of the amount; the text of [NaN] is not an
    amount. *)
Theorem formatCurrency_roundtrip (a : option Q) :
  readCurrency (formatCurrency a) = option_map shownPaise a /\
  match a with Some x => (Qabs (x - (shownPaise x # 100)) <= 1 # 200)%Q | None => True end.
Proof.
  destruct a as [x|]; [|split; [exact readCurrency_NaN | exact I]].
  split; [apply readCurrency_formatCurrency | apply shownPaise_close].
Qed.

(** C6. [formatDate] of a stored expiry date, in the local zone [tz]:
    at or east of UTC it shows the stored date; west of UTC the
    date-only string is the UTC midnight that is still the previous
    local day, and it shows the day before the stored date. *)
Theorem formatDate_local_date tz y m d :
  validDate y m d = true ->
  ((0 <= tz < msPerDay)%Z -> formatDate tz (DateString (IsoDate y m d)) = dateShort (y, m, d)) /\
  ((- msPerDay <= tz < 0)%Z ->
   formatDate tz (DateString (IsoDate y m d)) = dateShort (civil_from_days (days_from_civil y m d - 1))).
Proof.
  intros Hv. unfold formatDate, localDate, date_value. split; intros Htz.
  - rewrite local_day_midnight_east by exact Htz. rewrite civil_from_days_of_civil by exact Hv.
    reflexivity.
  - rewrite local_day_midnight_west by exact Htz. reflexivity.
Qed.

(** Witness: stored 2024-05-01, the table shows 01 May 2024 in India
    (UTC+5:30) and 30 Apr 2024 in New York (UTC-5). *)
Lemma formatDate_local_date_witness :
  validDate 2024 5 1 = true /\
  formatDate 19800000 (DateString (IsoDate 2024 5 1)) = "01 May 2024" /\
  formatDate (-18000000) (DateString (IsoDate 2024 5 1)) = "30 Apr 2024".
Proof.
  split; [reflexivity|]. split.
  - rewrite (proj1 (formatDate_local_date 19800000 2024 5 1 eq_refl)) by (unfold msPerDay; lia).
    vm_compute. reflexivity.
  - rewrite (proj2 (formatDate_local_date (-18000000) 2024 5 1 eq_refl)) by (unfold msPerDay; lia).
    vm_compute. reflexivity.
Defined.

End FormatTheorems.
