(* ===== verification/Stock.v ===== *)
(** * Stock: classification, badges, filters and counts

    The [Medicine] record of the list views ([ExpiryList.tsx],
    [InventoryTable.tsx], [app/inventory/page.tsx], [app/expiry/page.tsx]
    all declare the same interface), the stock utilities of [utils.ts], and
    what the views derive from a record: badges, status filters, summary
    counts and the expiry page's statistics cards.

    The derived fields of a record are attached by the medicine API, which
    is not under [src/]; its contract is the class [Classified] (spec 4.1),
    and [classify] (modelled from the spec) is an instance.  The view
    theorems are proved against [Classified] only. *)

From Stdlib Require Import String.
From Stdlib Require Import ZArith QArith Lia List Bool.
From S2P Require Import Prelude Dates.
Import ListNotations.
Import Dates.

Open Scope Z_scope.

Module Utils.

(** [isLowStock(stock, threshold = 10)] *)
Definition isLowStock (stock : Z) (threshold : Z) : bool := stock <? threshold.

(** The badge variants of the UI kit. *)
Inductive BadgeVariant := Default | Secondary | Destructive | Outline.

(** [getStockStatus(stock, threshold = 10)] *)
Definition getStockStatus (stock : Z) (threshold : Z) : BadgeVariant :=
  if stock =? 0 then Destructive
  else if stock <? threshold then Outline
  else Secondary.

End Utils.

Module Views.

(** [interface Medicine] of the list views. *)
Record Medicine := mkMedicine {
  id : string;
  name : string;
  stock : Z;
  price : Q;
  batch : string;
  supplier : string;
  expiryDate : DateStr;
  schedule : option string;
  daysUntilExpiry : Z;
  isLowStock : bool;
  isExpiringSoon : bool;
  isExpired : bool
}.

(** A stock record before the API derives its flags (spec 3). *)
Record StockRecord := mkStockRecord {
  r_id : string;
  r_name : string;
  r_stock : Z;
  r_price : Q;
  r_batch : string;
  r_supplier : string;
  r_expiryDate : DateStr;
  r_schedule : option string
}.

Definition lowStockThreshold : Z := 10.

(** The classifier of spec 4.1, as the medicine API applies it with the
    warning window [window] (the [days] query parameter). *)
Definition classify (tz now window : Z) (r : StockRecord) : Medicine :=
  let days := calculateDaysUntilExpiry tz now (r_expiryDate r) in
  {| id := r_id r; name := r_name r; stock := r_stock r; price := r_price r;
     batch := r_batch r; supplier := r_supplier r; expiryDate := r_expiryDate r;
     schedule := r_schedule r;
     daysUntilExpiry := days;
     isLowStock := Utils.isLowStock (r_stock r) lowStockThreshold;
     isExpiringSoon := (0 <=? days) && (days <=? window);
     isExpired := days <? 0 |}.

(** What the views may assume of a record's flags. *)
Class Classified (window : Z) (m : Medicine) : Prop := {
  classified_expired : isExpired m = (daysUntilExpiry m <? 0);
  classified_soon :
    isExpiringSoon m = (0 <=? daysUntilExpiry m) && (daysUntilExpiry m <=? window);
  classified_low : isLowStock m = (stock m <? lowStockThreshold)
}.

#[export] Instance classify_classified tz now window r :
  Classified window (classify tz now window r).
Proof. split; reflexivity. Qed.

(** [getExpiryBadge] of [ExpiryList.tsx]. *)
Inductive ExpiryBadge := BExpired | BCritical | BWarning | BNormal.

Definition getExpiryBadge (m : Medicine) : ExpiryBadge :=
  if isExpired m then BExpired
  else if daysUntilExpiry m <=? 15 then BCritical
  else if daysUntilExpiry m <=? 30 then BWarning
  else BNormal.

Definition expiryBadgeLabel (b : ExpiryBadge) : string :=
  match b with
  | BExpired => "Expired" | BCritical => "Critical"
  | BWarning => "Warning" | BNormal => "Normal"
  end.

(** The ['Status'] column of the expiry CSV export ([handleExportCSV]). *)
Definition csvStatus (m : Medicine) : string :=
  if isExpired m then "Expired"
  else if daysUntilExpiry m <=? 15 then "Critical"
  else if daysUntilExpiry m <=? 30 then "Warning"
  else "Normal".

(** [filterBy] of [ExpiryList.tsx] and its [switch]. *)
Inductive FilterBy := FAll | FExpired | FCritical | FWarning.

Definition statusFilter (f : FilterBy) (m : Medicine) : bool :=
  match f with
  | FAll => true
  | FExpired => isExpired m
  | FCritical => (daysUntilExpiry m <=? 15) && (0 <? daysUntilExpiry m)
  | FWarning => (15 <? daysUntilExpiry m) && (daysUntilExpiry m <=? 30)
  end.

(** The summary line under the table: Expired, Critical and Warning. *)
Definition summaryExpired (ms : list Medicine) : nat := count_if isExpired ms.

Definition summaryCritical (ms : list Medicine) : nat :=
  count_if (fun m => (daysUntilExpiry m <=? 15) && negb (isExpired m)) ms.

Definition summaryWarning (ms : list Medicine) : nat :=
  count_if (fun m => (15 <? daysUntilExpiry m) && (daysUntilExpiry m <=? 30)) ms.

(** [getStockBadge] of [InventoryTable.tsx]. *)
Inductive StockBadge := SExpired | SLowStock | SExpiringSoon | SInStock.

Definition getStockBadge (m : Medicine) : StockBadge :=
  if isExpired m then SExpired
  else if isLowStock m then SLowStock
  else if isExpiringSoon m then SExpiringSoon
  else SInStock.

(** [activeTab] of [app/inventory/page.tsx] and its [switch]; any other
    tab value takes the [default] branch. *)
Inductive Tab := TAll | TLowStock | TExpiring | TScheduleH.

Definition tabFilter (t : Tab) (m : Medicine) : bool :=
  match t with
  | TAll => true
  | TLowStock => isLowStock m
  | TExpiring => isExpiringSoon m
  | TScheduleH =>
      match schedule m with Some s => String.eqb s "H" | None => false end
  end.

(** The statistics of [app/expiry/page.tsx] ([fetchExpiringMedicines]).
    [new Date("")] is an Invalid Date and every comparison with its NaN day
    count is false, so a record without a date is counted in neither card. *)
Definition pageDays (now : Z) (m : Medicine) : option Z :=
  match expiryDate m with
  | EmptyDate => None
  | IsoDate y mo d => Some (expiryPageDays now y mo d)
  end.

Definition pageWithin (now lo hi : Z) (m : Medicine) : bool :=
  match pageDays now m with
  | Some d => (d <=? hi) && (lo <? d)
  | None => false
  end.

Record ExpiryStats := mkExpiryStats {
  expiring15Days : nat;
  expiring30Days : nat;
  expired : nat;
  totalValue : Q
}.

Definition expiryStats (now : Z) (ms : list Medicine) : ExpiryStats :=
  {| expiring15Days := count_if (pageWithin now 0 15) ms;
     expiring30Days := count_if (pageWithin now 0 30) ms;
     expired := count_if isExpired ms;
     totalValue := reduce_sum (fun m => (inject_Z (stock m) * price m)%Q) ms |}.

(** [getExpiryText] of [ExpiryList.tsx]: the text and its colour. *)
Inductive ExpiryText :=
| ExpiredAgo (n : Z) | DaysLeftRed (d : Z) | DaysLeftOrange (d : Z) | DaysLeftGreen (d : Z).

Definition getExpiryText (m : Medicine) : ExpiryText :=
  if isExpired m then ExpiredAgo (Z.abs (daysUntilExpiry m))
  else if daysUntilExpiry m <=? 15 then DaysLeftRed (daysUntilExpiry m)
  else if daysUntilExpiry m <=? 30 then DaysLeftOrange (daysUntilExpiry m)
  else DaysLeftGreen (daysUntilExpiry m).

(** [getExpiryStatus] of [InventoryTable.tsx]. *)
Inductive ExpiryStatus := StatusExpired | StatusDaysLeft (d : Z) | StatusDays (d : Z).

Definition getExpiryStatus (m : Medicine) : ExpiryStatus :=
  if isExpired m then StatusExpired
  else if isExpiringSoon m then StatusDaysLeft (daysUntilExpiry m)
  else StatusDays (daysUntilExpiry m).

(** The background of a table row: red, orange, yellow or none. *)
Inductive RowTone := ToneRed | ToneOrange | ToneYellow | ToneNone.

Definition rowTone (m : Medicine) : RowTone :=
  if isExpired m then ToneRed
  else if isLowStock m then ToneOrange
  else if isExpiringSoon m then ToneYellow
  else ToneNone.

(** The two alerts above the table, with their counts, when enabled. *)
Inductive TableAlert := LowStockAlert (n : nat) | ExpiryAlert (n : nat).

Definition tableAlerts (showAlerts showExpiry : bool) (ms : list Medicine) : list TableAlert :=
  (if showAlerts && existsb isLowStock ms then [LowStockAlert (count_if isLowStock ms)] else []) ++
  (if showExpiry && existsb isExpiringSoon ms then [ExpiryAlert (count_if isExpiringSoon ms)] else []).

(** The footer: shown, low stock, expiring soon, Schedule H. *)
Definition tableFooter (ms : list Medicine) : nat * nat * nat * nat :=
  (List.length ms, count_if isLowStock ms, count_if isExpiringSoon ms,
   count_if (fun m => match schedule m with Some s => String.eqb s "H" | None => false end) ms).

End Views.

Section ViewTheorems.
Import Views.
Context (window : Z).

(** Spec 8: with the zone at or east of UTC, a classified medicine is
    expired exactly when its expiry date is strictly before today's local
    date. *)
Theorem classify_expired_iff tz now r y mo d :
  0 <= tz < msPerDay ->
  r_expiryDate r = IsoDate y mo d ->
  (isExpired (classify tz now window r) = true <->
   days_from_civil y mo d < local_day tz now).
Proof.
  intros Htz Hd. simpl. rewrite Hd, calculateDaysUntilExpiry_local_days.
  unfold date_value. rewrite local_day_midnight_east by exact Htz.
  rewrite Z.ltb_lt. lia.
Qed.

(** C1. The status filters of the expiry list, with the two cases they
    leave out (expiring today, more than 30 days left), split every
    classified medicine into exactly one class. *)
Theorem status_filters_partition m :
  Classified window m ->
  (Nat.b2n (statusFilter FExpired m) + Nat.b2n (statusFilter FCritical m) +
   Nat.b2n (statusFilter FWarning m) + Nat.b2n (daysUntilExpiry m =? 0)%Z +
   Nat.b2n (30 <? daysUntilExpiry m)%Z)%nat = 1%nat.
Proof.
  intros Hc. simpl. rewrite classified_expired. zcase; simpl; lia.
Qed.

(** C2. The summary line's "Critical" count and the "Critical" filter
    disagree: the summary (and the red badge) includes the medicines that
    expire today, the filter ([daysUntilExpiry > 0]) does not.  The gap is
    exactly the number of medicines expiring today. *)
Theorem summary_critical_vs_filter ms :
  Forall (Classified window) ms ->
  summaryCritical ms =
  (count_if (statusFilter FCritical) ms +
   count_if (fun m => (daysUntilExpiry m =? 0)%Z) ms)%nat.
Proof.
  intros Hall. unfold summaryCritical.
  rewrite (count_if_split _ (fun m => 0 <? daysUntilExpiry m)).
  f_equal; apply count_if_ext; intros m Hm;
    pose proof (proj1 (Forall_forall _ _) Hall m Hm) as Hc;
    simpl; rewrite classified_expired; zcase; reflexivity || lia.
Qed.

(** The CSV [Status] column and the on-screen badge use the same
    tiering: Expired, then Critical (at most 15 days), then Warning (at most
    30 days), then Normal. *)
Theorem csvStatus_is_badge m : csvStatus m = expiryBadgeLabel (getExpiryBadge m).
Proof.
  unfold csvStatus, getExpiryBadge.
  destruct (isExpired m); [reflexivity|]. zcase; reflexivity.
Qed.

(** The inventory table shows "In Stock" exactly for the medicines
    with at least 10 units whose expiry lies beyond the warning window. *)
Theorem stock_badge_in_stock m :
  0 <= window -> Classified window m ->
  (getStockBadge m = SInStock <->
   lowStockThreshold <= stock m /\ window < daysUntilExpiry m).
Proof.
  intros Hw Hc. unfold getStockBadge, lowStockThreshold in *.
  rewrite classified_expired, classified_soon, classified_low.
  unfold lowStockThreshold.
  zcase; simpl; split; intros; try discriminate; try reflexivity; lia.
Qed.

(** The expiry page's "Expiring in 15 Days" card counts the same
    medicines as the list's "Critical" filter when the local date and the
    UTC date agree; between local midnight and UTC midnight (00:00 to 05:30
    in India) they count different medicines (see the witness). *)
Theorem stats15_matches_critical_filter tz now rs :
  0 <= tz < msPerDay -> local_day tz now = local_day 0 now ->
  expiring15Days (expiryStats now (map (classify tz now window) rs)) =
  count_if (statusFilter FCritical) (map (classify tz now window) rs).
Proof.
  intros Htz Hday. simpl. apply count_if_ext. intros m Hm.
  apply in_map_iff in Hm as [r [<- _]].
  unfold pageWithin, pageDays. simpl.
  destruct (r_expiryDate r) as [|y mo d]; [reflexivity|].
  rewrite expiryPageDays_utc_day, calculateDaysUntilExpiry_local_days.
  unfold date_value. rewrite local_day_midnight_east, Hday by exact Htz.
  reflexivity.
Qed.

(** [getStockStatus] and [isLowStock] agree for a positive threshold:
    the neutral "secondary" badge is shown exactly for stock that is not
    low; an empty stock gets the "destructive" badge. *)
Theorem getStockStatus_vs_isLowStock s t :
  0 < t ->
  (Utils.getStockStatus s t = Utils.Secondary <-> Utils.isLowStock s t = false) /\
  (s = 0 -> Utils.getStockStatus s t = Utils.Destructive).
Proof.
  intros Ht. unfold Utils.getStockStatus, Utils.isLowStock.
  split; [|intros ->; reflexivity].
  zcase; split; intros; try discriminate; try reflexivity; lia.
Qed.

End ViewTheorems.

(** ** A concrete inventory, classified at 2024-04-15 10:00 IST *)

Module Fixture.
Import Views.
Local Open Scope string_scope.

Definition ist : Z := 19800000.
Definition now_ist : Z := date_value 2024 4 15 + 16200000.

Definition rec (i n : string) (s : Z) (p : Q) (y mo d : Z) (sch : option string) :=
  mkStockRecord i n s p "B-001" "PharmaCorp Ltd" (IsoDate y mo d) sch.

Definition records : list StockRecord :=
  [ rec "1" "Paracetamol 500mg" 150 12 2024 4 15 None;
    rec "2" "Amoxicillin 250mg" 80 45 2024 4 25 (Some "H");
    rec "3" "Crocin Tablets" 8 15 2024 4 1 None;
    rec "4" "Azithromycin 500mg" 25 120 2024 5 20 (Some "H") ].

Definition azithromycin : StockRecord :=
  rec "4" "Azithromycin 500mg" 25 120 2024 5 20 (Some "H").

Definition inventory : list Medicine := map (classify ist now_ist 30) records.

Lemma inventory_classified : Forall (Classified 30) inventory.
Proof. unfold inventory. apply Forall_map, Forall_forall. intros; apply classify_classified. Qed.

End Fixture.

Section ViewWitnesses.
Import Views Fixture.
Local Open Scope string_scope.

Lemma classify_expired_iff_witness :
  0 <= ist < msPerDay /\
  isExpired (classify ist now_ist 30 (rec "3" "Crocin Tablets" 8 15 2024 4 1 None)) = true.
Proof.
  split; [unfold ist, msPerDay; lia|].
  apply (classify_expired_iff 30 ist now_ist _ 2024 4 1);
    [unfold ist, msPerDay; lia | reflexivity | vm_compute; reflexivity].
Defined.

(** Paracetamol expires today: it is in none of the three filters. *)
Lemma status_filters_partition_witness :
  (Nat.b2n (daysUntilExpiry (classify ist now_ist 30
     (rec "1" "Paracetamol 500mg" 150 12 2024 4 15 None)) =? 0)%Z = 1%nat) /\
  (Nat.b2n (statusFilter FExpired (classify ist now_ist 30
     (rec "1" "Paracetamol 500mg" 150 12 2024 4 15 None))) +
   Nat.b2n (statusFilter FCritical (classify ist now_ist 30
     (rec "1" "Paracetamol 500mg" 150 12 2024 4 15 None))) +
   Nat.b2n (statusFilter FWarning (classify ist now_ist 30
     (rec "1" "Paracetamol 500mg" 150 12 2024 4 15 None))) +
   Nat.b2n (daysUntilExpiry (classify ist now_ist 30
     (rec "1" "Paracetamol 500mg" 150 12 2024 4 15 None)) =? 0)%Z +
   Nat.b2n (30 <? daysUntilExpiry (classify ist now_ist 30
     (rec "1" "Paracetamol 500mg" 150 12 2024 4 15 None)))%Z)%nat = 1%nat.
Proof.
  split; [vm_compute; reflexivity|].
  apply (status_filters_partition 30). apply classify_classified.
Defined.

(** On the fixture the summary says 2 critical (Paracetamol, today, and
    Amoxicillin, 10 days) while the "Critical" filter shows 1. *)
Lemma summary_critical_vs_filter_witness :
  summaryCritical inventory = 2%nat /\
  count_if (statusFilter FCritical) inventory = 1%nat /\
  summaryCritical inventory =
  (count_if (statusFilter FCritical) inventory +
   count_if (fun m => (daysUntilExpiry m =? 0)%Z) inventory)%nat.
Proof.
  split; [vm_compute; reflexivity|]. split; [vm_compute; reflexivity|].
  apply (summary_critical_vs_filter 30). apply inventory_classified.
Defined.

(** Azithromycin (25 units, 35 days left) is "In Stock". *)
Lemma stock_badge_in_stock_witness :
  getStockBadge (classify ist now_ist 30 azithromycin) = SInStock /\
  lowStockThreshold <= stock (classify ist now_ist 30 azithromycin) /\
  30 < daysUntilExpiry (classify ist now_ist 30 azithromycin).
Proof.
  split; [vm_compute; reflexivity|].
  apply (stock_badge_in_stock 30); [lia | apply classify_classified | vm_compute; reflexivity].
Defined.

(** At 02:00 IST on 2024-05-15 a medicine expiring that day is in the
    page's 15-day card but not in the "Critical" filter. *)
Lemma stats15_mismatch_example :
  let now := date_value 2024 5 15 - 12600000 in
  let ms := map (classify ist now 30) [rec "5" "Cetirizine 10mg" 90 8 2024 5 15 None] in
  local_day ist now <> local_day 0 now /\
  expiring15Days (expiryStats now ms) = 1%nat /\
  count_if (statusFilter FCritical) ms = 0%nat.
Proof. vm_compute. split; [discriminate|split; reflexivity]. Defined.

Lemma stats15_matches_critical_filter_witness :
  local_day ist now_ist = local_day 0 now_ist /\
  expiring15Days (expiryStats now_ist inventory) = 1%nat /\
  expiring15Days (expiryStats now_ist inventory) =
  count_if (statusFilter FCritical) inventory.
Proof.
  split; [vm_compute; reflexivity|]. split; [vm_compute; reflexivity|].
  apply (stats15_matches_critical_filter 30); [unfold ist, msPerDay; lia|vm_compute; reflexivity].
Defined.

Lemma getStockStatus_vs_isLowStock_witness :
  Utils.getStockStatus 8 10 = Utils.Outline /\
  (Utils.getStockStatus 10 10 = Utils.Secondary <-> Utils.isLowStock 10 10 = false).
Proof.
  split; [reflexivity|]. apply (getStockStatus_vs_isLowStock 10 10). lia.
Defined.

End ViewWitnesses.
