(* ===== verification/Aggregator.v ===== *)
(** * Aggregator: transaction totals and the accounting route

    Module [Form] models [MultiMedicineTransactionForm.tsx]: the zod
    schemas, the field array of line items ([append], [remove],
    [onMedicineSelect]) and [calculateTotals].  Module [Route] models
    [app/api/accounting/transactions/route.ts]: the in-memory store
    [accountingTransactions], [GET] (financial-year and date filters, tax
    summary) and [POST] (required-field check, append).

    Amounts are exact rationals (see the header of [Prelude.v]). *)

From Stdlib Require Import String.
From Stdlib Require Import ZArith QArith Lqa Lia List Bool Permutation.
From Stdlib Require Import Setoid Morphisms.
From S2P Require Import Prelude Dates.
Import ListNotations.
Import Dates.

Open Scope Q_scope.
Open Scope medstore_scope.

Module Form.

(** [transactionItemSchema] fields. *)
Record TransactionItem := mkItem {
  medicineId : string;
  medicineName : string;
  quantity : Q;
  price : Q;
  discount : Q
}.

(** [multiTransactionSchema] fields. *)
Record MultiTransactionFormData := mkForm {
  items : list TransactionItem;
  totalDiscount : Q;
  customerName : string;
  notes : string
}.

(** [transactionItemSchema]: [min(1)] on the strings, [quantity >= 1],
    [price >= 0.01], [0 <= discount <= 100]. *)
Definition itemValid (it : TransactionItem) : bool :=
  (1 <=? String.length (medicineId it))%nat &&
  (1 <=? String.length (medicineName it))%nat &&
  Qle_bool 1 (quantity it) && Qle_bool (1 # 100) (price it) &&
  Qle_bool 0 (discount it) && Qle_bool (discount it) 100.

(** [multiTransactionSchema]: at least one item, every item valid,
    [0 <= totalDiscount <= 100]. *)
Definition formValid (f : MultiTransactionFormData) : bool :=
  (1 <=? List.length (items f))%nat && forallb itemValid (items f) &&
  Qle_bool 0 (totalDiscount f) && Qle_bool (totalDiscount f) 100.

(** The [reduce] callback of [calculateTotals]: the line amount after the
    line discount. *)
Definition lineNet (item : TransactionItem) : Q :=
  let itemTotal := quantity item * price item in
  let itemDiscount := itemTotal * (discount item / 100) in
  itemTotal - itemDiscount.

Record Totals := mkTotals {
  subtotal : Q;
  totalDiscountAmount : Q;
  grandTotal : Q
}.

(** [calculateTotals()] on the watched values. *)
Definition calculateTotals (items : list TransactionItem) (totalDiscount : Q) : Totals :=
  let subtotal := reduce_sum lineNet items in
  let totalDiscountAmount := subtotal * (totalDiscount / 100) in
  let grandTotal := subtotal - totalDiscountAmount in
  {| subtotal := subtotal; totalDiscountAmount := totalDiscountAmount;
     grandTotal := grandTotal |}.

(** The default row of [defaultValues] and of the "Add Another Medicine"
    button. *)
Definition emptyItem : TransactionItem := mkItem "" "" 1 0 0.

(** [append(emptyItem)] *)
Definition appendItem (f : MultiTransactionFormData) : MultiTransactionFormData :=
  {| items := items f ++ [emptyItem]; totalDiscount := totalDiscount f;
     customerName := customerName f; notes := notes f |}.

(** [remove(index)]; the button is disabled when one row is left. *)
Fixpoint remove_at {A} (i : nat) (l : list A) : list A :=
  match l, i with
  | [], _ => []
  | _ :: r, O => r
  | x :: r, S j => x :: remove_at j r
  end.

Definition removeItem (index : nat) (f : MultiTransactionFormData) : MultiTransactionFormData :=
  if (List.length (items f) =? 1)%nat then f
  else {| items := remove_at index (items f); totalDiscount := totalDiscount f;
          customerName := customerName f; notes := notes f |}.

(** A row of the medicine search ([MedicineSearch.tsx] mock data). *)
Record SearchMedicine := mkSearchMedicine {
  sm_id : string;
  sm_name : string;
  sm_stock : Z;
  sm_price : Q;
  sm_schedule : option string
}.

Fixpoint update_at {A} (i : nat) (g : A -> A) (l : list A) : list A :=
  match l, i with
  | [], _ => []
  | x :: r, O => g x :: r
  | x :: r, S j => x :: update_at j g r
  end.

(** [onMedicineSelect(index, medicine)]: sets id, name and price
    ([medicine.price || 0]) of row [index]; quantity and discount stay. *)
Definition onMedicineSelect (index : nat) (m : SearchMedicine) (f : MultiTransactionFormData)
  : MultiTransactionFormData :=
  let set it := {| medicineId := sm_id m; medicineName := sm_name m;
                   quantity := quantity it; price := sm_price m;
                   discount := discount it |} in
  {| items := update_at index set (items f); totalDiscount := totalDiscount f;
     customerName := customerName f; notes := notes f |}.

End Form.

Section FormTheorems.
Import Form.

Lemma lineNet_bounds it :
  itemValid it = true -> 0 <= lineNet it <= quantity it * price it.
Proof.
  unfold itemValid, lineNet. intros H.
  repeat rewrite andb_true_iff in H.
  destruct H as [[[[[_ _] Hq] Hp] Hd0] Hd1].
  apply Qle_bool_iff in Hq, Hp, Hd0, Hd1.
  apply discounted_bounds; [apply Qmult_le_0_compat; lra | lra].
Qed.

Lemma remove_at_perm {A} (i : nat) (l : list A) (d : A) :
  (i < List.length l)%nat -> Permutation l (nth i l d :: remove_at i l).
Proof.
  revert i; induction l as [|x l IH]; intros i Hi; simpl in *; [lia|].
  destruct i as [|i]; [reflexivity|].
  eapply perm_trans; [apply perm_skip, (IH i ltac:(lia)) | apply perm_swap].
Qed.

(** [calculateTotals] computes the grand total as the sum over the
    rows of quantity x price with the row discount taken off, with the
    overall discount then taken off that sum: the two discount layers
    multiply. *)
Theorem calculateTotals_spec items td :
  subtotal (calculateTotals items td) ==
    Σ[ it ← items ] (quantity it * price it * (1 - discount it / 100)) /\
  grandTotal (calculateTotals items td) ==
    (Σ[ it ← items ] (quantity it * price it * (1 - discount it / 100))) * (1 - td / 100).
Proof.
  assert (Hs : reduce_sum lineNet items ==
               Σ[ it ← items ] (quantity it * price it * (1 - discount it / 100))).
  { rewrite reduce_sum_qsum. apply qsum_ext. intros it _. unfold lineNet. ring. }
  simpl. split; [exact Hs|]. rewrite Hs. ring.
Qed.

(** C3. For a form that passes the zod schema, the totals are ordered:
    0 <= grand total <= subtotal <= gross amount (quantity x price summed):
    no discount can make a total negative or raise it. *)
Theorem calculateTotals_bounds f :
  formValid f = true ->
  let t := calculateTotals (items f) (totalDiscount f) in
  0 <= grandTotal t /\ grandTotal t <= subtotal t /\
  subtotal t <= Σ[ it ← items f ] (quantity it * price it).
Proof.
  unfold formValid. intros H.
  repeat rewrite andb_true_iff in H. destruct H as [[[_ Hall] Htd0] Htd1].
  apply Qle_bool_iff in Htd0, Htd1. rewrite forallb_forall in Hall.
  assert (Hsub : 0 <= reduce_sum lineNet (items f) <=
                 Σ[ it ← items f ] (quantity it * price it)).
  { rewrite reduce_sum_qsum. split.
    - apply qsum_nonneg. intros it Hit. apply lineNet_bounds, Hall, Hit.
    - apply qsum_le. intros it Hit. apply lineNet_bounds, Hall, Hit. }
  simpl. pose proof (discounted_bounds (reduce_sum lineNet (items f)) (totalDiscount f)
                       ltac:(lra) ltac:(lra)).
  lra.
Qed.

(** The field-array buttons move the totals by exactly one row:
    removing row [index] (when more than one row is left) takes that row's
    discounted amount off the subtotal, and "Add Another Medicine" appends
    a row worth nothing. *)
Theorem field_array_totals f index :
  (index < List.length (items f))%nat -> List.length (items f) <> 1%nat ->
  subtotal (calculateTotals (items (removeItem index f)) (totalDiscount f)) ==
    subtotal (calculateTotals (items f) (totalDiscount f)) -
    lineNet (nth index (items f) emptyItem) /\
  grandTotal (calculateTotals (items (appendItem f)) (totalDiscount f)) ==
    grandTotal (calculateTotals (items f) (totalDiscount f)).
Proof.
  intros Hi Hlen. simpl. split.
  - unfold removeItem. destruct (Nat.eqb_spec (List.length (items f)) 1); [lia|]. simpl.
    pose proof (qsum_perm_proper lineNet _ _ (remove_at_perm index (items f) emptyItem Hi))
      as Hp.
    rewrite !reduce_sum_qsum, Hp. simpl. ring.
  - rewrite !reduce_sum_qsum, qsum_app. simpl. unfold lineNet. simpl. ring.
Qed.

End FormTheorems.

Section FormWitnesses.
Import Form.
Local Open Scope string_scope.

(** Paracetamol 10 x 12 and Ibuprofen 20 x 18 at 10% off, 5% overall. *)
Definition sampleForm : MultiTransactionFormData :=
  mkForm [mkItem "1" "Paracetamol 500mg" 10 12 0; mkItem "5" "Ibuprofen 400mg" 20 18 10]
         5 "XYZ Pharmacy" "".

Lemma calculateTotals_bounds_witness :
  formValid sampleForm = true /\
  grandTotal (calculateTotals (items sampleForm) (totalDiscount sampleForm)) == 421.8 /\
  (let t := calculateTotals (items sampleForm) (totalDiscount sampleForm) in
   0 <= grandTotal t /\ grandTotal t <= subtotal t /\
   subtotal t <= Σ[ it ← items sampleForm ] (quantity it * price it)).
Proof.
  split; [vm_compute; reflexivity|]. split; [vm_compute; reflexivity|].
  apply calculateTotals_bounds. vm_compute. reflexivity.
Defined.

Lemma field_array_totals_witness :
  (1 < List.length (items sampleForm))%nat /\
  subtotal (calculateTotals (items (removeItem 1 sampleForm)) (totalDiscount sampleForm)) == 120 /\
  (subtotal (calculateTotals (items (removeItem 1 sampleForm)) (totalDiscount sampleForm)) ==
     subtotal (calculateTotals (items sampleForm) (totalDiscount sampleForm)) -
     lineNet (nth 1 (items sampleForm) emptyItem) /\
   grandTotal (calculateTotals (items (appendItem sampleForm)) (totalDiscount sampleForm)) ==
     grandTotal (calculateTotals (items sampleForm) (totalDiscount sampleForm))).
Proof.
  split; [vm_compute; reflexivity|]. split; [vm_compute; reflexivity|].
  apply field_array_totals; vm_compute; [reflexivity | discriminate].
Defined.

End FormWitnesses.

Module Route.
Local Open Scope string_scope.

(** [type: 'sell' | 'purchase'] in the fixture; [POST] stores whatever
    string the body carries. *)
Inductive TxType := Sell | Purchase | OtherType (s : string).

Definition txTypeOfString (s : string) : TxType :=
  if String.eqb s "sell" then Sell
  else if String.eqb s "purchase" then Purchase
  else OtherType s.

(** An element of [items] of a stored transaction. *)
Record AccItem := mkAccItem {
  ai_medicineName : string;
  ai_quantity : Q;
  ai_price : Q;
  ai_discount : Q;
  ai_taxRate : Q;
  ai_taxableAmount : Q;
  ai_taxAmount : Q;
  ai_totalAmount : Q
}.

(** An id given as a string: the fixture's literals, or the [id] of a
    [POST] body; otherwise [POST] uses [Date.now().toString()], the
    decimal rendering of the clock, which is injective. *)
Inductive TxId := FixtureId (s : string) | ClockId (ms : Z).

(** A stored transaction.  [discountAmount] is not checked by [POST] and
    may be [undefined] ([None]). *)
Record AccTransaction := mkTx {
  tx_id : TxId;
  tx_date : DateStr;
  tx_type : TxType;
  tx_items : list AccItem;
  tx_invoiceNumber : string;
  tx_customerName : option string;
  tx_supplierName : option string;
  tx_gstNumber : option string;
  tx_totalAmount : Q;
  tx_taxAmount : Q;
  tx_discountAmount : option Q;
  tx_netAmount : Q;
  tx_paymentMethod : option string;
  tx_financialYear : string;
  tx_notes : option string
}.

Definition item1 := mkAccItem "Paracetamol 500mg" 10 12 0 12 120 14.4 134.4.
Definition item2 := mkAccItem "Amoxicillin 250mg" 50 45 5 12 2250 270 2520.
Definition item3 := mkAccItem "Ibuprofen 400mg" 20 18 10 12 360 43.2 403.2.

(** [let accountingTransactions = [...]]: the initial store. *)
Definition accountingTransactions : list AccTransaction :=
  [ mkTx (FixtureId "1") (IsoDate 2024 4 15) Sell [item1] "INV-2024-001"
      (Some "ABC Medical Store") None (Some "27AABCU9603R1ZX")
      134.4 14.4 (Some 0) 134.4 (Some "Cash") "2024-2025" (Some "Regular sale");
    mkTx (FixtureId "2") (IsoDate 2024 4 16) Purchase [item2] "PUR-2024-001"
      None (Some "PharmaCorp Ltd") (Some "27AABCU9603R1ZY")
      2520 270 (Some 112.5) 2677.5 (Some "Bank Transfer") "2024-2025" (Some "Bulk purchase");
    mkTx (FixtureId "3") (IsoDate 2024 4 17) Sell [item3] "INV-2024-002"
      (Some "XYZ Pharmacy") None (Some "27AABCU9603R1ZZ")
      403.2 43.2 (Some 36) 410.4 (Some "Credit Card") "2024-2025" (Some "Discount applied") ].

(** The query string of a [GET]; [Some EmptyDate] is an empty parameter. *)
Record Query := mkQuery {
  q_financialYear : option string;
  q_from : option DateStr;
  q_to : option DateStr
}.

Definition dateTime (d : DateStr) : option Z :=
  match d with
  | EmptyDate => None
  | IsoDate y m dd => Some (date_value y m dd)
  end.

(** [new Date(from)] for a parameter that is present and non-empty. *)
Definition paramTime (p : option DateStr) : option Z :=
  match p with Some d => dateTime d | None => None end.

(** [transactionDate >= fromDate && transactionDate <= toDate]; an invalid
    date compares false. *)
Definition inRange (fromT toT : Z) (t : AccTransaction) : bool :=
  match dateTime (tx_date t) with
  | Some x => (fromT <=? x)%Z && (x <=? toT)%Z
  | None => false
  end.

Definition isSell (t : AccTransaction) : bool :=
  match tx_type t with Sell => true | _ => false end.

Definition isPurchase (t : AccTransaction) : bool :=
  match tx_type t with Purchase => true | _ => false end.

(** JavaScript addition on numbers that may be [undefined]: the sum is NaN
    ([None]) as soon as one operand is. *)
Definition nan_add (acc x : option Q) : option Q :=
  match acc, x with
  | Some a, Some b => Some (a + b)
  | _, _ => None
  end.

Record TaxSummary := mkTaxSummary {
  totalSales : Q;
  totalPurchases : Q;
  totalTaxCollected : Q;
  totalTaxPaid : Q;
  totalDiscounts : option Q;
  netTaxLiability : Q
}.

(** The [taxSummary] object of [GET]. *)
Definition taxSummary (filteredTransactions : list AccTransaction) : TaxSummary :=
  let sales := filter isSell filteredTransactions in
  let purchases := filter isPurchase filteredTransactions in
  {| totalSales := reduce_sum tx_netAmount sales;
     totalPurchases := reduce_sum tx_netAmount purchases;
     totalTaxCollected := reduce_sum tx_taxAmount sales;
     totalTaxPaid := reduce_sum tx_taxAmount purchases;
     totalDiscounts :=
       fold_left (fun sum t => nan_add sum (tx_discountAmount t)) filteredTransactions (Some 0);
     netTaxLiability := reduce_sum tx_taxAmount sales - reduce_sum tx_taxAmount purchases |}.

Definition defaultFinancialYear : string := "2024-2025".

(** [searchParams.get('financialYear') || '2024-2025'] *)
Definition requestedYear (q : Query) : string :=
  match q_financialYear q with
  | Some s => if String.eqb s "" then defaultFinancialYear else s
  | None => defaultFinancialYear
  end.

(** The two filters of [GET]; the date range applies only when both
    [from] and [to] are non-empty. *)
Definition filterTransactions (q : Query) (store : list AccTransaction) : list AccTransaction :=
  let fy := requestedYear q in
  let filtered := filter (fun t => String.eqb (tx_financialYear t) fy) store in
  match paramTime (q_from q), paramTime (q_to q) with
  | Some fromT, Some toT => filter (inRange fromT toT) filtered
  | _, _ => filtered
  end.

Record GetResponse := mkGetResponse {
  transactions : list AccTransaction;
  summary : TaxSummary;
  total : nat
}.

(** [GET(request)] *)
Definition GET (q : Query) (store : list AccTransaction) : GetResponse :=
  let filtered := filterTransactions q store in
  {| transactions := filtered; summary := taxSummary filtered;
     total := List.length filtered |}.

(** The JSON body of a [POST]; a missing key is [None]. *)
Record Body := mkBody {
  b_id : option string;
  b_date : option DateStr;
  b_type : option string;
  b_items : option (list AccItem);
  b_invoiceNumber : option string;
  b_customerName : option string;
  b_supplierName : option string;
  b_gstNumber : option string;
  b_totalAmount : option Q;
  b_taxAmount : option Q;
  b_discountAmount : option Q;
  b_netAmount : option Q;
  b_paymentMethod : option string;
  b_financialYear : option string;
  b_notes : option string
}.

Inductive PostResponse :=
| PostOk (t : AccTransaction)
| BadRequest
| ServerError.

Definition is_empty_date (d : DateStr) : bool :=
  match d with EmptyDate => true | IsoDate _ _ _ => false end.

(** [POST(request)] at clock [now]; [None] is a body that is not JSON
    ([request.json()] throws, answered with status 500).  The stored
    transaction is [{ id: Date.now().toString(), ...body, financialYear,
    timestamp }]: the body's keys overwrite [id], and [financialYear]
    and [timestamp] overwrite the body's (the timestamp is not kept).
    The required-field test is JavaScript falsiness: an empty string or
    the number [0] fails it. *)
Definition POST (now : Z) (body : option Body) (store : list AccTransaction)
  : PostResponse * list AccTransaction :=
  match body with
  | None => (ServerError, store)
  | Some b =>
    match b_date b, b_type b, b_items b, b_invoiceNumber b,
          b_totalAmount b, b_taxAmount b, b_netAmount b with
    | Some d, Some ty, Some its, Some inv, Some tot, Some tax, Some net =>
        if is_empty_date d || String.eqb ty "" || String.eqb inv "" ||
           Qeq_bool tot 0 || Qeq_bool tax 0 || Qeq_bool net 0
        then (BadRequest, store)
        else
          let fy := match b_financialYear b with
                    | Some s => if String.eqb s "" then defaultFinancialYear else s
                    | None => defaultFinancialYear
                    end in
          let id := match b_id b with Some s => FixtureId s | None => ClockId now end in
          let t := mkTx id d (txTypeOfString ty) its inv
                     (b_customerName b) (b_supplierName b) (b_gstNumber b)
                     tot tax (b_discountAmount b) net (b_paymentMethod b) fy (b_notes b) in
          (PostOk t, (store ++ [t])%list)
    | _, _, _, _, _, _, _ => (BadRequest, store)
    end
  end.

(** The line pricing of spec 4.2 ([priceLine]); no code of [src/] computes
    it, the fixture stores its results. *)
Definition priceLine (it : AccItem) : Q * Q * Q :=
  let taxable := ai_quantity it * ai_price it * (1 - ai_discount it / 100) in
  let tax := taxable * ai_taxRate it / 100 in
  (taxable, tax, taxable + tax).

End Route.

Section RouteTheorems.
Import Route.
Local Open Scope string_scope.

Definition noRange (fy : string) : Query := mkQuery (Some fy) None None.

Lemma requestedYear_noRange fy : fy <> "" -> requestedYear (noRange fy) = fy.
Proof.
  intros H. unfold requestedYear, noRange. simpl.
  destruct (String.eqb_spec fy ""); [contradiction | reflexivity].
Qed.

(** What an accepted [POST] stores. *)
Lemma POST_ok_inv now b store t store' :
  POST now (Some b) store = (PostOk t, store') ->
  store' = (store ++ [t])%list /\ tx_financialYear t <> "" /\
  tx_discountAmount t = b_discountAmount b.
Proof.
  unfold POST.
  destruct (b_date b), (b_type b), (b_items b), (b_invoiceNumber b),
           (b_totalAmount b), (b_taxAmount b), (b_netAmount b); try discriminate.
  destruct (_ || _ || _ || _ || _ || _); [discriminate|].
  intros H; inversion H; subst; clear H. simpl.
  repeat split; try reflexivity.
  destruct (b_financialYear b) as [yr|]; [|discriminate].
  destruct (String.eqb_spec yr "") as [_|Hne]; [discriminate | exact Hne].
Qed.

Lemma filterTransactions_noRange fy store :
  fy <> "" ->
  filterTransactions (noRange fy) store =
  filter (fun t => String.eqb (tx_financialYear t) fy) store.
Proof. intros H. unfold filterTransactions. rewrite requestedYear_noRange by exact H. reflexivity. Qed.

Lemma nan_fold_none (l : list AccTransaction) :
  fold_left (fun sum t => nan_add sum (tx_discountAmount t)) l None = None.
Proof. induction l as [|x l IH]; simpl; [reflexivity | exact IH]. Qed.

(** Spec 8: on the initial store, the default [GET] (financial year
    2024-2025) returns the three transactions with sales 544.8, purchases
    2677.5, tax collected 57.6, tax paid 270, net tax liability -212.4 and
    discounts 148.5. *)
Theorem fixture_summary :
  let r := GET (mkQuery None None None) accountingTransactions in
  total r = 3%nat /\
  totalSales (summary r) == 544.8 /\ totalPurchases (summary r) == 2677.5 /\
  totalTaxCollected (summary r) == 57.6 /\ totalTaxPaid (summary r) == 270 /\
  netTaxLiability (summary r) == -212.4 /\
  (exists d, totalDiscounts (summary r) = Some d /\ d == 148.5).
Proof.
  vm_compute. repeat split; try reflexivity. eexists. split; reflexivity.
Qed.

(** The sales and purchase totals of the summary partition the net
    amounts of the filtered transactions, up to the transactions whose type
    is neither ['sell'] nor ['purchase'] (which [POST] accepts): those are
    in no total but still in [totalDiscounts]. *)
Theorem summary_partition q store :
  let f := filterTransactions q store in
  totalSales (summary (GET q store)) + totalPurchases (summary (GET q store)) +
  reduce_sum tx_netAmount (filter (fun t => negb (isSell t || isPurchase t)) f) ==
  reduce_sum tx_netAmount f.
Proof.
  simpl. rewrite !reduce_sum_qsum.
  rewrite (qsum_filter_split isSell tx_netAmount (filterTransactions q store)).
  rewrite (qsum_filter_split isPurchase tx_netAmount
             (filter (fun x => negb (isSell x)) (filterTransactions q store))).
  rewrite !filter_filter_and.
  rewrite (qsum_filter_ext (fun x => negb (isSell x) && isPurchase x) isPurchase)
    by (intros t; unfold isSell, isPurchase; destruct (tx_type t); reflexivity).
  rewrite (qsum_filter_ext (fun x => negb (isSell x) && negb (isPurchase x))
             (fun t => negb (isSell t || isPurchase t)))
    by (intros t; destruct (isSell t), (isPurchase t); reflexivity).
  ring.
Qed.

(** C8. [POST] rejects with status 400, and leaves the store unchanged,
    any transaction whose total, tax or net amount is zero: a tax-exempt
    sale cannot be recorded. *)
Theorem post_rejects_zero_amount now b store :
  (exists z, (b_totalAmount b = Some z \/ b_taxAmount b = Some z \/ b_netAmount b = Some z)
             /\ z == 0) ->
  POST now (Some b) store = (BadRequest, store).
Proof.
  intros [z [Hsome Hz]]. unfold POST.
  destruct (b_date b), (b_type b), (b_items b), (b_invoiceNumber b),
           (b_totalAmount b) as [tot|] eqn:Et, (b_taxAmount b) as [tax|] eqn:Ex,
           (b_netAmount b) as [net|] eqn:En; try reflexivity.
  assert (Hq : Qeq_bool tot 0 = true \/ Qeq_bool tax 0 = true \/ Qeq_bool net 0 = true).
  { destruct Hsome as [H|[H|H]]; [left | right; left | right; right];
      rewrite ?Et, ?Ex, ?En in H; injection H as <-; apply Qeq_bool_iff; exact Hz. }
  destruct Hq as [H|[H|H]]; rewrite H, ?orb_true_r; reflexivity.
Qed.

(** C9. A recorded transaction is returned by the next [GET] of its
    financial year, after the transactions stored before it, and moves the
    summary by exactly its own amounts: its net amount and tax go to the
    sales side for a sale, to the purchase side for a purchase. *)
Theorem post_then_get now b store t store' :
  POST now (Some b) store = (PostOk t, store') ->
  let q := noRange (tx_financialYear t) in
  transactions (GET q store') = (transactions (GET q store) ++ [t])%list /\
  totalSales (summary (GET q store')) ==
    totalSales (summary (GET q store)) + (if isSell t then tx_netAmount t else 0) /\
  totalTaxCollected (summary (GET q store')) ==
    totalTaxCollected (summary (GET q store)) + (if isSell t then tx_taxAmount t else 0) /\
  totalPurchases (summary (GET q store')) ==
    totalPurchases (summary (GET q store)) + (if isPurchase t then tx_netAmount t else 0) /\
  totalTaxPaid (summary (GET q store')) ==
    totalTaxPaid (summary (GET q store)) + (if isPurchase t then tx_taxAmount t else 0).
Proof.
  intros Hpost. destruct (POST_ok_inv _ _ _ _ _ Hpost) as [-> [Hfy _]].
  simpl. rewrite !filterTransactions_noRange by exact Hfy.
  rewrite filter_app. simpl. rewrite String.eqb_refl.
  split; [reflexivity|].
  rewrite !filter_app, !reduce_sum_qsum, !qsum_app. simpl.
  destruct (isSell t), (isPurchase t); simpl; repeat split; ring.
Qed.

(** A [POST] changes no [GET] of another financial year, whatever its
    date range. *)
Theorem post_other_year_unchanged now b store t store' fy from to :
  POST now (Some b) store = (PostOk t, store') ->
  fy <> "" -> fy <> tx_financialYear t ->
  GET (mkQuery (Some fy) from to) store' = GET (mkQuery (Some fy) from to) store.
Proof.
  intros Hpost Hne Hfy. destruct (POST_ok_inv _ _ _ _ _ Hpost) as [-> _].
  unfold GET, filterTransactions, requestedYear. simpl.
  destruct (String.eqb_spec fy "") as [E|_]; [contradiction|].
  rewrite filter_app. simpl.
  destruct (String.eqb_spec (tx_financialYear t) fy) as [E|_]; [congruence|].
  rewrite app_nil_r. reflexivity.
Qed.

(** [POST] does not require [discountAmount], and [GET] adds it up
    with JavaScript's [+]: once a transaction without it is recorded, the
    year's [totalDiscounts] is NaN. *)
Theorem post_missing_discount_nan now b store t store' :
  POST now (Some b) store = (PostOk t, store') ->
  b_discountAmount b = None ->
  totalDiscounts (summary (GET (noRange (tx_financialYear t)) store')) = None.
Proof.
  intros Hpost Hd. destruct (POST_ok_inv _ _ _ _ _ Hpost) as [-> [Hfy Hdisc]].
  simpl. rewrite filterTransactions_noRange by exact Hfy.
  rewrite filter_app, fold_left_app. simpl. rewrite String.eqb_refl. simpl.
  rewrite Hdisc, Hd. destruct (fold_left _ _ _); reflexivity.
Qed.

(** The stored fixture does not follow the spec's pricing: the
    Amoxicillin and Ibuprofen lines store a taxable amount without their
    line discount (2250 where [priceLine] gives 2137.5, 360 where it gives
    324), and their net amounts are total + tax - discount, not the spec's
    total - discount; only the undiscounted Paracetamol sale agrees. *)
Theorem fixture_vs_priceLine :
  fst (fst (priceLine item1)) == ai_taxableAmount item1 /\
  fst (fst (priceLine item2)) == 2137.5 /\ ~ (fst (fst (priceLine item2)) == ai_taxableAmount item2) /\
  fst (fst (priceLine item3)) == 324 /\ ~ (fst (fst (priceLine item3)) == ai_taxableAmount item3) /\
  Forall (fun t => exists d, tx_discountAmount t = Some d /\
                   tx_netAmount t == tx_totalAmount t + tx_taxAmount t - d /\
                   ~ (tx_netAmount t == tx_totalAmount t - d))
         (tl accountingTransactions).
Proof.
  repeat split; try (vm_compute; reflexivity); try (intros H; vm_compute in H; discriminate).
  cbn [tl accountingTransactions].
  repeat constructor; eexists; (split; [reflexivity|]);
    (split; [vm_compute; reflexivity | intros H; vm_compute in H; discriminate]).
Qed.

End RouteTheorems.

Section RouteWitnesses.
Import Route.
Local Open Scope string_scope.

(** A sale of 10 Paracetamol on 2024-04-18, posted without a financial
    year and without [discountAmount]. *)
Definition saleBody (tax : Q) (disc : option Q) : Body :=
  mkBody None (Some (IsoDate 2024 4 18)) (Some "sell") (Some [item1]) (Some "INV-2024-003")
    (Some "ABC Medical Store") None None (Some 134.4) (Some tax) disc (Some 134.4)
    (Some "Cash") None None.

Definition saleTx (disc : option Q) : AccTransaction :=
  mkTx (ClockId 1713398400000) (IsoDate 2024 4 18) Sell [item1] "INV-2024-003"
    (Some "ABC Medical Store") None None 134.4 14.4 disc 134.4 (Some "Cash") "2024-2025" None.

Lemma post_sale disc :
  POST 1713398400000 (Some (saleBody 14.4 disc)) accountingTransactions =
  (PostOk (saleTx disc), (accountingTransactions ++ [saleTx disc])%list).
Proof. reflexivity. Qed.

Lemma post_rejects_zero_amount_witness :
  POST 1713398400000 (Some (saleBody 0 (Some 0))) accountingTransactions =
  (BadRequest, accountingTransactions).
Proof.
  apply post_rejects_zero_amount. exists 0. split; [right; left; reflexivity | reflexivity].
Defined.

Lemma post_then_get_witness :
  totalSales (summary (GET (noRange "2024-2025")
                         (accountingTransactions ++ [saleTx (Some 0)])%list)) == 679.2 /\
  (let q := noRange (tx_financialYear (saleTx (Some 0))) in
   transactions (GET q (accountingTransactions ++ [saleTx (Some 0)])%list) =
     (transactions (GET q accountingTransactions) ++ [saleTx (Some 0)])%list /\
   totalSales (summary (GET q (accountingTransactions ++ [saleTx (Some 0)])%list)) ==
     totalSales (summary (GET q accountingTransactions)) +
     (if isSell (saleTx (Some 0)) then tx_netAmount (saleTx (Some 0)) else 0) /\
   totalTaxCollected (summary (GET q (accountingTransactions ++ [saleTx (Some 0)])%list)) ==
     totalTaxCollected (summary (GET q accountingTransactions)) +
     (if isSell (saleTx (Some 0)) then tx_taxAmount (saleTx (Some 0)) else 0) /\
   totalPurchases (summary (GET q (accountingTransactions ++ [saleTx (Some 0)])%list)) ==
     totalPurchases (summary (GET q accountingTransactions)) +
     (if isPurchase (saleTx (Some 0)) then tx_netAmount (saleTx (Some 0)) else 0) /\
   totalTaxPaid (summary (GET q (accountingTransactions ++ [saleTx (Some 0)])%list)) ==
     totalTaxPaid (summary (GET q accountingTransactions)) +
     (if isPurchase (saleTx (Some 0)) then tx_taxAmount (saleTx (Some 0)) else 0)).
Proof.
  split; [vm_compute; reflexivity|].
  exact (post_then_get _ _ _ _ _ (post_sale (Some 0))).
Defined.

Lemma post_other_year_unchanged_witness :
  "2023-2024" <> "" /\ "2023-2024" <> tx_financialYear (saleTx None) /\
  GET (mkQuery (Some "2023-2024") None None) (accountingTransactions ++ [saleTx None])%list =
  GET (mkQuery (Some "2023-2024") None None) accountingTransactions.
Proof.
  split; [discriminate|]. split; [discriminate|].
  apply (post_other_year_unchanged _ _ _ _ _ _ _ _ (post_sale None)); discriminate.
Defined.

Lemma post_missing_discount_nan_witness :
  b_discountAmount (saleBody 14.4 None) = None /\
  totalDiscounts (summary (GET (noRange "2024-2025") (accountingTransactions ++ [saleTx None])%list))
  = None.
Proof.
  split; [reflexivity|].
  exact (post_missing_discount_nan _ _ _ _ _ (post_sale None) eq_refl).
Defined.

End RouteWitnesses.
