(* ===== verification/ScheduleH.v ===== *)
(** * ScheduleH: the prescription gate

    Module [Gate] models [TransactionForm.tsx] together with the
    [ScheduleHModal.tsx] it renders: the React state of both components
    ([selectedMedicine], [showScheduleHModal], [isSubmitting] of the form;
    [selectedFile], [isUploading] of the modal), the form values, and the
    requests posted to [/api/transactions].  Every handler is one case of
    [step]; an event whose control is disabled, or that the modal dialog's
    overlay blocks, is not enabled ([None]).  The asynchronous parts are
    split into events: the 2-second simulated upload ends with
    [UploadDone], a [fetch] ends with [Respond].  Requests carry, as a ghost
    field, the prescription file whose upload preceded them.

    The spec's state machine (4.3: Idle, AwaitingPrescriptionDecision,
    Uploaded/Skipped) is [APhase] with [astep]; [phase] maps a state to it.

    Module [Multi] models the gate of [MultiMedicineTransactionForm.tsx]
    ([onSubmit], [processTransaction]'s [scheduleHCount], and the row
    badge), which looks medicines up in its own four-entry list. *)

From Stdlib Require Import String.
From Stdlib Require Import ZArith QArith Lia List Bool.
From S2P Require Import Prelude JsNum Aggregator.
Import ListNotations.

Open Scope Z_scope.

Module Gate.
Import Form.
Local Open Scope string_scope.

(** [TransactionFormProps.type] *)
Inductive TxKind := KSell | KPurchase.

(** The [File] of the file input: name, MIME type, size in bytes. *)
Record FileInfo := mkFile { f_name : string; f_type : string; f_size : Z }.

(** [allowedTypes] and the [5 * 1024 * 1024] size limit of
    [handleFileChange]. *)
Definition allowedTypes : list string :=
  ["image/jpeg"; "image/jpg"; "image/png"; "application/pdf"].

Definition maxFileSize : Z := 5 * 1024 * 1024.

Definition fileValid (f : FileInfo) : bool :=
  existsb (String.eqb (f_type f)) allowedTypes && (f_size f <=? maxFileSize)%Z.

(** [TransactionFormData] ([transactionSchema] fields). *)
Record FormValues := mkValues {
  v_medicineId : string;
  v_medicineName : string;
  v_quantity : Q;
  v_price : Q;
  v_batch : string;
  v_supplier : string;
  v_expiryDate : string
}.

(** [defaultValues] (also what [form.reset()] restores). *)
Definition defaultValues : FormValues := mkValues "" "" 1 0 "" "" "".

(** [transactionSchema]: [min(1)] on id and name, [quantity >= 1],
    [price >= 0.01]; the optional fields always pass. *)
Definition valuesValid (v : FormValues) : bool :=
  (1 <=? String.length (v_medicineId v))%nat &&
  (1 <=? String.length (v_medicineName v))%nat &&
  Qle_bool 1 (v_quantity v) && Qle_bool (1 # 100) (v_price v).

(** The body of the [POST /api/transactions] request, with the ghost
    field [req_prescription]. *)
Record Request := mkRequest {
  req_values : FormValues;
  req_kind : TxKind;
  req_prescriptionSkipped : bool;
  req_scheduleH : bool;
  req_prescription : option FileInfo
}.

Record State := mkState {
  kind : TxKind;
  selectedMedicine : option SearchMedicine;
  values : FormValues;
  showScheduleHModal : bool;
  isSubmitting : bool;
  selectedFile : option FileInfo;
  isUploading : bool;
  uploadTimer : option FileInfo;
  uploadMedicine : option SearchMedicine;
  awaiting : nat;
  sent : list Request
}.

Definition initState (k : TxKind) : State :=
  mkState k None defaultValues false false None false None None 0 [].

Inductive Event :=
| SelectMedicine (m : SearchMedicine)
| SetQuantityText (t : string)
| SetPriceText (t : string)
| SetBatch (b : string)
| SetSupplier (b : string)
| SetExpiryDate (d : string)
| Submit
| ChooseFile (f : FileInfo)
| ClickUpload
| UploadDone
| ClickSkip
| CloseDialog
| Respond (ok : bool).

(** The quantity input's [onChange]: [parseInt(e.target.value) || 0]. *)
Definition quantityOfInput (t : string) : Q :=
  match JsNum.parseInt t with Some z => inject_Z z | None => 0 end.

(** The price input's [onChange]: [parseFloat(e.target.value) || 0]. *)
Definition priceOfInput (t : string) : Q :=
  match JsNum.parseFloat t with Some q => q | None => 0 end.

(** [selectedMedicine?.schedule === 'H'] *)
Definition isScheduleH (m : option SearchMedicine) : bool :=
  match m with
  | Some med => match sm_schedule med with Some s => String.eqb s "H" | None => false end
  | None => false
  end.

(** [onMedicineSelect(medicine)]: the search rows have no batch, supplier
    or expiry date, so a purchase gets [''] for each ([medicine.batch || '']). *)
Definition onMedicineSelect (s : State) (m : SearchMedicine) : State :=
  let v := values s in
  let v' := match kind s with
            | KPurchase => mkValues (sm_id m) (sm_name m) (v_quantity v) (sm_price m) "" "" ""
            | KSell => mkValues (sm_id m) (sm_name m) (v_quantity v) (sm_price m)
                         (v_batch v) (v_supplier v) (v_expiryDate v)
            end in
  {| kind := kind s; selectedMedicine := Some m; values := v';
     showScheduleHModal := showScheduleHModal s; isSubmitting := isSubmitting s;
     selectedFile := selectedFile s; isUploading := isUploading s;
     uploadTimer := uploadTimer s; uploadMedicine := uploadMedicine s; awaiting := awaiting s; sent := sent s |}.

Definition setValues (s : State) (v : FormValues) : State :=
  {| kind := kind s; selectedMedicine := selectedMedicine s; values := v;
     showScheduleHModal := showScheduleHModal s; isSubmitting := isSubmitting s;
     selectedFile := selectedFile s; isUploading := isUploading s;
     uploadTimer := uploadTimer s; uploadMedicine := uploadMedicine s; awaiting := awaiting s; sent := sent s |}.

(** [processTransaction(data, prescriptionSkipped)] up to the [fetch]:
    [isSubmitting] is set and the request leaves.  [sel] is the
    [selectedMedicine] of the render whose closure calls it; the form
    values are read live ([form.getValues()]). *)
Definition processTransaction (sel : option SearchMedicine) (s : State) (skipped : bool)
  (rx : option FileInfo) : State :=
  let r := mkRequest (values s) (kind s) skipped (isScheduleH sel) rx in
  {| kind := kind s; selectedMedicine := selectedMedicine s; values := values s;
     showScheduleHModal := showScheduleHModal s; isSubmitting := true;
     selectedFile := selectedFile s; isUploading := isUploading s;
     uploadTimer := uploadTimer s; uploadMedicine := uploadMedicine s; awaiting := S (awaiting s); sent := (sent s ++ [r])%list |}.

(** [resetModal()]: clear the file, stop uploading, [onClose()] hides the
    dialog. *)
Definition resetModal (s : State) : State :=
  {| kind := kind s; selectedMedicine := selectedMedicine s; values := values s;
     showScheduleHModal := false; isSubmitting := isSubmitting s;
     selectedFile := None; isUploading := false;
     uploadTimer := uploadTimer s; uploadMedicine := uploadMedicine s; awaiting := awaiting s; sent := sent s |}.

Definition setModal (s : State) (show : bool) (file : option FileInfo) (uploading : bool)
  (timer : option FileInfo) : State :=
  {| kind := kind s; selectedMedicine := selectedMedicine s; values := values s;
     showScheduleHModal := show; isSubmitting := isSubmitting s;
     selectedFile := file; isUploading := uploading;
     uploadTimer := timer; uploadMedicine := uploadMedicine s; awaiting := awaiting s; sent := sent s |}.

(** [handleUpload()] started: [setIsUploading(true)] and the 2 s timer.
    The [onComplete] the timer will call is [handleScheduleHComplete] of
    this render, whose [processTransaction] reads [selectedMedicine] from
    this render: it is kept with the timer. *)
Definition startUpload (s : State) (f : FileInfo) : State :=
  {| kind := kind s; selectedMedicine := selectedMedicine s; values := values s;
     showScheduleHModal := true; isSubmitting := isSubmitting s;
     selectedFile := Some f; isUploading := true;
     uploadTimer := Some f; uploadMedicine := selectedMedicine s; awaiting := awaiting s; sent := sent s |}.

(** The end of a [fetch]: on success [form.reset()],
    [setSelectedMedicine(null)], [setShowScheduleHModal(false)]; in
    [finally], [setIsSubmitting(false)]. *)
Definition onResponse (s : State) (ok : bool) : State :=
  {| kind := kind s;
     selectedMedicine := if ok then None else selectedMedicine s;
     values := if ok then defaultValues else values s;
     showScheduleHModal := if ok then false else showScheduleHModal s;
     isSubmitting := false;
     selectedFile := selectedFile s; isUploading := isUploading s;
     uploadTimer := uploadTimer s; uploadMedicine := uploadMedicine s; awaiting := pred (awaiting s); sent := sent s |}.

(** One event.  The page's controls are behind the dialog's overlay while
    it is open. *)
Definition step (s : State) (e : Event) : option State :=
  match e with
  | SelectMedicine m =>
      if showScheduleHModal s then None else Some (onMedicineSelect s m)
  | SetQuantityText t =>
      if showScheduleHModal s then None
      else let v := values s in
           Some (setValues s (mkValues (v_medicineId v) (v_medicineName v) (quantityOfInput t)
                                (v_price v) (v_batch v) (v_supplier v) (v_expiryDate v)))
  | SetPriceText t =>
      if showScheduleHModal s then None
      else let v := values s in
           Some (setValues s (mkValues (v_medicineId v) (v_medicineName v) (v_quantity v)
                                (priceOfInput t) (v_batch v) (v_supplier v) (v_expiryDate v)))
  | SetBatch b =>
      (* the batch, supplier and expiry inputs exist only for a purchase *)
      if showScheduleHModal s then None
      else match kind s with
           | KPurchase => let v := values s in
               Some (setValues s (mkValues (v_medicineId v) (v_medicineName v) (v_quantity v)
                                    (v_price v) b (v_supplier v) (v_expiryDate v)))
           | KSell => None
           end
  | SetSupplier b =>
      if showScheduleHModal s then None
      else match kind s with
           | KPurchase => let v := values s in
               Some (setValues s (mkValues (v_medicineId v) (v_medicineName v) (v_quantity v)
                                    (v_price v) (v_batch v) b (v_expiryDate v)))
           | KSell => None
           end
  | SetExpiryDate d =>
      if showScheduleHModal s then None
      else match kind s with
           | KPurchase => let v := values s in
               Some (setValues s (mkValues (v_medicineId v) (v_medicineName v) (v_quantity v)
                                    (v_price v) (v_batch v) (v_supplier v) d))
           | KSell => None
           end
  | Submit =>
      (* button disabled while submitting; [handleSubmit] runs zod first *)
      if showScheduleHModal s || isSubmitting s then None
      else if negb (valuesValid (values s)) then Some s
      else match kind s with
           | KSell =>
               if isScheduleH (selectedMedicine s)
               then Some (setModal s true (selectedFile s) (isUploading s) (uploadTimer s))
               else Some (processTransaction (selectedMedicine s) s false None)
           | KPurchase => Some (processTransaction (selectedMedicine s) s false None)
           end
  | ChooseFile f =>
      (* [handleFileChange]: the input is disabled while uploading *)
      if negb (showScheduleHModal s) || isUploading s then None
      else if negb (existsb (String.eqb (f_type f)) allowedTypes) then Some s
      else if (maxFileSize <? f_size f)%Z then Some s
      else Some (setModal s true (Some f) false (uploadTimer s))
  | ClickUpload =>
      (* disabled={!selectedFile || isUploading} *)
      if negb (showScheduleHModal s) || isUploading s then None
      else match selectedFile s with
           | None => None
           | Some f => Some (startUpload s f)
           end
  | UploadDone =>
      (* after the 2 s delay: the [onComplete(true)] of the render that
         started the upload, then [resetModal()] *)
      match uploadTimer s with
      | None => None
      | Some f =>
          let s1 := processTransaction (uploadMedicine s) s false (Some f) in
          let s2 := resetModal s1 in
          Some (setModal s2 false None false None)
      end
  | ClickSkip =>
      (* [handleSkip]: [onComplete(false)], then [resetModal()] *)
      if negb (showScheduleHModal s) || isUploading s then None
      else Some (resetModal (processTransaction (selectedMedicine s) s true None))
  | CloseDialog =>
      (* the dialog's [onOpenChange] calls [onClose] *)
      if showScheduleHModal s
      then Some (setModal s false (selectedFile s) (isUploading s) (uploadTimer s))
      else None
  | Respond ok =>
      match awaiting s with
      | O => None
      | S _ => Some (onResponse s ok)
      end
  end.

(** Running a sequence of events; a disabled event stops the run. *)
Fixpoint run (s : State) (es : list Event) : option State :=
  match es with
  | [] => Some s
  | e :: es' => match step s e with Some s' => run s' es' | None => None end
  end.

(** Reachable states, by rule induction. *)
Inductive reachable (k : TxKind) : State -> Prop :=
| reach_init : reachable k (initState k)
| reach_step s e s' : reachable k s -> step s e = Some s' -> reachable k s'.

(** Spec 4.3's phases. *)
Inductive APhase := Idle | Awaiting | Uploading.

Definition phase (s : State) : APhase :=
  match uploadTimer s with
  | Some _ => Uploading
  | None => if showScheduleHModal s then Awaiting else Idle
  end.

(** The spec's transitions, labelled by the requests they post.  Two are
    not in the spec: [ACancel] (the dialog is closed, or a late successful
    response closes it: the sale is abandoned) and [ASendBehind] (the
    dialog was closed during an upload, which keeps running while another
    sale is submitted). *)
Inductive astep : APhase -> list Request -> APhase -> Prop :=
| AQuiet p : astep p [] p
| ASend r : astep Idle [r] Idle
| AGate : astep Idle [] Awaiting
| AUploadStart : astep Awaiting [] Uploading
| AUploaded r : req_prescriptionSkipped r = false -> astep Uploading [r] Idle
| ASkipped r : req_prescriptionSkipped r = true -> astep Awaiting [r] Idle
| ACancel : astep Awaiting [] Idle
| ASendBehind r : astep Uploading [r] Uploading.

End Gate.

Section GateTheorems.
Import Form Gate.

(** What every reachable state satisfies. *)
Definition Inv (s : State) : Prop :=
  (forall f, selectedFile s = Some f -> fileValid f = true) /\
  (forall f, uploadTimer s = Some f -> fileValid f = true) /\
  (isUploading s = true <-> uploadTimer s <> None) /\
  (forall r, In r (sent s) -> req_kind r = KSell -> req_scheduleH r = true ->
     req_prescriptionSkipped r = false ->
     exists f, req_prescription r = Some f /\ fileValid f = true).

Ltac split_ifs H :=
  repeat match type of H with
  | context [if ?c then _ else _] => let E := fresh "E" in destruct c eqn:E
  | context [match ?x with Some _ => _ | None => _ end] =>
      let E := fresh "E" in destruct x eqn:E
  | context [match ?x with O => _ | S _ => _ end] =>
      let E := fresh "E" in destruct x eqn:E
  | context [match ?x with KSell => _ | KPurchase => _ end] =>
      let E := fresh "E" in destruct x eqn:E
  end.

Lemma sent_app_inv (s : State) r :
  (forall r', In r' (sent s) -> req_kind r' = KSell -> req_scheduleH r' = true ->
     req_prescriptionSkipped r' = false ->
     exists f, req_prescription r' = Some f /\ fileValid f = true) ->
  (req_kind r = KSell -> req_scheduleH r = true -> req_prescriptionSkipped r = false ->
     exists f, req_prescription r = Some f /\ fileValid f = true) ->
  forall r', In r' (sent s ++ [r])%list -> req_kind r' = KSell -> req_scheduleH r' = true ->
     req_prescriptionSkipped r' = false ->
     exists f, req_prescription r' = Some f /\ fileValid f = true.
Proof.
  intros Hold Hnew r' Hin. apply in_app_or in Hin as [Hin|[<-|[]]]; auto.
Qed.

Lemma fileValid_intro f :
  existsb (String.eqb (f_type f)) allowedTypes = true ->
  (f_size f <= maxFileSize)%Z -> fileValid f = true.
Proof. intros H1 H2. unfold fileValid. rewrite H1. simpl. apply Z.leb_le. exact H2. Qed.

Lemma step_preserves_Inv s e s' : Inv s -> step s e = Some s' -> Inv s'.
Proof.
  intros (Hfile & Htimer & [Hup1 Hup2] & Hsent) Hstep.
  destruct e; simpl in Hstep; split_ifs Hstep;
    try discriminate; injection Hstep as <-; bool_prop; unfold Inv; simpl;
    repeat split; auto; try (intros; discriminate); try congruence;
    try (apply sent_app_inv; [exact Hsent|]; simpl; intros; try discriminate; try congruence).
  all: try (intros f' [= <-]; first [apply Hfile; assumption | apply fileValid_intro; assumption]).
  all: try (let Hn := fresh in intros Hn; apply Hup2 in Hn; congruence).
  all: eexists; split; [reflexivity | apply Htimer; first [assumption | reflexivity]].
Qed.

Lemma initState_Inv k : Inv (initState k).
Proof. unfold Inv, initState; simpl. repeat split; intros; try discriminate; try contradiction. Qed.

(** C11. Every reachable state of the gate keeps its promises: a selected
    or uploading prescription file passed the type and size checks of
    [handleFileChange], [isUploading] is set exactly while an upload runs,
    and every Schedule-H sale recorded as not skipped carries such a file. *)
Theorem gate_invariant k s : reachable k s -> Inv s.
Proof.
  induction 1 as [|s e s' _ IH Hstep]; [apply initState_Inv | exact (step_preserves_Inv s e s' IH Hstep)].
Qed.

(** The dialog's upload flag follows the running upload. *)
Lemma reachable_uploading k s : reachable k s -> (isUploading s = true <-> uploadTimer s <> None).
Proof.
  intros Hr. enough (H : Inv s) by (destruct H as (_ & _ & H & _); exact H).
  induction Hr as [|s e s' _ IH Hstep]; [apply initState_Inv | exact (step_preserves_Inv s e s' IH Hstep)].
Qed.

(** C12. The gate cannot be passed by submitting: submitting a sale of a
    Schedule-H medicine sends nothing, and opens the prescription dialog
    when the form values are valid. *)
Theorem gate_blocks_submit s s' m :
  kind s = KSell -> selectedMedicine s = Some m -> isScheduleH (Some m) = true ->
  step s Submit = Some s' ->
  sent s' = sent s /\ (valuesValid (values s) = true -> showScheduleHModal s' = true).
Proof.
  intros Hk Hm HH Hstep. simpl in Hstep. rewrite Hk, Hm, HH in Hstep.
  destruct (showScheduleHModal s || isSubmitting s); [discriminate|].
  destruct (valuesValid (values s)); simpl in Hstep; injection Hstep as <-;
    split; simpl; try reflexivity; discriminate.
Qed.

(** C13. Refinement: every step of the components is a step of the spec's
    phase machine (with the two transitions the spec lacks), labelled by
    exactly the requests the step posts. *)
Theorem step_refines k s e s' :
  reachable k s -> step s e = Some s' ->
  exists rs, sent s' = (sent s ++ rs)%list /\ astep (phase s) rs (phase s').
Proof.
  intros Hr Hstep. destruct (reachable_uploading k s Hr) as [Hup1 Hup2].
  unfold phase.
  destruct e; simpl in Hstep; split_ifs Hstep; try discriminate;
    injection Hstep as <-; bool_prop; simpl;
    first [ exists []; rewrite app_nil_r; split; [reflexivity|]
          | eexists; split; [reflexivity|] ].
  all: simpl; rewrite ?E, ?E0, ?E1, ?E2.
  all: try (destruct (uploadTimer s) eqn:Et); try (destruct (showScheduleHModal s) eqn:Es);
       simpl in *; try discriminate.
  all: try solve [constructor; reflexivity | apply AQuiet].
  all: destruct ok; simpl; constructor.
Qed.

(** C14. The dialog keeps its selected file when it is closed: after
    closing it, selecting another Schedule-H medicine and submitting, the
    upload can be started at once and records the new sale as having a
    prescription, the file chosen for the previous medicine. *)
Theorem stale_prescription_reused s f m :
  kind s = KSell -> showScheduleHModal s = true -> selectedFile s = Some f ->
  isUploading s = false -> uploadTimer s = None -> isSubmitting s = false ->
  isScheduleH (Some m) = true ->
  (1 <= String.length (sm_id m))%nat -> (1 <= String.length (sm_name m))%nat ->
  (1 <= v_quantity (values s))%Q -> (1 # 100 <= sm_price m)%Q ->
  exists s', run s [CloseDialog; SelectMedicine m; Submit; ClickUpload; UploadDone] = Some s' /\
  exists r, sent s' = (sent s ++ [r])%list /\ v_medicineId (req_values r) = sm_id m /\
    req_scheduleH r = true /\ req_prescriptionSkipped r = false /\ req_prescription r = Some f.
Proof.
  intros Hk Hshow Hf Hup Ht Hsub HH Hid Hname Hq Hp.
  assert (Hv : valuesValid (mkValues (sm_id m) (sm_name m) (v_quantity (values s)) (sm_price m)
                 (v_batch (values s)) (v_supplier (values s)) (v_expiryDate (values s))) = true).
  { unfold valuesValid; cbn [v_medicineId v_medicineName v_quantity v_price].
    rewrite (proj2 (Nat.leb_le _ _) Hid), (proj2 (Nat.leb_le _ _) Hname),
            (proj2 (Qle_bool_iff _ _) Hq), (proj2 (Qle_bool_iff _ _) Hp). reflexivity. }
  unfold run. cbn -[valuesValid isScheduleH]. rewrite Hshow. cbn -[valuesValid isScheduleH].
  rewrite Hk, Hsub. cbn -[valuesValid isScheduleH]. rewrite Hv, HH. cbn -[valuesValid isScheduleH].
  rewrite Hup, Hf. cbn -[valuesValid isScheduleH].
  eexists; split; [reflexivity|]. eexists; repeat split; cbn; try reflexivity.
  all: first [rewrite Hk; reflexivity | exact HH].
Qed.

End GateTheorems.

Module Multi.
Import Form Gate.
Local Open Scope string_scope.

Definition med (i n : string) (st : Z) (p : Q) (sch : option string) : SearchMedicine :=
  mkSearchMedicine i n st p sch.

(** [mockMedicines] of [MultiMedicineTransactionForm.tsx]. *)
Definition multiMockMedicines : list SearchMedicine :=
  [ med "1" "Paracetamol 500mg" 150 12 None;
    med "2" "Amoxicillin 250mg" 80 45 (Some "H");
    med "3" "Crocin Tablets" 8 15 None;
    med "4" "Azithromycin 500mg" 25 120 (Some "H") ].

(** [mockMedicines] of [MedicineSearch.tsx]: what the search offers. *)
Definition searchMockMedicines : list SearchMedicine :=
  [ med "1" "Paracetamol 500mg" 150 12 None;
    med "2" "Amoxicillin 250mg" 80 45 (Some "H");
    med "3" "Crocin Tablets" 8 15 None;
    med "4" "Azithromycin 500mg" 25 120 (Some "H");
    med "5" "Ibuprofen 400mg" 200 18 None;
    med "6" "Cetirizine 10mg" 90 8 None;
    med "7" "Omeprazole 20mg" 60 35 None;
    med "8" "Metformin 500mg" 120 22 None;
    med "9" "Ciprofloxacin 500mg" 40 85 (Some "H");
    med "10" "Aspirin 75mg" 180 6 None ].

(** [mockMedicines.find(m => m.id === key)?.schedule === 'H'] *)
Definition lookupScheduleH (key : string) : bool :=
  isScheduleH (find (fun m => String.eqb (sm_id m) key) multiMockMedicines).

(** [data.items.filter(...)] of [onSubmit] (also [scheduleHCount]). *)
Definition scheduleHItems (its : list TransactionItem) : list TransactionItem :=
  filter (fun it => lookupScheduleH (medicineId it)) its.

Inductive Outcome :=
| OpenModal (hItems : list TransactionItem)
| Send (prescriptionSkipped : bool) (scheduleHCount : nat).

(** [form.handleSubmit(onSubmit)]: zod first, then the gate, else
    [processTransaction(data)]. *)
Definition multiSubmit (k : TxKind) (f : MultiTransactionFormData) : option Outcome :=
  if negb (formValid f) then None
  else let h := scheduleHItems (items f) in
       match k with
       | KSell => if (0 <? List.length h)%nat then Some (OpenModal h)
                  else Some (Send false (List.length (scheduleHItems (items f))))
       | KPurchase => Some (Send false (List.length (scheduleHItems (items f))))
       end.

(** The row badge: [mockMedicines.find(m => m.id ===
    form.watch(`items.${index}.medicineName`))]. *)
Definition rowBadgeShown (it : TransactionItem) : bool := lookupScheduleH (medicineName it).

End Multi.

Section MultiTheorems.
Import Form Gate Multi.

(** C15. The multi-medicine form gates only the medicines of its own
    four-entry list: a valid sale whose rows all name medicines outside it
    is sent at once, without prescription and with [scheduleHCount = 0],
    although the search offers Ciprofloxacin (id 9) as Schedule H. *)
Theorem multi_gate_misses_unlisted k f :
  formValid f = true ->
  Forall (fun it => find (fun m => String.eqb (sm_id m) (medicineId it)) multiMockMedicines = None)
         (items f) ->
  multiSubmit k f = Some (Send false 0).
Proof.
  intros Hv Hall. unfold multiSubmit. rewrite Hv. simpl.
  assert (Hh : scheduleHItems (items f) = []).
  { unfold scheduleHItems. induction Hall as [|it its Hit _ IH]; [reflexivity|].
    simpl. unfold lookupScheduleH. rewrite Hit. exact IH. }
  rewrite Hh. destruct k; reflexivity.
Qed.

(** The Schedule-H badge of a row never shows for a medicine picked
    from the search: the lookup compares the list's ids with the row's
    medicine name. *)
Theorem multi_row_badge_never_shown it :
  In (medicineName it) (map sm_name searchMockMedicines) -> rowBadgeShown it = false.
Proof.
  unfold rowBadgeShown. intros Hin. simpl in Hin.
  repeat destruct Hin as [<-|Hin]; try reflexivity. destruct Hin.
Qed.

End MultiTheorems.

(** ** Concrete runs *)

Section GateWitnesses.
Import Form Gate Multi.
Local Open Scope string_scope.

Lemma run_reachable k s es s' : reachable k s -> run s es = Some s' -> reachable k s'.
Proof.
  revert s; induction es as [|e es IH]; intros s Hr Hrun; simpl in Hrun.
  - injection Hrun as <-. exact Hr.
  - destruct (step s e) as [s1|] eqn:E; [|discriminate].
    apply (IH s1); [exact (reach_step k s e s1 Hr E) | exact Hrun].
Qed.

Definition amoxicillin := med "2" "Amoxicillin 250mg" 80 45 (Some "H").
Definition azithromycin := med "4" "Azithromycin 500mg" 25 120 (Some "H").
Definition rxA : FileInfo := mkFile "rx-patient-A.pdf" "application/pdf" 200000.

Definition after (es : list Event) : State :=
  match run (initState KSell) es with Some s => s | None => initState KSell end.

Lemma after_reachable es :
  run (initState KSell) es <> None -> reachable KSell (after es).
Proof.
  unfold after. destruct (run (initState KSell) es) eqn:E; [|congruence].
  intros _. exact (run_reachable KSell _ es s (reach_init KSell) E).
Qed.

(** Amoxicillin selected, submitted, a prescription chosen, uploaded. *)
Definition uploadedRun : list Event :=
  [SelectMedicine amoxicillin; Submit; ChooseFile rxA; ClickUpload; UploadDone].

Lemma gate_invariant_witness :
  reachable KSell (after uploadedRun) /\
  List.length (sent (after uploadedRun)) = 1%nat /\ Inv (after uploadedRun).
Proof.
  assert (Hr : reachable KSell (after uploadedRun))
    by (apply after_reachable; vm_compute; discriminate).
  split; [exact Hr|]. split; [vm_compute; reflexivity|].
  exact (gate_invariant KSell _ Hr).
Defined.

Lemma gate_blocks_submit_witness :
  step (after [SelectMedicine amoxicillin]) Submit = Some (after [SelectMedicine amoxicillin; Submit]) /\
  sent (after [SelectMedicine amoxicillin; Submit]) = sent (after [SelectMedicine amoxicillin]) /\
  (valuesValid (values (after [SelectMedicine amoxicillin])) = true ->
   showScheduleHModal (after [SelectMedicine amoxicillin; Submit]) = true).
Proof.
  assert (Hs : step (after [SelectMedicine amoxicillin]) Submit =
               Some (after [SelectMedicine amoxicillin; Submit])) by (vm_compute; reflexivity).
  split; [exact Hs|].
  apply (gate_blocks_submit (after [SelectMedicine amoxicillin]) _ amoxicillin);
    [vm_compute; reflexivity | vm_compute; reflexivity | reflexivity | exact Hs].
Defined.

Lemma step_refines_witness :
  reachable KSell (after [SelectMedicine amoxicillin; Submit; ChooseFile rxA; ClickUpload]) /\
  step (after [SelectMedicine amoxicillin; Submit; ChooseFile rxA; ClickUpload]) UploadDone =
    Some (after uploadedRun) /\
  exists rs, sent (after uploadedRun) =
    (sent (after [SelectMedicine amoxicillin; Submit; ChooseFile rxA; ClickUpload]) ++ rs)%list /\
    astep (phase (after [SelectMedicine amoxicillin; Submit; ChooseFile rxA; ClickUpload])) rs
          (phase (after uploadedRun)).
Proof.
  assert (Hr : reachable KSell (after [SelectMedicine amoxicillin; Submit; ChooseFile rxA; ClickUpload]))
    by (apply after_reachable; vm_compute; discriminate).
  assert (Hs : step (after [SelectMedicine amoxicillin; Submit; ChooseFile rxA; ClickUpload]) UploadDone =
               Some (after uploadedRun)) by (vm_compute; reflexivity).
  split; [exact Hr|]. split; [exact Hs|].
  exact (step_refines KSell _ _ _ Hr Hs).
Defined.

(** A prescription chosen for Amoxicillin, the dialog closed; then
    Azithromycin is sold with that file as its prescription. *)
Lemma stale_prescription_reused_witness :
  showScheduleHModal (after [SelectMedicine amoxicillin; Submit; ChooseFile rxA]) = true /\
  exists s', run (after [SelectMedicine amoxicillin; Submit; ChooseFile rxA])
               [CloseDialog; SelectMedicine azithromycin; Submit; ClickUpload; UploadDone] = Some s' /\
  exists r, sent s' = (sent (after [SelectMedicine amoxicillin; Submit; ChooseFile rxA]) ++ [r])%list /\
    v_medicineId (req_values r) = sm_id azithromycin /\ req_scheduleH r = true /\
    req_prescriptionSkipped r = false /\ req_prescription r = Some rxA.
Proof.
  split; [vm_compute; reflexivity|].
  apply stale_prescription_reused; vm_compute;
    first [reflexivity | lia | (intro H; discriminate)].
Defined.

(** Selling two Ciprofloxacin 500mg, Schedule H in the search list. *)
Definition ciproForm : MultiTransactionFormData :=
  mkForm [mkItem "9" "Ciprofloxacin 500mg" 2 85 0] 0 "" "".

Lemma multi_gate_misses_unlisted_witness :
  sm_schedule (nth 8 searchMockMedicines amoxicillin) = Some "H" /\
  formValid ciproForm = true /\
  multiSubmit KSell ciproForm = Some (Send false 0).
Proof.
  split; [reflexivity|]. split; [vm_compute; reflexivity|].
  apply multi_gate_misses_unlisted; [vm_compute; reflexivity|].
  repeat constructor.
Defined.

(** Azithromycin is Schedule H in the form's own list, yet its row shows
    no badge. *)
Lemma multi_row_badge_never_shown_witness :
  lookupScheduleH (medicineId (mkItem "4" "Azithromycin 500mg" 1 120 0)) = true /\
  rowBadgeShown (mkItem "4" "Azithromycin 500mg" 1 120 0) = false.
Proof.
  split; [reflexivity|].
  apply multi_row_badge_never_shown. simpl. tauto.
Defined.

End GateWitnesses.
