(* ===== verification/RxModal.v ===== *)
(** * RxModal: the Schedule-H prescription dialog as a component

    [src/src/components/ScheduleHModal.tsx] on its own: its React state
    ([selectedFile], [isUploading]), the simulated upload in progress, and
    its handlers [handleFileChange], [handleUpload], [handleSkip],
    [resetModal] and the dialog's [onOpenChange].  A step of the dialog
    returns the callbacks it makes, in their order: toasts and the props
    [onComplete] and [onClose].  What the page hosting the dialog does with
    them is a [Host]: a record of the two props as operations on the host's
    state, and [runCallbacks] performs them.

    [ScheduleH.Gate] models [TransactionForm.tsx] with the dialog inlined;
    [gate_is_modal_composition] shows that it is this component composed
    with the form's callbacks.  [MultiForm.v] hosts the same component. *)

From Stdlib Require Import ZArith QArith Lia List Bool String.
From S2P Require Import Prelude Aggregator ScheduleH.
Import ListNotations.

Module RxModal.
Import Gate.
Local Open Scope string_scope.

(** [selectedFile], [isUploading], and the pending [setTimeout] of
    [handleUpload] with the file it was started for. *)
Record Modal := mkModal {
  selectedFile : option FileInfo;
  isUploading : bool;
  uploadTimer : option FileInfo
}.

Definition initModal : Modal := mkModal None false None.

(** [ChooseFile None] is a change of the input with no file
    ([e.target.files?.[0]] undefined); [UploadDone] is the end of the
    2-second wait; [OpenChange] is the dialog's [onOpenChange] (Escape,
    the overlay, the close button). *)
Inductive Event := ChooseFile (f : option FileInfo) | ClickUpload | UploadDone | ClickSkip | OpenChange.

Inductive ToastKind := TError | TSuccess | TWarning.

(** What the dialog calls.  [OnComplete] carries, as a ghost argument,
    the file whose upload completed. *)
Inductive Callback :=
| Toast (kind : ToastKind) (message : string)
| OnComplete (prescriptionUploaded : bool) (file : option FileInfo)
| OnClose.

(** [handleFileChange]: no file, a wrong type or more than 5 MB leave the
    selection as it is. *)
Definition handleFileChange (m : Modal) (file : option FileInfo) : Modal * list Callback :=
  match file with
  | None => (m, [])
  | Some f =>
      if negb (existsb (String.eqb (f_type f)) allowedTypes)
      then (m, [Toast TError "Please upload a valid image (JPG, PNG) or PDF file"])
      else if (maxFileSize <? f_size f)%Z
      then (m, [Toast TError "File size must be less than 5MB"])
      else (mkModal (Some f) (isUploading m) (uploadTimer m), [])
  end.

(** [handleUpload] up to its [await]: [setIsUploading(true)] and the
    timer starts. *)
Definition handleUpload (m : Modal) : Modal * list Callback :=
  match selectedFile m with
  | None => (m, [Toast TError "Please select a prescription file"])
  | Some f => (mkModal (Some f) true (Some f), [])
  end.

(** [resetModal()]: clear the file, stop uploading, [onClose()]. *)
Definition resetModal (m : Modal) : Modal * list Callback :=
  (mkModal None false (uploadTimer m), [OnClose]).

(** The rest of [handleUpload] once the wait for [f] is over: the
    success toast, [onComplete(true)], [resetModal()], and in [finally]
    [setIsUploading(false)].  The promise never rejects, so the [catch]
    branch is not a step. *)
Definition uploadDone (m : Modal) (f : FileInfo) : Modal * list Callback :=
  let '(m', cs) := resetModal (mkModal (selectedFile m) (isUploading m) None) in
  (mkModal (selectedFile m') false (uploadTimer m'),
   Toast TSuccess "Prescription uploaded successfully" :: OnComplete true (Some f) :: cs).

(** [handleSkip]: the warning, [onComplete(false)], [resetModal()]. *)
Definition handleSkip (m : Modal) : Modal * list Callback :=
  let '(m', cs) := resetModal m in
  (m', Toast TWarning "Transaction completed without prescription upload" :: OnComplete false None :: cs).

(** One event with the [isOpen] prop.  The controls exist only while
    the dialog is open; the file input and Skip are [disabled] while
    uploading, Upload also without a file; the wait ends whether or not
    the dialog is still open. *)
Definition step (isOpen : bool) (m : Modal) (e : Event) : option (Modal * list Callback) :=
  match e with
  | ChooseFile file =>
      if negb isOpen || isUploading m then None else Some (handleFileChange m file)
  | ClickUpload =>
      if negb isOpen || isUploading m then None
      else match selectedFile m with None => None | Some _ => Some (handleUpload m) end
  | UploadDone =>
      match uploadTimer m with None => None | Some f => Some (uploadDone m f) end
  | ClickSkip =>
      if negb isOpen || isUploading m then None else Some (handleSkip m)
  | OpenChange =>
      if isOpen then Some (m, [OnClose]) else None
  end.

(** The dialog's props as operations on the state of the page that
    renders it. *)
Record Host (S : Type) := mkHost {
  onComplete : bool -> option FileInfo -> S -> S;
  onClose : S -> S
}.

Arguments mkHost {S} _ _.
Arguments onComplete {S} _ _ _ _.
Arguments onClose {S} _ _.

Definition callback {S} (h : Host S) (s : S) (c : Callback) : S :=
  match c with
  | Toast _ _ => s
  | OnComplete b f => onComplete h b f s
  | OnClose => onClose h s
  end.

Definition runCallbacks {S} (h : Host S) (cs : list Callback) (s : S) : S :=
  fold_left (callback h) cs s.

(** The states the dialog reaches, whatever its host does with [isOpen]. *)
Inductive reachable : Modal -> Prop :=
| reach_init : reachable initModal
| reach_step o m e m' cs : reachable m -> step o m e = Some (m', cs) -> reachable m'.

End RxModal.

(** ** [TransactionForm.tsx] as a host *)
Module GateHost.
Import Gate RxModal.

Definition modalOf (s : Gate.State) : Modal :=
  mkModal (Gate.selectedFile s) (Gate.isUploading s) (Gate.uploadTimer s).

Definition withModal (s : Gate.State) (m : Modal) : Gate.State :=
  setModal s (showScheduleHModal s) (selectedFile m) (isUploading m) (uploadTimer m).

(** [onComplete={handleScheduleHComplete}]:
    [processTransaction(form.getValues(), !prescriptionUploaded)], with
    the [selectedMedicine] of the render whose [handleScheduleHComplete]
    runs: the one that started the upload for [onComplete(true)], the
    current one for [handleSkip]'s [onComplete(false)];
    [onClose={() => setShowScheduleHModal(false)}]. *)
Definition gateHost : Host Gate.State :=
  mkHost (fun b f s => processTransaction (if b then uploadMedicine s else selectedMedicine s) s (negb b) f)
         (fun s => setModal s false (Gate.selectedFile s) (Gate.isUploading s) (Gate.uploadTimer s)).

(** The dialog's events as [Gate]'s ([Gate] has no empty file change). *)
Definition liftEvent (e : RxModal.Event) : option Gate.Event :=
  match e with
  | ChooseFile (Some f) => Some (Gate.ChooseFile f)
  | ChooseFile None => None
  | RxModal.ClickUpload => Some Gate.ClickUpload
  | RxModal.UploadDone => Some Gate.UploadDone
  | RxModal.ClickSkip => Some Gate.ClickSkip
  | OpenChange => Some CloseDialog
  end.

(** A click on Upload runs the [handleUpload] of the current render,
    which keeps that render's [onComplete]: the form's current
    [selectedMedicine]. *)
Definition captureOnComplete (e : RxModal.Event) (s : Gate.State) : Gate.State :=
  match e with
  | RxModal.ClickUpload =>
      {| kind := kind s; Gate.selectedMedicine := Gate.selectedMedicine s; Gate.values := Gate.values s;
         showScheduleHModal := showScheduleHModal s; isSubmitting := isSubmitting s;
         Gate.selectedFile := Gate.selectedFile s; Gate.isUploading := Gate.isUploading s;
         Gate.uploadTimer := Gate.uploadTimer s; uploadMedicine := Gate.selectedMedicine s;
         awaiting := awaiting s; sent := sent s |}
  | _ => s
  end.

(** The dialog and the form together: the dialog steps, the form runs
    the callbacks, and the dialog's new state is kept. *)
Definition composedStep (s : Gate.State) (e : RxModal.Event) : option Gate.State :=
  match RxModal.step (showScheduleHModal s) (modalOf s) e with
  | Some (m', cs) => Some (withModal (captureOnComplete e (runCallbacks gateHost cs s)) m')
  | None => None
  end.

End GateHost.

Section RxModalTheorems.
Import Gate RxModal GateHost.

(** Unfold a step of the dialog down to its guards. *)
Ltac unfold_modal H :=
  unfold step, handleFileChange, handleUpload, uploadDone, handleSkip, resetModal in H; simpl in H.

(** What every state the dialog reaches satisfies. *)
Definition ModalInv (m : Modal) : Prop :=
  (forall f, selectedFile m = Some f -> fileValid f = true) /\
  (forall f, uploadTimer m = Some f -> fileValid f = true) /\
  (isUploading m = true <-> uploadTimer m <> None).

Lemma initModal_inv : ModalInv initModal.
Proof. unfold ModalInv; simpl. repeat split; intros; congruence. Qed.

Lemma step_ModalInv o m e m' cs : ModalInv m -> step o m e = Some (m', cs) -> ModalInv m'.
Proof.
  intros (Hf & Ht & [Hu1 Hu2]) Hs.
  destruct e as [[f|]| | | |]; unfold_modal Hs; destruct_ifs Hs; try discriminate;
    injection Hs as <- _; bool_prop; unfold ModalInv; simpl; repeat split; auto;
    try congruence.
  all: try (intros f' [= <-]; first [apply fileValid_intro; [assumption | lia] | apply Hf; assumption]).
  all: intros Hn; apply Hu2 in Hn; congruence.
Qed.

Lemma reachable_ModalInv m : reachable m -> ModalInv m.
Proof.
  induction 1 as [|o m e m' cs _ IH Hs]; [exact initModal_inv | exact (step_ModalInv o m e m' cs IH Hs)].
Qed.

(** The callbacks of a step, from a state that satisfies [ModalInv]. *)
Lemma step_callbacks o m e m' cs b f :
  ModalInv m -> step o m e = Some (m', cs) -> In (OnComplete b f) cs ->
  (exists k msg, cs = [Toast k msg; OnComplete b f; OnClose]) /\
  (b = true -> exists x, f = Some x /\ fileValid x = true) /\ (b = false -> f = None).
Proof.
  intros (_ & Ht & _) Hs Hin.
  destruct e as [[f'|]| | | |]; unfold_modal Hs; destruct_ifs Hs; try discriminate;
    injection Hs as <- <-; simpl in Hin;
    repeat (destruct Hin as [Hin|Hin]; try discriminate); try contradiction;
    injection Hin as <- <-; (split; [do 2 eexists; reflexivity|]).
  - split; [intros _; eexists; split; [reflexivity | apply Ht; reflexivity] | discriminate].
  - split; [discriminate | reflexivity].
Qed.

(** A step that reports a decision leaves the dialog as first rendered. *)
Lemma step_callbacks_reset o m e m' cs b f :
  ModalInv m -> step o m e = Some (m', cs) -> In (OnComplete b f) cs -> m' = initModal.
Proof.
  intros (_ & _ & [_ Hu2]) Hs Hin.
  destruct e as [[f'|]| | | |]; unfold_modal Hs; destruct_ifs Hs; try discriminate;
    injection Hs as <- <-; simpl in Hin; bool_prop;
    repeat (destruct Hin as [Hin|Hin]; try discriminate); try contradiction; [reflexivity|].
  unfold initModal. f_equal. destruct (uploadTimer m) eqn:Et; [|reflexivity].
  exfalso. assert (Hup : isUploading m = true) by (apply Hu2; congruence). congruence.
Qed.

(** A property of the host kept by each callback is kept by a step's
    callbacks. *)
Lemma runCallbacks_ind {S} (h : Host S) (P : S -> Prop) cs s :
  P s -> (forall b f s', In (OnComplete b f) cs -> P s' -> P (onComplete h b f s')) ->
  (forall s', P s' -> P (onClose h s')) -> P (runCallbacks h cs s).
Proof.
  unfold runCallbacks. revert s. induction cs as [|c cs IH]; intros s Hs Hc Hcl; simpl; [exact Hs|].
  apply IH; [|intros b f s' Hin; apply Hc; right; exact Hin | exact Hcl].
  destruct c; simpl; [exact Hs | apply Hc; [left; reflexivity | exact Hs] | apply Hcl, Hs].
Qed.

(** C16.  Whatever page hosts it, the dialog reports one decision at a
    time and then closes: a step whose callbacks include
    [onComplete(b)] makes exactly a toast, that call and [onClose()], in
    this order, and leaves the dialog as it was first rendered; a
    completed upload ([b = true]) is reported only for a file that passed
    the type and size checks, and a skip reports no file. *)
Theorem modal_reports_checked_upload o m e m' cs b f :
  reachable m -> step o m e = Some (m', cs) -> In (OnComplete b f) cs ->
  (exists k msg, cs = [Toast k msg; OnComplete b f; OnClose]) /\
  (b = true -> exists x, f = Some x /\ fileValid x = true) /\
  (b = false -> f = None) /\ m' = initModal.
Proof.
  intros Hr Hs Hin. pose proof (reachable_ModalInv m Hr) as Hm.
  destruct (step_callbacks o m e m' cs b f Hm Hs Hin) as (H1 & H2 & H3).
  split; [exact H1|]. split; [exact H2|]. split; [exact H3|].
  exact (step_callbacks_reset o m e m' cs b f Hm Hs Hin).
Qed.

(** [Gate], the model of [TransactionForm.tsx] with the dialog
    inlined, is the dialog composed with the form: on every event of the
    dialog, [Gate.step] is [RxModal.step] on the dialog's part of the
    state, then the form's [handleScheduleHComplete] and [onClose] on the
    callbacks it makes, in their order. *)
Theorem gate_is_modal_composition s e ge :
  liftEvent e = Some ge -> Gate.step s ge = composedStep s e.
Proof.
  destruct s as [k sm v show sub file up timer um aw sn].
  unfold composedStep, modalOf; simpl.
  destruct e as [[f|]| | | |]; intros H; simpl in H; try discriminate; injection H as <-;
    unfold RxModal.step, handleFileChange, handleUpload, uploadDone, handleSkip, resetModal;
    simpl; destruct show, up; simpl;
    repeat match goal with
           | |- context [if ?c then _ else _] => destruct c
           | |- context [match ?x with Some _ => _ | None => _ end] => destruct x
           end; reflexivity.
Qed.

End RxModalTheorems.

Section RxModalWitnesses.
Import Gate RxModal GateHost.
Local Open Scope string_scope.

(** The dialog after choosing [rxA] and starting its upload. *)
Definition uploadingModal : Modal := mkModal (Some rxA) true (Some rxA).

Lemma uploadingModal_reachable : reachable uploadingModal.
Proof.
  apply (reach_step true (mkModal (Some rxA) false None) ClickUpload _ []);
    [apply (reach_step true initModal (ChooseFile (Some rxA)) _ []); [apply reach_init|] |];
    reflexivity.
Qed.

Lemma modal_reports_checked_upload_witness :
  step false uploadingModal UploadDone =
    Some (initModal, [Toast TSuccess "Prescription uploaded successfully";
                      OnComplete true (Some rxA); OnClose]) /\
  exists x, Some rxA = Some x /\ fileValid x = true.
Proof.
  split; [reflexivity|].
  destruct (modal_reports_checked_upload false uploadingModal UploadDone initModal
              [Toast TSuccess "Prescription uploaded successfully"; OnComplete true (Some rxA); OnClose]
              true (Some rxA) uploadingModal_reachable eq_refl (or_intror (or_introl eq_refl)))
    as (_ & H1 & _).
  exact (H1 eq_refl).
Defined.

(** The form after Amoxicillin was submitted and a prescription
    uploaded: [Gate]'s end of the upload is the composed one. *)
Lemma gate_is_modal_composition_witness :
  liftEvent RxModal.UploadDone = Some Gate.UploadDone /\
  Gate.step (after [SelectMedicine amoxicillin; Submit; Gate.ChooseFile rxA; Gate.ClickUpload])
            Gate.UploadDone =
  composedStep (after [SelectMedicine amoxicillin; Submit; Gate.ChooseFile rxA; Gate.ClickUpload])
               RxModal.UploadDone.
Proof.
  split; [reflexivity|].
  apply gate_is_modal_composition. reflexivity.
Defined.

End RxModalWitnesses.
