(* ===== verification/RxModalView.v ===== *)
(** * RxModalView: what the prescription dialog shows

    The render of [src/src/components/ScheduleHModal.tsx] from the
    dialog's state ([RxModal.Modal]) and its props [isOpen] and
    [medicineName]: the medicine named in the description, the file
    input's [disabled], the selected-file panel (the file's name and its
    size in megabytes as [(size / 1024 / 1024).toFixed(2)]), the two
    buttons' [disabled] and the upload button's text.

    The size is exact: dividing by 1024 twice is exact in binary floating
    point, so the double is the rational [size / 2^20] and [toFixed(2)]
    rounds it as [Format.toFixed2] does.  The theorem of this file bounds
    the size the panel can show: at most 5.00, in every state the dialog
    reaches, since only files of at most [5 * 1024 * 1024] bytes are
    kept; a file of exactly that size is kept and shown as 5.00 MB,
    although the message of the check says it must be less than 5MB. *)

From Stdlib Require Import ZArith QArith Qround Qabs Lqa Lia List Bool String.
From S2P Require Import Prelude Format ScheduleH RxModal.
Import ListNotations.

Module RxModalView.
Import Gate RxModal.
Local Open Scope string_scope.

(** [selectedFile.size / 1024 / 1024] *)
Definition sizeMB (size : Z) : Q := (inject_Z size / 1024 / 1024)%Q.

(** The selected-file panel: [{selectedFile.name}] and the number of
    [Size: {...} MB]. *)
Record FilePanel := mkPanel { panelName : string; panelSize : string }.

Definition filePanel (f : FileInfo) : FilePanel :=
  mkPanel (f_name f) (Format.toFixed2 (sizeMB (f_size f))).

Record DialogView := mkDialogView {
  vMedicineName : string;
  vInputDisabled : bool;
  vPanel : option FilePanel;
  vSkipDisabled : bool;
  vUploadDisabled : bool;
  vUploadText : string
}.

(** [<Dialog open={isOpen}>] and its content. *)
Definition dialogView (isOpen : bool) (medicineName : string) (m : Modal) : option DialogView :=
  if isOpen then
    Some (mkDialogView medicineName (isUploading m) (option_map filePanel (selectedFile m))
            (isUploading m)
            (negb (match selectedFile m with Some _ => true | None => false end) || isUploading m)
            (if isUploading m then "Uploading..." else "Upload & Continue"))
  else None.

End RxModalView.

Section RxModalViewTheorems.
Import Gate RxModal GateHost RxModalView.
Local Open Scope string_scope.

Lemma fileValid_size f : fileValid f = true -> (f_size f <= maxFileSize)%Z.
Proof. unfold fileValid. intros H. apply andb_true_iff in H as [_ H]. apply Z.leb_le, H. Qed.

Lemma sizeMB_le size : (size <= maxFileSize)%Z -> (sizeMB size <= 5)%Q.
Proof.
  intros H. unfold sizeMB. rewrite !Qdiv_pos_literal.
  assert (H' : (inject_Z size <= inject_Z 5242880)%Q) by (rewrite <- Zle_Qle; exact H).
  change (inject_Z 5242880) with (5242880 # 1)%Q in H'. lra.
Qed.

(** What the panel shows for an amount of at most 5 is at most 500
    hundredths. *)
Lemma shownPaise_le_500 x : (x <= 5)%Q -> (Format.shownPaise x <= 500)%Z.
Proof.
  intros Hx. unfold Format.shownPaise, Format.signed.
  destruct (Format.isNegative x) eqn:En; [lia|].
  unfold Format.isNegative in En. apply negb_false_iff, Qle_bool_iff in En.
  destruct (paiseOf_spec x) as [Hl _]. rewrite Qabs_pos in Hl by exact En.
  assert (Hq : (inject_Z (Z.of_N (Format.paiseOf x)) < inject_Z 501)%Q)
    by (unfold inject_Z at 2; lra).
  rewrite <- Zlt_Qlt in Hq. lia.
Qed.

Lemma panel_of_reachable m o name v p :
  reachable m -> dialogView o name m = Some v -> vPanel v = Some p ->
  exists f, selectedFile m = Some f /\ fileValid f = true /\ p = filePanel f.
Proof.
  intros Hr Hv Hp. destruct (reachable_ModalInv m Hr) as [Hf _].
  unfold dialogView in Hv. destruct o; [|discriminate]. injection Hv as <-. simpl in Hp.
  destruct (selectedFile m) as [f|] eqn:E; [|discriminate]. injection Hp as <-.
  exists f. split; [reflexivity|]. split; [exact (Hf f eq_refl) | reflexivity].
Qed.

(** C17. The size the prescription dialog shows is at most 5.00 MB: in
    every state the dialog reaches, its selected-file panel shows a size
    that reads back as at most 500 hundredths of a megabyte. *)
Theorem shown_size_at_most_5MB m o name v p :
  reachable m -> dialogView o name m = Some v -> vPanel v = Some p ->
  exists c, Format.readFixed2 (panelSize p) = Some c /\ (c <= 500)%Z.
Proof.
  intros Hr Hv Hp. destruct (panel_of_reachable m o name v p Hr Hv Hp) as (f & _ & Hf & ->).
  exists (Format.shownPaise (sizeMB (f_size f))). split; [apply readFixed2_toFixed2|].
  apply shownPaise_le_500, sizeMB_le, fileValid_size, Hf.
Qed.

End RxModalViewTheorems.

Section RxModalViewWitnesses.
Import Gate RxModal RxModalView.
Local Open Scope string_scope.

(** A scan of exactly [5 * 1024 * 1024] bytes: kept, and shown as 5.00
    MB; one byte more is refused. *)
Definition scan5MB : FileInfo := mkFile "rx-scan.pdf" "application/pdf" 5242880.

Lemma scan5MB_reachable : reachable (mkModal (Some scan5MB) false None).
Proof.
  apply (reach_step true initModal (ChooseFile (Some scan5MB)) _ []); [apply reach_init | reflexivity].
Qed.

Lemma shown_size_at_most_5MB_witness :
  dialogView true "Amoxicillin 250mg" (mkModal (Some scan5MB) false None) =
    Some (mkDialogView "Amoxicillin 250mg" false (Some (mkPanel "rx-scan.pdf" "5.00")) false false
            "Upload & Continue") /\
  fst (handleFileChange initModal (Some (mkFile "rx-scan.pdf" "application/pdf" 5242881))) = initModal /\
  exists c, Format.readFixed2 "5.00" = Some c /\ (c <= 500)%Z.
Proof.
  split; [vm_compute; reflexivity|]. split; [reflexivity|].
  exact (shown_size_at_most_5MB _ true "Amoxicillin 250mg" _ (mkPanel "rx-scan.pdf" "5.00")
           scan5MB_reachable (eq_refl _) (eq_refl _)).
Defined.

End RxModalViewWitnesses.
