(* ===== verification/Csv.v ===== *)
(** * Csv: the CSV export

    [exportToCSV] of [src/src/lib/utils.ts] (the file download itself is
    I/O and not modelled), the expiry report built by [handleExportCSV] of
    [ExpiryList.tsx], and the accounting page's own export
    ([exportToCSV] inside [app/accounting/page.tsx]), which writes the cells
    without escaping.

    The reader of the exported text is a CSV parser in the sense of the
    spec (6 and 8): comma-separated fields, records separated by newlines,
    double-quoted fields in which a doubled quote stands for one quote.
    [parseCSV] is that parser (modelled from the spec), a structural state
    machine over the text.

    JavaScript values of a row are [JsVal]; a number carries its exact
    value (for [||]) and the text [String(value)] gives for it, which is the
    runtime's number formatting ([jsInt] provides it for integers).
    Characters are named by their codes ([dquote], [comma], [newline]). *)

From Stdlib Require Import String Ascii.
From Stdlib Require Import ZArith QArith List Bool DecimalString.
From S2P Require Import Prelude Dates Stock Aggregator.
Import ListNotations.

Module Csv.
Local Open Scope string_scope.

Definition dquote : ascii := ascii_of_nat 34.
Definition comma : ascii := ascii_of_nat 44.
Definition newline : ascii := ascii_of_nat 10.

(** A value read from a row object. *)
Inductive JsVal :=
| JStr (s : string)
| JNum (q : Q) (text : string)
| JBool (b : bool)
| JNull
| JUndefined.

(** An integer and its decimal rendering. *)
Definition jsInt (z : Z) : JsVal :=
  JNum (inject_Z z) (NilEmpty.string_of_int (Z.to_int z)).

(** A row object; a key that is absent reads as [undefined]. *)
Definition Row := list (string * JsVal).

Fixpoint lookup (k : string) (r : Row) : JsVal :=
  match r with
  | [] => JUndefined
  | (k', v) :: r' => if String.eqb k k' then v else lookup k r'
  end.

(** JavaScript truthiness ([NaN] is not modelled). *)
Definition truthy (v : JsVal) : bool :=
  match v with
  | JStr s => negb (String.eqb s EmptyString)
  | JNum q _ => negb (Qeq_bool q 0)
  | JBool b => b
  | JNull | JUndefined => false
  end.

(** [String(value)] *)
Definition toString (v : JsVal) : string :=
  match v with
  | JStr s => s
  | JNum _ t => t
  | JBool true => "true"
  | JBool false => "false"
  | JNull => "null"
  | JUndefined => "undefined"
  end.

(** [value || ''] *)
Definition orEmpty (v : JsVal) : JsVal := if truthy v then v else JStr EmptyString.

(** [row[header] || ''] *)
Definition cellValue (row : Row) (h : string) : JsVal := orEmpty (lookup h row).

(** The text of a cell: [String(row[header] || '')]. *)
Definition cellText (row : Row) (h : string) : string := toString (cellValue row h).

(** [.replace(/Q/g, QQ)] with Q the quote character: every quote is
    doubled. *)
Fixpoint escapeQuotes (s : string) : string :=
  match s with
  | EmptyString => EmptyString
  | String c s' =>
      if Ascii.eqb c dquote then String dquote (String dquote (escapeQuotes s'))
      else String c (escapeQuotes s')
  end.

(** The template literal that wraps the escaped value in quotes. *)
Definition quoteField (s : string) : string :=
  String dquote (escapeQuotes s ++ String dquote EmptyString).

(** [Array.prototype.join(sep)] *)
Fixpoint join (sep : ascii) (l : list string) : string :=
  match l with
  | [] => EmptyString
  | x :: r =>
      match r with
      | [] => x
      | _ :: _ => x ++ String sep (join sep r)
      end
  end.

(** One data line of [exportToCSV]. *)
Definition csvLine (headers : list string) (row : Row) : string :=
  join comma (map (fun h => quoteField (toString (cellValue row h))) headers).

(** [exportToCSV(data, headers)] up to the download: the error it throws on
    empty data, or the text of the file. *)
Definition exportToCSV (data : list Row) (headers : list string) : string + string :=
  match data with
  | [] => inl "No data to export"
  | _ :: _ => inr (join newline (join comma headers :: map (csvLine headers) data))
  end.

(** ** The reading side (spec 8) *)

Inductive PState := FieldStart | Unquoted | Quoted | AfterQuote.

Definition fin (fld : list ascii) : string := string_of_list_ascii (rev fld).

(** [fld] is the current field reversed, [rec] the fields of the current
    record reversed, [recs] the finished records reversed. *)
Fixpoint parse_go (s : string) (st : PState) (fld : list ascii) (rec : list string)
  (recs : list (list string)) : option (list (list string)) :=
  match s with
  | EmptyString =>
      match st with
      | Quoted => None
      | _ => Some (rev (rev (fin fld :: rec) :: recs))
      end
  | String c s' =>
      match st with
      | Quoted =>
          if Ascii.eqb c dquote then parse_go s' AfterQuote fld rec recs
          else parse_go s' Quoted (c :: fld) rec recs
      | _ =>
          if Ascii.eqb c comma then parse_go s' FieldStart [] (fin fld :: rec) recs
          else if Ascii.eqb c newline then
            parse_go s' FieldStart [] [] (rev (fin fld :: rec) :: recs)
          else if Ascii.eqb c dquote then
            match st with
            | FieldStart => parse_go s' Quoted [] rec recs
            | AfterQuote => parse_go s' Quoted (dquote :: fld) rec recs
            | _ => None
            end
          else
            match st with
            | AfterQuote => None
            | _ => parse_go s' Unquoted (c :: fld) rec recs
            end
      end
  end.

Definition parseCSV (s : string) : option (list (list string)) := parse_go s FieldStart [] [] [].

(** A field that needs no quoting: no comma, newline or quote. *)
Definition plain (h : string) : bool :=
  forallb (fun c => negb (Ascii.eqb c comma || Ascii.eqb c newline || Ascii.eqb c dquote))
          (list_ascii_of_string h).

End Csv.

(** ** The two reports *)
Module Reports.
Import Csv Dates.
Local Open Scope string_scope.

Definition rupee : string := "₹".

(** [String(n)] of an integer, after [row[header] || ''] has replaced a
    zero by the empty string. *)
Definition intCell (z : Z) : string :=
  if (z =? 0)%Z then EmptyString else NilEmpty.string_of_int (Z.to_int z).

(** [o || d] for an optional string [o] and a default text [d]. *)
Definition orText (o : option string) (d : string) : string :=
  match o with
  | Some t => if String.eqb t EmptyString then d else t
  | None => d
  end.

(** [medicine.schedule || 'Regular'] *)
Definition scheduleText (s : option string) : string := orText s "Regular".

(** [a || b] on values. *)
Definition jsOr (a b : JsVal) : JsVal := if truthy a then a else b.

(** An optional string field of a transaction. *)
Definition optStr (o : option string) : JsVal :=
  match o with Some t => JStr t | None => JUndefined end.

(** The letters a to z raised, the rest kept ([toUpperCase] on ASCII). *)
Definition asciiUpper (c : ascii) : ascii :=
  let n := nat_of_ascii c in
  if (97 <=? n)%nat && (n <=? 122)%nat then ascii_of_nat (n - 32) else c.

Fixpoint toUpperCase (s : string) : string :=
  match s with
  | EmptyString => EmptyString
  | String c s' => String (asciiUpper c) (toUpperCase s')
  end.

(** [transaction.type.toUpperCase()] *)
Definition typeText (t : Route.TxType) : string :=
  match t with
  | Route.Sell => "SELL"
  | Route.Purchase => "PURCHASE"
  | Route.OtherType s => toUpperCase s
  end.

(** The quoted cell of the accounting page's own export,
    [`"${row[header] || ''}"`]: the value is not escaped. *)
Definition rawField (s : string) : string := String dquote (s ++ String dquote EmptyString).

Definition accountingLine (headers : list string) (row : Row) : string :=
  join comma (map (fun h => rawField (cellText row h)) headers).

(** [csvContent] of the accounting page's [exportToCSV]: no guard on an
    empty list. *)
Definition accountingContent (data : list Row) (headers : list string) : string :=
  join newline (join comma headers :: map (accountingLine headers) data).

(** A text without a quote character. *)
Definition quoteFree (s : string) : bool :=
  forallb (fun c => negb (Ascii.eqb c dquote)) (list_ascii_of_string s).

(** The [headers] of [handleExportCSV] in [ExpiryList.tsx]. *)
Definition expiryHeaders : list string :=
  ["Medicine Name"; "Batch Number"; "Supplier"; "Expiry Date"; "Days Until Expiry";
   "Current Stock"; "Price per Unit"; "Total Value"; "Schedule"; "Status"].

(** The accounting page's [headers]. *)
Definition accountingHeaders : list string :=
  ["Date"; "Type"; "Invoice Number"; "Customer/Supplier"; "GST Number"; "Total Amount";
   "Tax Amount"; "Discount Amount"; "Net Amount"; "Payment Method"; "Financial Year"].

(** The runtime's formatting is not modelled: [formatDate] (the page's
    [toLocaleDateString]), [String(n)] and [n.toFixed(2)] of a
    non-integral number are parameters. *)
Section Formatting.
Context (formatDate : DateStr -> string) (numText fixed2 : Q -> string).

(** One object of [csvData] in [handleExportCSV]. *)
Definition expiryCsvRow (m : Views.Medicine) : Row :=
  [("Medicine Name", JStr (Views.name m));
   ("Batch Number", JStr (Views.batch m));
   ("Supplier", JStr (Views.supplier m));
   ("Expiry Date", JStr (formatDate (Views.expiryDate m)));
   ("Days Until Expiry", jsInt (Views.daysUntilExpiry m));
   ("Current Stock", jsInt (Views.stock m));
   ("Price per Unit", JStr (rupee ++ numText (Views.price m)));
   ("Total Value", JStr (rupee ++ fixed2 (inject_Z (Views.stock m) * Views.price m)));
   ("Schedule", JStr (scheduleText (Views.schedule m)));
   ("Status", JStr (Views.csvStatus m))].

(** [handleExportCSV] of [ExpiryList.tsx] up to the download: the toast on
    an empty list, or the text [exportToCSV] writes. *)
Definition handleExportCSV (filteredMedicines : list Views.Medicine) : string + string :=
  match filteredMedicines with
  | [] => inl "No data to export"
  | _ :: _ => exportToCSV (map expiryCsvRow filteredMedicines) expiryHeaders
  end.

(** The record a reader gets back for a medicine. *)
Definition expiryRecord (m : Views.Medicine) : list string :=
  [Views.name m; Views.batch m; Views.supplier m; formatDate (Views.expiryDate m);
   intCell (Views.daysUntilExpiry m); intCell (Views.stock m);
   rupee ++ numText (Views.price m);
   rupee ++ fixed2 (inject_Z (Views.stock m) * Views.price m);
   scheduleText (Views.schedule m); Views.csvStatus m].

(** A number cell after [|| '']: zero is written as the empty text. *)
Definition numCell (q : Q) : string := if Qeq_bool q 0 then EmptyString else numText q.

Definition numVal (q : Q) : JsVal := JNum q (numText q).

(** One object of [csvData] of the accounting page. *)
Definition accountingCsvRow (t : Route.AccTransaction) : Row :=
  [("Date", JStr (formatDate (Route.tx_date t)));
   ("Type", JStr (typeText (Route.tx_type t)));
   ("Invoice Number", JStr (Route.tx_invoiceNumber t));
   ("Customer/Supplier", jsOr (jsOr (optStr (Route.tx_customerName t))
                                    (optStr (Route.tx_supplierName t))) (JStr "N/A"));
   ("GST Number", jsOr (optStr (Route.tx_gstNumber t)) (JStr "N/A"));
   ("Total Amount", numVal (Route.tx_totalAmount t));
   ("Tax Amount", numVal (Route.tx_taxAmount t));
   ("Discount Amount", match Route.tx_discountAmount t with
                       | Some q => numVal q
                       | None => JUndefined
                       end);
   ("Net Amount", numVal (Route.tx_netAmount t));
   ("Payment Method", optStr (Route.tx_paymentMethod t));
   ("Financial Year", JStr (Route.tx_financialYear t))].

(** The accounting page's [exportToCSV] up to the download. *)
Definition accountingExport (filteredTransactions : list Route.AccTransaction) : string :=
  accountingContent (map accountingCsvRow filteredTransactions) accountingHeaders.

(** The record a reader gets back for a transaction. *)
Definition accountingRecord (t : Route.AccTransaction) : list string :=
  [formatDate (Route.tx_date t); typeText (Route.tx_type t); Route.tx_invoiceNumber t;
   orText (Route.tx_customerName t) (orText (Route.tx_supplierName t) "N/A");
   orText (Route.tx_gstNumber t) "N/A";
   numCell (Route.tx_totalAmount t); numCell (Route.tx_taxAmount t);
   match Route.tx_discountAmount t with Some q => numCell q | None => EmptyString end;
   numCell (Route.tx_netAmount t); orText (Route.tx_paymentMethod t) EmptyString;
   Route.tx_financialYear t].

End Formatting.
End Reports.

Section CsvParsing.
Import Csv.
Local Open Scope string_scope.

Lemma sapp_assoc (a b c : string) : (a ++ b) ++ c = a ++ (b ++ c).
Proof. induction a as [|x a IH]; simpl; [reflexivity | rewrite IH; reflexivity]. Qed.

Lemma sapp_nil_r (a : string) : a ++ EmptyString = a.
Proof. induction a as [|x a IH]; simpl; [reflexivity | rewrite IH; reflexivity]. Qed.

Lemma fin_value v : fin (rev (list_ascii_of_string v)) = v.
Proof. unfold fin. rewrite rev_involutive. apply string_of_list_ascii_of_string. Qed.

(** The states in which a field may end. *)
Definition ends (st : PState) : bool := match st with Quoted => false | _ => true end.

Lemma parse_comma st fld rec recs rest :
  ends st = true ->
  parse_go (String comma rest) st fld rec recs = parse_go rest FieldStart [] (fin fld :: rec) recs.
Proof. destruct st; intros H; try discriminate; reflexivity. Qed.

Lemma parse_newline st fld rec recs rest :
  ends st = true ->
  parse_go (String newline rest) st fld rec recs =
  parse_go rest FieldStart [] [] (rev (fin fld :: rec) :: recs).
Proof. destruct st; intros H; try discriminate; reflexivity. Qed.

Lemma parse_end st fld rec recs :
  ends st = true -> parse_go EmptyString st fld rec recs = Some (rev (rev (fin fld :: rec) :: recs)).
Proof. destruct st; intros H; try discriminate; reflexivity. Qed.

(** Inside quotes, an escaped value is read back up to the closing quote. *)
Lemma parse_escaped s rest fld rec recs :
  parse_go (escapeQuotes s ++ String dquote rest) Quoted fld rec recs =
  parse_go rest AfterQuote (rev (list_ascii_of_string s) ++ fld) rec recs.
Proof.
  revert fld. induction s as [|c s IH]; intros fld; [reflexivity|].
  simpl. destruct (Ascii.eqb_spec c dquote) as [->|Hc].
  - simpl. rewrite IH, <- app_assoc. reflexivity.
  - simpl. rewrite (proj2 (Ascii.eqb_neq _ _) Hc), IH, <- app_assoc. reflexivity.
Qed.

(** What a rendered field reads back as, whatever follows it. *)
Definition FieldSpec (render value : string) : Prop :=
  forall rec recs, exists st, ends st = true /\
    forall rest, parse_go (render ++ rest) FieldStart [] rec recs =
                 parse_go rest st (rev (list_ascii_of_string value)) rec recs.

Lemma quoteField_spec v : FieldSpec (quoteField v) v.
Proof.
  intros rec recs. exists AfterQuote. split; [reflexivity|]. intros rest.
  unfold quoteField. simpl. rewrite sapp_assoc. simpl.
  rewrite parse_escaped, app_nil_r. reflexivity.
Qed.

Lemma plain_char c :
  negb (Ascii.eqb c comma || Ascii.eqb c newline || Ascii.eqb c dquote) = true ->
  Ascii.eqb c comma = false /\ Ascii.eqb c newline = false /\ Ascii.eqb c dquote = false.
Proof.
  destruct (Ascii.eqb c comma), (Ascii.eqb c newline), (Ascii.eqb c dquote);
    simpl; intros H; try discriminate; repeat split.
Qed.

Lemma plain_unquoted h fld rest rec recs :
  plain h = true ->
  parse_go (h ++ rest) Unquoted fld rec recs =
  parse_go rest Unquoted (rev (list_ascii_of_string h) ++ fld) rec recs.
Proof.
  revert fld. induction h as [|c h IH]; intros fld Hp; [reflexivity|].
  unfold plain in Hp. simpl in Hp. apply andb_true_iff in Hp as [Hc Hp].
  destruct (plain_char c Hc) as (E1 & E2 & E3).
  simpl. rewrite E1, E2, E3, IH, <- app_assoc by exact Hp. reflexivity.
Qed.

Lemma plain_spec h : plain h = true -> FieldSpec h h.
Proof.
  intros Hp rec recs. destruct h as [|c h].
  - exists FieldStart. split; reflexivity.
  - exists Unquoted. split; [reflexivity|]. intros rest.
    pose proof Hp as Hp'. unfold plain in Hp'. simpl in Hp'.
    apply andb_true_iff in Hp' as [Hc Hh].
    destruct (plain_char c Hc) as (E1 & E2 & E3).
    simpl. rewrite E1, E2, E3.
    rewrite plain_unquoted by exact Hh. reflexivity.
Qed.

(** A line of rendered fields reads back as their values. *)
Lemma parse_line fs : forall rec recs,
  fs <> [] -> Forall (fun p => FieldSpec (fst p) (snd p)) fs ->
  (forall rest, parse_go (join comma (map fst fs) ++ String newline rest) FieldStart [] rec recs =
                parse_go rest FieldStart [] [] ((rev rec ++ map snd fs)%list :: recs)) /\
  parse_go (join comma (map fst fs)) FieldStart [] rec recs =
  Some (rev ((rev rec ++ map snd fs)%list :: recs)).
Proof.
  induction fs as [|[r v] fs IH]; intros rec recs Hne Hall; [congruence|].
  inversion Hall as [|? ? Hf Hrest]; subst. simpl in Hf.
  destruct (Hf rec recs) as [st [Hst Heq]].
  destruct fs as [|p fs'].
  - simpl. split.
    + intros rest. rewrite Heq, parse_newline, fin_value by exact Hst. reflexivity.
    + rewrite <- (sapp_nil_r r), Heq, parse_end, fin_value by exact Hst. reflexivity.
  - destruct (IH (v :: rec) recs ltac:(discriminate) Hrest) as [IH1 IH2].
    simpl in IH1, IH2 |- *. split.
    + intros rest. rewrite sapp_assoc. simpl.
      rewrite Heq, parse_comma, fin_value by exact Hst.
      rewrite IH1, <- app_assoc. reflexivity.
    + rewrite Heq, parse_comma, fin_value by exact Hst.
      rewrite IH2, <- app_assoc. reflexivity.
Qed.

(** A document of such lines reads back as their records. *)
Lemma parse_doc lines : forall recs,
  lines <> [] ->
  Forall (fun fs => fs <> [] /\ Forall (fun p => FieldSpec (fst p) (snd p)) fs) lines ->
  parse_go (join newline (map (fun fs => join comma (map fst fs)) lines)) FieldStart [] [] recs =
  Some (rev recs ++ map (map snd) lines)%list.
Proof.
  induction lines as [|fs lines IH]; intros recs Hne Hall; [congruence|].
  inversion Hall as [|? ? [Hfs Hf] Hrest]; subst.
  destruct (parse_line fs [] recs Hfs Hf) as [H1 H2].
  destruct lines as [|fs' lines'].
  - simpl. rewrite H2. reflexivity.
  - simpl map. cbn [join]. rewrite H1. simpl app.
    rewrite (IH _ ltac:(discriminate) Hrest). simpl. rewrite <- app_assoc. reflexivity.
Qed.

End CsvParsing.

Section CsvTheorems.
Import Csv.
Local Open Scope string_scope.

Lemma map_pair_fst {A} (f g : A -> string) (l : list A) :
  map fst (map (fun x => (f x, g x)) l) = map f l.
Proof. rewrite map_map. reflexivity. Qed.

Lemma map_pair_snd {A} (f g : A -> string) (l : list A) :
  map snd (map (fun x => (f x, g x)) l) = map g l.
Proof. rewrite map_map. reflexivity. Qed.

(** The file [exportToCSV] writes for non-empty data reads back as its
    header line and the text of every cell. *)
Lemma export_parse data headers :
  data <> [] -> headers <> [] -> forallb plain headers = true ->
  exists content, exportToCSV data headers = inr content /\
  parseCSV content = Some (headers :: map (fun row => map (cellText row) headers) data).
Proof.
  intros Hd Hh Hp. destruct data as [|row0 data']; [congruence|].
  eexists; split; [reflexivity|].
  pose (lines := map (fun h => (h, h)) headers ::
                 map (fun row => map (fun h => (quoteField (cellText row h), cellText row h)) headers)
                     (row0 :: data')).
  assert (Hlines : map (fun fs => join comma (map fst fs)) lines =
                   join comma headers :: map (csvLine headers) (row0 :: data')).
  { assert (Hrow : forall row, join comma (map fst (map (fun h =>
              (quoteField (cellText row h), cellText row h)) headers)) = csvLine headers row).
    { intros row. rewrite map_pair_fst. reflexivity. }
    unfold lines. cbn [map]. rewrite map_pair_fst, map_id, Hrow, map_map. do 2 f_equal.
    apply map_ext, Hrow. }
  unfold parseCSV. rewrite <- Hlines, parse_doc.
  - unfold lines. rewrite map_cons, map_pair_snd, map_id, map_map. cbn [rev app].
    do 2 f_equal. apply map_ext. intros row. apply map_pair_snd.
  - discriminate.
  - unfold lines. constructor.
    + split; [destruct headers; simpl; congruence|].
      apply Forall_map, Forall_forall. intros h Hin. apply plain_spec.
      rewrite forallb_forall in Hp. apply Hp, Hin.
    + apply Forall_map, Forall_forall. intros row _.
      split; [destruct headers; simpl; congruence|].
      apply Forall_map, Forall_forall. intros h _. apply quoteField_spec.
Qed.

(** C21. Spec 8's round trip: for non-empty data and non-empty headers
    that need no quoting (those of the code), the text [exportToCSV]
    produces reads back, by a standard CSV parser, as the header line and
    one record per row holding the text of each cell, quotes and commas
    inside values included. *)
Theorem exportToCSV_roundtrip data headers :
  data <> [] -> headers <> [] -> forallb plain headers = true ->
  exists content, exportToCSV data headers = inr content /\
  parseCSV content = Some (headers :: map (fun row => map (cellText row) headers) data).
Proof. apply export_parse. Qed.


End CsvTheorems.

Section ReportTheorems.
Import Csv Reports Dates.
Local Open Scope string_scope.
Context (formatDate : DateStr -> string) (numText fixed2 : Q -> string).

Lemma cell_str t : toString (orEmpty (JStr t)) = t.
Proof.
  unfold orEmpty, truthy. destruct (String.eqb t EmptyString) eqn:E; [|reflexivity].
  apply String.eqb_eq in E. subst. reflexivity.
Qed.

Lemma jsInt_truthy z : truthy (jsInt z) = negb (z =? 0)%Z.
Proof. destruct z; reflexivity. Qed.

Lemma cell_int z : toString (orEmpty (jsInt z)) = intCell z.
Proof.
  unfold orEmpty, intCell. rewrite jsInt_truthy. destruct (z =? 0)%Z; reflexivity.
Qed.

Lemma cell_num q : toString (orEmpty (numVal numText q)) = numCell numText q.
Proof. unfold orEmpty, numCell, numVal. simpl. destruct (Qeq_bool q 0); reflexivity. Qed.

Lemma cell_opt o : toString (orEmpty (optStr o)) = orText o EmptyString.
Proof.
  destruct o as [t|]; [|reflexivity]. change (optStr (Some t)) with (JStr t).
  rewrite cell_str. unfold orText.
  destruct (String.eqb t EmptyString) eqn:E; [apply String.eqb_eq in E; subst|]; reflexivity.
Qed.

Lemma jsOr_assoc a b c : jsOr (jsOr a b) c = jsOr a (jsOr b c).
Proof. unfold jsOr. destruct (truthy a) eqn:E; [rewrite E|]; reflexivity. Qed.

Lemma cell_or o v : toString (orEmpty (jsOr (optStr o) v)) = orText o (toString (orEmpty v)).
Proof.
  destruct o as [t|]; [|reflexivity]. unfold jsOr, orText. simpl.
  destruct (String.eqb t EmptyString) eqn:E; simpl; [reflexivity|].
  unfold orEmpty. simpl. rewrite E. reflexivity.
Qed.

Lemma cell_discount d :
  toString (orEmpty (match d with Some q => numVal numText q | None => JUndefined end)) =
  match d with Some q => numCell numText q | None => EmptyString end.
Proof. destruct d; [apply cell_num | reflexivity]. Qed.

Lemma expiry_cells m :
  map (cellText (expiryCsvRow formatDate numText fixed2 m)) expiryHeaders =
  expiryRecord formatDate numText fixed2 m.
Proof.
  unfold expiryHeaders. cbn [map]. unfold cellText, cellValue. simpl lookup.
  rewrite !cell_str, !cell_int. reflexivity.
Qed.

Lemma expiryHeaders_plain : forallb plain expiryHeaders = true.
Proof. reflexivity. Qed.

(** The expiry report read back: for a non-empty list the file
    [handleExportCSV] writes parses to the header line and, per medicine,
    its fields in order; a count of zero (days until expiry on the expiry
    day itself, or an empty stock) is written as an empty cell because of
    [row[header] || '']. *)
Theorem expiry_report_parses ms :
  ms <> [] ->
  exists content, handleExportCSV formatDate numText fixed2 ms = inr content /\
  parseCSV content = Some (expiryHeaders :: map (expiryRecord formatDate numText fixed2) ms).
Proof.
  intros Hms. destruct (export_parse (map (expiryCsvRow formatDate numText fixed2) ms)
                          expiryHeaders) as [content [He Hp]].
  - destruct ms; [congruence | discriminate].
  - discriminate.
  - apply expiryHeaders_plain.
  - exists content. split.
    + destruct ms; [congruence | exact He].
    + rewrite Hp, map_map. do 2 f_equal. apply map_ext, expiry_cells.
Qed.

Lemma escape_free s : quoteFree s = true -> escapeQuotes s = s.
Proof.
  induction s as [|c s IH]; [reflexivity|]. unfold quoteFree. simpl.
  destruct (Ascii.eqb c dquote); simpl; [discriminate|].
  intros H. rewrite IH; [reflexivity | exact H].
Qed.

(** Where no cell holds a quote, the accounting page writes what
    [exportToCSV] would. *)
Lemma accountingContent_export data headers :
  data <> [] ->
  (forall row, In row data -> forallb quoteFree (map (cellText row) headers) = true) ->
  exportToCSV data headers = inr (accountingContent data headers).
Proof.
  intros Hd Hq. destruct data as [|row0 data']; [congruence|].
  unfold exportToCSV, accountingContent. do 3 f_equal.
  apply map_ext_in. intros row Hin. unfold csvLine, accountingLine. f_equal.
  apply map_ext_in. intros h Hh. unfold quoteField, rawField. rewrite escape_free; [reflexivity|].
  specialize (Hq row Hin). rewrite forallb_forall in Hq.
  apply Hq, (in_map (cellText row)), Hh.
Qed.

Lemma accounting_cells t :
  map (cellText (accountingCsvRow formatDate numText t)) accountingHeaders =
  accountingRecord formatDate numText t.
Proof.
  unfold accountingHeaders. cbn [map]. unfold cellText, cellValue. simpl lookup.
  rewrite jsOr_assoc, !cell_or, !cell_str, !cell_num, cell_discount, cell_opt.
  reflexivity.
Qed.

Lemma accounting_quote_free ts :
  Forall (fun t => forallb quoteFree (accountingRecord formatDate numText t) = true) ts ->
  forall row, In row (map (accountingCsvRow formatDate numText) ts) ->
  forallb quoteFree (map (cellText row) accountingHeaders) = true.
Proof.
  intros Hq row Hin. apply in_map_iff in Hin as [t [<- Ht]].
  rewrite accounting_cells. rewrite Forall_forall in Hq. apply Hq, Ht.
Qed.

(** The accounting page's own CSV writer agrees with [exportToCSV]
    of [utils.ts] on a non-empty list of transactions none of whose cells
    holds a quote character: the missing escaping only matters for
    values with quotes. *)
Theorem accounting_export_agrees ts :
  ts <> [] ->
  Forall (fun t => forallb quoteFree (accountingRecord formatDate numText t) = true) ts ->
  exportToCSV (map (accountingCsvRow formatDate numText) ts) accountingHeaders =
  inr (accountingExport formatDate numText ts).
Proof.
  intros Hts Hq. apply accountingContent_export.
  - destruct ts; [congruence | discriminate].
  - apply accounting_quote_free, Hq.
Qed.

(** The accounting report read back: for a non-empty list of
    transactions without quotes in their cells, the file parses to the
    header line and, per transaction, its fields in order; an amount of
    zero and a missing discount are written as empty cells, and a missing
    party or GST number as N/A. *)
Theorem accounting_export_parses ts :
  ts <> [] ->
  Forall (fun t => forallb quoteFree (accountingRecord formatDate numText t) = true) ts ->
  parseCSV (accountingExport formatDate numText ts) =
  Some (accountingHeaders :: map (accountingRecord formatDate numText) ts).
Proof.
  intros Hts Hq.
  assert (Hne : map (accountingCsvRow formatDate numText) ts <> []).
  { destruct ts; [congruence | discriminate]. }
  destruct (export_parse _ accountingHeaders Hne) as [content [He Hp]];
    [discriminate | reflexivity |].
  rewrite accountingContent_export in He; [| exact Hne | apply accounting_quote_free, Hq].
  injection He as <-. unfold accountingExport. rewrite Hp, map_map. do 2 f_equal.
  apply map_ext, accounting_cells.
Qed.

End ReportTheorems.

(** ** A concrete rendering for the examples

    Formatting as the [en-IN] locale and [String(n)] write the amounts of
    the fixtures (non-negative, at most two decimals). *)
Module CsvFixture.
Import Csv Reports Dates.
Local Open Scope string_scope.

Definition zText (z : Z) : string := NilEmpty.string_of_int (Z.to_int z).

Definition fmtDate (d : DateStr) : string :=
  match d with
  | EmptyDate => "Invalid Date"
  | IsoDate y m dd => zText dd ++ "/" ++ zText m ++ "/" ++ zText y
  end.

Definition cents (q : Q) : Z := (Qnum q * 100 / Zpos (Qden q))%Z.

Definition jsNumText (q : Q) : string :=
  let c := cents q in
  let i := (c / 100)%Z in
  let f := (c mod 100)%Z in
  if (f =? 0)%Z then zText i
  else if (f mod 10 =? 0)%Z then zText i ++ "." ++ zText (f / 10)
  else zText i ++ "." ++ zText (f / 10) ++ zText (f mod 10).

Definition toFixed2 (q : Q) : string :=
  let c := cents q in
  zText (c / 100) ++ "." ++ zText ((c mod 100) / 10) ++ zText (c mod 10).

(** A customer name with quotes in it. *)
Definition quotedCustomer : string :=
  "Sharma " ++ String dquote ("Bablu" ++ String dquote " Stores").

Definition quotedSale : Route.AccTransaction :=
  Route.mkTx (Route.FixtureId "4") (IsoDate 2024 4 18) Route.Sell [Route.item1] "INV-2024-003"
    (Some quotedCustomer) None None 134.4 14.4 (Some 0) 134.4 (Some "Cash") "2024-2025" None.

End CsvFixture.

Section CsvWitnesses.
Import Csv Reports CsvFixture.
Local Open Scope string_scope.

(** Paracetamol expires on the day of the fixture's clock: its days
    column is empty; the other three read 10, -14 and 35. *)
Lemma expiry_report_parses_witness :
  map (fun m => nth 4 (expiryRecord fmtDate jsNumText toFixed2 m) "") Fixture.inventory =
    [""; "10"; "-14"; "35"] /\
  exists content, handleExportCSV fmtDate jsNumText toFixed2 Fixture.inventory = inr content /\
  parseCSV content =
    Some (expiryHeaders :: map (expiryRecord fmtDate jsNumText toFixed2) Fixture.inventory).
Proof.
  split; [vm_compute; reflexivity|].
  apply (expiry_report_parses fmtDate jsNumText toFixed2 Fixture.inventory).
  intros H. vm_compute in H. discriminate.
Defined.

(** A value with quotes and a comma, and a zero, read back. *)
Lemma exportToCSV_roundtrip_witness :
  forallb plain ["Customer"; "Qty"] = true /\
  exists content,
    exportToCSV [[("Customer", JStr (quotedCustomer ++ ", Pune")); ("Qty", jsInt 0)]]
      ["Customer"; "Qty"] = inr content /\
    parseCSV content = Some [["Customer"; "Qty"]; [quotedCustomer ++ ", Pune"; ""]].
Proof.
  split; [reflexivity|].
  apply (exportToCSV_roundtrip [[("Customer", JStr (quotedCustomer ++ ", Pune")); ("Qty", jsInt 0)]]
           ["Customer"; "Qty"]); [discriminate | discriminate | reflexivity].
Defined.

Lemma accounting_export_agrees_witness :
  Route.accountingTransactions <> [] /\
  exportToCSV (map (accountingCsvRow fmtDate jsNumText) Route.accountingTransactions)
    accountingHeaders = inr (accountingExport fmtDate jsNumText Route.accountingTransactions).
Proof.
  split; [discriminate|].
  apply (accounting_export_agrees fmtDate jsNumText Route.accountingTransactions);
    [discriminate | repeat constructor].
Defined.

(** The fixture's first sale has a discount of 0: its discount column is
    empty. *)
Lemma accounting_export_parses_witness :
  map (fun t => nth 7 (accountingRecord fmtDate jsNumText t) "x") Route.accountingTransactions =
    [""; "112.5"; "36"] /\
  parseCSV (accountingExport fmtDate jsNumText Route.accountingTransactions) =
  Some (accountingHeaders :: map (accountingRecord fmtDate jsNumText) Route.accountingTransactions).
Proof.
  split; [vm_compute; reflexivity|].
  apply (accounting_export_parses fmtDate jsNumText Route.accountingTransactions);
    [discriminate | repeat constructor].
Defined.

(** The accounting page does not escape quotes: a sale to a customer
    whose name holds quotes is exported as a file no CSV reader accepts,
    while [exportToCSV] of [utils.ts] writes the same rows so that they
    read back. *)
Example accounting_quote_unreadable :
  parseCSV (accountingExport fmtDate jsNumText [quotedSale]) = None /\
  match exportToCSV (map (accountingCsvRow fmtDate jsNumText) [quotedSale]) accountingHeaders with
  | inr content => parseCSV content
  | inl _ => None
  end = Some [accountingHeaders; accountingRecord fmtDate jsNumText quotedSale].
Proof. split; vm_compute; reflexivity. Qed.

End CsvWitnesses.
