(* ===== verification/ListViews.v ===== *)
(** * ListViews: search, tabs and column sort of the list views

    The text search of [ExpiryList.tsx] and of the inventory page
    ([app/inventory/page.tsx], [filterMedicines]), the column sort of
    [ExpiryList.tsx] and [InventoryTable.tsx] ([handleSort] and the
    comparator given to [Array.prototype.sort]), and the client side of the
    accounting page ([app/accounting/page.tsx]: the query it sends, its
    [filterTransactions] and the rows it exports).

    [Array.prototype.sort] is stable (ECMAScript 2019); with a consistent
    comparator its result is therefore the unique stable sorted
    permutation of the input.  [sortBy] is a stable insertion sort and
    [stable_sort_unique] shows that every stable sorted permutation is the
    one [sortBy] computes, so the model does not depend on the engine's
    algorithm.  [localeCompare] is the runtime's collation: a parameter,
    assumed to be a total preorder where a theorem needs it.  Case folding
    ([toLowerCase]) is modelled on ASCII. *)

From Stdlib Require Import ZArith QArith Lqa Lia List Bool Permutation Sorted.
From Stdlib Require Import String Ascii DecimalString.
From S2P Require Import Prelude Dates Stock Aggregator Csv.
Import ListNotations.

(** ** Text search *)
Module Search.
Local Open Scope string_scope.

(** [toLowerCase] on ASCII: the letters A to Z lowered. *)
Definition asciiLower (c : ascii) : ascii :=
  let n := nat_of_ascii c in
  if (65 <=? n)%nat && (n <=? 90)%nat then ascii_of_nat (n + 32) else c.

Fixpoint toLowerCase (s : string) : string :=
  match s with
  | EmptyString => EmptyString
  | String c s' => String (asciiLower c) (toLowerCase s')
  end.

Fixpoint prefixb (p s : string) : bool :=
  match p, s with
  | EmptyString, _ => true
  | String c p', String d s' => Ascii.eqb c d && prefixb p' s'
  | String _ _, EmptyString => false
  end.

(** [s.includes(p)] *)
Fixpoint includes (s p : string) : bool :=
  prefixb p s ||
  match s with
  | EmptyString => false
  | String _ s' => includes s' p
  end.

(** The predicate of the search [filter] of [ExpiryList.tsx] and of the
    inventory page (the same three fields). *)
Definition matchesSearch (searchTerm : string) (m : Views.Medicine) : bool :=
  let t := toLowerCase searchTerm in
  includes (toLowerCase (Views.name m)) t ||
  includes (toLowerCase (Views.supplier m)) t ||
  includes (toLowerCase (Views.batch m)) t.

(** [if (searchTerm) filtered = filtered.filter(...)] *)
Definition searchFilter (searchTerm : string) (ms : list Views.Medicine) : list Views.Medicine :=
  if String.eqb searchTerm EmptyString then ms else filter (matchesSearch searchTerm) ms.

(** [filterMedicines] of the inventory page: search, then the tab's
    [switch]. *)
Definition filterMedicines (medicines : list Views.Medicine) (searchTerm : string)
  (activeTab : Views.Tab) : list Views.Medicine :=
  let filtered := searchFilter searchTerm medicines in
  match activeTab with
  | Views.TAll => filtered
  | t => filter (Views.tabFilter t) filtered
  end.

End Search.

(** ** A stable sort *)
Section StableSortDefs.
Context {A : Type} (le : A -> A -> bool).

(** [x] goes before the first element it is not after. *)
Fixpoint insert (x : A) (l : list A) : list A :=
  match l with
  | [] => [x]
  | y :: l' => if le x y then x :: y :: l' else y :: insert x l'
  end.

Definition sortBy (l : list A) : list A := fold_right insert [] l.

(** Elements the comparator cannot tell apart. *)
Definition equiv (x y : A) : bool := le x y && le y x.

(** A list [r] is a result [Array.prototype.sort] may return for [l]:
    a sorted permutation keeping the order of equivalent elements. *)
Definition stableSortOf (l r : list A) : Prop :=
  Permutation r l /\ Sorted (fun a b => le a b = true) r /\
  forall z, filter (equiv z) r = filter (equiv z) l.

End StableSortDefs.

(** ** The column sort of the medicine tables *)
Module Sorting.
Import Views Dates.
Local Open Scope string_scope.

(** [keyof Medicine] *)
Inductive Field :=
| FId | FName | FStock | FPrice | FBatch | FSupplier | FExpiryDate | FSchedule
| FDaysUntilExpiry | FIsLowStock | FIsExpiringSoon | FIsExpired.

Scheme Equality for Field.

(** A field's value as the comparator sees it ([typeof]). *)
Inductive FVal := VStr (s : string) | VNum (q : Q) | VBool (b : bool) | VNull.

Definition decimal (z : Z) : string := NilEmpty.string_of_int (Z.to_int z).

Definition pad2 (z : Z) : string := if (z <? 10)%Z then "0" ++ decimal z else decimal z.

(** The [YYYY-MM-DD] text the API sends for an expiry date. *)
Definition isoText (d : DateStr) : string :=
  match d with
  | EmptyDate => EmptyString
  | IsoDate y m dd => decimal y ++ "-" ++ pad2 m ++ "-" ++ pad2 dd
  end.

(** [a[sortField]] *)
Definition fieldValue (m : Medicine) (f : Field) : FVal :=
  match f with
  | FId => VStr (id m)
  | FName => VStr (name m)
  | FStock => VNum (inject_Z (stock m))
  | FPrice => VNum (price m)
  | FBatch => VStr (batch m)
  | FSupplier => VStr (supplier m)
  | FExpiryDate => VStr (isoText (expiryDate m))
  | FSchedule => match schedule m with Some s => VStr s | None => VNull end
  | FDaysUntilExpiry => VNum (inject_Z (daysUntilExpiry m))
  | FIsLowStock => VBool (isLowStock m)
  | FIsExpiringSoon => VBool (isExpiringSoon m)
  | FIsExpired => VBool (isExpired m)
  end.

Inductive Direction := Asc | Desc.

Record SortState := mkSortState { sortField : Field; sortDirection : Direction }.

(** [handleSort(field)]: the same column flips the direction, another
    column sorts ascending. *)
Definition handleSort (st : SortState) (f : Field) : SortState :=
  if Field_beq (sortField st) f then
    mkSortState (sortField st) (match sortDirection st with Asc => Desc | Desc => Asc end)
  else mkSortState f Asc.

(** The initial states of [InventoryTable] and [ExpiryList]. *)
Definition inventoryInitial : SortState := mkSortState FName Asc.
Definition expiryInitial : SortState := mkSortState FDaysUntilExpiry Asc.

Section Comparator.
Context (localeCompare : string -> string -> Z).

(** The comparator passed to [sort]: [localeCompare] on two strings, a
    difference on two numbers, [0] otherwise. *)
Definition compareValues (dir : Direction) (a b : FVal) : Q :=
  match a, b with
  | VStr x, VStr y => inject_Z (match dir with Asc => localeCompare x y | Desc => localeCompare y x end)
  | VNum x, VNum y => match dir with Asc => x - y | Desc => y - x end
  | _, _ => 0
  end.

Definition comparator (st : SortState) (a b : Medicine) : Q :=
  compareValues (sortDirection st) (fieldValue a (sortField st)) (fieldValue b (sortField st)).

(** [a] may stay before [b]: the comparator does not ask to swap them. *)
Definition sortLe (st : SortState) (a b : Medicine) : bool := Qle_bool (comparator st a b) 0.

(** [sortedMedicines] of [InventoryTable.tsx]: a sorted copy. *)
Definition sortedMedicines (st : SortState) (medicines : list Medicine) : list Medicine :=
  sortBy (sortLe st) medicines.

(** [getFilteredMedicines] of [ExpiryList.tsx].  It returns the contents
    of the [medicines] prop array afterwards and the list shown:
    [filtered.sort] sorts in place, and when neither filter ran
    [filtered] is the prop array itself. *)
Definition getFilteredMedicines (medicines : list Medicine) (searchTerm : string)
  (filterBy : FilterBy) (st : SortState) : list Medicine * list Medicine :=
  let '(filtered, fresh) :=
    if String.eqb searchTerm EmptyString then (medicines, false)
    else (filter (Search.matchesSearch searchTerm) medicines, true) in
  let '(filtered, fresh) :=
    match filterBy with
    | FAll => (filtered, fresh)
    | f => (filter (statusFilter f) filtered, true)
    end in
  let sorted := sortBy (sortLe st) filtered in
  (if fresh then medicines else sorted, sorted).

(** What a theorem on a string column assumes of [localeCompare]: that
    [localeCompare x y <= 0] is a total preorder. *)
Definition collationOrder : Prop :=
  (forall x y, localeCompare x y <= 0 \/ localeCompare y x <= 0)%Z /\
  (forall x y z, localeCompare x y <= 0 -> localeCompare y z <= 0 -> localeCompare x z <= 0)%Z.

(** The columns whose comparator is consistent: [schedule], a string or
    [null], is not (a string and [null] compare equal to everything). *)
Definition orderedField (f : Field) : Prop :=
  match f with
  | FSchedule => False
  | FId | FName | FBatch | FSupplier | FExpiryDate => collationOrder
  | _ => True
  end.

End Comparator.

(** The numeric columns and the number a medicine has in them. *)
Definition numericField (f : Field) : bool :=
  match f with FStock | FPrice | FDaysUntilExpiry => true | _ => false end.

Definition numKey (f : Field) (m : Medicine) : Q :=
  match fieldValue m f with VNum q => q | _ => 0 end.

End Sorting.

(** ** The accounting page's client side *)
Module AccountingPage.
Import Route Search Dates.
Local Open Scope string_scope.

(** [transaction.type] as the JSON carries it. *)
Definition typeString (t : TxType) : string :=
  match t with Sell => "sell" | Purchase => "purchase" | OtherType s => s end.

(** [o?.toLowerCase().includes(t)]: [undefined] when [o] is. *)
Definition optIncludes (o : option string) (t : string) : bool :=
  match o with Some s => includes (toLowerCase s) t | None => false end.

(** The search predicate of the page's [filterTransactions]. *)
Definition pageMatches (searchTerm : string) (tx : AccTransaction) : bool :=
  let t := toLowerCase searchTerm in
  includes (toLowerCase (tx_invoiceNumber tx)) t ||
  optIncludes (tx_customerName tx) t ||
  optIncludes (tx_supplierName tx) t ||
  existsb (fun it => includes (toLowerCase (ai_medicineName it)) t) (tx_items tx).

(** [filterTransactions] of the page: search, then the tab. *)
Definition filterTransactions (transactions : list AccTransaction) (searchTerm activeTab : string)
  : list AccTransaction :=
  let filtered :=
    if String.eqb searchTerm EmptyString then transactions
    else filter (pageMatches searchTerm) transactions in
  if negb (String.eqb activeTab "all")
  then filter (fun tx => String.eqb (typeString (tx_type tx)) activeTab) filtered
  else filtered.

(** A query string. *)
Definition Params := list (string * string).

(** [searchParams.get(k)] *)
Fixpoint paramGet (k : string) (ps : Params) : option string :=
  match ps with
  | [] => None
  | (k', v) :: ps' => if String.eqb k k' then Some v else paramGet k ps'
  end.

(** [new URLSearchParams({financialYear, ...(selectedMonth && {month})})] *)
Definition fetchParams (selectedFinancialYear selectedMonth : string) : Params :=
  ("financialYear", selectedFinancialYear) ::
  (if String.eqb selectedMonth EmptyString then [] else [("month", selectedMonth)]).

(** The state of [AccountingPage]. *)
Record PageState := mkPage {
  transactions : list AccTransaction;
  filteredTransactions : list AccTransaction;
  activeTab : string;
  selectedFinancialYear : string;
  searchTerm : string;
  selectedMonth : string;
  taxSummary : TaxSummary
}.

Inductive PageEvent :=
| SelectYear (fy : string)
| SelectMonth (m : string)
| TypeSearch (s : string)
| SelectTab (t : string).

Section Fetch.
(** [new Date(s)] of the route, not modelled. *)
Context (parseDate : string -> DateStr).

(** How [GET] reads the query string (its lines 90-93). *)
Definition routeQuery (ps : Params) : Query :=
  mkQuery (paramGet "financialYear" ps) (option_map parseDate (paramGet "from" ps))
          (option_map parseDate (paramGet "to" ps)).

(** [fetchTransactions] against the store, which answers at once. *)
Definition fetchTransactions (store : list AccTransaction) (st : PageState) : PageState :=
  let r := GET (routeQuery (fetchParams (selectedFinancialYear st) (selectedMonth st))) store in
  mkPage (Route.transactions r) (filteredTransactions st) (activeTab st)
    (selectedFinancialYear st) (searchTerm st) (selectedMonth st) (summary r).

(** The effect on [transactions], [searchTerm] and [activeTab]. *)
Definition refilter (st : PageState) : PageState :=
  mkPage (transactions st) (filterTransactions (transactions st) (searchTerm st) (activeTab st))
    (activeTab st) (selectedFinancialYear st) (searchTerm st) (selectedMonth st) (taxSummary st).

(** One user action and the effects it triggers: a changed year or month
    refetches, and every change refilters. *)
Definition pageStep (store : list AccTransaction) (st : PageState) (e : PageEvent) : PageState :=
  match e with
  | SelectYear fy =>
      if String.eqb fy (selectedFinancialYear st) then st
      else refilter (fetchTransactions store
             (mkPage (transactions st) (filteredTransactions st) (activeTab st) fy
                (searchTerm st) (selectedMonth st) (taxSummary st)))
  | SelectMonth m =>
      if String.eqb m (selectedMonth st) then st
      else refilter (fetchTransactions store
             (mkPage (transactions st) (filteredTransactions st) (activeTab st)
                (selectedFinancialYear st) (searchTerm st) m (taxSummary st)))
  | TypeSearch s =>
      refilter (mkPage (transactions st) (filteredTransactions st) (activeTab st)
                  (selectedFinancialYear st) s (selectedMonth st) (taxSummary st))
  | SelectTab t =>
      refilter (mkPage (transactions st) (filteredTransactions st) t
                  (selectedFinancialYear st) (searchTerm st) (selectedMonth st) (taxSummary st))
  end.

(** The state [useState] gives, and the page once its mount effects
    have run and the first fetch has answered. *)
Definition emptyPage : PageState :=
  mkPage [] [] "all" "2024-2025" EmptyString EmptyString (mkTaxSummary 0 0 0 0 (Some 0) 0).

Definition mountPage (store : list AccTransaction) : PageState :=
  refilter (fetchTransactions store emptyPage).

End Fetch.
End AccountingPage.

(** ** Stable sorting: the result exists and is unique *)
Section StableSort.
Context {A : Type} (le : A -> A -> bool).
Hypothesis le_total : forall x y, le x y = true \/ le y x = true.
Hypothesis le_trans : forall x y z, le x y = true -> le y z = true -> le x z = true.


Lemma le_refl x : le x x = true.
Proof. destruct (le_total x x); assumption. Qed.

Lemma le_not x y : le x y = false -> le y x = true.
Proof. intros H. destruct (le_total x y) as [E|E]; [congruence | exact E]. Qed.

Lemma insert_perm x l : Permutation (insert le x l) (x :: l).
Proof.
  induction l as [|y l IH]; simpl; [reflexivity|].
  destruct (le x y); [reflexivity|].
  rewrite IH. apply perm_swap.
Qed.

Lemma sortBy_perm l : Permutation (sortBy le l) l.
Proof.
  induction l as [|x l IH]; simpl; [reflexivity|].
  rewrite insert_perm, IH. reflexivity.
Qed.

Lemma insert_sorted x l : Sorted (fun a b => le a b = true) l -> Sorted (fun a b => le a b = true) (insert le x l).
Proof.
  induction 1 as [|y l Hs IH Hhd]; simpl; [repeat constructor|].
  destruct (le x y) eqn:E; [repeat constructor; assumption|].
  constructor; [exact IH|].
  destruct l as [|z l]; simpl; [constructor; apply le_not, E|].
  destruct (le x z); constructor; [apply le_not, E | inversion Hhd; assumption].
Qed.

Lemma sortBy_sorted l : Sorted (fun a b => le a b = true) (sortBy le l).
Proof. induction l; simpl; [constructor | apply insert_sorted; assumption]. Qed.

Lemma equiv_trans x y z : equiv le x y = true -> equiv le y z = true -> equiv le x z = true.
Proof.
  unfold equiv. rewrite !andb_true_iff. intros [H1 H2] [H3 H4].
  split; eapply le_trans; eassumption.
Qed.

Lemma equiv_sym x y : equiv le x y = equiv le y x.
Proof. unfold equiv. apply andb_comm. Qed.

(** The elements [insert] passes are strictly smaller than [x]: none is
    equivalent to an element equivalent to [x]. *)
Lemma insert_filter z x l :
  filter (equiv le z) (insert le x l) =
  if equiv le z x then x :: filter (equiv le z) l else filter (equiv le z) l.
Proof.
  induction l as [|y l IH]; simpl; [destruct (equiv le z x); reflexivity|].
  destruct (le x y) eqn:Exy; simpl; [destruct (equiv le z x); reflexivity|].
  rewrite IH. destruct (equiv le z x) eqn:Ezx; [|reflexivity].
  destruct (equiv le z y) eqn:Ezy; [|reflexivity].
  exfalso. rewrite equiv_sym in Ezx.
  unfold equiv in Ezx, Ezy. apply andb_true_iff in Ezx as [Hxz _].
  apply andb_true_iff in Ezy as [Hzy _].
  rewrite (le_trans _ _ _ Hxz Hzy) in Exy. discriminate.
Qed.

Lemma sortBy_stable z l : filter (equiv le z) (sortBy le l) = filter (equiv le z) l.
Proof.
  induction l as [|x l IH]; simpl; [reflexivity|].
  rewrite insert_filter, IH. reflexivity.
Qed.

Lemma sortBy_stableSortOf l : stableSortOf le l (sortBy le l).
Proof. split; [apply sortBy_perm | split; [apply sortBy_sorted | intros z; apply sortBy_stable]]. Qed.

Lemma equiv_refl x : equiv le x x = true.
Proof. unfold equiv. rewrite le_refl. reflexivity. Qed.

Lemma sorted_head_le a l : Sorted (fun a b => le a b = true) (a :: l) ->
  forall y, In y l -> le a y = true.
Proof.
  intros H. apply Sorted_StronglySorted in H; [|intros x y z; apply le_trans].
  apply StronglySorted_inv in H as [_ H]. apply Forall_forall, H.
Qed.

(** Two sorted lists with the same elements and the same order among
    equivalent elements are equal. *)
Lemma stable_sorted_unique l1 : forall l2,
  Sorted (fun a b => le a b = true) l1 -> Sorted (fun a b => le a b = true) l2 ->
  Permutation l1 l2 -> (forall z, filter (equiv le z) l1 = filter (equiv le z) l2) -> l1 = l2.
Proof.
  induction l1 as [|a r1 IH]; intros l2 S1 S2 P F.
  - symmetry. apply Permutation_nil, P.
  - destruct l2 as [|b r2].
    { apply Permutation_sym, Permutation_nil in P. discriminate. }
    assert (Hab : equiv le a b = true).
    { unfold equiv. apply andb_true_iff. split.
      - destruct (Permutation_in b (Permutation_sym P) (in_eq b r2)) as [<-|Hb];
          [apply le_refl | eapply sorted_head_le; eassumption].
      - destruct (Permutation_in a P (in_eq a r1)) as [<-|Ha];
          [apply le_refl | eapply sorted_head_le; eassumption]. }
    pose proof (F a) as Fa. simpl in Fa. rewrite equiv_refl, Hab in Fa.
    injection Fa as <- _. f_equal. apply IH.
    + apply Sorted_inv in S1. tauto.
    + apply Sorted_inv in S2. tauto.
    + apply Permutation_cons_inv in P. exact P.
    + intros z. specialize (F z). simpl in F.
      destruct (equiv le z a); [injection F; auto | exact F].
Qed.

(** What [Array.prototype.sort] returns is what [sortBy] computes. *)
Lemma stable_sort_unique l r : stableSortOf le l r <-> r = sortBy le l.
Proof.
  split; [|intros ->; apply sortBy_stableSortOf].
  intros (P & S & F). apply stable_sorted_unique.
  - exact S.
  - apply sortBy_sorted.
  - rewrite P. symmetry. apply sortBy_perm.
  - intros z. rewrite F. symmetry. apply sortBy_stable.
Qed.

End StableSort.

Section FlipSort.
Context {A : Type} (le : A -> A -> bool).
Hypothesis le_total : forall x y, le x y = true \/ le y x = true.
Hypothesis le_trans : forall x y z, le x y = true -> le y z = true -> le x z = true.

Lemma ss_snoc (R : A -> A -> Prop) l a :
  StronglySorted R l -> Forall (fun y => R y a) l -> StronglySorted R (l ++ [a]).
Proof.
  induction 1 as [|x l Hs IH Hx]; intros Ha; simpl; [repeat constructor|].
  inversion Ha as [|? ? Hxa Hl]; subst. constructor; [apply IH, Hl|].
  apply Forall_app. split; [exact Hx | constructor; [exact Hxa | constructor]].
Qed.

Lemma sorted_rev l : Sorted (fun a b => le a b = true) l -> Sorted (fun a b => le b a = true) (rev l).
Proof.
  intros H. apply StronglySorted_Sorted.
  apply Sorted_StronglySorted in H; [|intros x y z; apply le_trans].
  induction H as [|a l Hs IH Ha]; simpl; [constructor|].
  apply ss_snoc; [exact IH|]. apply Forall_rev, Ha.
Qed.

Lemma filter_rev (p : A -> bool) l : filter p (rev l) = rev (filter p l).
Proof.
  induction l as [|x l IH]; simpl; [reflexivity|].
  rewrite filter_app, IH. simpl. destruct (p x); simpl; [reflexivity | apply app_nil_r].
Qed.

(** Sorting by the reversed comparator is reversing the sort of the
    reversed list: equivalent elements keep their order either way. *)
Lemma sortBy_flip l : sortBy (fun a b => le b a) l = rev (sortBy le (rev l)).
Proof.
  symmetry. apply stable_sort_unique.
  - intros x y. destruct (le_total x y); auto.
  - intros x y z H1 H2. eapply le_trans; eassumption.
  - split; [|split].
    + rewrite <- Permutation_rev, sortBy_perm. symmetry. apply Permutation_rev.
    + apply sorted_rev, sortBy_sorted; assumption.
    + intros z.
      rewrite (filter_ext (equiv (fun a b => le b a) z) (equiv le z)) by (intros y; apply andb_comm).
      rewrite filter_rev, sortBy_stable, filter_rev, rev_involutive by assumption.
      apply filter_ext. intros y. apply andb_comm.
Qed.

End FlipSort.

(** ** The column sort *)
Section SortTheorems.
Import Views Sorting.
Context (localeCompare : string -> string -> Z).

Lemma qsub_le x y : Qle_bool (x - y) 0 = true <-> x <= y.
Proof. rewrite Qle_bool_iff. split; intros; lra. Qed.

Lemma qz_le z : Qle_bool (inject_Z z) 0 = (z <=? 0)%Z.
Proof. unfold Qle_bool. simpl. rewrite Z.mul_1_r. reflexivity. Qed.

Lemma Q_total x y : x <= y \/ y <= x.
Proof. destruct (Qlt_le_dec x y); [left; lra | right; assumption]. Qed.

Ltac unfold_sortLe :=
  unfold sortLe, comparator, compareValues; simpl;
  rewrite ?qz_le, ?Z.leb_le, ?qsub_le.

Lemma sortLe_total f dir : orderedField localeCompare f ->
  forall a b, sortLe localeCompare (mkSortState f dir) a b = true \/
              sortLe localeCompare (mkSortState f dir) b a = true.
Proof.
  intros Hf a b. destruct f; simpl in Hf; try contradiction; destruct dir; unfold_sortLe;
    first [left; reflexivity | apply Q_total | destruct Hf as [Ht _]; apply Ht].
Qed.

Lemma sortLe_trans f dir : orderedField localeCompare f ->
  forall a b c, sortLe localeCompare (mkSortState f dir) a b = true ->
                sortLe localeCompare (mkSortState f dir) b c = true ->
                sortLe localeCompare (mkSortState f dir) a c = true.
Proof.
  intros Hf a b c. destruct f; simpl in Hf; try contradiction; destruct dir; unfold_sortLe;
    first [intros; reflexivity | intros; eapply Qle_trans; eassumption | destruct Hf as [_ Ht]; intros H1 H2; eapply Ht; eassumption].
Qed.

Lemma sortLe_flip f a b :
  sortLe localeCompare (mkSortState f Desc) a b = sortLe localeCompare (mkSortState f Asc) b a.
Proof.
  destruct f; try reflexivity.
  unfold sortLe, comparator. simpl. destruct (schedule a), (schedule b); reflexivity.
Qed.

Lemma sortBy_ext {A} (le1 le2 : A -> A -> bool) l :
  (forall a b, le1 a b = le2 a b) -> sortBy le1 l = sortBy le2 l.
Proof.
  intros H. induction l as [|x l IH]; simpl; [reflexivity|]. rewrite IH.
  generalize (sortBy le2 l). intros s. induction s as [|y s IHs]; simpl; [reflexivity|].
  rewrite H, IHs. reflexivity.
Qed.

Lemma sorted_mono {A} (R1 R2 : A -> A -> Prop) l :
  (forall a b, R1 a b -> R2 a b) -> Sorted R1 l -> Sorted R2 l.
Proof.
  intros H. induction 1 as [|x l Hs IH Hhd]; constructor; [exact IH|].
  destruct Hhd; constructor. apply H. assumption.
Qed.

(** The model of the column sort is the engine's: for every column
    with a consistent comparator (every sortable column, given a
    [localeCompare] that is a total preorder), the lists
    [Array.prototype.sort] may return, stable sorted permutations of the
    input, are exactly the one [sortedMedicines] computes. *)
Theorem column_sort_is_engine_sort st ms r :
  orderedField localeCompare (sortField st) ->
  stableSortOf (sortLe localeCompare st) ms r <-> r = sortedMedicines localeCompare st ms.
Proof.
  destruct st as [f dir]. simpl. intros Hf. apply stable_sort_unique.
  - apply sortLe_total, Hf.
  - apply sortLe_trans, Hf.
Qed.

(** C22. A numeric column (stock, price, days until expiry) sorted
    ascending lists the medicines it is given, each once, with their
    numbers in increasing order; sorted descending, the same medicines
    with their numbers in decreasing order. *)
Theorem numeric_column_sorted f ms :
  numericField f = true ->
  (Sorted (fun a b => numKey f a <= numKey f b) (sortedMedicines localeCompare (mkSortState f Asc) ms) /\
   Permutation (sortedMedicines localeCompare (mkSortState f Asc) ms) ms) /\
  (Sorted (fun a b => numKey f b <= numKey f a) (sortedMedicines localeCompare (mkSortState f Desc) ms) /\
   Permutation (sortedMedicines localeCompare (mkSortState f Desc) ms) ms).
Proof.
  intros Hf. destruct f; try discriminate; split; (split; [|apply sortBy_perm]);
    (eapply sorted_mono; [|apply sortBy_sorted; first [apply sortLe_total | apply sortLe_trans]; exact I]);
    intros a b; unfold_sortLe; unfold numKey; simpl; tauto.
Qed.

(** Clicking the header of the column sorted ascending sorts it
    descending, and the descending list is the reversed ascending sort of
    the reversed input: medicines with equal values keep their input
    order in both directions. *)
Theorem descending_is_reversed f ms :
  orderedField localeCompare f ->
  sortedMedicines localeCompare (handleSort (mkSortState f Asc) f) ms =
  rev (sortedMedicines localeCompare (mkSortState f Asc) (rev ms)).
Proof.
  intros Hf.
  assert (Hst : handleSort (mkSortState f Asc) f = mkSortState f Desc) by (destruct f; reflexivity).
  rewrite Hst. unfold sortedMedicines.
  rewrite (sortBy_ext _ (fun a b => sortLe localeCompare (mkSortState f Asc) b a)) by apply sortLe_flip.
  apply sortBy_flip; [apply sortLe_total | apply sortLe_trans]; exact Hf.
Qed.

Lemma filter_all {A} (p : A -> bool) l : (forall x, p x = true) -> filter p l = l.
Proof. intros H. induction l as [|x l IH]; simpl; [reflexivity | rewrite H, IH; reflexivity]. Qed.

(** C23. The list [ExpiryList] shows is the sorted list of the medicines
    passing the search and the status filter; and since [sort] works in
    place, the parent's [medicines] array is reordered to that list
    exactly when neither filter is active, and left alone otherwise. *)
Theorem expiry_list_sorts_props ms s fb st :
  snd (getFilteredMedicines localeCompare ms s fb st) =
    sortedMedicines localeCompare st (filter (statusFilter fb) (Search.searchFilter s ms)) /\
  fst (getFilteredMedicines localeCompare ms s fb st) =
    (if String.eqb s EmptyString && match fb with FAll => true | _ => false end
     then sortedMedicines localeCompare st ms else ms).
Proof.
  unfold getFilteredMedicines, Search.searchFilter.
  destruct (String.eqb s EmptyString), fb; simpl; split; try reflexivity;
    unfold sortedMedicines; rewrite (filter_all (statusFilter FAll)) by reflexivity; reflexivity.
Qed.

End SortTheorems.

(** ** Search and the accounting page *)
Section SearchTheorems.
Import Search.
Local Open Scope string_scope.

Lemma includes_empty s : includes s EmptyString = true.
Proof. destruct s; reflexivity. Qed.

Lemma lower_upper c : asciiLower (Reports.asciiUpper c) = asciiLower c.
Proof. destruct c as [[] [] [] [] [] [] [] []]; reflexivity. Qed.

Lemma toLowerCase_upper s : toLowerCase (Reports.toUpperCase s) = toLowerCase s.
Proof. induction s as [|c s IH]; simpl; [reflexivity | rewrite lower_upper, IH; reflexivity]. Qed.

Lemma matchesSearch_upper s m : matchesSearch (Reports.toUpperCase s) m = matchesSearch s m.
Proof. unfold matchesSearch. rewrite toLowerCase_upper. reflexivity. Qed.

(** The [if (searchTerm)] guard of the search is only a shortcut:
    the empty term matches every medicine, so the search is the plain
    filter by [matchesSearch] for every term. *)
Theorem searchFilter_spec s ms : searchFilter s ms = filter (matchesSearch s) ms.
Proof.
  unfold searchFilter. destruct (String.eqb s EmptyString) eqn:E; [|reflexivity].
  apply String.eqb_eq in E. subst. symmetry. apply filter_all. intros m.
  unfold matchesSearch. simpl. rewrite includes_empty. reflexivity.
Qed.

(** The search ignores case: typing the term in capitals lists the
    same medicines, on the expiry list and on every tab of the inventory
    page. *)
Theorem search_case_insensitive s ms tab :
  filterMedicines ms (Reports.toUpperCase s) tab = filterMedicines ms s tab.
Proof.
  unfold filterMedicines, searchFilter.
  replace (String.eqb (Reports.toUpperCase s) EmptyString) with (String.eqb s EmptyString)
    by (destruct s; reflexivity).
  rewrite (filter_ext _ _ (matchesSearch_upper s)). reflexivity.
Qed.

End SearchTheorems.

Section PageTheorems.
Import Route AccountingPage.
Local Open Scope string_scope.
Context (parseDate : string -> Dates.DateStr).

(** C24. The month selector of the accounting page has no effect:
    choosing a month refetches with a [month] parameter that [GET] never
    reads, so the page then lists, filters and sums the transactions of
    the whole financial year. *)
Theorem month_selector_ignored store st m :
  m <> selectedMonth st ->
  let r := GET (mkQuery (Some (selectedFinancialYear st)) None None) store in
  let st' := pageStep parseDate store st (SelectMonth m) in
  transactions st' = Route.transactions r /\
  filteredTransactions st' = filterTransactions (Route.transactions r) (searchTerm st) (activeTab st) /\
  taxSummary st' = summary r.
Proof.
  intros Hm. apply String.eqb_neq in Hm. cbv zeta. unfold pageStep. rewrite Hm.
  unfold refilter, fetchTransactions, fetchParams. simpl.
  destruct (String.eqb m EmptyString); repeat split; reflexivity.
Qed.

End PageTheorems.

(** ** Examples *)
Module ListFixture.
Import Views Dates.
Local Open Scope string_scope.

(** Code-unit order, a total order standing for [localeCompare]. *)
Definition asciiCompare (a b : string) : Z :=
  match String.compare a b with Lt => -1 | Eq => 0 | Gt => 1 end.

(** Two medicines with the same stock. *)
Definition paracetamol5 : Medicine :=
  mkMedicine "1" "Paracetamol 500mg" 5 12 "B-001" "PharmaCorp Ltd" (IsoDate 2024 6 1) None
    47 true false false.
Definition amoxicillin5 : Medicine :=
  mkMedicine "2" "Amoxicillin 250mg" 5 45 "B-002" "PharmaCorp Ltd" (IsoDate 2024 6 1) (Some "H")
    47 true false false.

End ListFixture.

Section ListWitnesses.
Import Views Sorting ListFixture.
Local Open Scope string_scope.

(** Because the expiry list sorts its prop array in place when no
    filter is active, the order it shows for medicines with equal values
    depends on the filters used before: sorted by name and then by
    stock, two medicines with the same stock appear in name order without
    a search, and in their original order with a search that matches
    both. *)
Example shown_order_depends_on_search :
  let byName := handleSort expiryInitial FName in
  let byStock := handleSort byName FStock in
  snd (getFilteredMedicines asciiCompare
         (fst (getFilteredMedicines asciiCompare [paracetamol5; amoxicillin5] "" FAll byName))
         "" FAll byStock) = [amoxicillin5; paracetamol5] /\
  snd (getFilteredMedicines asciiCompare
         (fst (getFilteredMedicines asciiCompare [paracetamol5; amoxicillin5] "pharma" FAll byName))
         "pharma" FAll byStock) = [paracetamol5; amoxicillin5].
Proof. split; vm_compute; reflexivity. Qed.

(** The expiry list's default order on the fixture inventory. *)
Lemma column_sort_is_engine_sort_witness :
  map name (sortedMedicines asciiCompare expiryInitial Fixture.inventory) =
    ["Crocin Tablets"; "Paracetamol 500mg"; "Amoxicillin 250mg"; "Azithromycin 500mg"] /\
  stableSortOf (sortLe asciiCompare expiryInitial) Fixture.inventory
    (sortedMedicines asciiCompare expiryInitial Fixture.inventory).
Proof.
  split; [vm_compute; reflexivity|].
  apply (proj2 (column_sort_is_engine_sort asciiCompare expiryInitial Fixture.inventory _ I)).
  reflexivity.
Defined.

Lemma numeric_column_sorted_witness :
  numericField FStock = true /\
  Sorted (fun a b => numKey FStock a <= numKey FStock b)
    (sortedMedicines asciiCompare (mkSortState FStock Asc) Fixture.inventory).
Proof.
  split; [reflexivity|].
  exact (proj1 (proj1 (numeric_column_sorted asciiCompare FStock Fixture.inventory eq_refl))).
Defined.

Lemma descending_is_reversed_witness :
  map name (sortedMedicines asciiCompare (handleSort (mkSortState FStock Asc) FStock)
              [paracetamol5; amoxicillin5]) = ["Paracetamol 500mg"; "Amoxicillin 250mg"] /\
  sortedMedicines asciiCompare (handleSort (mkSortState FStock Asc) FStock) Fixture.inventory =
  rev (sortedMedicines asciiCompare (mkSortState FStock Asc) (rev Fixture.inventory)).
Proof.
  split; [vm_compute; reflexivity|].
  apply (descending_is_reversed asciiCompare FStock Fixture.inventory). exact I.
Defined.

Lemma month_selector_ignored_witness :
  "April" <> AccountingPage.selectedMonth
               (AccountingPage.mountPage (fun _ => Dates.EmptyDate) Route.accountingTransactions) /\
  AccountingPage.transactions
    (AccountingPage.pageStep (fun _ => Dates.EmptyDate) Route.accountingTransactions
       (AccountingPage.mountPage (fun _ => Dates.EmptyDate) Route.accountingTransactions)
       (AccountingPage.SelectMonth "April")) = Route.accountingTransactions.
Proof.
  split; [discriminate|].
  destruct (month_selector_ignored (fun _ => Dates.EmptyDate) Route.accountingTransactions
              (AccountingPage.mountPage (fun _ => Dates.EmptyDate) Route.accountingTransactions)
              "April") as [-> _]; [discriminate|].
  vm_compute. reflexivity.
Defined.

End ListWitnesses.
