(* ===== verification/AccountingView.v ===== *)
(** * AccountingView: what the accounting page shows

    The rendering of [src/src/app/accounting/page.tsx] from the page's
    state ([ListViews.AccountingPage]): the loading skeleton, the four
    summary cards, the tab whose content is shown, and the
    [AccountingTable] component (its "No transactions found" notice and
    its rows), and the text of the cards and cells, written by the
    page's copies of [formatCurrency] and [formatDate] ([Format]).

    The page's states are those reached from the mount by its events
    ([reachable]); the cards come from the route's [taxSummary] of the
    whole financial year, the table from the page's own search and tab
    filter. *)

From Stdlib Require Import ZArith QArith Lqa Lia List Bool String.
From S2P Require Import Prelude Dates Format Aggregator Csv ListViews.
Import ListNotations Dates.

Module AccountingView.
Import Route AccountingPage.
Local Open Scope string_scope.

(** The four cards: Total Sales, Total Purchases, Tax Collected, Net Tax
    Liability. *)
Record Cards := mkCards { cardSales : Q; cardPurchases : Q; cardTaxCollected : Q; cardNetTax : Q }.

Definition cardsOf (ts : TaxSummary) : Cards :=
  mkCards (totalSales ts) (totalPurchases ts) (totalTaxCollected ts) (netTaxLiability ts).

(** A row of [AccountingTable]: date, invoice, party, GST number, total,
    tax, discount, net, payment method. *)
Record Row := mkRow {
  rowDate : DateStr;
  rowInvoice : string;
  rowParty : string;
  rowGst : string;
  rowTotal : Q;
  rowTax : Q;
  rowDiscount : option Q;
  rowNet : Q;
  rowPayment : option string
}.

(** [transaction.customerName || transaction.supplierName || 'N/A'] and
    [transaction.gstNumber || 'N/A'] ([Reports.orText]: an empty string is
    falsy too). *)
Definition rowOf (t : AccTransaction) : Row :=
  mkRow (tx_date t) (tx_invoiceNumber t)
        (Reports.orText (tx_customerName t) (Reports.orText (tx_supplierName t) "N/A"))
        (Reports.orText (tx_gstNumber t) "N/A")
        (tx_totalAmount t) (tx_taxAmount t) (tx_discountAmount t) (tx_netAmount t)
        (tx_paymentMethod t).






(** The page's [formatCurrency], a copy of the one of [utils.ts]. *)
Definition formatCurrency (amount : option Q) : string := Format.formatCurrency amount.

(** The text of the four cards. *)
Definition cardTexts (c : Cards) : list string :=
  [formatCurrency (Some (cardSales c)); formatCurrency (Some (cardPurchases c));
   formatCurrency (Some (cardTaxCollected c)); formatCurrency (Some (cardNetTax c))].

(** The text of a row's cells in the local zone [tz]; an [undefined]
    amount is a [NaN] number for [Intl.NumberFormat], and React writes
    nothing for an [undefined] payment method. *)
Definition rowCells (tz : Z) (r : Row) : list string :=
  [Format.formatTxDate tz (rowDate r); rowInvoice r; rowParty r; rowGst r;
   Format.formatCurrency (Some (rowTotal r)); Format.formatCurrency (Some (rowTax r));
   Format.formatCurrency (rowDiscount r); Format.formatCurrency (Some (rowNet r));
   match rowPayment r with Some p => p | None => "" end].

Inductive TableView := NoTransactions | Rows (rows : list Row).

(** [AccountingTable({ transactions, type })]; the [type] prop is not
    read. *)
Definition accountingTable (transactions : list AccTransaction) (type : option string) : TableView :=
  match transactions with
  | [] => NoTransactions
  | _ => Rows (map rowOf transactions)
  end.

(** The [<TabsContent>] of the active tab, if any. *)
Definition tabContent (activeTab : string) (filtered : list AccTransaction) : option TableView :=
  if String.eqb activeTab "all" then Some (accountingTable filtered None)
  else if String.eqb activeTab "sell" then Some (accountingTable filtered (Some "sell"))
  else if String.eqb activeTab "purchase" then Some (accountingTable filtered (Some "purchase"))
  else None.

Inductive PageView := Skeleton | Loaded (cards : Cards) (tab : option TableView).

(** The page: the skeleton while [loading], else the cards and the
    active tab. *)
Definition pageView (loading : bool) (st : PageState) : PageView :=
  if loading then Skeleton
  else Loaded (cardsOf (taxSummary st)) (tabContent (activeTab st) (filteredTransactions st)).

(** The sum of the net amounts of the rows a view lists. *)
Definition shownNet (v : PageView) : Q :=
  match v with
  | Loaded _ (Some (Rows rows)) => qsum rowNet rows
  | _ => 0
  end.

(** The stores the route can hold: the fixture, then any [POST]s. *)
Inductive storeReachable : list AccTransaction -> Prop :=
| store_init : storeReachable accountingTransactions
| store_post now b store : storeReachable store -> storeReachable (snd (POST now b store)).

Section Reach.
Context (parseDate : string -> DateStr) (store : list AccTransaction).

(** The states of the page once mounted. *)
Inductive reachable : PageState -> Prop :=
| reach_mount : reachable (mountPage parseDate store)
| reach_step st e : reachable st -> reachable (pageStep parseDate store st e).


End Reach.
End AccountingView.

Section AccountingViewTheorems.
Import Route AccountingPage AccountingView.
Local Open Scope string_scope.

(** The type a stored transaction has is the one its JSON text names
    ([Route.txTypeOfString]): never [OtherType "sell"] nor
    [OtherType "purchase"]. *)
Definition typeParsed (t : AccTransaction) : bool :=
  match tx_type t with
  | OtherType s => negb (String.eqb s "sell") && negb (String.eqb s "purchase")
  | _ => true
  end.

Definition typesParsed (ts : list AccTransaction) : bool := forallb typeParsed ts.

Lemma txTypeOfString_parsed t s : tx_type t = txTypeOfString s -> typeParsed t = true.
Proof.
  intros Ht. unfold typeParsed. rewrite Ht. unfold txTypeOfString.
  destruct (String.eqb_spec s "sell"); [reflexivity|].
  destruct (String.eqb_spec s "purchase"); [reflexivity|].
  apply andb_true_intro; split; apply negb_true_iff, String.eqb_neq; assumption.
Qed.

Lemma storeReachable_parsed store : storeReachable store -> typesParsed store = true.
Proof.
  induction 1 as [|now b store _ IH]; [reflexivity|].
  unfold POST. destruct b as [b|]; [|exact IH].
  destruct (b_date b), (b_type b) as [ty|], (b_items b), (b_invoiceNumber b),
    (b_totalAmount b), (b_taxAmount b), (b_netAmount b); try exact IH.
  destruct (_ || _); [exact IH|]. simpl.
  unfold typesParsed in *. apply forallb_forall. intros x Hx.
  apply in_app_or in Hx as [Hx|Hx];
    first [exact (proj1 (forallb_forall _ _) IH x Hx)
          | destruct Hx as [<-|[]]; apply (txTypeOfString_parsed _ ty); reflexivity].
Qed.

Section Page.
Context (parseDate : string -> DateStr) (store : list AccTransaction).

(** What the page's state keeps: the cards are the route's summary of
    the listed transactions, the list is the page's filter of them, and
    the listed transactions come from the store. *)
Definition ViewInv (st : PageState) : Prop :=
  taxSummary st = Route.taxSummary (transactions st) /\
  filteredTransactions st = filterTransactions (transactions st) (searchTerm st) (activeTab st) /\
  incl (transactions st) store.

Lemma route_filter_incl q ts : incl (Route.filterTransactions q ts) ts.
Proof.
  unfold Route.filterTransactions.
  destruct (paramTime (q_from q)), (paramTime (q_to q));
    intros t Hin; repeat (apply filter_In in Hin as [Hin _]); exact Hin.
Qed.

Lemma fetch_summary st :
  let st' := fetchTransactions parseDate store st in
  taxSummary st' = Route.taxSummary (transactions st') /\ incl (transactions st') store.
Proof. split; [reflexivity | apply route_filter_incl]. Qed.

Lemma refilter_inv st :
  taxSummary st = Route.taxSummary (transactions st) -> incl (transactions st) store ->
  ViewInv (refilter st).
Proof. intros H1 H2. unfold ViewInv, refilter; simpl. auto. Qed.

Lemma reachable_ViewInv st : reachable parseDate store st -> ViewInv st.
Proof.
  induction 1 as [|st e _ IH].
  - unfold mountPage. destruct (fetch_summary emptyPage) as [H1 H2]. apply refilter_inv; assumption.
  - destruct IH as (H1 & H2 & H3). destruct e; simpl.
    + destruct (String.eqb fy (selectedFinancialYear st)); [split; auto|].
      destruct (fetch_summary (mkPage (transactions st) (filteredTransactions st) (activeTab st) fy
                                 (searchTerm st) (selectedMonth st) (taxSummary st))) as [G1 G2].
      apply refilter_inv; assumption.
    + destruct (String.eqb m (selectedMonth st)); [split; auto|].
      destruct (fetch_summary (mkPage (transactions st) (filteredTransactions st) (activeTab st)
                                 (selectedFinancialYear st) (searchTerm st) m (taxSummary st))) as [G1 G2].
      apply refilter_inv; assumption.
    + apply refilter_inv; assumption.
    + apply refilter_inv; assumption.
Qed.

Lemma qsum_rowNet l : qsum rowNet (map rowOf l) = qsum tx_netAmount l.
Proof. induction l as [|t l IH]; simpl; [reflexivity | rewrite IH; reflexivity]. Qed.

(** The net column of a table sums the net amounts of its rows. *)
Lemma shownNet_tab st :
  In (activeTab st) ["all"; "sell"; "purchase"] ->
  shownNet (pageView false st) == qsum tx_netAmount (filteredTransactions st).
Proof.
  intros Ht. unfold pageView, tabContent.
  assert (Htab : forall ty, shownNet (Loaded (cardsOf (taxSummary st))
                   (Some (accountingTable (filteredTransactions st) ty)))
                 == qsum tx_netAmount (filteredTransactions st)).
  { intros ty. unfold accountingTable.
    destruct (filteredTransactions st) as [|t ts]; [reflexivity|].
    simpl shownNet. rewrite qsum_rowNet. reflexivity. }
  simpl in Ht. destruct Ht as [<-|[<-|[<-|[]]]]; apply Htab.
Qed.

(** On stored types, the page's tab test is the route's [isSell] and
    [isPurchase]. *)
Lemma tab_filter_route l :
  typesParsed l = true ->
  filter (fun tx => String.eqb (typeString (tx_type tx)) "sell") l = filter isSell l /\
  filter (fun tx => String.eqb (typeString (tx_type tx)) "purchase") l = filter isPurchase l.
Proof.
  unfold typesParsed. rewrite forallb_forall. intros H.
  split; apply filter_ext_in; intros t Hin; specialize (H t Hin);
    unfold typeParsed, isSell, isPurchase in *; destruct (tx_type t) as [| |s]; try reflexivity;
    simpl; apply andb_prop in H as [H1 H2]; apply negb_true_iff in H1, H2; assumption.
Qed.

Lemma typesParsed_incl l l' : incl l l' -> typesParsed l' = true -> typesParsed l = true.
Proof.
  unfold typesParsed. rewrite !forallb_forall. intros Hi H t Ht. exact (H t (Hi t Ht)).
Qed.

(** C25.  With no search typed, the rows the Sales tab (the Purchases
    tab) of the accounting page lists add up, in their Net column, to the
    Total Sales (Total Purchases) card above them, from every state the
    page reaches over a store the route can hold. *)
Theorem tab_net_matches_card st tab :
  storeReachable store -> reachable parseDate store st -> searchTerm st = "" ->
  In tab ["sell"; "purchase"] ->
  let st' := pageStep parseDate store st (SelectTab tab) in
  shownNet (pageView false st') ==
    (if String.eqb tab "sell" then cardSales else cardPurchases) (cardsOf (taxSummary st')).
Proof.
  intros Hs Hr He Ht st'.
  destruct (reachable_ViewInv st' (reach_step _ _ st (SelectTab tab) Hr)) as (H1 & H2 & H3).
  pose proof (tab_filter_route (transactions st')
                (typesParsed_incl _ _ H3 (storeReachable_parsed _ Hs))) as [Fs Fp].
  rewrite shownNet_tab by (destruct Ht as [<-|[<-|[]]]; simpl; tauto).
  rewrite H2, H1. subst st'. simpl. unfold filterTransactions. rewrite He. simpl.
  destruct Ht as [<-|[<-|[]]]; simpl in *; [rewrite Fs | rewrite Fp];
    symmetry; apply reduce_sum_qsum.
Qed.

End Page.

(** C10. A transaction the route stored from a [POST] without
    [discountAmount] shows, in its Discount cell, the rupee sign and
    [NaN], a text that is no amount, while its Net cell reads back as the
    net amount rounded to the paisa. *)
Theorem discount_cell_nan tz now b store t store' :
  POST now (Some b) store = (PostOk t, store') -> b_discountAmount b = None ->
  In t store' /\
  nth 6 (rowCells tz (rowOf t)) "" = Format.rupee ++ "NaN" /\
  Format.readCurrency (nth 6 (rowCells tz (rowOf t)) "") = None /\
  Format.readCurrency (nth 7 (rowCells tz (rowOf t)) "") = Some (Format.shownPaise (tx_netAmount t)).
Proof.
  intros Hpost Hd. destruct (POST_ok_inv _ _ _ _ _ Hpost) as [-> [_ Hdisc]].
  split; [apply in_or_app; right; left; reflexivity|].
  simpl. rewrite Hdisc, Hd.
  split; [reflexivity|]. split; [exact readCurrency_NaN|].
  apply readCurrency_formatCurrency.
Qed.




End AccountingViewTheorems.

Section AccountingViewWitnesses.
Import Route AccountingPage AccountingView.
Local Open Scope string_scope.

Definition noParse (_ : string) : DateStr := EmptyDate.

Lemma tab_net_matches_card_witness :
  searchTerm (mountPage noParse accountingTransactions) = "" /\
  shownNet (pageView false (pageStep noParse accountingTransactions
                              (mountPage noParse accountingTransactions) (SelectTab "sell"))) ==
    cardSales (cardsOf (taxSummary (pageStep noParse accountingTransactions
                              (mountPage noParse accountingTransactions) (SelectTab "sell")))).
Proof.
  split; [reflexivity|].
  exact (tab_net_matches_card noParse accountingTransactions _ "sell" store_init
           (reach_mount _ _) eq_refl (or_introl eq_refl)).
Defined.

(** The fixture's sale posted without [discountAmount]: its row reads
    the rupee sign and [NaN] under Discount, and [134.40]
    after the rupee sign under Net. *)
Lemma discount_cell_nan_witness :
  b_discountAmount (saleBody 14.4 None) = None /\
  nth 7 (rowCells 19800000 (rowOf (saleTx None))) "" =
    (Format.rupee ++ "134.40")%string /\
  Format.readCurrency (nth 6 (rowCells 19800000 (rowOf (saleTx None))) "") = None.
Proof.
  split; [reflexivity|]. split; [vm_compute; reflexivity|].
  exact (proj1 (proj2 (proj2 (discount_cell_nan 19800000 _ _ _ _ _ (post_sale None) eq_refl)))).
Defined.


End AccountingViewWitnesses.
