(* ===== verification/AddStock.v ===== *)
(** * AddStock: the add-stock modal and the inventory page

    [src/src/components/AddStockModal.tsx]: the two number inputs and
    their [onChange] conversions ([parseInt(..) || 0], [parseFloat(..) || 0]),
    the zod schema [addStockSchema], and the modal's [onSubmit] with its
    response handling, as a step function on an explicit state.

    [src/src/app/inventory/page.tsx]: the page's state, its fetch of the
    medicine API, the search and tab filter (from [ListViews.v]), the tab
    badges and the [AddStockModal] it hosts, whose [onSuccess] refetches.

    The medicine API ([/api/medicines]) is not under [src/]: it is
    modelled from the spec (6: [listMedicines], [saveMedicine]; 4.1: the
    derived fields, [Views.classify]) as an in-memory store.  The server
    answers at once; a failed request stores nothing. *)

From Stdlib Require Import ZArith QArith Lqa Lia List Bool String Ascii.
From S2P Require Import Prelude Dates Format Stock ListViews JsNum.
Import ListNotations.

(** ** The modal *)
Module AddStock.
Import JsNum.
Local Open Scope string_scope.

(** [z.infer<typeof addStockSchema>] *)
Record Values := mkValues {
  v_name : string;
  v_stock : Z;
  v_price : Q;
  v_batch : string;
  v_supplier : string;
  v_expiryDate : string;
  v_schedule : option string
}.

(** [defaultValues] of [useForm]. *)
Definition defaultValues : Values := mkValues "" 0 0 "" "" "" (Some "").

(** The stock input's [onChange]: [parseInt(e.target.value) || 0]. *)
Definition stockOfInput (text : string) : Z :=
  match parseInt text with Some z => z | None => 0%Z end.

(** The price input's [onChange]: [parseFloat(e.target.value) || 0]. *)
Definition priceOfInput (text : string) : Q :=
  match parseFloat text with Some q => q | None => 0 end.

(** The date of a [YYYY-MM-DD] text: four digits, a dash, two digits,
    a dash, two digits. *)
Definition isoDateOf (s : string) : option (Z * Z * Z) :=
  match list_ascii_of_string s with
  | [y1; y2; y3; y4; d1; m1; m2; d2; a1; a2] =>
      if Ascii.eqb d1 "-"%char && Ascii.eqb d2 "-"%char then
        match spanDigits (string_of_list_ascii [y1; y2; y3; y4]),
              spanDigits (string_of_list_ascii [m1; m2]),
              spanDigits (string_of_list_ascii [a1; a2]) with
        | ([_; _; _; _] as y, _), ([_; _] as m, _), ([_; _] as d, _) =>
            Some (digitsValue y, digitsValue m, digitsValue d)
        | _, _, _ => None
        end
      else None
  | _ => None
  end.

(** The value of the expiry field's [<Input type="date">]: the
    browser's value sanitization keeps a valid date string and turns
    any other text into the empty string (years of more than four
    digits are not modelled). *)
Definition dateInputValue (s : string) : string :=
  match isoDateOf s with
  | Some (y, m, d) => if (1 <=? y)%Z && Format.validDate y m d then s else ""
  | None => ""
  end.

Inductive FieldName := NameF | StockF | PriceF | BatchF | SupplierF | ExpiryDateF | ScheduleF.

Scheme Equality for FieldName.

Record Issue := mkIssue { issuePath : FieldName; issueMessage : string }.

(** [z.string().min(1, msg)] *)
Definition requiredText (f : FieldName) (msg : string) (s : string) : list Issue :=
  if String.eqb s EmptyString then [mkIssue f msg] else [].

(** [addStockSchema]: the issues zod reports, in the order of the keys. *)
Definition schemaIssues (v : Values) : list Issue :=
  requiredText NameF "Medicine name is required" (v_name v) ++
  (if (v_stock v <? 1)%Z then [mkIssue StockF "Stock must be at least 1"] else []) ++
  (if negb (Qle_bool (1 # 100) (v_price v)) then [mkIssue PriceF "Price must be greater than 0"] else []) ++
  requiredText BatchF "Batch number is required" (v_batch v) ++
  requiredText SupplierF "Supplier name is required" (v_supplier v) ++
  requiredText ExpiryDateF "Expiry date is required" (v_expiryDate v).

(** The modal's state: the form's values, [formState.isSubmitted], the
    errors shown, [isSubmitting], and the body of the request in flight. *)
Record Modal := mkModal {
  values : Values;
  submitted : bool;
  errors : list Issue;
  isSubmitting : bool;
  inFlight : option Values
}.

Definition initModal : Modal := mkModal defaultValues false [] false None.

(** A request of the modal is in flight. *)
Definition pending (m : Modal) : bool :=
  match inFlight m with Some _ => true | None => false end.

(** The [<option>]s of the schedule [<select>]. *)
Inductive ScheduleOption := Regular | ScheduleH | ScheduleX.

Definition optionValue (o : ScheduleOption) : string :=
  match o with Regular => "" | ScheduleH => "H" | ScheduleX => "X" end.

(** What the user does in the dialog, and the answer to its request. *)
Inductive Event :=
| SetName (s : string)
| SetStockText (t : string)
| SetPriceText (t : string)
| SetBatch (s : string)
| SetSupplier (s : string)
| SetExpiryDate (s : string)
| SetSchedule (o : ScheduleOption)
| Submit
| Respond (ok : bool)
| Close.

(** What a step asks of the outside. *)
Inductive Effect := Post (body : Values) | ToastSuccess | ToastError | Refetch | CloseModal.

(** [field.onChange]: the new values; once the form has been submitted
    the changed field is revalidated ([reValidateMode] [onChange]). *)
Definition editField (m : Modal) (f : FieldName) (v : Values) : Modal :=
  mkModal v (submitted m)
    (if submitted m
     then filter (fun i => negb (FieldName_beq (issuePath i) f)) (errors m) ++
          filter (fun i => FieldName_beq (issuePath i) f) (schemaIssues v)
     else errors m)
    (isSubmitting m) (inFlight m).

(** [form.handleSubmit(onSubmit)], [onSubmit] and its [try/catch/finally];
    [None] when the event cannot happen (the submit button is disabled
    while submitting, and only a request in flight is answered). *)
Definition step (m : Modal) (e : Event) : option (Modal * list Effect) :=
  let v := values m in
  match e with
  | SetName s =>
      Some (editField m NameF (mkValues s (v_stock v) (v_price v) (v_batch v) (v_supplier v)
                                 (v_expiryDate v) (v_schedule v)), [])
  | SetStockText t =>
      Some (editField m StockF (mkValues (v_name v) (stockOfInput t) (v_price v) (v_batch v)
                                  (v_supplier v) (v_expiryDate v) (v_schedule v)), [])
  | SetPriceText t =>
      Some (editField m PriceF (mkValues (v_name v) (v_stock v) (priceOfInput t) (v_batch v)
                                  (v_supplier v) (v_expiryDate v) (v_schedule v)), [])
  | SetBatch s =>
      Some (editField m BatchF (mkValues (v_name v) (v_stock v) (v_price v) s (v_supplier v)
                                  (v_expiryDate v) (v_schedule v)), [])
  | SetSupplier s =>
      Some (editField m SupplierF (mkValues (v_name v) (v_stock v) (v_price v) (v_batch v) s
                                     (v_expiryDate v) (v_schedule v)), [])
  | SetExpiryDate s =>
      Some (editField m ExpiryDateF (mkValues (v_name v) (v_stock v) (v_price v) (v_batch v)
                                       (v_supplier v) (dateInputValue s) (v_schedule v)), [])
  | SetSchedule o =>
      Some (editField m ScheduleF (mkValues (v_name v) (v_stock v) (v_price v) (v_batch v)
                                     (v_supplier v) (v_expiryDate v) (Some (optionValue o))), [])
  | Submit =>
      if isSubmitting m then None
      else match schemaIssues v with
           | [] => Some (mkModal v true [] true (Some v), [Post v])
           | issues => Some (mkModal v true issues false None, [])
           end
  | Respond ok =>
      match inFlight m with
      | None => None
      | Some _ =>
          if ok then Some (initModal, [ToastSuccess; Refetch; CloseModal])
          else Some (mkModal v (submitted m) (errors m) false None, [ToastError])
      end
  | Close => Some (m, [CloseModal])
  end.

End AddStock.

(** ** The medicine API, from the spec *)
Module MedicineApi.
Import Views Dates JsNum AddStock.
Local Open Scope string_scope.

(** The calendar date of a [YYYY-MM-DD] text; anything else reads as no
    date. *)
Definition parseIsoDate (s : string) : DateStr :=
  match isoDateOf s with Some (y, m, d) => IsoDate y m d | None => EmptyDate end.

(** The record [saveMedicine] stores for a posted body. *)
Definition recordOfBody (rid : string) (b : Values) : StockRecord :=
  mkStockRecord rid (v_name b) (v_stock b) (v_price b) (v_batch b) (v_supplier b)
    (parseIsoDate (v_expiryDate b)) (v_schedule b).

(** [saveMedicine]: appended under a fresh identifier. *)
Definition saveMedicine (b : Values) (store : list StockRecord) : list StockRecord :=
  store ++ [recordOfBody (Sorting.decimal (Z.of_nat (List.length store) + 1)) b].

(** The data model of the spec (3): a schedule is none, [H] or [X] (the
    empty text of the select's Regular option included). *)
Definition scheduleOk (o : option string) : bool :=
  match o with
  | None => true
  | Some s => String.eqb s "" || String.eqb s "H" || String.eqb s "X"
  end.

(** A calendar date: a valid day of a year from 1 on. *)
Definition dateOk (d : DateStr) : bool :=
  match d with IsoDate y m dd => (1 <=? y)%Z && Format.validDate y m dd | EmptyDate => false end.

(** A stored record the spec's [MedicineStock] admits, its opaque [id]
    apart: named, a batch and a supplier, stock an integer at least 0,
    price at least 0, an expiry date that is a calendar date, a
    schedule none, [H] or [X]. *)
Definition recordOk (r : StockRecord) : bool :=
  negb (String.eqb (r_name r) "") && negb (String.eqb (r_batch r) "") &&
  negb (String.eqb (r_supplier r) "") && (0 <=? r_stock r)%Z && Qle_bool 0 (r_price r) &&
  dateOk (r_expiryDate r) && scheduleOk (r_schedule r).

Section Read.
Context (tz now : Z).

(** [listMedicines] with the derived fields, for the default 30-day
    window the inventory page asks for. *)
Definition listMedicines (store : list StockRecord) : list Medicine :=
  map (classify tz now 30) store.

Record Stats := mkStats {
  totalMedicines : nat;
  lowStockCount : nat;
  expiringSoonCount : nat
}.

(** The [stats] object of the answer.  The spec does not describe it:
    its keys are those the page reads ([stats.totalMedicines],
    [stats.lowStockCount], [stats.expiringSoonCount]), its values are
    taken to be the counts of the answer's medicines they name. *)
Definition statsOf (ms : list Medicine) : Stats :=
  mkStats (List.length ms) (count_if isLowStock ms) (count_if isExpiringSoon ms).

End Read.
End MedicineApi.

(** ** The inventory page *)
Module InventoryPage.
Import Views AddStock MedicineApi.
Local Open Scope string_scope.

(** The state of [InventoryPage]; [modal] is the state of the
    [AddStockModal] it renders, and [orphans] the bodies of the requests
    in flight whose dialog has been unmounted since it posted them: their
    [onSubmit] still runs when they answer. *)
Record Page := mkPage {
  medicines : list Medicine;
  filteredMedicines : list Medicine;
  searchTerm : string;
  activeTab : Tab;
  showAddModal : bool;
  loading : bool;
  stats : Stats;
  modal : Modal;
  orphans : list Values
}.

Definition emptyPage : Page :=
  mkPage [] [] EmptyString TAll false true (mkStats 0 0 0) initModal [].

Inductive PageEvent :=
| TypeSearch (s : string)
| SelectTab (t : Tab)
| OpenAddModal
| RefreshInventory
| ModalEvent (e : AddStock.Event)
| OrphanAnswer (i : nat) (ok : bool).

Section Page.
Context (tz now : Z).

(** The effect on [medicines], [searchTerm] and [activeTab]. *)
Definition refilter (p : Page) : Page :=
  mkPage (medicines p) (Search.filterMedicines (medicines p) (searchTerm p) (activeTab p))
    (searchTerm p) (activeTab p) (showAddModal p) (loading p) (stats p) (modal p) (orphans p).

(** [fetchMedicines] up to its [await]: [setLoading(true)], whose
    skeleton is rendered before the answer comes and unmounts the
    [AddStockModal]: the dialog comes back with a fresh form, and a
    request it had in flight becomes an orphan. *)
Definition startFetch (p : Page) : Page :=
  mkPage (medicines p) (filteredMedicines p) (searchTerm p) (activeTab p) (showAddModal p)
    true (stats p) initModal
    (orphans p ++ match inFlight (modal p) with Some b => [b] | None => [] end).

(** The rest of [fetchMedicines] once the answer holds [store]:
    [setMedicines], [setStats], [finally setLoading(false)], and the
    refilter [setMedicines] triggers. *)
Definition answerFetch (store : list StockRecord) (p : Page) : Page :=
  let ms := listMedicines tz now store in
  refilter (mkPage ms (filteredMedicines p) (searchTerm p) (activeTab p) (showAddModal p)
              false (statsOf ms) (modal p) (orphans p)).

(** [fetchMedicines] answered by the store at once. *)
Definition fetchMedicines (store : list StockRecord) (p : Page) : Page :=
  answerFetch store (startFetch p).

(** The page once its mount effects have run. *)
Definition initPage (store : list StockRecord) : Page := fetchMedicines store emptyPage.

Definition withModal (p : Page) (m : Modal) : Page :=
  mkPage (medicines p) (filteredMedicines p) (searchTerm p) (activeTab p) (showAddModal p)
    (loading p) (stats p) m (orphans p).

(** The handlers, for a [fetchMedicines] given as [refetch]: here the
    one the store answers at once, in [InventoryAsync.v] the one that
    only sends its request. *)
Section Handlers.
Context (refetch : list StockRecord -> Page -> Page).

(** The modal's callbacks: [onSuccess] is [fetchMedicines], [onClose]
    hides the dialog. *)
Definition applyEffectWith (store : list StockRecord) (p : Page) (eff : Effect) : Page :=
  match eff with
  | Refetch => refetch store p
  | CloseModal =>
      mkPage (medicines p) (filteredMedicines p) (searchTerm p) (activeTab p) false
        (loading p) (stats p) (modal p) (orphans p)
  | _ => p
  end.

Definition isResponse (e : AddStock.Event) : bool :=
  match e with Respond _ => true | _ => false end.

(** One event of the page and the store's answer to a request: the
    dialog's fields and buttons exist only while it is open, and the
    page's search, tabs and buttons are behind it then; the answer to a
    request may come at any time; a successful request has stored its
    body.  An orphan's answer runs the [onSubmit] of an unmounted form:
    [form.reset()] and [setIsSubmitting] reach nothing, while the
    page's [onSuccess] and [onClose] still refetch and close the
    dialog. *)
Definition pageStepWith (store : list StockRecord) (p : Page) (e : PageEvent)
  : option (list StockRecord * Page) :=
  match e with
  | ModalEvent me =>
      if negb (showAddModal p) && negb (isResponse me) then None
      else
        match AddStock.step (modal p) me with
        | None => None
        | Some (m', effs) =>
            let store' :=
              match me, inFlight (modal p) with
              | Respond true, Some body => saveMedicine body store
              | _, _ => store
              end in
            Some (store', fold_left (applyEffectWith store') effs (withModal p m'))
        end
  | OrphanAnswer i ok =>
      match nth_error (orphans p) i with
      | None => None
      | Some body =>
          let p0 := mkPage (medicines p) (filteredMedicines p) (searchTerm p) (activeTab p)
                      (showAddModal p) (loading p) (stats p) (modal p) (removeNth i (orphans p)) in
          if ok then
            let store' := saveMedicine body store in
            Some (store', fold_left (applyEffectWith store') [ToastSuccess; Refetch; CloseModal] p0)
          else Some (store, p0)
      end
  | TypeSearch s =>
      if showAddModal p then None
      else Some (store, refilter (mkPage (medicines p) (filteredMedicines p) s (activeTab p)
                                   (showAddModal p) (loading p) (stats p) (modal p) (orphans p)))
  | SelectTab t =>
      if showAddModal p then None
      else Some (store, refilter (mkPage (medicines p) (filteredMedicines p) (searchTerm p) t
                                   (showAddModal p) (loading p) (stats p) (modal p) (orphans p)))
  | OpenAddModal =>
      if showAddModal p then None
      else Some (store, mkPage (medicines p) (filteredMedicines p) (searchTerm p) (activeTab p)
                         true (loading p) (stats p) (modal p) (orphans p))
  | RefreshInventory =>
      if showAddModal p then None else Some (store, refetch store p)
  end.

End Handlers.

Definition applyEffect : list StockRecord -> Page -> Effect -> Page := applyEffectWith fetchMedicines.

Definition pageStep : list StockRecord -> Page -> PageEvent -> option (list StockRecord * Page) :=
  pageStepWith fetchMedicines.

(** The tab badges: all, low stock, expiring soon, Schedule H. *)
Definition tabBadges (p : Page) : nat * nat * nat * nat :=
  (List.length (medicines p), lowStockCount (stats p), expiringSoonCount (stats p),
   count_if (fun m => match schedule m with Some s => String.eqb s "H" | None => false end)
            (medicines p)).

(** A sequence of events from a state. *)
Fixpoint runPage (store : list StockRecord) (p : Page) (es : list PageEvent)
  : option (list StockRecord * Page) :=
  match es with
  | [] => Some (store, p)
  | e :: es' =>
      match pageStep store p e with
      | Some (store', p') => runPage store' p' es'
      | None => None
      end
  end.

(** The stores and pages reached from the page's mount over [store0]. *)
Inductive reachable (store0 : list StockRecord) : list StockRecord -> Page -> Prop :=
| reach_init : reachable store0 store0 (initPage store0)
| reach_step store p e store' p' :
    reachable store0 store p -> pageStep store p e = Some (store', p') ->
    reachable store0 store' p'.

End Page.
End InventoryPage.

(** ** The modal's invariant and the store's type *)
Section AddStockTheorems.
Import Views AddStock MedicineApi InventoryPage.
Local Open Scope string_scope.

(** What every state of the modal satisfies: the schedule is one of the
    select's values, [isSubmitting] is set exactly while a request is in
    flight, and the body in flight passed the schema. *)
(** The values the inputs can hold: a schedule of the select, and an
    expiry text the date input keeps as it is. *)
Definition valuesOk (v : Values) : bool :=
  scheduleOk (v_schedule v) && String.eqb (dateInputValue (v_expiryDate v)) (v_expiryDate v).

Definition bodyOk (b : Values) : Prop :=
  schemaIssues b = [] /\ valuesOk b = true.

Definition modalInv (m : Modal) : Prop :=
  valuesOk (values m) = true /\
  isSubmitting m = pending m /\
  (forall b, inFlight m = Some b -> bodyOk b).

Lemma app_nil_inv {A} (l1 l2 : list A) : (l1 ++ l2)%list = [] -> l1 = [] /\ l2 = [].
Proof. destruct l1; [auto | discriminate]. Qed.

Lemma requiredText_nil f msg s : requiredText f msg s = [] -> String.eqb s "" = false.
Proof. unfold requiredText. destruct (String.eqb s ""); [discriminate | reflexivity]. Qed.

(** A body that passed the schema is stored as a record of the data
    model, with stock at least 1 and price at least 0.01. *)
(** The date input gives a value it keeps. *)
Lemma dateInputValue_idem s : dateInputValue (dateInputValue s) = dateInputValue s.
Proof.
  unfold dateInputValue at 2 3.
  destruct (isoDateOf s) as [[[y m] d]|] eqn:E; [destruct ((1 <=? y)%Z && Format.validDate y m d) eqn:V|];
    [unfold dateInputValue; rewrite E, V | ..]; reflexivity.
Qed.

(** A non-empty text the date input keeps is a calendar date. *)
Lemma dateInputValue_dateOk s :
  String.eqb (dateInputValue s) s = true -> String.eqb s "" = false -> dateOk (parseIsoDate s) = true.
Proof.
  intros H Hne. apply String.eqb_eq in H. unfold dateInputValue, parseIsoDate in *.
  destruct (isoDateOf s) as [[[y m] d]|]; [destruct ((1 <=? y)%Z && Format.validDate y m d) eqn:V|];
    first [exact V | rewrite <- H in Hne; discriminate].
Qed.

Lemma schema_recordOk rid b :
  schemaIssues b = [] -> valuesOk b = true ->
  recordOk (recordOfBody rid b) = true /\ (1 <= v_stock b)%Z /\ (1 # 100 <= v_price b)%Q.
Proof.
  intros H Hv. unfold schemaIssues in H. apply andb_true_iff in Hv as [Hs Hd].
  apply app_nil_inv in H as [Hn H]. apply app_nil_inv in H as [Hst H].
  apply app_nil_inv in H as [Hp H]. apply app_nil_inv in H as [Hb H].
  apply app_nil_inv in H as [Hsu He].
  apply requiredText_nil in Hn, Hb, Hsu, He.
  pose proof (dateInputValue_dateOk _ Hd He) as Hdate.
  destruct (v_stock b <? 1)%Z eqn:Es; [discriminate|]. apply Z.ltb_ge in Es.
  destruct (Qle_bool (1 # 100) (v_price b)) eqn:Ep; [|discriminate]. apply Qle_bool_iff in Ep.
  unfold recordOk, recordOfBody; simpl. rewrite Hn, Hb, Hsu, Hs, Hdate. simpl.
  assert (E0 : (0 <=? v_stock b)%Z = true) by (apply Z.leb_le; lia). rewrite E0.
  assert (E1 : Qle_bool 0 (v_price b) = true) by (apply Qle_bool_iff; lra). rewrite E1.
  auto.
Qed.

Lemma editField_inv m f v :
  modalInv m -> valuesOk v = true -> modalInv (editField m f v).
Proof. intros (_ & Hs & Hf) Hv. unfold modalInv, editField, pending in *. simpl. auto. Qed.

Lemma optionValue_ok o : scheduleOk (Some (optionValue o)) = true.
Proof. destruct o; reflexivity. Qed.

Lemma step_inv m e m' effs : modalInv m -> AddStock.step m e = Some (m', effs) -> modalInv m'.
Proof.
  intros Hm Hstep. pose proof Hm as (Hsch & Hsub & Hfl).
  destruct e; simpl in Hstep.
  all: try (injection Hstep as <- _; apply editField_inv; [exact Hm|];
            unfold valuesOk in *; cbn [v_schedule v_expiryDate]; apply andb_true_iff in Hsch as [Hs Hd];
            rewrite ?Hs, ?Hd, ?optionValue_ok, ?dateInputValue_idem, ?String.eqb_refl; reflexivity).
  - destruct (isSubmitting m); [discriminate|].
    destruct (schemaIssues (values m)) eqn:E; injection Hstep as <- _.
    + split; [exact Hsch | split; [reflexivity | intros b0 [= <-]; split; auto]].
    + split; [exact Hsch | split; [reflexivity | intros ? [=]]].
  - destruct (inFlight m); [|discriminate].
    destruct ok; injection Hstep as <- _.
    + split; [reflexivity | split; [reflexivity | intros ? [=]]].
    + split; [exact Hsch | split; [reflexivity | intros ? [=]]].
  - injection Hstep as <- _. exact Hm.
Qed.

End AddStockTheorems.

Section PageTheorems.
Import Views AddStock MedicineApi InventoryPage.
Local Open Scope string_scope.
Context (tz now : Z).

Lemma addModal_init_inv : modalInv initModal.
Proof. split; [reflexivity | split; [reflexivity | intros ? [=]]]. Qed.

(** What the page keeps of the dialog: its own state, and the bodies of
    the orphaned requests, passed the schema. *)
Definition dialogInv (p : Page) : Prop := modalInv (modal p) /\ Forall bodyOk (orphans p).

Lemma fetch_dialogInv store p : dialogInv p -> dialogInv (fetchMedicines tz now store p).
Proof.
  intros [(_ & _ & Hfl) Ho]. split; [exact addModal_init_inv|]. simpl.
  apply Forall_app. split; [exact Ho|].
  destruct (inFlight (modal p)) as [b|] eqn:E; constructor; [exact (Hfl b eq_refl) | constructor].
Qed.

Lemma fold_effects_inv store effs p :
  dialogInv p -> dialogInv (fold_left (applyEffect tz now store) effs p).
Proof.
  revert p. induction effs as [|eff effs IH]; intros p Hp; simpl; [exact Hp|].
  apply IH. destruct eff; try exact Hp. apply fetch_dialogInv, Hp.
Qed.

Lemma save_ok store b :
  Forall (fun r => recordOk r = true) store -> bodyOk b ->
  Forall (fun r => recordOk r = true) (saveMedicine b store).
Proof.
  intros Hs [Hb Hsb]. unfold saveMedicine. apply Forall_app. split; [exact Hs|].
  constructor; [apply (schema_recordOk _ _ Hb Hsb) | constructor].
Qed.

Lemma Forall_removeNth {A} (P : A -> Prop) i l : Forall P l -> Forall P (removeNth i l).
Proof.
  revert i. induction l as [|x l IH]; intros i H; [destruct i; constructor|].
  inversion H; subst. destruct i; simpl; [assumption | constructor; auto].
Qed.

Definition pageInv (store : list StockRecord) (p : Page) : Prop :=
  Forall (fun r => recordOk r = true) store /\ dialogInv p.

Lemma pageStep_inv store p e store' p' :
  pageInv store p -> pageStep tz now store p e = Some (store', p') -> pageInv store' p'.
Proof.
  intros [Hs [Hm Ho]] Hstep. destruct e; cbv beta iota zeta delta [pageStep pageStepWith] in Hstep.
  1-4: destruct (showAddModal p); [discriminate|]; injection Hstep as <- <-;
       try (split; [exact Hs | split; assumption]).
  1: split; [exact Hs | apply fetch_dialogInv; split; assumption].
  - destruct (negb (showAddModal p) && negb (isResponse e)); [discriminate|].
    destruct (AddStock.step (modal p) e) as [[m' effs]|] eqn:Es; [|discriminate].
    injection Hstep as <- <-. split.
    + destruct e; try exact Hs. destruct ok; try exact Hs.
      destruct (inFlight (modal p)) as [b|] eqn:Ef; [|exact Hs].
      apply save_ok; [exact Hs | exact (proj2 (proj2 Hm) b Ef)].
    + apply fold_effects_inv. split; [exact (step_inv _ _ _ _ Hm Es) | exact Ho].
  - destruct (nth_error (orphans p) i) as [b|] eqn:Eb; [|discriminate].
    assert (Hb : bodyOk b) by exact (proj1 (Forall_forall _ _) Ho b (nth_error_In _ _ Eb)).
    assert (H0 : dialogInv (mkPage (medicines p) (filteredMedicines p) (searchTerm p) (activeTab p)
                   (showAddModal p) (loading p) (stats p) (modal p) (removeNth i (orphans p))))
      by (split; [exact Hm | apply Forall_removeNth, Ho]).
    destruct ok; injection Hstep as <- <-; split; try exact Hs; try exact H0.
    + apply save_ok; assumption.
    + exact (fold_effects_inv _ [ToastSuccess; Refetch; CloseModal] _ H0).
Qed.

Lemma reachable_inv store0 store p :
  Forall (fun r => recordOk r = true) store0 -> reachable tz now store0 store p -> pageInv store p.
Proof.
  intros H0. induction 1 as [|store p e store' p' _ IH Hstep].
  - split; [exact H0 | apply fetch_dialogInv; split; [exact addModal_init_inv | constructor]].
  - exact (pageStep_inv _ _ _ _ _ IH Hstep).
Qed.

(** C27.  Every record the inventory ever stores is one of the spec's
    [MedicineStock] data model (its opaque [id] apart), when the store
    starts so: a name, batch and supplier, stock at least 0, price at
    least 0, an expiry date that is a calendar date, a schedule none, [H]
    or [X].  The add-stock modal only posts bodies that passed its
    schema; the schema asks of the expiry only a non-empty text, and it
    is the date input that keeps only valid dates; the schedule is one of
    its select's values. *)
Theorem inventory_store_wellformed store0 store p :
  Forall (fun r => recordOk r = true) store0 -> reachable tz now store0 store p ->
  Forall (fun r => recordOk r = true) store.
Proof. intros H0 Hr. exact (proj1 (reachable_inv _ _ _ H0 Hr)). Qed.

Lemma runPage_reachable store0 es : forall store p store' p',
  reachable tz now store0 store p -> runPage tz now store p es = Some (store', p') ->
  reachable tz now store0 store' p'.
Proof.
  induction es as [|e es IH]; intros store p store' p' Hr Hrun; simpl in Hrun.
  - injection Hrun as <- <-. exact Hr.
  - destruct (pageStep tz now store p e) as [[s1 p1]|] eqn:E; [|discriminate].
    eapply IH; [eapply reach_step; eassumption | exact Hrun].
Qed.

(**  A mounted dialog never has two requests of its own in
    flight: in every reachable state [isSubmitting] is set exactly while
    its request is pending, and then the disabled submit button posts
    nothing.  (A remount under the loading skeleton starts a new
    dialog, which does not see the old one's request.) *)
Theorem single_request_in_flight store0 store p :
  Forall (fun r => recordOk r = true) store0 -> reachable tz now store0 store p ->
  isSubmitting (modal p) = pending (modal p) /\
  (pending (modal p) = true -> pageStep tz now store p (ModalEvent Submit) = None).
Proof.
  intros H0 Hr. destruct (reachable_inv _ _ _ H0 Hr) as (_ & (_ & Hsub & _) & _).
  split; [exact Hsub|]. intros Hp. simpl.
  destruct (showAddModal p); simpl; [|reflexivity].
  unfold AddStock.step. rewrite Hsub, Hp. reflexivity.
Qed.

(**  Submitting values the schema rejects posts nothing and
    leaves the store alone: the dialog shows exactly the schema's issues
    and the values stay as typed. *)
Theorem invalid_submit_rejected store p :
  showAddModal p = true -> isSubmitting (modal p) = false ->
  schemaIssues (values (modal p)) <> [] ->
  pageStep tz now store p (ModalEvent Submit) =
  Some (store, withModal p (mkModal (values (modal p)) true (schemaIssues (values (modal p)))
                              false None)).
Proof.
  intros Ho Hs Hi. simpl. rewrite Ho. simpl. unfold AddStock.step. rewrite Hs.
  destruct (schemaIssues (values (modal p))) eqn:E; [congruence | reflexivity].
Qed.

(** C28.  Adding a medicine is [saveMedicine] followed by
    [listMedicines]: from an open dialog with valid values, submitting and
    a successful answer store the body, refetch, and the page then lists
    the store's medicines, the new one classified among them; the form is
    reset and the dialog closed. *)
Theorem add_then_listed store p :
  showAddModal p = true -> isSubmitting (modal p) = false ->
  schemaIssues (values (modal p)) = [] ->
  let v := values (modal p) in
  let store' := saveMedicine v store in
  exists p1 p2,
    pageStep tz now store p (ModalEvent Submit) = Some (store, p1) /\
    pageStep tz now store p1 (ModalEvent (Respond true)) = Some (store', p2) /\
    medicines p2 = listMedicines tz now store' /\
    In (classify tz now 30 (recordOfBody (Sorting.decimal (Z.of_nat (List.length store) + 1)) v))
       (medicines p2) /\
    modal p2 = initModal /\ showAddModal p2 = false.
Proof.
  intros Ho Hs Hv. cbv zeta. do 2 eexists. split; [|split].
  - simpl. rewrite Ho. simpl. unfold AddStock.step. rewrite Hs, Hv. reflexivity.
  - simpl. rewrite Ho. reflexivity.
  - repeat split; try reflexivity.
    simpl. unfold listMedicines, saveMedicine. rewrite map_app.
    apply in_or_app. right. left. reflexivity.
Qed.

(** C29.  Cancelling the dialog while its request is in flight and
    refreshing the inventory unmounts it under the loading skeleton: the
    reopened dialog has a fresh form with nothing in flight, so a second
    medicine can be posted while the first request is pending; and when
    an orphaned request succeeds, its [onSuccess] and [onClose] refetch
    and close the dialog, discarding whatever the user has typed. *)
Theorem cancel_refresh_orphans_request store p b :
  showAddModal p = true -> inFlight (modal p) = Some b ->
  (exists p1,
     runPage tz now store p [ModalEvent Close; RefreshInventory; OpenAddModal] = Some (store, p1) /\
     showAddModal p1 = true /\ modal p1 = initModal /\ orphans p1 = (orphans p ++ [b])%list) /\
  (forall store' p' i b', nth_error (orphans p') i = Some b' ->
     exists p'', pageStep tz now store' p' (OrphanAnswer i true) = Some (saveMedicine b' store', p'') /\
       showAddModal p'' = false /\ modal p'' = initModal /\
       medicines p'' = listMedicines tz now (saveMedicine b' store')).
Proof.
  intros Ho Hb. split.
  - eexists. split; [|repeat split].
    + simpl. rewrite Ho. simpl. unfold AddStock.step. simpl. reflexivity.
    + reflexivity.
    + reflexivity.
    + simpl. rewrite Hb. reflexivity.
  - intros store' p' i b' Hi. simpl. rewrite Hi. eexists. repeat split.
Qed.

End PageTheorems.

(** ** Examples *)
Module AddStockFixture.
Import AddStock InventoryPage Fixture.
Local Open Scope string_scope.

(** Filling the dialog for a new medicine, as a user types it. *)
Definition fillDolo : list PageEvent :=
  [OpenAddModal; ModalEvent (SetName "Dolo 650"); ModalEvent (SetStockText "20");
   ModalEvent (SetPriceText "30.50"); ModalEvent (SetBatch "DL-2407");
   ModalEvent (SetSupplier "Micro Labs"); ModalEvent (SetExpiryDate "2025-01-31");
   ModalEvent (SetSchedule Regular)].

Definition pageAfter (es : list PageEvent) : list Views.StockRecord * Page :=
  match runPage ist now_ist records (initPage ist now_ist records) es with
  | Some sp => sp
  | None => (records, initPage ist now_ist records)
  end.

(** Dolo 650 posted, its request in flight. *)
Definition doloInFlight : Page := snd (pageAfter (fillDolo ++ [ModalEvent Submit])).

(** Then Cancel, Refresh, and Dolo 650 filled and posted again. *)
Definition doloTwice : list PageEvent :=
  fillDolo ++ [ModalEvent Submit; ModalEvent Close; RefreshInventory] ++ fillDolo ++ [ModalEvent Submit].

End AddStockFixture.

Section AddStockWitnesses.
Import Views AddStock MedicineApi InventoryPage Fixture AddStockFixture.
Local Open Scope string_scope.

Lemma records_ok : Forall (fun r => recordOk r = true) records.
Proof. repeat constructor. Qed.

Lemma pageAfter_reachable es :
  runPage ist now_ist records (initPage ist now_ist records) es <> None ->
  reachable ist now_ist records (fst (pageAfter es)) (snd (pageAfter es)).
Proof.
  unfold pageAfter. intros H.
  destruct (runPage ist now_ist records (initPage ist now_ist records) es) as [[s p]|] eqn:E;
    [|congruence].
  eapply runPage_reachable; [apply reach_init | exact E].
Qed.

(** The store after adding Dolo 650 holds five records of the data model. *)
Lemma inventory_store_wellformed_witness :
  List.length (fst (pageAfter (fillDolo ++ [ModalEvent Submit; ModalEvent (Respond true)]))) = 5%nat /\
  Forall (fun r => recordOk r = true)
    (fst (pageAfter (fillDolo ++ [ModalEvent Submit; ModalEvent (Respond true)]))).
Proof.
  split; [vm_compute; reflexivity|].
  apply (inventory_store_wellformed ist now_ist records _
           (snd (pageAfter (fillDolo ++ [ModalEvent Submit; ModalEvent (Respond true)])))).
  - exact records_ok.
  - apply pageAfter_reachable. vm_compute. discriminate.
Defined.

(** While the Dolo 650 request is in flight a second submit is refused. *)
Lemma single_request_in_flight_witness :
  pending (modal (snd (pageAfter (fillDolo ++ [ModalEvent Submit])))) = true /\
  pageStep ist now_ist (fst (pageAfter (fillDolo ++ [ModalEvent Submit])))
    (snd (pageAfter (fillDolo ++ [ModalEvent Submit]))) (ModalEvent Submit) = None.
Proof.
  split; [vm_compute; reflexivity|].
  apply (single_request_in_flight ist now_ist records _ _ records_ok).
  - apply pageAfter_reachable. vm_compute. discriminate.
  - vm_compute. reflexivity.
Defined.

(** Submitting the empty form reports six issues and posts nothing. *)
Lemma invalid_submit_rejected_witness :
  List.length (schemaIssues defaultValues) = 6%nat /\
  pageStep ist now_ist records (snd (pageAfter [OpenAddModal])) (ModalEvent Submit) =
  Some (records, withModal (snd (pageAfter [OpenAddModal]))
                   (mkModal defaultValues true (schemaIssues defaultValues) false None)).
Proof.
  split; [reflexivity|].
  apply (invalid_submit_rejected ist now_ist records (snd (pageAfter [OpenAddModal])));
    vm_compute; [reflexivity | reflexivity | discriminate].
Defined.

(** Dolo 650, priced 30.50, is listed after the add. *)
Lemma add_then_listed_witness :
  v_price (values (modal (snd (pageAfter fillDolo)))) == 61 # 2 /\
  exists p1 p2,
    pageStep ist now_ist records (snd (pageAfter fillDolo)) (ModalEvent Submit) = Some (records, p1) /\
    pageStep ist now_ist records p1 (ModalEvent (Respond true)) =
      Some (saveMedicine (values (modal (snd (pageAfter fillDolo)))) records, p2) /\
    medicines p2 = listMedicines ist now_ist
                     (saveMedicine (values (modal (snd (pageAfter fillDolo)))) records) /\
    In (classify ist now_ist 30
          (recordOfBody (Sorting.decimal (Z.of_nat (List.length records) + 1))
             (values (modal (snd (pageAfter fillDolo)))))) (medicines p2) /\
    modal p2 = initModal /\ showAddModal p2 = false.
Proof.
  split; [vm_compute; reflexivity|].
  apply (add_then_listed ist now_ist records (snd (pageAfter fillDolo)));
    vm_compute; reflexivity.
Defined.

(** After Cancel and Refresh the Dolo 650 request is orphaned; posting
    it again puts two requests in flight. *)
Lemma cancel_refresh_orphans_request_witness :
  (List.length (orphans (snd (pageAfter doloTwice))) = 1%nat /\
   pending (modal (snd (pageAfter doloTwice))) = true) /\
  showAddModal doloInFlight = true /\
  inFlight (modal doloInFlight) = Some (values (modal doloInFlight)) /\
  ((exists p1,
     runPage ist now_ist records doloInFlight [ModalEvent Close; RefreshInventory; OpenAddModal] =
       Some (records, p1) /\
     showAddModal p1 = true /\ modal p1 = initModal /\
     orphans p1 = (orphans doloInFlight ++ [values (modal doloInFlight)])%list) /\
  (forall store' p' i b', nth_error (orphans p') i = Some b' ->
     exists p'', pageStep ist now_ist store' p' (OrphanAnswer i true) = Some (saveMedicine b' store', p'') /\
       showAddModal p'' = false /\ modal p'' = initModal /\
       medicines p'' = listMedicines ist now_ist (saveMedicine b' store'))).
Proof.
  split; [vm_compute; split; reflexivity|].
  split; [vm_compute; reflexivity|]. split; [vm_compute; reflexivity|].
  apply cancel_refresh_orphans_request; vm_compute; reflexivity.
Defined.

End AddStockWitnesses.
