(* ===== verification/InventoryView.v ===== *)
(** * InventoryView: the inventory page with its table, render by render

    [src/src/components/InventoryTable.tsx] as a component with its own
    state (the sort column and direction), its props ([medicines] and the
    three [show*] flags of a tab), its events (a click on a sortable
    header; the Refresh button of the empty notice, which calls
    [onRefresh]) and what it renders: the empty notice, or the alerts,
    the headers with their arrows, the rows and the footer.

    [src/src/app/inventory/page.tsx] renders its loading skeleton while
    a fetch is in flight and otherwise the cards, the tab list with its
    badges, the active tab's [InventoryTable] and the [AddStockModal].
    React keeps a child's state while the child stays at the same place
    of the tree: the table is unmounted by the skeleton
    ([fetchMedicines] sets [loading] before it awaits the answer, so the
    skeleton is rendered before the answer comes), and by a change of
    tab, since the tabs library renders only the active [TabsContent].
    Module [InventoryScreen] is the page of [AddStock.v] with the mounted
    table's state beside it. *)

From Stdlib Require Import ZArith QArith Lia List Bool String Permutation.
From S2P Require Import Prelude Dates Stock ListViews AddStock.
Import ListNotations.

Module InventoryTableC.
Import Views Sorting Dates.
Local Open Scope string_scope.

(** [InventoryTableProps]; [onRefresh] is the [OnRefresh] callback. *)
Record Props := mkProps {
  medicines : list Medicine;
  showAlerts : bool;
  showExpiry : bool;
  showSchedule : bool
}.

Inductive TableEvent := ClickHeader (f : Field) | ClickRefresh.

Inductive Callback := OnRefresh.

(** The headers with an [onClick]: name, stock, price, supplier, expiry
    date. *)
Definition sortableHeader (f : Field) : bool :=
  match f with FName | FStock | FPrice | FSupplier | FExpiryDate => true | _ => false end.

(** The headers exist only when the table is rendered, the Refresh
    button only in the empty notice. *)
Definition tableStep (p : Props) (st : SortState) (e : TableEvent)
  : option (SortState * list Callback) :=
  match e with
  | ClickHeader f =>
      if negb (List.length (medicines p) =? 0)%nat && sortableHeader f
      then Some (handleSort st f, []) else None
  | ClickRefresh =>
      if (List.length (medicines p) =? 0)%nat then Some (st, [OnRefresh]) else None
  end.

(** The Schedule column's badge. *)
Inductive ScheduleCell := ScheduleHBadge | RegularBadge.

Definition isScheduleH (m : Medicine) : bool :=
  match schedule m with Some s => String.eqb s "H" | None => false end.

(** [formatDate]: ['N/A'] for an empty string, else the date (its
    locale text is the runtime's). *)
Definition formatDate (d : DateStr) : option DateStr :=
  match d with EmptyDate => None | _ => Some d end.

(** [s || 'N/A'] *)
Definition orNA (s : string) : string := if String.eqb s "" then "N/A" else s.

(** A row of the table. *)
Record Row := mkRow {
  rowName : string;
  rowScheduleH : bool;
  rowStock : Z;
  rowBelowThreshold : bool;
  rowPrice : Q;
  rowBatch : string;
  rowSupplier : string;
  rowExpiryDate : option DateStr;
  rowExpiryStatus : ExpiryStatus;
  rowBadge : StockBadge;
  rowTone : RowTone;
  rowSchedule : option ScheduleCell
}.

Definition rowOf (showSchedule : bool) (m : Medicine) : Row :=
  mkRow (name m) (isScheduleH m) (stock m) (isLowStock m) (price m)
        (orNA (batch m)) (orNA (supplier m)) (formatDate (expiryDate m))
        (getExpiryStatus m) (getStockBadge m) (Views.rowTone m)
        (if showSchedule then Some (if isScheduleH m then ScheduleHBadge else RegularBadge)
         else None).

(** The arrow after a sortable header: the direction of its column. *)
Definition headerArrows (st : SortState) : list (Field * option Direction) :=
  map (fun f => (f, if Field_beq (sortField st) f then Some (sortDirection st) else None))
      [FName; FStock; FPrice; FSupplier; FExpiryDate].

Inductive TableView :=
| EmptyNotice
| Table (alerts : list TableAlert) (arrows : list (Field * option Direction))
        (scheduleColumn : bool) (rows : list Row) (footer : nat * nat * nat * nat).

(** What [InventoryTable] renders from its props and its state. *)
Definition tableView (localeCompare : string -> string -> Z) (p : Props) (st : SortState)
  : TableView :=
  if (List.length (medicines p) =? 0)%nat then EmptyNotice
  else Table (tableAlerts (showAlerts p) (showExpiry p) (medicines p)) (headerArrows st)
             (showSchedule p)
             (map (rowOf (showSchedule p)) (sortedMedicines localeCompare st (medicines p)))
             (tableFooter (medicines p)).

(** The number of rows a view lists. *)
Definition shownRows (v : TableView) : nat :=
  match v with EmptyNotice => 0 | Table _ _ _ rows _ => List.length rows end.

End InventoryTableC.

Module InventoryScreen.
Import Views Sorting MedicineApi AddStock InventoryPage InventoryTableC.
Local Open Scope string_scope.

Scheme Equality for Tab.

(** The inventory page and the sort state of the [InventoryTable] it
    has mounted, with the tab whose [TabsContent] holds it. *)
Record Screen := mkScreen { page : Page; table : option (Tab * SortState) }.

(** The props each [TabsContent] gives its table. *)
Definition tabProps (t : Tab) (ms : list Medicine) : Props :=
  match t with
  | TAll => mkProps ms false false false
  | TLowStock => mkProps ms true false false
  | TExpiring => mkProps ms false true false
  | TScheduleH => mkProps ms false false true
  end.

(** A render: the skeleton while [loading] (no table), else the active
    tab's table, which keeps its state if it was mounted on that tab and
    starts from [useState]'s initial sort otherwise. *)
Definition render (p : Page) (tbl : option (Tab * SortState)) : option (Tab * SortState) :=
  if loading p then None
  else match tbl with
       | Some (t, st) => if Tab_beq t (activeTab p) then Some (t, st)
                         else Some (activeTab p, inventoryInitial)
       | None => Some (activeTab p, inventoryInitial)
       end.

Definition isRefetch (eff : Effect) : bool := match eff with Refetch => true | _ => false end.

(** The page events whose handlers call [fetchMedicines], which renders
    the skeleton before the answer: Refresh, and the success of an add,
    the dialog's own or an orphan's. *)
Definition refetches (p : Page) (e : PageEvent) : bool :=
  match e with
  | RefreshInventory => true
  | ModalEvent me =>
      match AddStock.step (modal p) me with
      | Some (_, effs) => existsb isRefetch effs
      | None => false
      end
  | OrphanAnswer _ ok => ok
  | _ => false
  end.

Inductive Event := PageEv (e : PageEvent) | TableEv (e : TableEvent).

Section Screen.
Context (tz now : Z).

(** One event and the renders it causes.  The table is behind the
    dialog while it is open; its empty notice's Refresh calls the page's
    [fetchMedicines] ([onRefresh]). *)
Definition step (store : list StockRecord) (s : Screen) (e : Event)
  : option (list StockRecord * Screen) :=
  match e with
  | PageEv pe =>
      match pageStep tz now store (page s) pe with
      | Some (store', p') =>
          Some (store', mkScreen p' (render p' (if refetches (page s) pe then None else table s)))
      | None => None
      end
  | TableEv te =>
      if showAddModal (page s) then None
      else match table s with
           | None => None
           | Some (t, st) =>
               match tableStep (tabProps t (filteredMedicines (page s))) st te with
               | None => None
               | Some (st', []) => Some (store, mkScreen (page s) (Some (t, st')))
               | Some (_, _ :: _) =>
                   let p' := fetchMedicines tz now store (page s) in
                   Some (store, mkScreen p' (render p' None))
               end
           end
  end.

Definition initScreen (store : list StockRecord) : Screen :=
  let p := initPage tz now store in mkScreen p (render p None).

Fixpoint run (store : list StockRecord) (s : Screen) (es : list Event)
  : option (list StockRecord * Screen) :=
  match es with
  | [] => Some (store, s)
  | e :: es' =>
      match step store s e with
      | Some (store', s') => run store' s' es'
      | None => None
      end
  end.

Inductive reachable (store0 : list StockRecord) : list StockRecord -> Screen -> Prop :=
| reach_init : reachable store0 store0 (initScreen store0)
| reach_step store s e store' s' :
    reachable store0 store s -> step store s e = Some (store', s') -> reachable store0 store' s'.

End Screen.

(** What the page shows: the skeleton, or the cards, the tab badges, the
    active tab with its table, and whether the dialog is open. *)
Inductive PageView :=
| Skeleton
| Loaded (cards : Stats) (badges : nat * nat * nat * nat) (tab : Tab)
         (content : option TableView) (dialogOpen : bool).

Definition screenView (localeCompare : string -> string -> Z) (s : Screen) : PageView :=
  let p := page s in
  if loading p then Skeleton
  else Loaded (stats p) (tabBadges p) (activeTab p)
         (match table s with
          | Some (t, st) => Some (tableView localeCompare (tabProps t (filteredMedicines p)) st)
          | None => None
          end)
         (showAddModal p).

(** The badge of a tab in [tabBadges]. *)
Definition tabBadge (p : Page) (t : Tab) : nat :=
  let '(all, low, expiring, scheduleH) := tabBadges p in
  match t with TAll => all | TLowStock => low | TExpiring => expiring | TScheduleH => scheduleH end.

End InventoryScreen.

Section InventoryViewTheorems.
Import Views Sorting MedicineApi AddStock InventoryTableC InventoryPage InventoryScreen.
Local Open Scope string_scope.
Context (localeCompare : string -> string -> Z) (tz now : Z).

Lemma Tab_beq_spec t u : Tab_beq t u = true <-> t = u.
Proof. split; [apply internal_Tab_dec_bl | apply internal_Tab_dec_lb]. Qed.

Lemma Tab_beq_refl t : Tab_beq t t = true.
Proof. apply Tab_beq_spec. reflexivity. Qed.

(** What the page keeps between renders: it is loaded, its cards are
    the statistics of its medicines, and the list is its filter. *)
Definition PageInv (p : Page) : Prop :=
  loading p = false /\ stats p = statsOf (medicines p) /\
  filteredMedicines p = Search.filterMedicines (medicines p) (searchTerm p) (activeTab p).

Lemma fetch_PageInv store p : PageInv (fetchMedicines tz now store p).
Proof. repeat split. Qed.

Lemma fetch_activeTab store p : activeTab (fetchMedicines tz now store p) = activeTab p.
Proof. reflexivity. Qed.

Lemma fold_effects_page store effs p :
  PageInv p ->
  PageInv (fold_left (applyEffect tz now store) effs p) /\
  activeTab (fold_left (applyEffect tz now store) effs p) = activeTab p.
Proof.
  revert p. induction effs as [|eff effs IH]; intros p Hp; simpl; [auto|].
  destruct (IH (applyEffect tz now store p eff)) as [H1 H2];
    [destruct eff; try exact Hp; apply fetch_PageInv|].
  split; [exact H1|]. rewrite H2. destruct eff; reflexivity.
Qed.

(** A page step keeps the invariant and changes the tab only when a tab
    is selected. *)
Lemma pageStep_PageInv store p e store' p' :
  PageInv p -> pageStep tz now store p e = Some (store', p') ->
  PageInv p' /\ activeTab p' = match e with SelectTab t => t | _ => activeTab p end.
Proof.
  intros Hp Hstep. destruct e; cbv beta iota zeta delta [pageStep pageStepWith] in Hstep.
  1-4: destruct (showAddModal p); [discriminate|]; injection Hstep as <- <-;
       try (split; [apply fetch_PageInv | reflexivity]);
       destruct Hp as (H1 & H2 & H3); repeat split; assumption.
  - destruct (negb (showAddModal p) && negb (isResponse e)); [discriminate|].
    destruct (AddStock.step (modal p) e) as [[m' effs]|]; [|discriminate].
    injection Hstep as <- <-. exact (fold_effects_page _ _ (withModal p m') Hp).
  - destruct (nth_error (orphans p) i); [|discriminate].
    destruct ok; injection Hstep as <- <-;
      [apply (fold_effects_page _ [ToastSuccess; Refetch; CloseModal]) | exact (conj Hp eq_refl)].
    exact Hp.
Qed.

Lemma render_loaded p tbl :
  loading p = false -> exists st, render p tbl = Some (activeTab p, st).
Proof.
  intros Hl. unfold render. rewrite Hl.
  destruct tbl as [[t st]|]; [|eauto].
  destruct (Tab_beq t (activeTab p)) eqn:E; [apply Tab_beq_spec in E; subst|]; eauto.
Qed.

Definition ScreenInv (s : Screen) : Prop :=
  PageInv (page s) /\ exists st, table s = Some (activeTab (page s), st).

Lemma screen_step_inv store s e store' s' :
  ScreenInv s -> step tz now store s e = Some (store', s') -> ScreenInv s'.
Proof.
  intros [Hp [st Ht]] Hstep. destruct e as [pe|te]; simpl in Hstep.
  - destruct (pageStep tz now store (page s) pe) as [[st1 p1]|] eqn:E; [|discriminate].
    injection Hstep as <- <-. destruct (pageStep_PageInv _ _ _ _ _ Hp E) as [Hp1 _].
    split; [exact Hp1 | apply render_loaded, Hp1].
  - destruct (showAddModal (page s)); [discriminate|]. rewrite Ht in Hstep.
    destruct (tableStep _ st te) as [[st' [|cb cbs]]|]; [| |discriminate];
      injection Hstep as <- <-; simpl.
    + split; [exact Hp | eexists; reflexivity].
    + split; [apply fetch_PageInv | apply render_loaded, fetch_PageInv].
Qed.

Lemma reachable_ScreenInv store0 store s : reachable tz now store0 store s -> ScreenInv s.
Proof.
  induction 1 as [|store s e store' s' _ IH Hstep].
  - split; [apply fetch_PageInv | apply render_loaded, fetch_PageInv].
  - exact (screen_step_inv _ _ _ _ _ IH Hstep).
Qed.

(** The table lists every medicine it is given, in some order. *)
Lemma shownRows_tableView pr st :
  shownRows (tableView localeCompare pr st) = List.length (InventoryTableC.medicines pr).
Proof.
  unfold tableView. destruct (List.length (InventoryTableC.medicines pr) =? 0)%nat eqn:E.
  - apply Nat.eqb_eq in E. rewrite E. reflexivity.
  - simpl. rewrite length_map. apply Permutation_length, sortBy_perm.
Qed.

Lemma tabProps_medicines t ms : InventoryTableC.medicines (tabProps t ms) = ms.
Proof. destruct t; reflexivity. Qed.

(** The tab's filter with no search, counted, is its badge. *)
Lemma filter_empty_search_badge p :
  PageInv p -> searchTerm p = "" ->
  List.length (filteredMedicines p) = tabBadge p (activeTab p).
Proof.
  intros (_ & Hs & Hf) He. rewrite Hf, He. unfold tabBadge, tabBadges. rewrite Hs.
  destruct (activeTab p); reflexivity.
Qed.

(** C31.  With no search typed, the inventory page in every state it
    reaches shows the active tab's table, and the table lists exactly as
    many medicines as the tab's badge announces (All, Low Stock,
    Expiring Soon, Schedule H). *)
Theorem inventory_tab_rows_match_badges store0 store s :
  reachable tz now store0 store s -> searchTerm (page s) = "" ->
  match screenView localeCompare s with
  | Loaded _ _ t (Some v) _ => shownRows v = tabBadge (page s) t
  | _ => False
  end.
Proof.
  intros Hr He. destruct (reachable_ScreenInv _ _ _ Hr) as [Hp [st Ht]].
  unfold screenView. rewrite (proj1 Hp), Ht.
  rewrite shownRows_tableView, tabProps_medicines. exact (filter_empty_search_badge _ Hp He).
Qed.

(** The sort state the user sees after an event, described by events:
    a header click sorts, a refresh (the page's, the empty notice's, or
    the one a successful add triggers) and a change of tab start from
    the initial sort, and everything else keeps it. *)
Definition sortAfter (p : Page) (e : InventoryScreen.Event) (st : SortState) : SortState :=
  match e with
  | TableEv (ClickHeader f) => handleSort st f
  | TableEv ClickRefresh => inventoryInitial
  | PageEv RefreshInventory => inventoryInitial
  | PageEv (SelectTab t) => if Tab_beq t (activeTab p) then st else inventoryInitial
  | PageEv (ModalEvent (Respond ok)) => if ok then inventoryInitial else st
  | PageEv (OrphanAnswer _ ok) => if ok then inventoryInitial else st
  | PageEv _ => st
  end.

(** Which page steps refetch: Refresh and the successful answers. *)
Lemma refetches_step store p pe store' p' :
  pageStep tz now store p pe = Some (store', p') ->
  refetches p pe = match pe with
                   | RefreshInventory => true
                   | ModalEvent (Respond ok) => ok
                   | OrphanAnswer _ ok => ok
                   | _ => false
                   end.
Proof.
  intros H. destruct pe as [| | | |me|]; try reflexivity.
  simpl in H |- *. destruct (AddStock.step (modal p) me) as [[m' effs]|] eqn:E;
    [|destruct (_ && _); discriminate].
  destruct me; simpl in E; try (injection E as _ <-; reflexivity).
  - destruct (isSubmitting (modal p)); [discriminate|].
    destruct (schemaIssues (values (modal p))); injection E as _ <-; reflexivity.
  - destruct (inFlight (modal p)); [|discriminate].
    destruct ok; injection E as _ <-; reflexivity.
Qed.

Lemma render_after p tbl st :
  loading p = false -> tbl = Some (activeTab p, st) -> render p tbl = Some (activeTab p, st).
Proof. intros Hl ->. unfold render. rewrite Hl, Tab_beq_refl. reflexivity. Qed.

Lemma render_fresh p : loading p = false -> render p None = Some (activeTab p, inventoryInitial).
Proof. intros Hl. unfold render. rewrite Hl. reflexivity. Qed.

(** C32.  The table's sort lives as long as the table stays mounted:
    from every reachable state, after any event the table is on the
    active tab with the sort [sortAfter] describes, so the user's sort
    is lost by every refresh, every successful add and every change of
    tab. *)
Theorem inventory_sort_lifecycle store0 store s e store' s' :
  reachable tz now store0 store s -> step tz now store s e = Some (store', s') ->
  exists st, table s = Some (activeTab (page s), st) /\
             table s' = Some (activeTab (page s'), sortAfter (page s) e st).
Proof.
  intros Hr Hstep. destruct (reachable_ScreenInv _ _ _ Hr) as [Hp [st Ht]].
  exists st. split; [exact Ht|]. destruct e as [pe|te]; simpl in Hstep.
  - destruct (pageStep tz now store (page s) pe) as [[st1 p1]|] eqn:E; [|discriminate].
    injection Hstep as <- <-. simpl.
    destruct (pageStep_PageInv _ _ _ _ _ Hp E) as [[Hl _] Htab].
    rewrite (refetches_step _ _ _ _ _ E), Ht.
    destruct pe as [|t| | |me|i ok]; try destruct me;
      try match goal with b : bool |- _ => destruct b end; simpl in Htab |- *;
      try (apply render_after; [exact Hl | rewrite Htab; reflexivity]);
      try (apply render_fresh; exact Hl).
    unfold render. rewrite Hl, Htab. destruct (Tab_beq (activeTab (page s)) t) eqn:E1.
    + apply Tab_beq_spec in E1. subst t. rewrite <- E1, Tab_beq_refl. reflexivity.
    + destruct (Tab_beq t (activeTab (page s))) eqn:E2; [|reflexivity].
      apply Tab_beq_spec in E2. rewrite E2, Tab_beq_refl in E1. discriminate.
  - destruct (showAddModal (page s)); [discriminate|]. rewrite Ht in Hstep.
    destruct te as [f|]; simpl in Hstep |- *.
    + destruct_ifs Hstep; [|discriminate]. injection Hstep as <- <-. reflexivity.
    + destruct_ifs Hstep; [|discriminate].
      injection Hstep as <- <-. apply render_fresh, fetch_PageInv.
Qed.

Lemma inventory_run_reachable store0 es : forall store s store' s',
  reachable tz now store0 store s -> run tz now store s es = Some (store', s') ->
  reachable tz now store0 store' s'.
Proof.
  induction es as [|e es IH]; intros store s store' s' Hr Hrun; simpl in Hrun.
  - injection Hrun as <- <-. exact Hr.
  - destruct (step tz now store s e) as [[s1 p1]|] eqn:E; [|discriminate].
    eapply IH; [eapply reach_step; eassumption | exact Hrun].
Qed.

End InventoryViewTheorems.

(** ** Examples *)
Module InventoryFixture.
Import Views Sorting AddStock InventoryPage InventoryTableC InventoryScreen Fixture.

(** The fixture's inventory after some events; the mounted screen if
    one is refused. *)
Definition screenAfter (es : list InventoryScreen.Event) : list StockRecord * Screen :=
  match run ist now_ist records (initScreen ist now_ist records) es with
  | Some r => r
  | None => (records, initScreen ist now_ist records)
  end.

(** The Low Stock tab, and the All tab sorted by stock, descending. *)
Definition lowStockTab : list InventoryScreen.Event := [PageEv (SelectTab TLowStock)].
Definition sortedByStock : list InventoryScreen.Event :=
  [TableEv (ClickHeader FStock); TableEv (ClickHeader FStock)].

End InventoryFixture.

Section InventoryViewWitnesses.
Import Views Sorting AddStock InventoryPage InventoryTableC InventoryScreen Fixture InventoryFixture.

Lemma screenAfter_reachable es :
  run ist now_ist records (initScreen ist now_ist records) es <> None ->
  reachable ist now_ist records (fst (screenAfter es)) (snd (screenAfter es)).
Proof.
  unfold screenAfter. intros H.
  destruct (run ist now_ist records (initScreen ist now_ist records) es) as [[st s]|] eqn:E;
    [|congruence].
  eapply inventory_run_reachable; [apply reach_init | exact E].
Defined.

(** The Low Stock tab of the fixture lists its one low-stock medicine,
    as its badge says. *)
Lemma inventory_tab_rows_match_badges_witness :
  tabBadge (page (snd (screenAfter lowStockTab))) TLowStock = 1%nat /\
  match screenView ListFixture.asciiCompare (snd (screenAfter lowStockTab)) with
  | Loaded _ _ t (Some v) _ => shownRows v = tabBadge (page (snd (screenAfter lowStockTab))) t
  | _ => False
  end.
Proof.
  split; [vm_compute; reflexivity|].
  apply (inventory_tab_rows_match_badges ListFixture.asciiCompare ist now_ist records
           (fst (screenAfter lowStockTab))).
  - apply screenAfter_reachable. vm_compute. discriminate.
  - vm_compute. reflexivity.
Defined.

(** Sorted by stock, descending, the table goes back to the name order
    when the inventory is refreshed. *)
Lemma inventory_sort_lifecycle_witness :
  table (snd (screenAfter sortedByStock)) = Some (TAll, mkSortState FStock Desc) /\
  step ist now_ist records (snd (screenAfter sortedByStock)) (PageEv RefreshInventory) =
    Some (records, snd (screenAfter (sortedByStock ++ [PageEv RefreshInventory]))) /\
  exists st,
    table (snd (screenAfter sortedByStock)) = Some (activeTab (page (snd (screenAfter sortedByStock))), st) /\
    table (snd (screenAfter (sortedByStock ++ [PageEv RefreshInventory]))) =
      Some (activeTab (page (snd (screenAfter (sortedByStock ++ [PageEv RefreshInventory])))),
            sortAfter (page (snd (screenAfter sortedByStock))) (PageEv RefreshInventory) st).
Proof.
  split; [vm_compute; reflexivity|]. split; [vm_compute; reflexivity|].
  apply (inventory_sort_lifecycle ist now_ist records (fst (screenAfter sortedByStock))
           (snd (screenAfter sortedByStock))
           (PageEv RefreshInventory) records).
  - apply screenAfter_reachable. vm_compute. discriminate.
  - vm_compute. reflexivity.
Defined.

End InventoryViewWitnesses.
