(* ===== verification/AddStockView.v ===== *)
(** * AddStockView: what the add-stock dialog shows

    The render of [src/src/components/AddStockModal.tsx] from the
    dialog's state ([AddStock.Modal]): the values in its inputs, the
    [<FormMessage>] under each field (the message of the field's first
    issue, as react-hook-form keeps one error per field), and the submit
    button's text and [disabled] state.

    The errors are set by a submit (the schema's issues) and, once the
    form has been submitted, revised for the edited field on each change
    ([reValidateMode] [onChange]).  The theorem of this file is that this
    piecewise revision keeps every message current: after the first
    submit, each field shows exactly the schema's message for the values
    the inputs hold, in every state the inventory page reaches. *)

From Stdlib Require Import ZArith QArith Lia List Bool String.
From S2P Require Import Prelude Dates Stock ListViews JsNum AddStock.
Import ListNotations.

Module AddStockView.
Import AddStock InventoryPage.
Local Open Scope string_scope.

(** The form's fields, in the order the dialog renders them. *)
Definition formFields : list FieldName :=
  [NameF; StockF; PriceF; BatchF; SupplierF; ExpiryDateF; ScheduleF].

(** The error react-hook-form keeps for a field: its first issue. *)
Definition fieldError (errs : list Issue) (f : FieldName) : option Issue :=
  find (fun i => FieldName_beq (issuePath i) f) errs.

(** [<FormMessage />]: the message of the field's error, if any. *)
Definition fieldMessage (errs : list Issue) (f : FieldName) : option string :=
  option_map issueMessage (fieldError errs f).

Inductive DialogView :=
| DialogClosed
| DialogOpen (values : Values) (messages : list (FieldName * option string))
             (submitText : string) (submitDisabled : bool).

(** [<Dialog open={isOpen}>] and its form. *)
Definition dialogView (open : bool) (m : Modal) : DialogView :=
  if open then
    DialogOpen (values m) (map (fun f => (f, fieldMessage (errors m) f)) formFields)
      (if isSubmitting m then "Adding..." else "Add Medicine") (isSubmitting m)
  else DialogClosed.

(** The message a view shows under a field. *)
Definition messageOf (v : DialogView) (f : FieldName) : option string :=
  match v with
  | DialogClosed => None
  | DialogOpen _ msgs _ _ =>
      match find (fun fm => FieldName_beq (fst fm) f) msgs with
      | Some (_, msg) => msg
      | None => None
      end
  end.

End AddStockView.

Section AddStockViewTheorems.
Import AddStock MedicineApi InventoryPage AddStockView.
Local Open Scope string_scope.

Lemma FieldName_beq_spec f g : FieldName_beq f g = true <-> f = g.
Proof. split; [apply internal_FieldName_dec_bl | apply internal_FieldName_dec_lb]. Qed.

Lemma find_app {A} (p : A -> bool) l1 l2 :
  find p (l1 ++ l2) = match find p l1 with Some x => Some x | None => find p l2 end.
Proof. induction l1 as [|x l1 IH]; simpl; [reflexivity | destruct (p x); auto]. Qed.

Lemma find_filter {A} (p q : A -> bool) l : find p (filter q l) = find (fun x => q x && p x) l.
Proof.
  induction l as [|x l IH]; simpl; [reflexivity|].
  destruct (q x) eqn:Eq; simpl; [destruct (p x); [reflexivity | exact IH] | exact IH].
Qed.

Lemma find_ext {A} (p q : A -> bool) l : (forall x, p x = q x) -> find p l = find q l.
Proof. intros H. induction l as [|x l IH]; simpl; [reflexivity|]. rewrite H, IH. reflexivity. Qed.

Lemma find_false {A} (p : A -> bool) l : (forall x, p x = false) -> find p l = None.
Proof. intros H. induction l as [|x l IH]; simpl; [reflexivity|]. rewrite H. exact IH. Qed.

(** The schema's first issue for a field, field by field. *)
Definition fieldIssue (v : Values) (f : FieldName) : option Issue :=
  match f with
  | NameF => if String.eqb (v_name v) "" then Some (mkIssue NameF "Medicine name is required") else None
  | StockF => if (v_stock v <? 1)%Z then Some (mkIssue StockF "Stock must be at least 1") else None
  | PriceF =>
      if negb (Qle_bool (1 # 100) (v_price v))
      then Some (mkIssue PriceF "Price must be greater than 0") else None
  | BatchF => if String.eqb (v_batch v) "" then Some (mkIssue BatchF "Batch number is required") else None
  | SupplierF =>
      if String.eqb (v_supplier v) "" then Some (mkIssue SupplierF "Supplier name is required") else None
  | ExpiryDateF =>
      if String.eqb (v_expiryDate v) "" then Some (mkIssue ExpiryDateF "Expiry date is required") else None
  | ScheduleF => None
  end.

Lemma fieldError_schema v f : fieldError (schemaIssues v) f = fieldIssue v f.
Proof.
  unfold fieldError, schemaIssues, requiredText, fieldIssue.
  destruct (String.eqb (v_name v) EmptyString), (v_stock v <? 1)%Z,
    (negb (Qle_bool (1 # 100) (v_price v))), (String.eqb (v_batch v) EmptyString),
    (String.eqb (v_supplier v) EmptyString), (String.eqb (v_expiryDate v) EmptyString);
    destruct f; reflexivity.
Qed.

(** The errors of the dialog: none before the first submit, the
    schema's for the current values after it. *)
Definition ErrInv (m : Modal) : Prop :=
  forall g, fieldError (errors m) g = if submitted m then fieldIssue (values m) g else None.

Lemma editField_ErrInv m f v :
  ErrInv m -> (forall g, g <> f -> fieldIssue v g = fieldIssue (values m) g) ->
  ErrInv (editField m f v).
Proof.
  intros H Hv g. unfold editField; simpl. specialize (H g).
  destruct (submitted m); [|exact H].
  unfold fieldError in *. rewrite find_app, !find_filter.
  destruct (FieldName_beq f g) eqn:E.
  - apply FieldName_beq_spec in E as <-.
    rewrite find_false by (intros i; destruct (FieldName_beq (issuePath i) f); reflexivity).
    rewrite (find_ext _ (fun i => FieldName_beq (issuePath i) f))
      by (intros i; destruct (FieldName_beq (issuePath i) f); reflexivity).
    apply fieldError_schema.
  - assert (Hfg : f <> g) by (intros <-; rewrite (proj2 (FieldName_beq_spec f f) eq_refl) in E;
                              discriminate).
    rewrite (find_ext _ (fun i => FieldName_beq (issuePath i) g)).
    2: { intros i. destruct (FieldName_beq (issuePath i) g) eqn:Eg; [|apply andb_false_r].
         apply FieldName_beq_spec in Eg. rewrite Eg.
         destruct (FieldName_beq g f) eqn:Egf; [|reflexivity].
         apply FieldName_beq_spec in Egf. congruence. }
    rewrite H, Hv by congruence.
    destruct (fieldIssue (values m) g); [reflexivity|].
    apply find_false. intros i. destruct (FieldName_beq (issuePath i) f) eqn:Ef; [|reflexivity].
    apply FieldName_beq_spec in Ef. rewrite Ef, E. reflexivity.
Qed.

Lemma initModal_ErrInv : ErrInv initModal.
Proof. intros g. reflexivity. Qed.

(** Every handler of the dialog keeps its errors current. *)
Lemma step_ErrInv m e m' effs : ErrInv m -> AddStock.step m e = Some (m', effs) -> ErrInv m'.
Proof.
  intros H Hstep. destruct e; simpl in Hstep.
  1-7: injection Hstep as <- _; apply editField_ErrInv; [exact H|];
       intros g Hg; destruct g; try congruence; reflexivity.
  - destruct (isSubmitting m); [discriminate|].
    destruct (schemaIssues (values m)) as [|i l] eqn:E; injection Hstep as <- _; intros g; simpl;
      rewrite <- fieldError_schema, E; reflexivity.
  - destruct (inFlight m); [|discriminate].
    destruct ok; injection Hstep as <- _; [exact initModal_ErrInv | exact H].
  - injection Hstep as <- _. exact H.
Qed.

Lemma fold_effects_ErrInv tz now store effs p :
  ErrInv (modal p) -> ErrInv (modal (fold_left (applyEffect tz now store) effs p)).
Proof.
  revert p. induction effs as [|eff effs IH]; intros p Hp; simpl; [exact Hp|].
  apply IH. destruct eff; first [exact Hp | exact initModal_ErrInv].
Qed.

Lemma pageStep_ErrInv tz now store p e store' p' :
  ErrInv (modal p) -> pageStep tz now store p e = Some (store', p') -> ErrInv (modal p').
Proof.
  intros Hp Hstep. destruct e; cbv beta iota zeta delta [pageStep pageStepWith] in Hstep.
  1-4: destruct (showAddModal p); [discriminate|]; injection Hstep as <- <-;
       first [exact Hp | exact initModal_ErrInv].
  - destruct (negb (showAddModal p) && negb (isResponse e)); [discriminate|].
    destruct (AddStock.step (modal p) e) as [[m' effs]|] eqn:Es; [|discriminate].
    injection Hstep as <- <-. apply fold_effects_ErrInv. exact (step_ErrInv _ _ _ _ Hp Es).
  - destruct (nth_error (orphans p) i); [|discriminate].
    destruct ok; injection Hstep as <- <-; [|exact Hp].
    exact (fold_effects_ErrInv tz now (saveMedicine v store) [ToastSuccess; Refetch; CloseModal] _ Hp).
Qed.

Lemma reachable_ErrInv tz now store0 store p :
  reachable tz now store0 store p -> ErrInv (modal p).
Proof.
  induction 1 as [|store p e store' p' _ IH Hstep]; [exact initModal_ErrInv|].
  exact (pageStep_ErrInv _ _ _ _ _ _ _ IH Hstep).
Qed.

Lemma messageOf_dialogView m f : messageOf (dialogView true m) f = fieldMessage (errors m) f.
Proof. destruct f; reflexivity. Qed.

(** C30.  The add-stock dialog's messages are always current: in every
    state the inventory page reaches, the open dialog shows no message
    before its first submit, and after it shows under each field exactly
    the schema's message for the values the inputs hold, although each
    change revalidates only the edited field. *)
Theorem dialog_messages_current tz now store0 store p f :
  reachable tz now store0 store p -> showAddModal p = true ->
  messageOf (dialogView (showAddModal p) (modal p)) f =
    if submitted (modal p) then fieldMessage (schemaIssues (values (modal p))) f else None.
Proof.
  intros Hr Ho. rewrite Ho, messageOf_dialogView. unfold fieldMessage.
  rewrite (reachable_ErrInv _ _ _ _ _ Hr f), fieldError_schema.
  destruct (submitted (modal p)); reflexivity.
Qed.

End AddStockViewTheorems.

Section AddStockViewWitnesses.
Import AddStock MedicineApi InventoryPage AddStockView Fixture AddStockFixture.
Local Open Scope string_scope.

(** The empty form submitted, then the name typed: the name's message
    goes, the others stay. *)
Definition nameAfterSubmit : list PageEvent :=
  [OpenAddModal; ModalEvent Submit; ModalEvent (SetName "Dolo 650")].

Lemma dialog_messages_current_witness :
  messageOf (dialogView true (modal (snd (pageAfter nameAfterSubmit)))) StockF =
    Some "Stock must be at least 1" /\
  messageOf (dialogView (showAddModal (snd (pageAfter nameAfterSubmit)))
               (modal (snd (pageAfter nameAfterSubmit)))) NameF =
    (if submitted (modal (snd (pageAfter nameAfterSubmit)))
     then fieldMessage (schemaIssues (values (modal (snd (pageAfter nameAfterSubmit))))) NameF
     else None).
Proof.
  split; [vm_compute; reflexivity|].
  apply (dialog_messages_current ist now_ist records (fst (pageAfter nameAfterSubmit))).
  - apply pageAfter_reachable. vm_compute. discriminate.
  - vm_compute. reflexivity.
Defined.

End AddStockViewWitnesses.
