(* ===== verification/InventoryAsync.v ===== *)
(** * InventoryAsync: the inventory page with its requests in flight

    [src/src/app/inventory/page.tsx] without the assumption of
    [AddStock.v] that [fetchMedicines] is answered at once.  The handlers
    are the same ([InventoryPage.pageStepWith]); their [fetchMedicines]
    only runs up to its [await] ([startFetch]) and sends a GET.  The
    network is explicit: the server handles a GET when it chooses
    ([Serve]: the answer is the store at that moment), and the answers
    arrive in any order ([Deliver]), each running the rest of
    [fetchMedicines] ([answerFetch]).  While [loading] the page shows its
    skeleton, so no user event reaches it; the answers of the POSTs of
    the dialog and of orphaned dialogs still arrive.  A POST is stored
    by the medicine API in the step that delivers its answer (the
    handlers' store update), not at an earlier moment of its own.

    Two GETs can be in flight only through an orphan: a request of an
    unmounted dialog whose success calls [fetchMedicines] again.  When
    the answers come back in the order the requests were sent, each
    succeeding or failing, the page at rest after an answer that
    succeeded lists the store ([idle_page_fresh]); when they cross, it can
    come to rest on a list that misses the medicine just added
    ([stale_after_crossed_answers]). *)

From Stdlib Require Import ZArith QArith Lia List Bool String.
From S2P Require Import Prelude Dates Stock ListViews Aggregator AddStock InventoryView.
Import ListNotations.

Module InventoryAsync.
Import Views MedicineApi AddStock InventoryPage InventoryScreen.
Local Open Scope string_scope.

(** The page, the server's store, and the GETs in flight in the order
    they were sent: [None] before the server has handled it, [Some
    snapshot] after. *)
Record Net := mkNet {
  page : Page;
  store : list StockRecord;
  gets : list (option (list StockRecord))
}.

(** [fetchMedicines] as the handlers call it: up to the [await]. *)
Definition sendFetch (_ : list StockRecord) (p : Page) : Page := startFetch p.

(** The events the skeleton hides: all but the answers of POSTs. *)
Definition userEvent (e : PageEvent) : bool :=
  match e with
  | ModalEvent (Respond _) | OrphanAnswer _ _ => false
  | _ => true
  end.

Inductive NetEvent :=
| PageEv (e : PageEvent)
| Serve (i : nat)
| Deliver (i : nat) (ok : bool).

(** [finally setLoading(false)] after a failed GET ([toast.error]). *)
Definition failFetch (p : Page) : Page :=
  mkPage (medicines p) (filteredMedicines p) (searchTerm p) (activeTab p) (showAddModal p)
    false (stats p) (modal p) (orphans p).

Section Net.
Context (tz now : Z).

Definition netStep (n : Net) (e : NetEvent) : option Net :=
  match e with
  | PageEv pe =>
      if loading (page n) && userEvent pe then None
      else match pageStepWith sendFetch (store n) (page n) pe with
           | Some (store', p') =>
               Some (mkNet p' store' (gets n ++ if refetches (page n) pe then [None] else []))
           | None => None
           end
  | Serve i =>
      match nth_error (gets n) i with
      | Some None => Some (mkNet (page n) (store n) (Form.update_at i (fun _ => Some (store n)) (gets n)))
      | _ => None
      end
  | Deliver i ok =>
      match nth_error (gets n) i with
      | Some (Some snapshot) =>
          Some (mkNet (if ok then answerFetch tz now snapshot (page n) else failFetch (page n))
                      (store n) (removeNth i (gets n)))
      | _ => None
      end
  end.

(** The mount: the first [fetchMedicines] sent. *)
Definition mountNet (store0 : list StockRecord) : Net := mkNet (startFetch emptyPage) store0 [None].

Fixpoint netRun (n : Net) (es : list NetEvent) : option Net :=
  match es with
  | [] => Some n
  | e :: es' => match netStep n e with Some n' => netRun n' es' | None => None end
  end.

Inductive reachable (store0 : list StockRecord) : Net -> Prop :=
| reach_mount : reachable store0 (mountNet store0)
| reach_step n e n' : reachable store0 n -> netStep n e = Some n' -> reachable store0 n'.

(** The runs whose answers arrive in the order the GETs were sent; each
    answer may succeed or fail.  The index tells whether the last answer
    handled succeeded (before any, [true]: the mount's GET is in flight). *)
Inductive fifoReachable (store0 : list StockRecord) : Net -> bool -> Prop :=
| fifo_mount : fifoReachable store0 (mountNet store0) true
| fifo_page n b pe n' :
    fifoReachable store0 n b -> netStep n (PageEv pe) = Some n' -> fifoReachable store0 n' b
| fifo_serve n b i n' :
    fifoReachable store0 n b -> netStep n (Serve i) = Some n' -> fifoReachable store0 n' b
| fifo_deliver n b ok n' :
    fifoReachable store0 n b -> netStep n (Deliver 0 ok) = Some n' -> fifoReachable store0 n' ok.

End Net.
End InventoryAsync.

Section InventoryAsyncTheorems.
Import Views MedicineApi AddStock InventoryPage InventoryScreen InventoryAsync.
Local Open Scope string_scope.
Context (tz now : Z).

Lemma last_cons_cons {A} (x y : A) l d : last (x :: y :: l) d = last (y :: l) d.
Proof. reflexivity. Qed.

(** Handling request [i] changes the last request only if it is [i]. *)
Lemma last_update_at {A} i (g : A -> A) l d :
  (i < List.length l)%nat ->
  last (Form.update_at i g l) d = if Nat.eqb (S i) (List.length l) then g (last l d) else last l d.
Proof.
  revert i. induction l as [|x l IH]; intros i Hi; [simpl in Hi; lia|].
  destruct l as [|y l].
  - destruct i as [|i]; [reflexivity | simpl in Hi; lia].
  - destruct i as [|i].
    + reflexivity.
    + specialize (IH i ltac:(simpl in *; lia)).
      assert (Hne : Form.update_at i g (y :: l) <> []) by (destruct i; discriminate).
      transitivity (last (Form.update_at i g (y :: l)) d); [|rewrite IH; reflexivity].
      change (last (x :: Form.update_at i g (y :: l)) d = last (Form.update_at i g (y :: l)) d).
      destruct (Form.update_at i g (y :: l)) as [|z r]; [contradiction | reflexivity].
Qed.

Lemma nth_error_lt {A} (l : list A) i x : nth_error l i = Some x -> (i < List.length l)%nat.
Proof. intros H. apply nth_error_Some. congruence. Qed.

(** The handlers, with [fetchMedicines] only sent, keep the list shown,
    and change the store only when they refetch. *)
Lemma fold_send_medicines s effs p :
  medicines (fold_left (applyEffectWith sendFetch s) effs p) = medicines p /\
  stats (fold_left (applyEffectWith sendFetch s) effs p) = stats p.
Proof.
  revert p. induction effs as [|eff effs IH]; intros p; simpl; [auto|].
  rewrite !(proj1 (IH _)), !(proj2 (IH _)). destruct eff; auto.
Qed.

Lemma pageStep_send store p pe store' p' :
  pageStepWith sendFetch store p pe = Some (store', p') ->
  medicines p' = medicines p /\ stats p' = stats p /\
  (store' = store \/ refetches p pe = true).
Proof.
  intros H. destruct pe; cbv beta iota zeta delta [pageStepWith] in H.
  1-4: destruct (showAddModal p); [discriminate|]; injection H as <- <-; auto.
  - destruct (negb (showAddModal p) && negb (isResponse e)); [discriminate|].
    destruct (AddStock.step (modal p) e) as [[m' effs]|] eqn:Es; [|discriminate].
    injection H as <- <-.
    rewrite (proj1 (fold_send_medicines _ _ _)), (proj2 (fold_send_medicines _ _ _)).
    split; [reflexivity | split; [reflexivity|]].
    destruct e; try (left; reflexivity). destruct ok; [|left; reflexivity].
    destruct (inFlight (modal p)) eqn:Ef; [|left; reflexivity].
    right. simpl. unfold AddStock.step. rewrite Ef. reflexivity.
  - destruct (nth_error (orphans p) i); [|discriminate].
    destruct ok; injection H as <- <-; simpl; auto.
Qed.

(** At rest, after an answer that succeeded, the page lists the store;
    while GETs are in flight, the last one sent has not been handled yet
    or has seen the store as it is. *)
Definition Fresh (n : Net) (lastOk : bool) : Prop :=
  stats (page n) = statsOf (medicines (page n)) /\
  match gets n with
  | [] => lastOk = true -> medicines (page n) = listMedicines tz now (store n)
  | _ => last (gets n) None = None \/ last (gets n) None = Some (store n)
  end.

Lemma mount_Fresh store0 : Fresh (mountNet store0) true.
Proof. split; [reflexivity | left; reflexivity]. Qed.

Lemma fifo_Fresh store0 n b : fifoReachable tz now store0 n b -> Fresh n b.
Proof.
  induction 1 as [|n b pe n' _ IH H|n b i n' _ IH H|n b ok n' _ IH H]; [apply mount_Fresh| | |].
  - destruct IH as [Hs IH]. simpl in H.
    destruct (loading (page n) && userEvent pe); [discriminate|].
    destruct (pageStepWith sendFetch (store n) (page n) pe) as [[st p']|] eqn:E; [|discriminate].
    injection H as <-. destruct (pageStep_send _ _ _ _ _ E) as (Hm & Hst & Hsr).
    split; [simpl; rewrite Hm, Hst; exact Hs|]. simpl.
    destruct (refetches (page n) pe) eqn:Er.
    + destruct (gets n ++ [None])%list eqn:Eg; [destruct (gets n); discriminate|].
      left. rewrite <- Eg. apply last_last.
    + destruct Hsr as [->|]; [|discriminate]. rewrite app_nil_r, Hm. exact IH.
  - destruct IH as [Hs IH]. simpl in H.
    destruct (nth_error (gets n) i) as [[|]|] eqn:Ei; try discriminate.
    injection H as <-. split; [exact Hs|]. simpl.
    pose proof (nth_error_lt _ _ _ Ei) as Hi.
    destruct (Form.update_at i (fun _ => Some (store n)) (gets n)) eqn:Eu;
      [destruct (gets n), i; discriminate|].
    rewrite <- Eu, last_update_at by exact Hi.
    destruct (Nat.eqb (S i) (List.length (gets n))); [right; reflexivity|].
    destruct (gets n); [simpl in Hi; lia | exact IH].
  - destruct IH as [Hs IH]. simpl in H.
    destruct (gets n) as [|[snap|] rest] eqn:Eg; try discriminate.
    injection H as <-. destruct ok; (split; [first [reflexivity | exact Hs]|]); simpl.
    + destruct rest as [|r rest].
      * intros _. destruct IH as [IH|IH]; [discriminate|]. injection IH as ->. reflexivity.
      * rewrite <- last_cons_cons with (x := Some snap). exact IH.
    + destruct rest as [|r rest]; [discriminate|].
      rewrite <- last_cons_cons with (x := Some snap). exact IH.
Qed.

(** C33.  When the answers come back in the order the GETs were sent,
    whether each succeeds or fails, every time no request is in flight
    and the last answer handled succeeded, the inventory page lists
    exactly the store's medicines, with their statistics on the cards:
    an add, the dialog's own or an orphan's, is never lost from the
    list.  (After a failed answer the page keeps the list it had and
    shows the error toast.) *)
Theorem idle_page_fresh store0 n :
  fifoReachable tz now store0 n true -> gets n = [] ->
  medicines (page n) = listMedicines tz now (store n) /\
  stats (page n) = statsOf (medicines (page n)).
Proof.
  intros Hr He. destruct (fifo_Fresh _ _ _ Hr) as [Hs H]. rewrite He in H. auto.
Qed.

(** The events of the runs whose answers come in order. *)
Definition fifoEvent (e : NetEvent) : bool :=
  match e with Deliver 0 _ => true | Deliver _ _ => false | _ => true end.

(** Whether the last answer of a run succeeded. *)
Fixpoint lastAnswerOk (b : bool) (es : list NetEvent) : bool :=
  match es with
  | [] => b
  | Deliver _ ok :: es' => lastAnswerOk ok es'
  | _ :: es' => lastAnswerOk b es'
  end.

Lemma fifo_netRun store0 es : forall n b n',
  fifoReachable tz now store0 n b -> forallb fifoEvent es = true ->
  netRun tz now n es = Some n' -> fifoReachable tz now store0 n' (lastAnswerOk b es).
Proof.
  induction es as [|e es IH]; intros n b n' Hr Hf Hrun; simpl in Hrun.
  - injection Hrun as <-. exact Hr.
  - simpl in Hf. apply andb_prop in Hf as [He Hf].
    destruct (netStep tz now n e) as [n1|] eqn:E; [|discriminate].
    destruct e as [pe|i|[|i] ok]; try discriminate; simpl; (eapply IH; [|exact Hf | exact Hrun]).
    + eapply fifo_page; eassumption.
    + eapply fifo_serve; eassumption.
    + eapply fifo_deliver; eassumption.
Qed.

End InventoryAsyncTheorems.

(** ** Examples *)
Module AsyncFixture.
Import AddStock InventoryPage InventoryAsync AddStockFixture.

(** Dolo 650 added in a dialog cancelled while its POST is in flight,
    then Refresh; the server answers the Refresh before storing Dolo 650,
    the POST's success sends a second GET, and the two answers cross. *)
Definition crossed : list NetEvent :=
  ([Serve 0; Deliver 0 true] ++ map PageEv fillDolo ++
   [PageEv (ModalEvent Submit); PageEv (ModalEvent Close); PageEv RefreshInventory; Serve 0;
    PageEv (OrphanAnswer 0 true); Serve 1; Deliver 1 true; Deliver 0 true])%list.

(** The same, with the answers in the order the GETs were sent. *)
Definition inOrder : list NetEvent :=
  ([Serve 0; Deliver 0 true] ++ map PageEv fillDolo ++
   [PageEv (ModalEvent Submit); PageEv (ModalEvent Close); PageEv RefreshInventory; Serve 0;
    PageEv (OrphanAnswer 0 true); Serve 1; Deliver 0 true; Deliver 0 true])%list.

End AsyncFixture.

Section InventoryAsyncExamples.
Import Views MedicineApi AddStock InventoryPage InventoryAsync Fixture AsyncFixture.

(**  When the answers cross, the page can come to rest on a
    stale list: after the run [crossed] from the fixture's inventory
    nothing is in flight, the success toast has been shown, the store
    holds Dolo 650 and the list does not. *)
Theorem stale_after_crossed_answers :
  exists n,
    netRun ist now_ist (mountNet records) crossed = Some n /\ gets n = [] /\
    loading (page n) = false /\ List.length (store n) = S (List.length records) /\
    medicines (page n) = listMedicines ist now_ist records /\
    medicines (page n) <> listMedicines ist now_ist (store n).
Proof.
  eexists. split; [vm_compute; reflexivity|].
  split; [reflexivity|]. split; [reflexivity|]. split; [reflexivity|].
  split; [vm_compute; reflexivity|].
  intros H. apply (f_equal (@List.length _)) in H. vm_compute in H. discriminate.
Qed.

(** In order, the same run comes to rest on the list with Dolo 650. *)
Lemma idle_page_fresh_witness :
  match netRun ist now_ist (mountNet records) inOrder with
  | Some n =>
      List.length (medicines (page n)) = 5%nat /\ gets n = [] /\
      medicines (page n) = listMedicines ist now_ist (store n) /\
      stats (page n) = statsOf (medicines (page n))
  | None => False
  end.
Proof.
  destruct (netRun ist now_ist (mountNet records) inOrder) as [n|] eqn:E;
    [|vm_compute in E; discriminate].
  assert (Hg : gets n = []) by (vm_compute in E; injection E as <-; reflexivity).
  split; [vm_compute in E; injection E as <-; reflexivity|]. split; [exact Hg|].
  apply (idle_page_fresh ist now_ist records n); [|exact Hg].
  apply (fifo_netRun ist now_ist records inOrder (mountNet records) true); [apply fifo_mount | reflexivity | exact E].
Defined.

End InventoryAsyncExamples.
