(* ===== verification/MultiForm.v ===== *)
(** * MultiForm: the multi-medicine transaction form with its dialog

    [src/src/components/MultiMedicineTransactionForm.tsx] as a step
    function on an explicit state: the form values of [useForm] (the
    rows of [useFieldArray], the total discount, customer name and
    notes), the React state [showScheduleHModal], [isSubmitting] and
    [scheduleHItems], the [ScheduleHModal] it renders (the component of
    [RxModal.v], hosted through [multiHost]) and the requests posted to
    [/api/transactions/multi].  Each [FormField]'s [onChange], the row
    buttons, [handleSubmit(onSubmit)], [processTransaction],
    [handleScheduleHComplete] and the dialog's callbacks are cases of
    [step].  The overlay of the open dialog blocks the form; a [fetch]
    ends with [Respond]. *)

From Stdlib Require Import ZArith QArith Lia List Bool String.
From S2P Require Import Prelude JsNum Aggregator ScheduleH RxModal ListViews AddStock.
Import ListNotations.

Module MultiForm.
Import Form.
Local Open Scope string_scope.

(** [defaultValues] of [useForm]; also what [form.reset()] restores. *)
Definition defaultForm : MultiTransactionFormData := mkForm [emptyItem] 0 "" "".

(** The body of the request: [...data], [type], [prescriptionSkipped],
    [scheduleHCount]; [rq_prescription] is a ghost field, the file whose
    upload preceded the request. *)
Record Request := mkRequest {
  rq_data : MultiTransactionFormData;
  rq_kind : Gate.TxKind;
  rq_prescriptionSkipped : bool;
  rq_scheduleHCount : nat;
  rq_prescription : option Gate.FileInfo
}.

Record State := mkState {
  kind : Gate.TxKind;
  values : MultiTransactionFormData;
  showScheduleHModal : bool;
  isSubmitting : bool;
  scheduleHItems : list TransactionItem;
  modal : RxModal.Modal;
  awaiting : nat;
  sent : list Request
}.

Definition initState (k : Gate.TxKind) : State :=
  mkState k defaultForm false false [] RxModal.initModal 0 [].

(** The number inputs' [onChange]: [parseInt(e.target.value) || 0] for
    the quantity, [parseFloat(e.target.value) || 0] for the others. *)
Definition intInput (t : string) : Q :=
  match JsNum.parseInt t with Some z => inject_Z z | None => 0 end.

Definition floatInput (t : string) : Q :=
  match JsNum.parseFloat t with Some q => q | None => 0 end.

(** The number inputs of a row. *)
Inductive RowField := QuantityF | PriceF | DiscountF.

Definition setRowField (rf : RowField) (t : string) (it : TransactionItem) : TransactionItem :=
  match rf with
  | QuantityF => mkItem (medicineId it) (medicineName it) (intInput t) (price it) (discount it)
  | PriceF => mkItem (medicineId it) (medicineName it) (quantity it) (floatInput t) (discount it)
  | DiscountF => mkItem (medicineId it) (medicineName it) (quantity it) (price it) (floatInput t)
  end.

Inductive Event :=
| SetCustomerName (s : string)
| SetNotes (s : string)
| SetTotalDiscountText (t : string)
| SetRowText (index : nat) (rf : RowField) (t : string)
| SelectMedicine (index : nat) (m : SearchMedicine)
| AppendRow
| RemoveRow (index : nat)
| Submit
| Dialog (e : RxModal.Event)
| Respond (ok : bool).

Definition setValues (s : State) (f : MultiTransactionFormData) : State :=
  mkState (kind s) f (showScheduleHModal s) (isSubmitting s) (scheduleHItems s) (modal s)
          (awaiting s) (sent s).

Definition setModalState (s : State) (m : RxModal.Modal) : State :=
  mkState (kind s) (values s) (showScheduleHModal s) (isSubmitting s) (scheduleHItems s) m
          (awaiting s) (sent s).

(** [processTransaction(data, prescriptionSkipped)] up to the [fetch]. *)
Definition processTransaction (s : State) (data : MultiTransactionFormData) (skipped : bool)
  (rx : option Gate.FileInfo) : State :=
  let r := mkRequest data (kind s) skipped (List.length (Multi.scheduleHItems (items data))) rx in
  mkState (kind s) (values s) (showScheduleHModal s) true (scheduleHItems s) (modal s)
          (S (awaiting s)) (sent s ++ [r])%list.

(** The dialog's props: [onComplete={handleScheduleHComplete}], which
    posts [form.getValues()] (the values at that moment, not validated
    again), and [onClose={() => setShowScheduleHModal(false)}]. *)
Definition multiHost : RxModal.Host State :=
  RxModal.mkHost (fun b f s => processTransaction s (values s) (negb b) f)
                 (fun s => mkState (kind s) (values s) false (isSubmitting s) (scheduleHItems s)
                                   (modal s) (awaiting s) (sent s)).

(** The end of a [fetch]: on success the toast and [form.reset()]; in
    [finally], [setIsSubmitting(false)]. *)
Definition onResponse (s : State) (ok : bool) : State :=
  mkState (kind s) (if ok then defaultForm else values s) (showScheduleHModal s) false
          (scheduleHItems s) (modal s) (pred (awaiting s)) (sent s).

(** A row's control exists. *)
Definition hasRow (s : State) (index : nat) : bool := (index <? List.length (items (values s)))%nat.

(** One event; [None] when it cannot happen: the form is behind the
    dialog's overlay, the row does not exist, the button is disabled
    (Remove with one row left, Complete while submitting), or nothing is
    in flight to answer. *)
Definition step (s : State) (e : Event) : option State :=
  let f := values s in
  match e with
  | SetCustomerName n =>
      if showScheduleHModal s then None
      else Some (setValues s (mkForm (items f) (totalDiscount f) n (notes f)))
  | SetNotes n =>
      if showScheduleHModal s then None
      else Some (setValues s (mkForm (items f) (totalDiscount f) (customerName f) n))
  | SetTotalDiscountText t =>
      if showScheduleHModal s then None
      else Some (setValues s (mkForm (items f) (floatInput t) (customerName f) (notes f)))
  | SetRowText i rf t =>
      if showScheduleHModal s || negb (hasRow s i) then None
      else Some (setValues s (mkForm (update_at i (setRowField rf t) (items f)) (totalDiscount f)
                                    (customerName f) (notes f)))
  | SelectMedicine i m =>
      if showScheduleHModal s || negb (hasRow s i) then None
      else Some (setValues s (onMedicineSelect i m f))
  | AppendRow =>
      if showScheduleHModal s then None else Some (setValues s (appendItem f))
  | RemoveRow i =>
      if showScheduleHModal s || negb (hasRow s i) || (List.length (items f) =? 1)%nat then None
      else Some (setValues s (removeItem i f))
  | Submit =>
      if showScheduleHModal s || isSubmitting s then None
      else match Multi.multiSubmit (kind s) f with
           | None => Some s
           | Some (Multi.OpenModal h) =>
               Some (mkState (kind s) f true (isSubmitting s) h (modal s) (awaiting s) (sent s))
           | Some (Multi.Send skipped _) => Some (processTransaction s f skipped None)
           end
  | Dialog de =>
      match RxModal.step (showScheduleHModal s) (modal s) de with
      | Some (m', cs) => Some (setModalState (RxModal.runCallbacks multiHost cs s) m')
      | None => None
      end
  | Respond ok =>
      match awaiting s with O => None | S _ => Some (onResponse s ok) end
  end.

Fixpoint run (s : State) (es : list Event) : option State :=
  match es with
  | [] => Some s
  | e :: es' => match step s e with Some s' => run s' es' | None => None end
  end.

Inductive reachable (k : Gate.TxKind) : State -> Prop :=
| reach_init : reachable k (initState k)
| reach_step s e s' : reachable k s -> step s e = Some s' -> reachable k s'.

(** The dialog's [medicineName] prop. *)
Definition dialogMedicineName (s : State) : string :=
  Sorting.decimal (Z.of_nat (List.length (scheduleHItems s))) ++ " Schedule H medicine(s)".

(** The submit button's text. *)
Definition submitLabel (s : State) : string :=
  if isSubmitting s then "Processing..."
  else match kind s with Gate.KSell => "Complete Sale" | Gate.KPurchase => "Complete Purchase" end.

End MultiForm.

Section MultiFormTheorems.
Import Form MultiForm.

(** A sale with Schedule-H rows posted as not skipped carries a
    prescription that passed the dialog's checks. *)
Definition RequestOk (r : Request) : Prop :=
  rq_kind r = Gate.KSell -> (0 < rq_scheduleHCount r)%nat -> rq_prescriptionSkipped r = false ->
  exists f, rq_prescription r = Some f /\ Gate.fileValid f = true.

(** What every reachable state of the form satisfies. *)
Definition MultiInv (s : State) : Prop :=
  (1 <= List.length (items (values s)))%nat /\ ModalInv (modal s) /\ Forall RequestOk (sent s).

Lemma length_update_at {A} i (g : A -> A) l : List.length (update_at i g l) = List.length l.
Proof. revert i; induction l as [|x l IH]; intros [|i]; simpl; auto. Qed.

Lemma length_remove_at {A} i (l : list A) :
  (i < List.length l)%nat -> List.length (remove_at i l) = pred (List.length l).
Proof.
  revert i; induction l as [|x l IH]; intros [|i] Hi; simpl in *; try lia.
  rewrite IH by lia. destruct l; simpl in *; lia.
Qed.

Lemma multiSubmit_send k f b c :
  Multi.multiSubmit k f = Some (Multi.Send b c) ->
  b = false /\ (k = Gate.KSell -> List.length (Multi.scheduleHItems (items f)) = 0%nat).
Proof.
  unfold Multi.multiSubmit. destruct (negb (formValid f)); [discriminate|].
  destruct k; [destruct (0 <? _)%nat eqn:E|]; intros H; try discriminate; injection H as <- _;
    split; try reflexivity; intros Hk; try discriminate.
  apply Nat.ltb_ge in E. lia.
Qed.

Lemma processTransaction_ok s data skipped rx :
  Forall RequestOk (sent s) ->
  RequestOk (mkRequest data (kind s) skipped (List.length (Multi.scheduleHItems (items data))) rx) ->
  Forall RequestOk (sent (processTransaction s data skipped rx)).
Proof. intros H1 H2. simpl. apply Forall_app. split; [exact H1 | constructor; [exact H2 | constructor]]. Qed.

(** The host's part of the invariant survives the dialog's callbacks. *)
Lemma dialog_callbacks_inv o s m e m' cs :
  ModalInv m -> RxModal.step o m e = Some (m', cs) ->
  (1 <= List.length (items (values s)))%nat /\ Forall RequestOk (sent s) ->
  let s' := RxModal.runCallbacks multiHost cs s in
  (1 <= List.length (items (values s')))%nat /\ Forall RequestOk (sent s').
Proof.
  intros Hm Hs H0. apply RxModal.runCallbacks_ind; [exact H0| |].
  - intros b f s1 Hin [Hl Hok]. simpl. split; [exact Hl|].
    apply processTransaction_ok; [exact Hok|]. intros _ _ Hsk.
    destruct (step_callbacks o m e m' cs b f Hm Hs Hin) as (_ & Hb & _).
    apply Hb. destruct b; [reflexivity | discriminate].
  - intros s1 [Hl Hok]. split; assumption.
Qed.

Lemma step_MultiInv s e s' : MultiInv s -> step s e = Some s' -> MultiInv s'.
Proof.
  intros (Hl & Hm & Hok) Hs.
  destruct e as [n|n|t|i rf t|i med| |i| |de|ok]; unfold step in Hs; destruct_ifs Hs;
    try discriminate; bool_prop;
    try match type of Hs with
        | context [match ?o with Multi.OpenModal _ => _ | Multi.Send _ _ => _ end] =>
            destruct o eqn:Eo
        end.
  all: try (injection Hs as <-; unfold MultiInv; simpl;
            rewrite ?length_update_at, ?length_app; split; [simpl; lia|]; split; assumption).
  - (* RemoveRow *)
    injection Hs as <-. unfold MultiInv, removeItem; simpl.
    match goal with H : List.length _ <> 1%nat |- _ => rewrite (proj2 (Nat.eqb_neq _ _) H) end.
    unfold hasRow in *. bool_prop.
    cbn [items]. rewrite length_remove_at by assumption. split; [lia | split; assumption].
  - (* Submit that posts *)
    injection Hs as <-. apply multiSubmit_send in E0 as [-> Hk].
    split; [exact Hl|]. split; [exact Hm|]. apply processTransaction_ok; [exact Hok|].
    intros Hsell Hc _. simpl in Hsell, Hc. rewrite (Hk Hsell) in Hc. lia.
  - (* the dialog *)
    destruct p as [m' cs]. injection Hs as <-. destruct (dialog_callbacks_inv _ s _ _ _ _ Hm E (conj Hl Hok)) as [Hl' Hok'].
    split; [exact Hl'|]. split; [exact (step_ModalInv _ _ _ _ _ Hm E) | exact Hok'].
  - (* a successful answer resets the form *)
    injection Hs as <-. unfold MultiInv; simpl. destruct ok; simpl; (split; [lia|]); split; assumption.
Qed.

Lemma initState_inv k : MultiInv (initState k).
Proof.
  unfold MultiInv; simpl. split; [lia|]. split; [exact initModal_inv | constructor].
Qed.

(** A row whose quantity input reads 0 fails the schema. *)
Lemma formValid_zero_quantity f x rest :
  items f = update_at 0 (setRowField QuantityF "0") (x :: rest) -> formValid f = false.
Proof.
  intros H. unfold formValid. rewrite H. simpl.
  unfold itemValid at 1. simpl. rewrite !andb_false_r. reflexivity.
Qed.

(** C18.  Every state the multi-medicine form reaches keeps its
    promises: it has at least one row (Remove is disabled on the last
    one, and a reset restores one), the dialog's file and upload passed
    the type and size checks with [isUploading] set exactly while an
    upload runs, and every sale posted with Schedule-H rows and not
    marked as skipped carries such a prescription. *)
Theorem multi_form_invariant k s : reachable k s -> MultiInv s.
Proof.
  induction 1 as [|s e s' _ IH Hs]; [apply initState_inv | exact (step_MultiInv s e s' IH Hs)].
Qed.

(** C19.  The upload's completion posts what the form holds when it
    ends, without validating it again: if the dialog is closed while
    the prescription uploads (Escape or the overlay; only the buttons are
    disabled), the first row's quantity can be cleared to 0, and the
    completion then posts a sale that fails the form's own schema, as a
    sale with an uploaded prescription. *)
Theorem upload_posts_unvalidated s f :
  showScheduleHModal s = true -> RxModal.uploadTimer (modal s) = Some f ->
  (1 <= List.length (items (values s)))%nat ->
  exists s', run s [Dialog RxModal.OpenChange; SetRowText 0 QuantityF "0"; Dialog RxModal.UploadDone]
             = Some s' /\
  exists r, sent s' = (sent s ++ [r])%list /\ rq_prescriptionSkipped r = false /\
    rq_prescription r = Some f /\ formValid (rq_data r) = false.
Proof.
  intros Hshow Ht Hl.
  destruct s as [k [its td cn nt] show sub hs [mf mu mt] aw sn]; simpl in *. subst show mt.
  destruct its as [|x rest]; simpl in Hl; [lia|].
  eexists; split; [reflexivity|]. eexists; split; [reflexivity|].
  split; [reflexivity|]. split; [reflexivity|].
  apply (formValid_zero_quantity _ x rest). reflexivity.
Qed.

End MultiFormTheorems.

Section MultiFormWitnesses.
Import Form MultiForm.
Local Open Scope string_scope.

Lemma multi_run_reachable k s es s' : reachable k s -> run s es = Some s' -> reachable k s'.
Proof.
  revert s; induction es as [|e es IH]; intros s Hr Hrun; simpl in Hrun.
  - injection Hrun as <-. exact Hr.
  - destruct (step s e) as [s1|] eqn:E; [|discriminate].
    apply (IH s1); [exact (reach_step k s e s1 Hr E) | exact Hrun].
Qed.

Definition afterMulti (es : list Event) : State :=
  match run (initState Gate.KSell) es with Some s => s | None => initState Gate.KSell end.

(** Amoxicillin in the first row, submitted: the dialog opens; a
    prescription is chosen and its upload started. *)
Definition uploadingRun : list Event :=
  [SelectMedicine 0 amoxicillin; Submit; Dialog (RxModal.ChooseFile (Some rxA)); Dialog RxModal.ClickUpload].

Lemma multi_form_invariant_witness :
  reachable Gate.KSell (afterMulti (uploadingRun ++ [Dialog RxModal.UploadDone])) /\
  List.length (sent (afterMulti (uploadingRun ++ [Dialog RxModal.UploadDone]))) = 1%nat /\
  MultiInv (afterMulti (uploadingRun ++ [Dialog RxModal.UploadDone])).
Proof.
  assert (Hr : reachable Gate.KSell (afterMulti (uploadingRun ++ [Dialog RxModal.UploadDone]))).
  { apply (multi_run_reachable Gate.KSell (initState Gate.KSell) (uploadingRun ++ [Dialog RxModal.UploadDone]));
      [apply reach_init | vm_compute; reflexivity]. }
  split; [exact Hr|]. split; [vm_compute; reflexivity|].
  exact (multi_form_invariant Gate.KSell _ Hr).
Defined.

Lemma upload_posts_unvalidated_witness :
  showScheduleHModal (afterMulti uploadingRun) = true /\
  RxModal.uploadTimer (modal (afterMulti uploadingRun)) = Some rxA /\
  exists s', run (afterMulti uploadingRun)
               [Dialog RxModal.OpenChange; SetRowText 0 QuantityF "0"; Dialog RxModal.UploadDone] = Some s' /\
  exists r, sent s' = (sent (afterMulti uploadingRun) ++ [r])%list /\ rq_prescriptionSkipped r = false /\
    rq_prescription r = Some rxA /\ formValid (rq_data r) = false.
Proof.
  split; [vm_compute; reflexivity|]. split; [vm_compute; reflexivity|].
  apply upload_posts_unvalidated; vm_compute; first [reflexivity | lia].
Defined.

End MultiFormWitnesses.
