(* ===== verification/ExpiryPage.v ===== *)
(** * ExpiryPage: the expiry tracking page

    [src/src/app/expiry/page.tsx]: its state ([medicines], [loading],
    [expiryDays], [stats]), the effect that refetches when the window
    changes, [fetchExpiringMedicines] with the statistics of
    [Views.expiryStats], the refresh button, and the recommendations shown
    under the list.  The answer of [/api/medicines?expiring=true&days=d]
    is modelled from the spec (4.1): the medicines expiring soon in a
    window of [d] days.  Here a fetch answers at once;
    [ExpiryScreen.v] models the requests in flight and the renders, and
    shows that this page is what the screen displays after each answer. *)

From Stdlib Require Import ZArith QArith Lia List Bool String.
From S2P Require Import Prelude JsNum Dates Stock AddStock.
Import ListNotations.

Module ExpiryPage.
Import Views JsNum.
Local Open Scope string_scope.

(** The [<SelectItem>]s of the window. *)
Inductive DaysOption := D15 | D30 | D60 | D90.

Definition daysValue (o : DaysOption) : string :=
  match o with D15 => "15" | D30 => "30" | D60 => "60" | D90 => "90" end.

Record Page := mkPage {
  medicines : list Medicine;
  loading : bool;
  expiryDays : string;
  stats : ExpiryStats
}.

Definition initialStats : ExpiryStats := mkExpiryStats 0 0 0 0.

Definition emptyPage : Page := mkPage [] true "30" initialStats.

Inductive Event := SelectDays (o : DaysOption) | Refresh.

(** The recommendations under the list. *)
Inductive Advice := ClearanceSale (n : nat) | DiscountSale (n : nat) | RemoveExpired (n : nat).

Definition recommendations (p : Page) : list Advice :=
  if (List.length (medicines p) =? 0)%nat then []
  else (if (0 <? expiring15Days (stats p))%nat then [ClearanceSale (expiring15Days (stats p))] else []) ++
       (if (0 <? expiring30Days (stats p))%nat then [DiscountSale (expiring30Days (stats p))] else []) ++
       (if (0 <? expired (stats p))%nat then [RemoveExpired (expired (stats p))] else []).

Section Fetch.
Context (tz now : Z).

(** The API's answer for the [days] parameter. *)
Definition listExpiring (days : string) (store : list StockRecord) : list Medicine :=
  let w := match parseInt days with Some z => z | None => 30%Z end in
  filter isExpiringSoon (map (classify tz now w) store).

(** [fetchExpiringMedicines], answered at once. *)
Definition fetchExpiringMedicines (store : list StockRecord) (p : Page) : Page :=
  let ms := listExpiring (expiryDays p) store in
  mkPage ms false (expiryDays p) (expiryStats now ms).

Definition mountPage (store : list StockRecord) : Page := fetchExpiringMedicines store emptyPage.

(** [setExpiryDays] and the effect on [expiryDays]; the refresh button. *)
Definition pageStep (store : list StockRecord) (p : Page) (e : Event) : Page :=
  match e with
  | SelectDays o =>
      if String.eqb (daysValue o) (expiryDays p) then p
      else fetchExpiringMedicines store (mkPage (medicines p) true (daysValue o) (stats p))
  | Refresh => fetchExpiringMedicines store p
  end.

End Fetch.
End ExpiryPage.

Section ExpiryPageTheorems.
Import Views ExpiryPage.
Context (tz now : Z).

(** Under the spec's API the expired card is always 0 and the advice to
    remove expired stock never shows: what the API returns is expiring
    soon, hence not expired. *)
Lemma expired_card_always_zero store p :
  expired (stats (fetchExpiringMedicines tz now store p)) = 0%nat /\
  forall n, ~ In (RemoveExpired n) (recommendations (fetchExpiringMedicines tz now store p)).
Proof.
  assert (H : count_if isExpired (listExpiring tz now (expiryDays p) store) = 0%nat).
  { unfold listExpiring, count_if. generalize (match JsNum.parseInt (expiryDays p) with
                                              | Some z => z | None => 30%Z end). intros w.
    induction store as [|r store IH]; simpl; [reflexivity|].
    destruct ((0 <=? _) && (_ <=? w))%Z eqn:E; simpl; [|exact IH].
    apply andb_true_iff in E as [E _]. apply Z.leb_le in E.
    destruct (_ <? 0)%Z eqn:E'; [apply Z.ltb_lt in E'; lia | exact IH]. }
  split; [exact H|]. intros n Hin. unfold recommendations in Hin. simpl in Hin. rewrite H in Hin.
  simpl in Hin. rewrite app_nil_r in Hin.
  destruct (_ =? 0)%nat in Hin; [contradiction|].
  apply in_app_or in Hin as [Hin|Hin];
    try (destruct (0 <? _)%nat in Hin); simpl in Hin;
    first [contradiction | destruct Hin as [Hin|[]]; congruence].
Qed.

End ExpiryPageTheorems.
