(* ===== verification/ExpiryScreen.v ===== *)
(** * ExpiryScreen: the expiry page with its list, fetch by fetch

    [src/src/app/expiry/page.tsx] together with the [ExpiryList] it
    renders ([src/src/components/ExpiryList.tsx]), without the assumption
    of [ExpiryPage.v] that a fetch answers at once.  A fetch is a request
    in flight until its [Answer] event, answers may come in any order,
    and React's renders are explicit:

    - while [loading] the page returns its skeleton, so the window
      selector, the refresh button and [ExpiryList] are not rendered: the
      list is unmounted and its state (search, status filter, sort)
      discarded;
    - when the list is rendered, [getFilteredMedicines] sorts the page's
      [medicines] array in place when no filter ran
      ([Sorting.getFilteredMedicines] returns the array's new contents).

    Module [ExpiryListC] is the list component: its state, its events
    and what it renders (the empty notice, or the controls, the table
    rows and the summary line).  Module [ExpiryScreen] is the page with
    the list as a child. *)

From Stdlib Require Import ZArith QArith Lia List Bool String Permutation.
From S2P Require Import Prelude JsNum Dates Stock ListViews AddStock ExpiryPage.
Import ListNotations.

Module ExpiryListC.
Import Views Sorting.
Local Open Scope string_scope.

(** [searchTerm], [sortField]/[sortDirection] and [filterBy]. *)
Record ListState := mkListState { searchTerm : string; sort : SortState; filterBy : FilterBy }.

Definition initListState : ListState := mkListState "" expiryInitial FAll.

(** The search input, the status [<Select>], a click on a header. *)
Inductive ListEvent := TypeSearch (s : string) | SelectFilter (f : FilterBy) | ClickHeader (f : Field).

(** The headers with an [onClick]: name, expiry date, days left,
    supplier, stock. *)
Definition sortableHeader (f : Field) : bool :=
  match f with FName | FExpiryDate | FDaysUntilExpiry | FSupplier | FStock => true | _ => false end.

Definition listStep (st : ListState) (e : ListEvent) : option ListState :=
  match e with
  | TypeSearch s => Some (mkListState s (sort st) (filterBy st))
  | SelectFilter f => Some (mkListState (searchTerm st) (sort st) f)
  | ClickHeader f =>
      if sortableHeader f then Some (mkListState (searchTerm st) (handleSort (sort st) f) (filterBy st))
      else None
  end.

(** The "Days Left" cell: [`${Math.abs(d)} days ago`] or [`${d} days`]. *)
Inductive DaysCell := DaysAgo (n : Z) | DaysLeft (n : Z).

Definition daysCell (m : Medicine) : DaysCell :=
  if isExpired m then DaysAgo (Z.abs (daysUntilExpiry m)) else DaysLeft (daysUntilExpiry m).

(** [s || 'N/A'] *)
Definition orNA (s : string) : string := if String.eqb s "" then "N/A" else s.

(** The row's background classes, each added when its condition holds. *)
Definition expiryRowTones (m : Medicine) : list RowTone :=
  (if isExpired m then [ToneRed] else []) ++
  (if (daysUntilExpiry m <=? 15)%Z && negb (isExpired m) then [ToneOrange] else []) ++
  (if (daysUntilExpiry m <=? 30)%Z && (15 <? daysUntilExpiry m)%Z then [ToneYellow] else []).

(** A row of the table. *)
Record Row := mkRow {
  rowName : string;
  rowScheduleH : bool;
  rowExpiryText : ExpiryText;
  rowDays : DaysCell;
  rowBatch : string;
  rowSupplier : string;
  rowStock : Z;
  rowLowStock : bool;
  rowValueAtRisk : Q;
  rowBadge : ExpiryBadge;
  rowTones : list RowTone
}.

Definition rowOf (m : Medicine) : Row :=
  mkRow (name m) (match schedule m with Some s => String.eqb s "H" | None => false end)
        (getExpiryText m) (daysCell m) (orNA (batch m)) (orNA (supplier m)) (stock m)
        (isLowStock m) (inject_Z (stock m) * price m)%Q (getExpiryBadge m) (expiryRowTones m).

(** The arrow after a sortable header: the direction of its column. *)
Definition headerArrows (st : ListState) : list (Field * option Direction) :=
  map (fun f => (f, if Field_beq (sortField (sort st)) f then Some (sortDirection (sort st)) else None))
      [FName; FExpiryDate; FDaysUntilExpiry; FSupplier; FStock].

(** What the list renders. *)
Inductive ListView :=
| EmptyNotice (expiryDays : option Z)
| Table (exportCount : nat) (arrows : list (Field * option Direction)) (rows : list Row)
        (shown total expired critical warning : nat).

Section View.
Context (localeCompare : string -> string -> Z).

(** A render of [ExpiryList] with its props: the [medicines] array
    afterwards (sorted in place when no filter ran) and the view. *)
Definition listView (medicines : list Medicine) (expiryDays : option Z) (st : ListState)
  : list Medicine * ListView :=
  let '(propAfter, filtered) :=
    getFilteredMedicines localeCompare medicines (searchTerm st) (filterBy st) (sort st) in
  (propAfter,
   if (List.length medicines =? 0)%nat then EmptyNotice expiryDays
   else Table (List.length filtered) (headerArrows st) (map rowOf filtered)
              (List.length filtered) (List.length medicines)
              (summaryExpired filtered) (summaryCritical filtered) (summaryWarning filtered)).

End View.
End ExpiryListC.

Module ExpiryScreen.
Import Views Sorting ExpiryPage ExpiryListC.
Local Open Scope string_scope.

Section Screen.
Context (localeCompare : string -> string -> Z) (tz now : Z) (store : list StockRecord).

(** The page's state, the requests in flight (the [days] each was sent
    with, oldest first) and the list's state while it is mounted. *)
Record Screen := mkScreen {
  medicines : list Medicine;
  loading : bool;
  expiryDays : string;
  stats : ExpiryStats;
  inFlight : list string;
  listState : option ListState
}.

(** A render: the skeleton while [loading] (the list unmounts), else the
    page with the list, mounted afresh if it was not, whose render sorts
    [medicines] in place. *)
Definition render (s : Screen) : Screen :=
  if loading s then mkScreen (medicines s) true (expiryDays s) (stats s) (inFlight s) None
  else let l := match listState s with Some l => l | None => initListState end in
       mkScreen (fst (listView localeCompare (medicines s) (JsNum.parseInt (expiryDays s)) l))
                false (expiryDays s) (stats s) (inFlight s) (Some l).

(** [fetchExpiringMedicines()] up to its [fetch]: [setLoading(true)] and
    a request for the current [expiryDays]. *)
Definition startFetch (s : Screen) : Screen :=
  mkScreen (medicines s) true (expiryDays s) (stats s) (inFlight s ++ [expiryDays s])
           (listState s).

(** The rest of it when the request sent with [days] answers: the data
    and the statistics on success, a toast otherwise, and in [finally]
    [setLoading(false)]. *)
Definition answer (s : Screen) (days : string) (ok : bool) (rest : list string) : Screen :=
  if ok then let ms := listExpiring tz now days store in
             mkScreen ms false (expiryDays s) (expiryStats now ms) rest (listState s)
  else mkScreen (medicines s) false (expiryDays s) (stats s) rest (listState s).

(** The first render, and the mount effect's fetch. *)
Definition initScreen : Screen :=
  render (startFetch (render (mkScreen [] true "30" initialStats [] None))).

Inductive Event :=
| SelectDays (o : DaysOption)
| Refresh
| Answer (i : nat) (ok : bool)
| ListEv (e : ListEvent).

(** One event and the renders it causes.  The selector, the refresh
    button and the list's controls exist only in the loaded page (and
    the list's controls only when it has medicines); choosing the
    window already chosen changes no state; any request in flight may
    answer. *)
Definition step (s : Screen) (e : Event) : option Screen :=
  match e with
  | SelectDays o =>
      if loading s then None
      else if String.eqb (daysValue o) (expiryDays s) then Some s
      else let s1 := render (mkScreen (medicines s) false (daysValue o) (stats s) (inFlight s)
                                      (listState s)) in
           Some (render (startFetch s1))
  | Refresh => if loading s then None else Some (render (startFetch s))
  | Answer i ok =>
      match nth_error (inFlight s) i with
      | Some d => Some (render (answer s d ok (removeNth i (inFlight s))))
      | None => None
      end
  | ListEv le =>
      if loading s then None
      else match listState s with
           | Some l =>
               if (List.length (medicines s) =? 0)%nat then None
               else match listStep l le with
                    | Some l' => Some (render (mkScreen (medicines s) false (expiryDays s) (stats s)
                                                        (inFlight s) (Some l')))
                    | None => None
                    end
           | None => None
           end
  end.

Fixpoint run (s : Screen) (es : list Event) : option Screen :=
  match es with
  | [] => Some s
  | e :: es' => match step s e with Some s' => run s' es' | None => None end
  end.

Inductive reachable : Screen -> Prop :=
| reach_init : reachable initScreen
| reach_step s e s' : reachable s -> step s e = Some s' -> reachable s'.

(** An idle screen shows what the synchronous page of [ExpiryPage.v]
    holds, its [medicines] up to the order the list's sorts gave them. *)
Definition related (s : Screen) (p : Page) : Prop :=
  loading s = false /\ inFlight s = [] /\ expiryDays s = ExpiryPage.expiryDays p /\
  stats s = ExpiryPage.stats p /\ Permutation (medicines s) (ExpiryPage.medicines p).

(** The events of the screen that a synchronous event is: the user's
    action, then the answer of the request it sends, if any. *)
Definition asyncOf (p : Page) (e : ExpiryPage.Event) : list Event :=
  match e with
  | ExpiryPage.SelectDays o =>
      if String.eqb (daysValue o) (ExpiryPage.expiryDays p) then [SelectDays o]
      else [SelectDays o; Answer 0 true]
  | ExpiryPage.Refresh => [Refresh; Answer 0 true]
  end.

End Screen.
End ExpiryScreen.

Section ExpiryScreenTheorems.
Import Views Sorting ExpiryPage ExpiryListC ExpiryScreen.
Context (localeCompare : string -> string -> Z) (tz now : Z) (store : list StockRecord).

(** What every state the screen reaches satisfies. *)
Definition ScreenInv (s : Screen) : Prop :=
  (List.length (inFlight s) <= 1)%nat /\ (loading s = true <-> inFlight s <> []) /\
  (loading s = true <-> listState s = None).

(** A render of the list keeps the medicines, in some order. *)
Lemma listView_perm ms d l : Permutation (fst (listView localeCompare ms d l)) ms.
Proof.
  unfold listView, getFilteredMedicines.
  destruct (String.eqb (searchTerm l) ""), (filterBy l); simpl; try reflexivity; apply sortBy_perm.
Qed.

(** A render changes nothing but the order of [medicines] and whether
    the list is mounted. *)
Lemma render_fields s :
  let s' := render localeCompare s in
  Permutation (medicines s') (medicines s) /\ loading s' = loading s /\
  expiryDays s' = expiryDays s /\ stats s' = stats s /\ inFlight s' = inFlight s /\
  listState s' = (if loading s then None
                  else Some (match listState s with Some l => l | None => initListState end)).
Proof.
  unfold render. destruct (loading s); simpl; repeat split; try reflexivity; apply listView_perm.
Qed.

Lemma render_inv s :
  (List.length (inFlight s) <= 1)%nat -> (loading s = true <-> inFlight s <> []) ->
  ScreenInv (render localeCompare s).
Proof.
  intros H1 H2. unfold ScreenInv. destruct (render_fields s) as (_ & -> & _ & _ & -> & ->).
  split; [exact H1|]. split; [exact H2|]. destruct (loading s); split; congruence.
Qed.

(** An idle screen has no request in flight. *)
Lemma idle_nil s : ScreenInv s -> loading s = false -> inFlight s = [].
Proof.
  intros (_ & [_ H] & _) Hl. rewrite Hl in H. destruct (inFlight s); [reflexivity|].
  exfalso. pose proof (H ltac:(discriminate)). discriminate.
Qed.

(** Answering the only request in flight leaves none. *)
Lemma removeNth_last {A} (l : list A) i d :
  nth_error l i = Some d -> (List.length l <= 1)%nat -> removeNth i l = [].
Proof.
  destruct l as [|x [|y l]], i as [|i]; simpl; intros H Hl; try discriminate; try lia;
    [reflexivity | destruct i; discriminate].
Qed.

(** A fetch started with no request in flight. *)
Lemma startFetch_inv s : inFlight s = [] -> ScreenInv (render localeCompare (startFetch s)).
Proof.
  intros Hi. apply render_inv; unfold startFetch; cbn [inFlight loading]; rewrite Hi; simpl;
    [lia | split; [intros _; discriminate | reflexivity]].
Qed.

Lemma step_ScreenInv s e s' :
  ScreenInv s -> step localeCompare tz now store s e = Some s' -> ScreenInv s'.
Proof.
  intros Hinv Hs. pose proof Hinv as (H1 & [H2a H2b] & [H3a H3b]).
  destruct e as [o| |i ok|le]; unfold step in Hs; destruct_ifs Hs; try discriminate;
    injection Hs as <-.
  - exact Hinv.
  - apply startFetch_inv.
    destruct (render_fields (mkScreen (medicines s) false (daysValue o) (stats s) (inFlight s) (listState s)))
      as (_ & _ & _ & _ & -> & _).
    exact (idle_nil s Hinv E).
  - apply startFetch_inv, (idle_nil s Hinv E).
  - rewrite (removeNth_last (inFlight s) i s0 E H1).
    apply render_inv; unfold answer; destruct ok; simpl;
      first [lia | split; [discriminate | intros Hn; exfalso; apply Hn; reflexivity]].
  - apply render_inv; simpl; [exact H1|]. rewrite (idle_nil s Hinv E). split; [discriminate|].
    intros Hn. exfalso. apply Hn. reflexivity.
Qed.

Lemma initScreen_inv : ScreenInv (initScreen localeCompare).
Proof. unfold ScreenInv; simpl. repeat split; try discriminate; auto. Qed.

(** C34.  The loading skeleton serialises the expiry page's fetches:
    in every state the screen reaches, at most one request is in
    flight, the skeleton shows exactly while one is, and [ExpiryList] is
    mounted exactly when it does not.  The window selector and the
    refresh button are only in the loaded page, so answers can never
    come back out of order. *)
Theorem fetches_serialized s : reachable localeCompare tz now store s -> ScreenInv s.
Proof.
  induction 1 as [|s e s' _ IH Hs]; [exact initScreen_inv | exact (step_ScreenInv s e s' IH Hs)].
Qed.

(** C35.  Refinement: the synchronous page of [ExpiryPage.v], whose
    fetch answers at once, is what the screen shows.  From an idle screen
    that shows a page, a user action followed by the answer of the
    request it sends leads to an idle screen that shows the page's next
    state: the same window, statistics and medicines (up to the order
    the list's in-place sort gives them). *)
Theorem screen_refines_page s p e :
  related s p ->
  exists s', run localeCompare tz now store s (asyncOf p e) = Some s' /\
             related s' (pageStep tz now store p e).
Proof.
  destruct s as [ms ld days st inf ls]. intros (Hl & Hi & Hd & Hst & Hp); simpl in *; subst ld inf days st.
  destruct e as [o|]; unfold asyncOf, pageStep.
  - destruct (String.eqb (daysValue o) (ExpiryPage.expiryDays p)) eqn:Eq.
    + exists (mkScreen ms false (ExpiryPage.expiryDays p) (ExpiryPage.stats p) [] ls).
      simpl. rewrite Eq. split; [reflexivity|]. repeat split; assumption.
    + eexists. cbn -[listView listExpiring expiryStats]. rewrite Eq. split; [reflexivity|].
      repeat split; apply listView_perm.
  - eexists. cbn -[listView listExpiring expiryStats]. split; [reflexivity|].
    repeat split; apply listView_perm.
Qed.

(** C36.  Choosing another window, or refreshing, discards the list's
    state: whatever the user had typed in its search box, chosen as
    status filter and clicked as sort column, once the request answers
    (successfully or not) the list is mounted afresh with an empty
    search, all items, and the days-left column ascending, because the
    skeleton unmounted it while the request was in flight. *)
Theorem refetch_resets_list s l o ok :
  loading s = false -> inFlight s = [] -> listState s = Some l -> daysValue o <> expiryDays s ->
  (exists s', run localeCompare tz now store s [SelectDays o; Answer 0 ok] = Some s' /\
              listState s' = Some initListState) /\
  (exists s', run localeCompare tz now store s [Refresh; Answer 0 ok] = Some s' /\
              listState s' = Some initListState).
Proof.
  destruct s as [ms ld days st inf ls]. simpl. intros -> -> -> Hne.
  apply String.eqb_neq in Hne. split; eexists; simpl; [rewrite Hne|]; split; try reflexivity;
    unfold answer; destruct ok; reflexivity.
Qed.

End ExpiryScreenTheorems.

Section ExpiryScreenWitnesses.
Import Views Sorting ExpiryPage ExpiryListC ExpiryScreen.
Local Open Scope string_scope.

(** Names compared as equal: the order of ties is the input order. *)
Definition flatCompare (_ _ : string) : Z := 0%Z.

Definition runFixture (es : list Event) : option Screen :=
  run flatCompare Fixture.ist Fixture.now_ist Fixture.records (initScreen flatCompare) es.

Definition afterFixture (es : list Event) : Screen :=
  match runFixture es with Some s => s | None => initScreen flatCompare end.

Lemma screen_run_reachable lc tz now store s es s' :
  reachable lc tz now store s -> run lc tz now store s es = Some s' -> reachable lc tz now store s'.
Proof.
  revert s; induction es as [|e es IH]; intros s Hr Hrun; simpl in Hrun.
  - injection Hrun as <-. exact Hr.
  - destruct (step lc tz now store s e) as [s1|] eqn:E; [|discriminate].
    apply (IH s1); [exact (reach_step lc tz now store s e s1 Hr E) | exact Hrun].
Qed.

Lemma afterFixture_reachable es :
  runFixture es <> None -> reachable flatCompare Fixture.ist Fixture.now_ist Fixture.records (afterFixture es).
Proof.
  unfold afterFixture. destruct (runFixture es) eqn:E; [|congruence]. intros _.
  exact (screen_run_reachable _ _ _ _ _ es s (reach_init _ _ _ _) E).
Qed.

(** The first answer, a sort by name, then the 90-day window chosen:
    its request is in flight. *)
Definition sortedThen90 : list Event := [Answer 0 true; ListEv (ClickHeader FName); SelectDays D90].

Lemma fetches_serialized_witness :
  reachable flatCompare Fixture.ist Fixture.now_ist Fixture.records (afterFixture sortedThen90) /\
  inFlight (afterFixture sortedThen90) = ["90"] /\ ScreenInv (afterFixture sortedThen90).
Proof.
  assert (Hr : reachable flatCompare Fixture.ist Fixture.now_ist Fixture.records (afterFixture sortedThen90))
    by (apply afterFixture_reachable; vm_compute; discriminate).
  split; [exact Hr|]. split; [vm_compute; reflexivity|].
  exact (fetches_serialized flatCompare Fixture.ist Fixture.now_ist Fixture.records _ Hr).
Defined.

(** The screen after its first answer shows the mounted page. *)
Lemma mounted_related :
  related (afterFixture [Answer 0 true]) (mountPage Fixture.ist Fixture.now_ist Fixture.records).
Proof.
  unfold afterFixture, runFixture, run, step, initScreen. cbn -[listView listExpiring expiryStats].
  repeat split; apply listView_perm.
Qed.

Lemma screen_refines_page_witness :
  exists s', run flatCompare Fixture.ist Fixture.now_ist Fixture.records (afterFixture [Answer 0 true])
               (asyncOf (mountPage Fixture.ist Fixture.now_ist Fixture.records) (ExpiryPage.SelectDays D15))
             = Some s' /\
  related s' (pageStep Fixture.ist Fixture.now_ist Fixture.records
                (mountPage Fixture.ist Fixture.now_ist Fixture.records) (ExpiryPage.SelectDays D15)).
Proof. apply screen_refines_page, mounted_related. Defined.

Lemma refetch_resets_list_witness :
  listState (afterFixture [Answer 0 true; ListEv (ClickHeader FName)]) =
    Some (mkListState "" (mkSortState FName Asc) FAll) /\
  ((exists s', run flatCompare Fixture.ist Fixture.now_ist Fixture.records
                 (afterFixture [Answer 0 true; ListEv (ClickHeader FName)]) [SelectDays D90; Answer 0 true]
               = Some s' /\ listState s' = Some initListState) /\
   (exists s', run flatCompare Fixture.ist Fixture.now_ist Fixture.records
                 (afterFixture [Answer 0 true; ListEv (ClickHeader FName)]) [Refresh; Answer 0 true]
               = Some s' /\ listState s' = Some initListState)).
Proof.
  split; [vm_compute; reflexivity|].
  apply (refetch_resets_list flatCompare Fixture.ist Fixture.now_ist Fixture.records _
           (mkListState "" (mkSortState FName Asc) FAll));
    first [vm_compute; reflexivity | vm_compute; discriminate].
Defined.

End ExpiryScreenWitnesses.
