(* ===== verification/SearchBox.v ===== *)
(** * SearchBox: the debounced medicine search

    [src/src/components/MedicineSearch.tsx] as a timed state machine.  The
    effect on [searchValue] arms a 300 ms timer and its cleanup clears the
    previous one ([setTimeout]/[clearTimeout]), so the list of suggestions
    follows the text only once the user pauses.  Time is explicit: the
    events carry the time at which they happen, and [Tick t] is the
    passing of time up to [t], at which a due timer fires.  React runs an
    effect only when its dependency changes ([Object.is]): typing the text
    already in the box arms nothing.  [searchView] is the dropdown the
    component renders from its state. *)

From Stdlib Require Import ZArith QArith Lia List Bool String Ascii.
From S2P Require Import Prelude JsNum Aggregator ScheduleH ListViews AddStock.
Import ListNotations.

Module SearchBox.
Import Form Search.
Local Open Scope string_scope.

(** [mockMedicines] of the component. *)
Definition mockMedicines : list SearchMedicine := Multi.searchMockMedicines.

(** [setTimeout]'s delay. *)
Definition debounceMs : Z := 300.

(** [s.trim() === ''] *)
Definition blank (s : string) : bool := forallb JsNum.isSpace (list_ascii_of_string s).

(** The timer's callback: the whole list for a blank text, else the
    medicines whose lowered name includes the lowered text (untrimmed). *)
Definition searchResults (v : string) : list SearchMedicine :=
  if blank v then mockMedicines
  else filter (fun m => includes (toLowerCase (sm_name m)) (toLowerCase v)) mockMedicines.

(** The component's state; [timer] is the armed timeout, its deadline
    and the text its callback closed over. *)
Record State := mkState {
  open : bool;
  searchValue : string;
  filteredMedicines : list SearchMedicine;
  propValue : string;
  timer : option (Z * string)
}.

(** The mount at time [t] with the [value] prop: both effects run. *)
Definition mount (t : Z) (value : string) : State :=
  mkState false value mockMedicines value (Some (t + debounceMs, value)).

Inductive Event :=
| InputChange (t : Z) (v : string)
| InputClick
| SelectItem (t : Z) (m : SearchMedicine)
| ValueProp (t : Z) (v : string)
| Tick (t : Z).

(** [setSearchValue(v)] at time [t] and the effect it triggers. *)
Definition setSearchValue (st : State) (t : Z) (v : string) : State :=
  if String.eqb v (searchValue st) then st
  else mkState (open st) v (filteredMedicines st) (propValue st) (Some (t + debounceMs, v)).

Definition setOpen (st : State) (b : bool) : State :=
  mkState b (searchValue st) (filteredMedicines st) (propValue st) (timer st).

(** One event; the [onSelect] callback's argument is the second
    component.  An item can be chosen only from the open list. *)
Definition step (st : State) (e : Event) : option (State * option SearchMedicine) :=
  match e with
  | InputChange t v =>
      let st' := setSearchValue st t v in
      Some (if blank v then st' else setOpen st' true, None)
  | InputClick => Some (setOpen st true, None)
  | SelectItem t m =>
      if open st && existsb (fun m' => String.eqb (sm_id m') (sm_id m)) (filteredMedicines st)
      then Some (setOpen (setSearchValue st t (sm_name m)) false, Some m)
      else None
  | ValueProp t v =>
      if String.eqb v (propValue st) then Some (st, None)
      else
        let st' := setSearchValue st t v in
        Some (mkState (open st') (searchValue st') (filteredMedicines st') v (timer st'), None)
  | Tick t =>
      match timer st with
      | Some (d, v) =>
          if (d <=? t)%Z
          then Some (mkState (open st) (searchValue st) (searchResults v) (propValue st) None, None)
          else Some (st, None)
      | None => Some (st, None)
      end
  end.

(** A suggestion as the open list shows it: name, price, stock, the
    Schedule H mark and the Low Stock mark ([medicine.stock < 10]). *)
Record Suggestion := mkSuggestion {
  sg_name : string;
  sg_price : Q;
  sg_stock : Z;
  sg_scheduleH : bool;
  sg_lowStock : bool
}.

Definition suggestionOf (m : SearchMedicine) : Suggestion :=
  mkSuggestion (sm_name m) (sm_price m) (sm_stock m)
    (match sm_schedule m with Some s => String.eqb s "H" | None => false end)
    (sm_stock m <? 10)%Z.

(** What the component renders below its input. *)
Inductive SearchView := ListClosed | NoMedicinesFound | SuggestionList (items : list Suggestion).

Definition searchView (st : State) : SearchView :=
  if open st then
    match filteredMedicines st with
    | [] => NoMedicinesFound
    | ms => SuggestionList (map suggestionOf ms)
    end
  else ListClosed.

Inductive reachable : State -> Prop :=
| reach_mount t value : reachable (mount t value)
| reach_step st e st' out : reachable st -> step st e = Some (st', out) -> reachable st'.

(** The list shows the suggestions for the text in the box. *)
Definition settled (st : State) : Prop := filteredMedicines st = searchResults (searchValue st).

(** [P] holds once enough time has passed, with no action of the user:
    the [eventually] of a step relation, here the ticks of the clock. *)
Inductive eventually (P : State -> Prop) : State -> Prop :=
| ev_now st : P st -> eventually P st
| ev_tick st t st' : step st (Tick t) = Some (st', None) -> eventually P st' -> eventually P st.

End SearchBox.

Section SearchBoxTheorems.
Import Form SearchBox.
Local Open Scope string_scope.

(** The armed timer always closes over the text in the box; with no
    timer armed the list is settled. *)
Definition timerInv (st : State) : Prop :=
  match timer st with
  | Some (_, v) => v = searchValue st
  | None => settled st
  end.

Lemma setSearchValue_inv st t v : timerInv st -> timerInv (setSearchValue st t v).
Proof.
  unfold setSearchValue. destruct (String.eqb v (searchValue st)); [auto | reflexivity].
Qed.

Lemma step_timerInv st e st' out : timerInv st -> step st e = Some (st', out) -> timerInv st'.
Proof.
  intros H Hs. destruct e; simpl in Hs.
  - injection Hs as <- _. destruct (blank v); apply setSearchValue_inv, H.
  - injection Hs as <- _. exact H.
  - destruct (_ && _); [|discriminate]. injection Hs as <- _. apply setSearchValue_inv, H.
  - destruct (String.eqb v (propValue st)); injection Hs as <- _; [exact H|].
    pose proof (setSearchValue_inv st t v H) as H'. exact H'.
  - unfold timerInv in *. destruct (timer st) as [[d w]|] eqn:E.
    + destruct (d <=? t)%Z; injection Hs as <- _; simpl; [unfold settled; simpl; subst w; reflexivity|].
      rewrite E. exact H.
    + injection Hs as <- _. rewrite E. exact H.
Qed.

Lemma reachable_timerInv st : reachable st -> timerInv st.
Proof.
  induction 1 as [t value|st e st' out _ IH Hs]; [reflexivity | exact (step_timerInv _ _ _ _ IH Hs)].
Qed.

(** C38.  The suggestions always catch up with the text: from
    every state of the component, the passing of time alone (a tick at
    the armed timer's deadline) leads to a state whose list is the
    search result of the text in the box. *)
Theorem search_eventually_settles st : reachable st -> eventually settled st.
Proof.
  intros Hr. pose proof (reachable_timerInv st Hr) as H. unfold timerInv in H.
  destruct (timer st) as [[d v]|] eqn:E; [|apply ev_now, H].
  eapply (ev_tick _ st d); [simpl; rewrite E, Z.leb_refl; reflexivity|].
  apply ev_now. unfold settled; simpl. subst v. reflexivity.
Qed.

(**  Typing, clicking, choosing an item or a new [value]
    prop never changes the list at once: only a tick at or after the
    armed timer's deadline does. *)
Theorem list_changes_only_when_due st e st' out :
  step st e = Some (st', out) -> filteredMedicines st' <> filteredMedicines st ->
  exists t d v, e = Tick t /\ timer st = Some (d, v) /\ (d <= t)%Z.
Proof.
  intros Hs Hne. destruct e; simpl in Hs.
  - injection Hs as <- _. exfalso. apply Hne. unfold setSearchValue.
    destruct (blank v), (String.eqb v (searchValue st)); reflexivity.
  - injection Hs as <- _. contradiction.
  - destruct (_ && _); [|discriminate]. injection Hs as <- _. exfalso. apply Hne.
    unfold setSearchValue. destruct (String.eqb _ _); reflexivity.
  - exfalso. apply Hne. destruct (String.eqb v (propValue st)); injection Hs as <- _;
      [reflexivity|]. unfold setSearchValue. simpl. destruct (String.eqb v (searchValue st)); reflexivity.
  - destruct (timer st) as [[d v]|] eqn:E.
    + destruct (d <=? t)%Z eqn:Ed; injection Hs as <- _; [|contradiction].
      exists t, d, v. repeat split. apply Z.leb_le, Ed.
    + injection Hs as <- _. contradiction.
Qed.

(** Every suggestion the open list shows can be clicked, and the click
    hands that medicine to [onSelect]. *)
Lemma shown_suggestion_selectable st t m :
  open st = true -> In m (filteredMedicines st) ->
  In (suggestionOf m) (match searchView st with SuggestionList items => items | _ => [] end) /\
  exists st', step st (SelectItem t m) = Some (st', Some m) /\ open st' = false.
Proof.
  intros Ho Hm. split.
  - unfold searchView. rewrite Ho. destruct (filteredMedicines st) as [|x l]; [destruct Hm|].
    apply in_map. exact Hm.
  - simpl. rewrite Ho. simpl.
    assert (E : existsb (fun m' => String.eqb (sm_id m') (sm_id m)) (filteredMedicines st) = true).
    { apply existsb_exists. exists m. split; [exact Hm | apply String.eqb_refl]. }
    rewrite E. eexists. split; reflexivity.
Qed.

End SearchBoxTheorems.

Section SearchBoxWitnesses.
Import Form SearchBox.
Local Open Scope string_scope.

(** Typing [amox] 100 ms after the mount. *)
Lemma typed_amox_reachable :
  reachable (fst (match step (mount 0 "") (InputChange 100 "amox") with
                  | Some p => p | None => (mount 0 "", None) end)).
Proof.
  apply (reach_step (mount 0 "") (InputChange 100 "amox") _ None); [apply reach_mount | reflexivity].
Defined.

Lemma search_eventually_settles_witness :
  filteredMedicines (fst (match step (mount 0 "") (InputChange 100 "amox") with
                          | Some p => p | None => (mount 0 "", None) end)) <> searchResults "amox" /\
  eventually settled (fst (match step (mount 0 "") (InputChange 100 "amox") with
                           | Some p => p | None => (mount 0 "", None) end)).
Proof.
  split; [vm_compute; discriminate|].
  apply search_eventually_settles, typed_amox_reachable.
Defined.

Lemma list_changes_only_when_due_witness :
  step (mkState true "amox" mockMedicines "" (Some (400, "amox"))) (Tick 450) =
    Some (mkState true "amox" (searchResults "amox") "" None, None) /\
  exists t d v, Tick 450 = Tick t /\ Some (400, "amox") = Some (d, v) /\ (d <= t)%Z.
Proof.
  split; [reflexivity|].
  apply (list_changes_only_when_due (mkState true "amox" mockMedicines "" (Some (400, "amox")))
           (Tick 450) (mkState true "amox" (searchResults "amox") "" None) None);
    [reflexivity | vm_compute; discriminate].
Defined.

(**  The blank test trims the text but the filter does not: a
    leading space opens the list and, once the timer fires, shows no
    medicine at all, where the same text without it finds Paracetamol. *)
Example search_leading_space :
  let typed := match step (mount 0 "") (InputChange 100 " para") with
               | Some (st, _) => st | None => mount 0 "" end in
  match step typed (Tick 400) with
  | Some (st, _) => open st = true /\ filteredMedicines st = []
  | None => False
  end /\
  map sm_name (searchResults "para") = ["Paracetamol 500mg"].
Proof. split; vm_compute; [split|]; reflexivity. Qed.

End SearchBoxWitnesses.
