(* ===== verification/Site.v ===== *)
(** * Site: navigation, the dashboard and what the router can show

    [src/src/components/Navigation.tsx] (its links, the active-link test
    and the mobile sheet's [isOpen]), [src/src/app/layout.tsx] (every page
    is rendered inside it, under [Navigation]), the dashboard
    [src/src/app/page.tsx] (its constant statistics and quick links), and
    the custom components each page and component renders.  The pages the
    app router serves are the [page.tsx] files under [src/src/app/]. *)

From Stdlib Require Import List Bool String.
From S2P Require Import Prelude.
Import ListNotations.

Module Site.
Local Open Scope string_scope.

Record NavItem := mkNavItem { href : string; label : string }.

(** [navigationItems] *)
Definition navigationItems : list NavItem :=
  [mkNavItem "/" "Dashboard"; mkNavItem "/transactions" "Transactions";
   mkNavItem "/inventory" "Inventory"; mkNavItem "/expiry" "Expiry Tracking";
   mkNavItem "/accounting" "CA Portal"].

(** The routes the app router serves: one per [page.tsx] under
    [src/src/app/] ([page.tsx], [inventory/page.tsx], [expiry/page.tsx],
    [accounting/page.tsx]); [api/] holds only a route handler. *)
Definition appPages : list string := ["/"; "/inventory"; "/expiry"; "/accounting"].

(** [pathname === item.href]: the highlighted link. *)
Definition isActive (pathname : string) (item : NavItem) : bool := String.eqb pathname (href item).

(** The navigation's state: the current path and the mobile sheet. *)
Record Nav := mkNav { pathname : string; isOpen : bool }.

Inductive NavEvent := SheetOpenChange (b : bool) | ClickLink (item : NavItem) | ClickBrand.

(** [onOpenChange={setIsOpen}], a link's [onClick] closing the sheet
    while the router follows [href], and the brand link to [/]. *)
Definition navStep (n : Nav) (e : NavEvent) : Nav :=
  match e with
  | SheetOpenChange b => mkNav (pathname n) b
  | ClickLink item => mkNav (href item) false
  | ClickBrand => mkNav "/" (isOpen n)
  end.

(** The dashboard's [stats] constant. *)
Record DashboardStats := mkDashboardStats {
  todayTransactions : nat;
  lowStockAlerts : nat;
  expiringMedicines : nat;
  totalInventory : nat
}.

Definition dashboardStats : DashboardStats := mkDashboardStats 24 8 12 450.

(** The quick actions' links: Start Sale, View Inventory, Check Expiry. *)
Definition quickLinks : list string := ["/transactions"; "/inventory"; "/expiry"].

(** The custom components each page or component renders in its JSX
    (the library components of [components/ui] apart), one table per
    source file. *)

(** [RootLayout] (layout.tsx): [<Navigation />] above [{children}], the
    page of the route. *)
Definition layoutRenders : list string := ["Navigation"].

(** [Dashboard] (app/page.tsx): cards, buttons and links only. *)
Definition dashboardRenders : list string := [].

(** [InventoryPage] (app/inventory/page.tsx): an [InventoryTable] in
    each of the four tabs, and [AddStockModal]. *)
Definition inventoryPageRenders : list string :=
  ["InventoryTable"; "InventoryTable"; "InventoryTable"; "InventoryTable"; "AddStockModal"].

(** [ExpiryPage] (app/expiry/page.tsx): [ExpiryList]. *)
Definition expiryPageRenders : list string := ["ExpiryList"].

(** [AccountingPage] (app/accounting/page.tsx): an [AccountingTable],
    the function of the same file, in each of the three tabs. *)
Definition accountingPageRenders : list string :=
  ["AccountingTable"; "AccountingTable"; "AccountingTable"].

(** [TransactionForm]: [MedicineSearch] in the medicine field and
    [ScheduleHModal]. *)
Definition transactionFormRenders : list string := ["MedicineSearch"; "ScheduleHModal"].

(** [MultiMedicineTransactionForm]: [MedicineSearch] in each line and
    [ScheduleHModal]. *)
Definition multiFormRenders : list string := ["MedicineSearch"; "ScheduleHModal"].

(** The table of a page (by its route) or component (by its name); the
    other components ([Navigation], [InventoryTable], [AddStockModal],
    [ExpiryList], [AccountingTable], [MedicineSearch], [ScheduleHModal])
    render none. *)
Definition renders (c : string) : list string :=
  if String.eqb c "RootLayout" then layoutRenders
  else if String.eqb c "/" then dashboardRenders
  else if String.eqb c "/inventory" then inventoryPageRenders
  else if String.eqb c "/expiry" then expiryPageRenders
  else if String.eqb c "/accounting" then accountingPageRenders
  else if String.eqb c "TransactionForm" then transactionFormRenders
  else if String.eqb c "MultiMedicineTransactionForm" then multiFormRenders
  else [].

(** The components rendered on a route: the layout's and the page's,
    closed under [renders]; [fuel] bounds the depth of the tree. *)
Fixpoint renderedFrom (fuel : nat) (cs : list string) : list string :=
  match fuel with
  | O => cs
  | S f => cs ++ renderedFrom f (flat_map renders cs)
  end.

(** The components on a route: below the layout and the page the tree
    is two levels deep, so four rounds are more than enough
    ([render_tree_fuel_enough]). *)
Definition renderedOn (route : string) : list string := renderedFrom 4 ["RootLayout"; route].

End Site.

Section SiteTheorems.
Import Site.
Local Open Scope string_scope.

(** The components that appear as children, and that they are leaves. *)
Lemma renders_children c :
  incl (renders c) ["Navigation"; "InventoryTable"; "AddStockModal"; "ExpiryList";
                    "AccountingTable"; "MedicineSearch"; "ScheduleHModal"].
Proof.
  unfold renders, layoutRenders, dashboardRenders, inventoryPageRenders, expiryPageRenders,
    accountingPageRenders, transactionFormRenders, multiFormRenders.
  repeat match goal with |- context [String.eqb ?a ?b] => destruct (String.eqb a b) end;
    intros x Hx; simpl in *; tauto.
Qed.

Lemma children_are_leaves c :
  In c ["Navigation"; "InventoryTable"; "AddStockModal"; "ExpiryList";
        "AccountingTable"; "MedicineSearch"; "ScheduleHModal"] -> renders c = [].
Proof. simpl. intros H. repeat destruct H as [<-|H]; [..|contradiction]; reflexivity. Qed.

Lemma renderedFrom_nil n : renderedFrom n [] = [].
Proof. induction n; simpl; [reflexivity | exact IHn]. Qed.

Lemma flat_map_leaves l :
  incl l ["Navigation"; "InventoryTable"; "AddStockModal"; "ExpiryList";
          "AccountingTable"; "MedicineSearch"; "ScheduleHModal"] -> flat_map renders l = [].
Proof.
  induction l as [|c l IH]; intros H; simpl; [reflexivity|].
  rewrite children_are_leaves by (apply H; left; reflexivity).
  apply IH. intros x Hx. apply H. right. exact Hx.
Qed.

Lemma grandchildren_none roots : flat_map renders (flat_map renders roots) = [].
Proof.
  apply flat_map_leaves. intros x Hx. apply in_flat_map in Hx as [c [_ Hc]].
  exact (renders_children c x Hc).
Qed.

(** The closure over the component tree needs no more than the fuel
    [renderedOn] gives it: for every route, any number of
    further rounds adds nothing (the tree below the layout and a page is
    two levels deep). *)
Theorem render_tree_fuel_enough route k :
  renderedFrom (4 + k) ["RootLayout"; route] = renderedOn route.
Proof.
  unfold renderedOn. simpl renderedFrom.
  rewrite grandchildren_none, !renderedFrom_nil. reflexivity.
Qed.

(** The Transactions link of the navigation and the
    dashboard's Start Sale lead to [/transactions], which has no page; and
    no page the router serves renders the transaction forms, the
    Schedule-H prescription dialog or the medicine search: the sale and
    purchase flows cannot be reached in the application. *)
Theorem transaction_forms_unreachable :
  filter (fun h => negb (existsb (String.eqb h) appPages)) (map href navigationItems ++ quickLinks) =
    ["/transactions"; "/transactions"] /\
  forall r c, In r appPages ->
    In c ["TransactionForm"; "MultiMedicineTransactionForm"; "ScheduleHModal"; "MedicineSearch"] ->
    ~ In c (renderedOn r).
Proof.
  split; [reflexivity|]. intros r c Hr Hc.
  repeat destruct Hr as [<-|Hr]; [..|contradiction];
    repeat destruct Hc as [<-|Hc]; try contradiction; vm_compute; intuition discriminate.
Qed.

End SiteTheorems.
