(* ===== verification/SiteView.v ===== *)
(** * SiteView: what the navigation bar and the dashboard show

    The render of [src/src/components/Navigation.tsx] from its state
    ([Site.Nav]) and the [useIsMobile] flag: the brand link, and the
    links ([NavLinks]) either in a row or inside the mobile sheet, whose
    content is rendered only while it is open; each link's label and
    whether it carries the highlighted classes ([pathname === item.href]).
    And the dashboard page [src/src/app/page.tsx], which is constant: its
    four statistics cards, the three quick actions with their links, and
    the recent-activity entries.

    The theorems: at most one link is highlighted, exactly one on a
    route of the bar, none on a route outside it; and the dashboard's
    quick actions point only to routes of the navigation bar. *)

From Stdlib Require Import List Bool String.
From S2P Require Import Prelude Format Site.
Import ListNotations.

Module SiteView.
Import Site.
Local Open Scope string_scope.

(** A rendered link: [href], label, highlighted. *)
Record LinkView := mkLinkView { lvHref : string; lvLabel : string; lvActive : bool }.

(** [<NavLinks />] *)
Definition navLinks (pathname : string) : list LinkView :=
  map (fun item => mkLinkView (href item) (label item) (isActive pathname item)) navigationItems.

(** The right-hand side of the bar: the [Menu] trigger with the sheet's
    links (none while it is closed), or the links in a row. *)
Inductive NavBody :=
| MobileSheet (open : bool) (links : list LinkView)
| InlineLinks (links : list LinkView).

(** [<nav>]: the brand link to [/] and the body. *)
Record NavView := mkNavView { brandHref : string; body : NavBody }.

Definition navView (isMobile : bool) (n : Nav) : NavView :=
  mkNavView "/"
    (if isMobile then MobileSheet (isOpen n) (if isOpen n then navLinks (pathname n) else [])
     else InlineLinks (navLinks (pathname n))).

(** A statistics card: title, value, caption. *)
Record StatCard := mkStatCard { scTitle : string; scValue : string; scCaption : string }.

(** A quick action: title, description, link and button text. *)
Record QuickAction := mkQuickAction { qaTitle : string; qaDescription : string; qaHref : string; qaButton : string }.

(** A recent-activity entry: what, detail, when. *)
Record Activity := mkActivity { acWhat : string; acDetail : string; acWhen : string }.

Record DashboardView := mkDashboardView {
  statCards : list StatCard;
  quickActions : list QuickAction;
  recentActivity : list Activity
}.

(** [Dashboard()]; the amounts of the activity entries are literal text
    in the source (the rupee sign, then [24] and [1,200]). *)
Definition dashboardView : DashboardView :=
  mkDashboardView
    [mkStatCard "Today's Transactions" (Format.natText (todayTransactions dashboardStats)) "Sales and purchases";
     mkStatCard "Low Stock Alerts" (Format.natText (lowStockAlerts dashboardStats)) "Items need restocking";
     mkStatCard "Expiring Soon" (Format.natText (expiringMedicines dashboardStats)) "Within 30 days";
     mkStatCard "Total Inventory" (Format.natText (totalInventory dashboardStats)) "Medicine types"]
    [mkQuickAction "Quick Sale" "Process a medicine sale transaction quickly" (nth 0 quickLinks "") "Start Sale";
     mkQuickAction "Inventory Check" "View current stock levels and manage inventory" (nth 1 quickLinks "")
       "View Inventory";
     mkQuickAction "Expiry Management" "Check medicines nearing expiry and export reports" (nth 2 quickLinks "")
       "Check Expiry"]
    [mkActivity "Paracetamol 500mg - Sale" ("Qty: 2, Amount: " ++ Format.rupee ++ "24") "2 min ago";
     mkActivity "Amoxicillin 250mg - Purchase" ("Qty: 100, Amount: " ++ Format.rupee ++ "1,200") "1 hour ago";
     mkActivity "Low Stock Alert" "Crocin tablets below 10 units" "3 hours ago"].

End SiteView.

Section SiteViewTheorems.
Import Site SiteView.
Local Open Scope string_scope.

(** C39. The bar highlights the link of the current route and no other: one
    link on a route of the bar, none elsewhere. *)
Theorem nav_highlight pathname :
  count_if lvActive (navLinks pathname) =
  if existsb (fun item => String.eqb pathname (href item)) navigationItems then 1%nat else 0%nat.
Proof.
  unfold count_if, navLinks, isActive. simpl.
  repeat match goal with |- context [String.eqb pathname ?h] =>
           destruct (String.eqb_spec pathname h) as [->|] end; reflexivity.
Qed.

(** Every quick action of the dashboard points to a route of the
    navigation bar. *)
Theorem quick_actions_in_nav :
  forall qa, In qa (quickActions dashboardView) ->
  exists item, In item navigationItems /\ href item = qaHref qa.
Proof.
  simpl. intros qa [<-|[<-|[<-|[]]]]; simpl;
    [exists (nth 1 navigationItems (mkNavItem "" "")) | exists (nth 2 navigationItems (mkNavItem "" ""))
    | exists (nth 3 navigationItems (mkNavItem "" ""))]; simpl; auto 6.
Qed.

End SiteViewTheorems.
